(** * EviLinEd: a shallow embedding of EVILINED.C

    The editor keeps its document in the global array [lines] (MAX_LINES
    slots of owned C strings) together with [line_count]; a line-numbered
    REPL and a fullscreen editor both work on that store.  This file
    embeds the store, the range resolver, the substitution engine, the
    file adapter, the REPL commands and the fullscreen key handlers, and
    proves the properties the specification states about them.

    Modelling conventions.
    - [int] and [size_t] values are integers of [Z], an [int] having 32
      bits.  Where a value the user types can take an [int] to its end
      (the result of [atoi], the counter of a loop up to a bound read
      from the command line) the function returns [None], as C leaves
      the overflow undefined; the other [int]s stay within
      [MAX_LINES] and [LINE_LEN] and cannot overflow.
    - A C string is the list of its characters before the terminating NUL.
    - A slot of [lines] is [None] for a NULL pointer and [Some s] for a
      buffer holding [s]; buffers are modelled by value.  Two slots
      sharing one buffer, which the code leaves behind only when an
      allocation fails after [make_room] has copied the pointers, are
      not followed; the statements that depend on it assume that the
      allocations succeed.
    - Reading or writing [lines] outside [0, MAX_LINES), or taking the
      length of a NULL line, is undefined in C: a function whose source
      does not guard such an access returns [None] there.
    - [malloc] is an oracle: the field [mem] lists the outcomes of the
      coming allocations, and allocation succeeds once it is exhausted.
    - Text streams are modelled at the level of the characters the C
      program reads and writes; the translation a DOS text stream applies
      between the program and the disk is not modelled.
    - The field [keyboard] lists the keys that are pressed.  [getch]
      waits when no key is left; the key loop of the model stops there,
      so that a result of [cmd_fullscreen] tells what the keys given have
      done, not that the editor has been left. *)

From Stdlib Require Import ZArith Ascii String List DecimalString Lia.
From stdpp Require Import base list option.

Open Scope Z_scope.

(** ** Constants (EVILINED.C, lines 43-47) *)

Definition MAX_LINES : Z := 1200.
Definition LINE_LEN : Z := 256.
Definition INPUT_LEN : Z := 512.
Definition SCREEN_ROWS : Z := 24.
Definition SCREEN_COLS : Z := 80.

(** The largest value of an [int] (limits.h), for an [int] of 32 bits. *)
Definition INT_MAX : Z := 2147483647.

(** ** Characters and C strings *)

Abbreviation cstr := (list ascii).

Definition lit (s : string) : cstr := list_ascii_of_string s.

Definition NUL : ascii := "000"%char.
Definition LF : ascii := "010"%char.
Definition CR : ascii := "013"%char.

Definition code (c : ascii) : Z := Z.of_N (N_of_ascii c).

Definition isspace (c : ascii) : bool :=
  ((9 <=? code c) && (code c <=? 13)) || (code c =? 32).

Definition isdigit (c : ascii) : bool :=
  (48 <=? code c) && (code c <=? 57).

Definition tolower (c : ascii) : ascii :=
  if (65 <=? code c) && (code c <=? 90)
  then ascii_of_N (Z.to_N (code c + 32)) else c.

Definition toupper (c : ascii) : ascii :=
  if (97 <=? code c) && (code c <=? 122)
  then ascii_of_N (Z.to_N (code c - 32)) else c.

Definition strlen (s : cstr) : Z := Z.of_nat (length s).

(** The C string held by a character buffer: what precedes the first NUL. *)
Fixpoint c_str (buf : list ascii) : cstr :=
  match buf with
  | [] => []
  | c :: rest => if Ascii.eqb c NUL then [] else c :: c_str rest
  end.

(** [strcmp(a, b) == 0] *)
Fixpoint streq (a b : cstr) : bool :=
  match a, b with
  | [], [] => true
  | x :: a', y :: b' => Ascii.eqb x y && streq a' b'
  | _, _ => false
  end.

(** Is the last character of [s] one of [cs]?  ([n && s[n - 1] == ...]) *)
Definition ends_in (cs : list ascii) (s : cstr) : bool :=
  match s !! (length s - 1)%nat with
  | Some c => existsb (Ascii.eqb c) cs
  | None => false
  end.

(** [chomp] (lines 110-123): drop one trailing LF or CR, then one more CR. *)
Definition chomp (s : cstr) : cstr :=
  let s1 := if ends_in [LF; CR] s then take (length s - 1)%nat s else s in
  if ends_in [CR] s1 then take (length s1 - 1)%nat s1 else s1.

(** Does [s] start with [p]? *)
Fixpoint starts_with (p s : cstr) : bool :=
  match p, s with
  | [], _ => true
  | x :: p', y :: s' => Ascii.eqb x y && starts_with p' s'
  | _ :: _, [] => false
  end.

(** [strstr(s, needle)]: offset of the first occurrence, [None] for NULL. *)
Fixpoint strstr (s needle : cstr) : option nat :=
  if starts_with needle s then Some 0%nat
  else match s with
       | [] => None
       | _ :: s' => S <$> strstr s' needle
       end.

(** [strcasestr_pos] (lines 127-158): offset of the first match that
    ignores case, [-1] when there is none, [0] for an empty needle. *)
Fixpoint casestr_from (i : Z) (hay needle : cstr) : Z :=
  if starts_with (map tolower needle) (map tolower hay) then i
  else match hay with
       | [] => -1
       | _ :: hay' => casestr_from (i + 1) hay' needle
       end.

Definition strcasestr_pos (hay needle : cstr) : Z :=
  match needle with
  | [] => 0
  | _ => casestr_from 0 hay needle
  end.

(** [atoi]: optional white space, optional sign, decimal digits; [None]
    when the value does not fit an [int], which C leaves undefined. *)
Fixpoint skip_space (s : cstr) : cstr :=
  match s with
  | c :: s' => if isspace c then skip_space s' else s
  | [] => []
  end.

Fixpoint skip_digits (s : cstr) : cstr :=
  match s with
  | c :: s' => if isdigit c then skip_digits s' else s
  | [] => []
  end.

Fixpoint digits_value (acc : Z) (s : cstr) : Z :=
  match s with
  | c :: s' => if isdigit c then digits_value (10 * acc + (code c - 48)) s' else acc
  | [] => acc
  end.

Definition atoi (s : cstr) : option Z :=
  let v := match skip_space s with
           | c :: s' =>
               if Ascii.eqb c "-" then - digits_value 0 s'
               else if Ascii.eqb c "+" then digits_value 0 s'
               else digits_value 0 (c :: s')
           | [] => 0
           end in
  if (- INT_MAX - 1 <=? v) && (v <=? INT_MAX) then Some v else None.

(** [printf] conversions [%d] and [%05d]. *)
Definition fmt_d (z : Z) : cstr := lit (NilZero.string_of_int (Z.to_int z)).

Definition fmt_05d (z : Z) : cstr :=
  let body := lit (NilZero.string_of_uint (N.to_uint (Z.to_N (Z.abs z)))) in
  let sign := if z <? 0 then lit "-" else [] in
  sign ++ replicate (5 - length sign - length body)%nat "0"%char ++ body.

(** ** The global state (lines 49-56) *)

Record editor := Editor {
  lines : list (option cstr);
  line_count : Z;
  current_file : cstr;
  last_a : Z;
  last_b : Z;
  cursor_row : Z;
  cursor_col : Z;
  top_line : Z
}.

Definition with_lines (l : list (option cstr)) (e : editor) : editor :=
  Editor l (line_count e) (current_file e) (last_a e) (last_b e)
         (cursor_row e) (cursor_col e) (top_line e).

Definition with_line_count (n : Z) (e : editor) : editor :=
  Editor (lines e) n (current_file e) (last_a e) (last_b e)
         (cursor_row e) (cursor_col e) (top_line e).

Definition with_current_file (f : cstr) (e : editor) : editor :=
  Editor (lines e) (line_count e) f (last_a e) (last_b e)
         (cursor_row e) (cursor_col e) (top_line e).

Definition with_last (a b : Z) (e : editor) : editor :=
  Editor (lines e) (line_count e) (current_file e) a b
         (cursor_row e) (cursor_col e) (top_line e).

Definition with_cursor (row col : Z) (e : editor) : editor :=
  Editor (lines e) (line_count e) (current_file e) (last_a e) (last_b e)
         row col (top_line e).

Definition with_top_line (t : Z) (e : editor) : editor :=
  Editor (lines e) (line_count e) (current_file e) (last_a e) (last_b e)
         (cursor_row e) (cursor_col e) t.

(** The state at program start: every slot NULL, [last_a = 1], [last_b = 0]. *)
Definition initial : editor :=
  Editor (replicate (Z.to_nat MAX_LINES) None) 0 [] 1 0 0 0 0.

(** Array accesses [lines[i]]: [None] outside the array. *)
Definition aget (l : list (option cstr)) (i : Z) : option (option cstr) :=
  if i <? 0 then None else l !! Z.to_nat i.

Definition aset (l : list (option cstr)) (i : Z) (v : option cstr)
  : option (list (option cstr)) :=
  if (0 <=? i) && (i <? Z.of_nat (length l))
  then Some (<[Z.to_nat i := v]> l) else None.

(** The visible document: slots [0, line_count). *)
Definition document (e : editor) : list (option cstr) :=
  take (Z.to_nat (line_count e)) (lines e).

(** The store is well formed: the array has MAX_LINES slots and
    [line_count] lies within it. *)
Definition store_wf (e : editor) : Prop :=
  Z.of_nat (length (lines e)) = MAX_LINES /\ 0 <= line_count e <= MAX_LINES.

(** Every slot of the document holds a buffer. *)
Definition no_null (e : editor) : Prop :=
  forall i, 0 <= i < line_count e -> exists s, aget (lines e) i = Some (Some s).

(** ** The allocator *)

Definition heap := list bool.

Definition malloc (h : heap) : bool * heap :=
  match h with
  | [] => (true, [])
  | ok :: h' => (ok, h')
  end.

(** [xstrdup] (lines 180-193): the copy, or NULL when [malloc] fails. *)
Definition xstrdup (h : heap) (s : cstr) : option cstr * heap :=
  let '(ok, h') := malloc h in
  ((if ok then Some s else None), h').

(** ** Range resolver *)

(** [to_range_defaults] (lines 160-178). *)
Definition to_range_defaults (e : editor) (a b : Z) : Z * Z :=
  let a := if a <? 1 then 1 else a in
  let b := if (b <? 1) || (b >? line_count e) then line_count e else b in
  if (a >? b) && (line_count e >? 0) then (b, a) else (a, b).

(** ** Line store primitives *)

(** [free_line] (lines 195-202); the guard [idx < line_count] keeps the
    access inside the array on a well-formed store. *)
Definition free_line (e : editor) (idx : Z) : editor :=
  if (0 <=? idx) && (idx <? line_count e)
  then match aget (lines e) idx with
       | Some (Some _) => with_lines (<[Z.to_nat idx := None]> (lines e)) e
       | _ => e
       end
  else e.

(** The loop of [make_room]: [n] iterations of
    [lines[i + count] = lines[i]], [i] counting down. *)
Fixpoint shift_up (n : nat) (i count : Z) (l : list (option cstr))
  : option (list (option cstr)) :=
  match n with
  | O => Some l
  | S n' => v ← aget l i; l' ← aset l (i + count) v; shift_up n' (i - 1) count l'
  end.

(** [make_room] (lines 206-228); the result is the returned flag and the
    new state. *)
Definition make_room (e : editor) (pos count : Z) : option (bool * editor) :=
  if count <=? 0 then Some (true, e)
  else if line_count e + count >? MAX_LINES then Some (false, e)
  else
    l ← shift_up (Z.to_nat (line_count e - pos)) (line_count e - 1) count (lines e);
    Some (true, with_line_count (line_count e + count) (with_lines l e)).

(** The loop of [close_gap]: [n] iterations of
    [lines[i] = lines[i + count]], [i] counting up. *)
Fixpoint shift_down (n : nat) (i count : Z) (l : list (option cstr))
  : option (list (option cstr)) :=
  match n with
  | O => Some l
  | S n' => v ← aget l (i + count); l' ← aset l i v; shift_down n' (i + 1) count l'
  end.

(** [close_gap] (lines 230-240). *)
Definition close_gap (e : editor) (start count : Z) : option editor :=
  l ← shift_down (Z.to_nat (line_count e - count - start)) start count (lines e);
  Some (with_line_count (line_count e - count) (with_lines l e)).

(** ** Substitution engine *)

(** One pass of the loop of [replace_in_line] (lines 257-302), [limit]
    being the remaining iteration budget. *)
Fixpoint replace_loop (limit : nat) (h : heap) (s oldp newp : cstr)
         (global : bool) (made : Z) : Z * cstr * heap :=
  match limit with
  | O => (made, s, h)
  | S limit' =>
      match strstr s oldp with
      | None => (made, s, h)
      | Some found =>
          let so := strlen oldp in
          let sn := strlen newp in
          let prefix := Z.of_nat found in
          let suffix := strlen (drop (found + length oldp) s) in
          if prefix + sn + suffix + 1 >=? LINE_LEN then (made, s, h)
          else
            let '(ok, h') := malloc h in
            if negb ok then (made, s, h')
            else
              let buf := take found s ++ newp ++ drop (found + length oldp) s in
              if negb global then (made + 1, buf, h')
              else replace_loop limit' h' buf oldp newp global (made + 1)
      end
  end.

(** [replace_in_line] (lines 244-305): the count, the line and the heap. *)
Definition replace_in_line (h : heap) (s oldp newp : cstr) (global : bool)
  : Z * cstr * heap :=
  if strlen oldp =? 0 then (0, s, h)
  else replace_loop 1024 h s oldp newp global 0.

(** ** The environment *)

Record world := World {
  mem : heap;                          (* outcomes of the coming mallocs *)
  stdin : list ascii;                  (* characters not yet read *)
  stdout : list ascii;                 (* characters printed so far *)
  disk : list (cstr * list ascii);     (* files by name *)
  readonly : list cstr;                (* names fopen cannot open for writing *)
  keyboard : list Z                    (* key codes getch will return *)
}.

Definition with_mem (h : heap) (w : world) : world :=
  World h (stdin w) (stdout w) (disk w) (readonly w) (keyboard w).

Definition with_stdin (i : list ascii) (w : world) : world :=
  World (mem w) i (stdout w) (disk w) (readonly w) (keyboard w).

Definition with_stdout (o : list ascii) (w : world) : world :=
  World (mem w) (stdin w) o (disk w) (readonly w) (keyboard w).

Definition with_disk (d : list (cstr * list ascii)) (w : world) : world :=
  World (mem w) (stdin w) (stdout w) d (readonly w) (keyboard w).

Definition with_keyboard (k : list Z) (w : world) : world :=
  World (mem w) (stdin w) (stdout w) (disk w) (readonly w) k.

(** [printf] of an already formatted text, and [puts]. *)
Definition print (s : cstr) (w : world) : world := with_stdout (stdout w ++ s) w.

Definition puts (s : cstr) (w : world) : world := print (s ++ [LF]) w.

(** [fgets(buf, size, f)] reads at most [size - 1] characters and stops
    after a line feed; [fgets_chars] returns what was read and what is
    left on the stream. *)
Fixpoint fgets_chars (n : nat) (input : list ascii) : list ascii * list ascii :=
  match n, input with
  | S n', c :: rest =>
      if Ascii.eqb c LF then ([c], rest)
      else let '(l, r) := fgets_chars n' rest in (c :: l, r)
  | _, _ => ([], input)
  end.

(** The C string left in the buffer and the rest of the stream; [None]
    is the NULL of end of file. *)
Definition fgets (size : Z) (input : list ascii) : option (cstr * list ascii) :=
  match input with
  | [] => None
  | _ => let '(l, r) := fgets_chars (Z.to_nat (size - 1)) input in Some (c_str l, r)
  end.

(** [fopen(name, "rt")] and the effect of closing a file opened with
    [fopen(name, "wt")] after writing [content]. *)
Definition fopen_read (d : list (cstr * list ascii)) (name : cstr)
  : option (list ascii) :=
  snd <$> find (fun f => streq (fst f) name) d.

Definition can_write (w : world) (name : cstr) : bool :=
  negb (existsb (streq name) (readonly w)).

Definition store_file (name : cstr) (content : list ascii)
           (d : list (cstr * list ascii)) : list (cstr * list ascii) :=
  (name, content) :: filter (fun f => negb (streq (fst f) name)) d.

(** [strncpy(current_file, name, sizeof(current_file) - 1)] and the
    terminator written after it. *)
Definition set_current_file (name : cstr) (e : editor) : editor :=
  with_current_file (take 127 name) e.

(** A counting loop [for (i = from; ...; i++)] of [n] iterations. *)
Fixpoint for_range {S : Type} (n : nat) (i : Z) (body : Z -> S -> option S)
         (s : S) : option S :=
  match n with
  | O => Some s
  | Datatypes.S n' => s' ← body i s; for_range n' (i + 1) body s'
  end.

(** [for (i = a; i <= b; i++)] *)
Definition for_upto {S : Type} (a b : Z) (body : Z -> S -> option S) (s : S)
  : option S :=
  for_range (Z.to_nat (b - a + 1)) a body s.

(** The same loop when [b] is a number the user has typed: with
    [b = INT_MAX] the test [i <= b] never fails and [i++] overflows, so
    that the loop has no result.  (The bounds of the loops written with
    [for_upto] alone are below [line_count].) *)
Definition for_upto_int {S : Type} (a b : Z) (body : Z -> S -> option S) (s : S)
  : option S :=
  if (a <=? b) && (INT_MAX <=? b) then None else for_upto a b body s.

(** ** File operations *)

(** The [while (fgets ...)] loop of [load_file] (lines 425-440); the
    flag tells whether the loop ran to the end of the file.  Every round
    stores one line, so [MAX_LINES] rounds of fuel are never used up. *)
Fixpoint load_loop (fuel : nat) (h : heap) (input : list ascii) (e : editor)
  : option (bool * editor * heap) :=
  match fgets LINE_LEN input with
  | None => Some (true, e, h)
  | Some (buf, rest) =>
      let '(p, h') := xstrdup h (chomp buf) in
      l ← aset (lines e) (line_count e) p;
      let e1 := with_lines l e in
      match p with
      | None => Some (false, e1, h')
      | Some _ =>
          let e2 := with_line_count (line_count e + 1) e1 in
          if line_count e2 >=? MAX_LINES then Some (false, e2, h')
          else match fuel with
               | O => None
               | S fuel' => load_loop fuel' h' rest e2
               end
      end
  end.

(** [load_file] (lines 407-449). *)
Definition load_file (e : editor) (w : world) (name : cstr)
  : option (bool * editor * world) :=
  match fopen_read (disk w) name with
  | None => Some (false, e, w)
  | Some content =>
      e1 ← for_upto 0 (line_count e - 1) (fun i e => Some (free_line e i)) e;
      let e2 := with_line_count 0 e1 in
      '(ok, e3, h) ← load_loop (Z.to_nat MAX_LINES) (mem w) content e2;
      if ok : bool
      then Some (true,
                 with_last 1 (line_count e3) (set_current_file name e3),
                 with_mem h w)
      else Some (false, e3, with_mem h w)
  end.

(** What [write_file] sends to the file: every line of the document
    followed by a line feed, NULL slots as empty lines. *)
Definition file_text (e : editor) : option (list ascii) :=
  for_upto 0 (line_count e - 1)
           (fun i (out : list ascii) =>
              v ← aget (lines e) i; Some (out ++ default [] v ++ [LF]))
           [].

(** [write_file] (lines 451-472). *)
Definition write_file (e : editor) (w : world) (name : cstr)
  : option (bool * editor * world) :=
  if can_write w name
  then
    text ← file_text e;
    Some (true, set_current_file name e, with_disk (store_file name text (disk w)) w)
  else Some (false, e, w).

(** ** Command parsing *)

(** [parse_range] (lines 309-373): [Some None] is the return value 0,
    [None] the undefined result of an [atoi] out of range. *)
Definition parse_range (e : editor) (p : cstr) : option (option (Z * Z)) :=
  match skip_space p with
  | [] => Some (Some (1, line_count e))
  | c :: rest =>
      if Ascii.eqb c "," then
        y ← atoi rest;
        Some (Some (1, if y >? 0 then y else line_count e))
      else if isdigit c then
        x ← atoi (c :: rest);
        y ← match skip_space (skip_digits (c :: rest)) with
            | c1 :: rest1 =>
                if Ascii.eqb c1 "," then
                  match skip_space rest1 with
                  | [] => Some (line_count e)
                  | c2 :: rest2 => atoi (c2 :: rest2)
                  end
                else Some x
            | [] => Some x
            end;
        Some (Some (if x >? 0 then x else 1, if y >? 0 then y else line_count e))
      else Some None
  end.

(** The copying loop of [parse_between] (lines 386-394). *)
Fixpoint scan_between (p : cstr) (delim : ascii) (outsz : Z) (out : cstr)
  : option (cstr * cstr) :=
  match p with
  | [] => None
  | c :: p' =>
      if Ascii.eqb c delim then Some (out, p')
      else scan_between p' delim outsz
                        (if strlen out + 1 <? outsz then out ++ [c] else out)
  end.

(** [parse_between] (lines 375-403): the text between two delimiters and
    what follows the second one; [None] is NULL. *)
Definition parse_between (p : cstr) (delim : ascii) (outsz : Z)
  : option (cstr * cstr) :=
  match p with
  | c :: p' => if Ascii.eqb c delim then scan_between p' delim outsz [] else None
  | [] => None
  end.

(** ** REPL commands *)

(** The line echoed by [printf("%05d: %s\n", n, text)]. *)
Definition numbered (n : Z) (text : cstr) : cstr :=
  fmt_05d n ++ lit ": " ++ text ++ [LF].

(** [cmd_list] (lines 476-498). *)
Definition cmd_list (e : editor) (w : world) (a b : Z) : option (editor * world) :=
  let '(a, b) := to_range_defaults e a b in
  if line_count e =? 0 then Some (e, puts (lit "(empty)") w)
  else
    w' ← for_upto_int a b
         (fun i w =>
            if (1 <=? i) && (i <=? line_count e)
            then v ← aget (lines e) (i - 1);
                 Some (print (numbered (i - 1) (default [] v)) w)
            else Some w) w;
    Some (with_last a b e, w').

(** The range [cmd_delete] removes after its own clamping (lines 505-520),
    [None] when it returns without deleting. *)
Definition delete_range (e : editor) (a b : Z) : option (Z * Z) :=
  let '(a, b) := to_range_defaults e a b in
  let a := if a <? 1 then 1 else a in
  let b := if b >? line_count e then line_count e else b in
  if (line_count e =? 0) || (a >? b) then None else Some (a, b).

(** [cmd_delete] (lines 500-531). *)
Definition cmd_delete (e : editor) (a b : Z) : option editor :=
  match delete_range e a b with
  | None => Some e
  | Some (a, b) =>
      e1 ← for_upto (a - 1) (b - 1) (fun i e => Some (free_line e i)) e;
      let count := b - a + 1 in
      e2 ← close_gap e1 (a - 1) count;
      Some (with_last a (if a <=? line_count e2 then a else line_count e2) e2)
  end.

(** The position [cmd_insert] starts at (lines 538-541), as a line number. *)
Definition insert_start (e : editor) (n : Z) : Z :=
  if (n <? 1) || (n >? line_count e + 1) then line_count e + 1 else n.

(** The reading loop of [cmd_insert] (lines 546-577); it returns the final
    [pos].  Every round that goes on has read at least one character, so
    fuel above the length of [stdin] is never used up. *)
Fixpoint insert_loop (fuel : nat) (pos : Z) (e : editor) (w : world)
  : option (Z * editor * world) :=
  match fuel with
  | O => None
  | S fuel' =>
      let w := print (fmt_05d (pos + 1) ++ lit ": ") w in
      match fgets LINE_LEN (stdin w) with
      | None => Some (pos, e, w)
      | Some (buf, rest) =>
          let w := with_stdin rest w in
          let buf := chomp buf in
          if streq buf (lit ".") then Some (pos, e, w)
          else
            '(ok, e) ← make_room e pos 1;
            if negb ok then Some (pos, e, puts (lit "! out of space") w)
            else
              let '(p, h) := xstrdup (mem w) buf in
              let w := with_mem h w in
              l ← aset (lines e) pos p;
              let e := with_lines l e in
              match p with
              | None => Some (pos, e, puts (lit "! alloc failed") w)
              | Some _ => insert_loop fuel' (pos + 1) e w
              end
      end
  end.

(** [cmd_insert] (lines 533-581). *)
Definition cmd_insert (e : editor) (w : world) (n : Z) : option (editor * world) :=
  let n := insert_start e n in
  let pos := n - 1 in
  let w := print (lit "-- Insert at  Line " ++ fmt_05d (n - 1) ++ lit "  --" ++ [LF]) w in
  '(pos, e, w) ← insert_loop (S (length (stdin w))) pos e w;
  Some (with_last n pos e, w).

(** [cmd_edit] (lines 583-612). *)
Definition cmd_edit (e : editor) (w : world) (n : Z) : option (editor * world) :=
  if (n <? 1) || (n >? line_count e) then Some (e, puts (lit "! bad line") w)
  else
    v ← aget (lines e) (n - 1);
    let w := print (numbered (n - 1) (default [] v)) w in
    let w := print (fmt_05d n ++ lit ": ") w in
    match fgets LINE_LEN (stdin w) with
    | None => Some (e, w)
    | Some (buf, rest) =>
        let w := with_stdin rest w in
        let e := free_line e (n - 1) in
        let '(p, h) := xstrdup (mem w) (chomp buf) in
        let w := with_mem h w in
        l ← aset (lines e) (n - 1) p;
        let w := match p with
                 | None => puts (lit "! alloc failed") w
                 | Some _ => w
                 end in
        Some (with_last n n (with_lines l e), w)
    end.

(** [cmd_replace] (lines 614-672). *)
Definition cmd_replace (e : editor) (w : world) (a b : Z) (spec : cstr)
  : option (editor * world) :=
  let syntax := puts (lit "! syntax: R a,b /old/new/[g]") in
  match parse_between (skip_space spec) "/" LINE_LEN with
  | None => Some (e, syntax w)
  | Some (oldp, p) =>
      match parse_between (skip_space p) "/" LINE_LEN with
      | None => Some (e, syntax w)
      | Some (newp, p) =>
          let global :=
            match skip_space p with
            | c :: _ => Ascii.eqb c "g" || Ascii.eqb c "G"
            | [] => false
            end in
          let '(a, b) := to_range_defaults e a b in
          '(l, total, h) ←
            for_upto_int a b
              (fun i '(l, total, h) =>
                 if (1 <=? i) && (i <=? line_count e)
                 then v ← aget l (i - 1);
                      match v with
                      | Some s =>
                          let '(made, s', h') := replace_in_line h s oldp newp global in
                          l' ← aset l (i - 1) (Some s');
                          Some (l', total + made, h')
                      | None => Some (l, total, h)
                      end
                 else Some (l, total, h))
              (lines e, 0, mem w);
          Some (with_last a b (with_lines l e),
                print (lit "Replaced " ++ fmt_d total ++ lit " occurrence(s)." ++ [LF])
                      (with_mem h w))
      end
  end.

(** The pattern of [cmd_search] (lines 681-711): between slashes, or the
    bare text; [None] for the syntax error. *)
Definition search_pattern (spec : cstr) : option cstr :=
  match skip_space spec with
  | c :: rest =>
      if Ascii.eqb c "/" then fst <$> parse_between (c :: rest) "/" LINE_LEN
      else Some (take (Z.to_nat (LINE_LEN - 1)) (c :: rest))
  | [] => Some []
  end.

(** [cmd_search] (lines 674-730). *)
Definition cmd_search (e : editor) (w : world) (a b : Z) (spec : cstr)
  : option (editor * world) :=
  match search_pattern spec with
  | None => Some (e, puts (lit "! syntax: S a,b /text/") w)
  | Some pat =>
      let '(a, b) := to_range_defaults e a b in
      '(w', hits) ←
        for_upto_int a b
          (fun i '(w, hits) =>
             if (1 <=? i) && (i <=? line_count e)
             then v ← aget (lines e) (i - 1);
                  match v with
                  | Some s =>
                      if strcasestr_pos s pat >=? 0
                      then Some (print (numbered (i - 1) s) w, hits + 1)
                      else Some (w, hits)
                  | None => Some (w, hits)
                  end
             else Some (w, hits))
          (w, 0);
      Some (with_last a b e,
            print (lit "-- " ++ fmt_d hits ++ lit " match(es)" ++ [LF]) w')
  end.

(** ** Fullscreen editor: editing primitives

    The screen (conio calls, video memory and what [printf] draws while
    the fullscreen editor runs) is not part of the model. *)

(** [strlen(lines[i])] needs a buffer: the line at index [i]. *)
Definition line_at (e : editor) (i : Z) : option cstr :=
  v ← aget (lines e) i; v.

(** The loop of [ensure_line_exists]: at most [n] lines are appended. *)
Fixpoint ensure_loop (n : nat) (e : editor) (h : heap) : option (editor * heap) :=
  match n with
  | O => Some (e, h)
  | S n' =>
      if line_count e >=? MAX_LINES then Some (e, h)
      else
        let '(p, h') := xstrdup h [] in
        l ← aset (lines e) (line_count e) p;
        let e1 := with_lines l e in
        match p with
        | None => Some (e1, h')
        | Some _ => ensure_loop n' (with_line_count (line_count e + 1) e1) h'
        end
  end.

(** [ensure_line_exists] (lines 1062-1078): the loop runs while
    [line_count <= line_idx], that is [line_idx + 1 - line_count] times. *)
Definition ensure_line_exists (e : editor) (w : world) (line_idx : Z)
  : option (editor * world) :=
  '(e', h) ← ensure_loop (Z.to_nat (line_idx + 1 - line_count e)) e (mem w);
  Some (e', with_mem h w).

(** [insert_char] (lines 1080-1114). *)
Definition insert_char (e : editor) (w : world) (c : ascii)
  : option (editor * world) :=
  let line_idx := cursor_row e in
  '(e, w) ← ensure_line_exists e w line_idx;
  line ← line_at e line_idx;
  let len := strlen line in
  let e := if cursor_col e >? len then with_cursor (cursor_row e) len e else e in
  if len >=? LINE_LEN - 1 then Some (e, w)
  else
    let '(ok, h) := malloc (mem w) in
    let w := with_mem h w in
    if negb ok then Some (e, w)
    else if cursor_col e <? 0 then None
    else
      let col := Z.to_nat (cursor_col e) in
      let new_line := take col line ++ [c] ++ drop col line in
      l ← aset (lines e) line_idx (Some new_line);
      Some (with_cursor (cursor_row e) (cursor_col e + 1) (with_lines l e), w).

(** [delete_char] (lines 1116-1157). *)
Definition delete_char (e : editor) (w : world) : option (editor * world) :=
  let line_idx := cursor_row e in
  if line_idx >=? line_count e then Some (e, w)
  else
    line ← line_at e line_idx;
    let len := strlen line in
    if cursor_col e >=? len then
      if line_idx + 1 <? line_count e then
        next_line ← line_at e (line_idx + 1);
        let next_len := strlen next_line in
        if len + next_len <? LINE_LEN then
          let '(ok, h) := malloc (mem w) in
          let w := with_mem h w in
          if ok then
            l ← aset (lines e) line_idx (Some (line ++ next_line));
            let e := free_line (with_lines l e) (line_idx + 1) in
            e ← close_gap e (line_idx + 1) 1;
            Some (e, w)
          else Some (e, w)
        else Some (e, w)
      else Some (e, w)
    else if cursor_col e <? 0 then None
    else
      let col := Z.to_nat (cursor_col e) in
      l ← aset (lines e) line_idx (Some (take col line ++ drop (S col) line));
      Some (with_lines l e, w).

(** [backspace_char] (lines 1159-1173). *)
Definition backspace_char (e : editor) (w : world) : option (editor * world) :=
  if cursor_col e >? 0 then
    delete_char (with_cursor (cursor_row e) (cursor_col e - 1) e) w
  else if cursor_row e >? 0 then
    line ← line_at e (cursor_row e - 1);
    delete_char (with_cursor (cursor_row e - 1) (strlen line) e) w
  else Some (e, w).

(** [insert_newline] (lines 1175-1213). *)
Definition insert_newline (e : editor) (w : world) : option (editor * world) :=
  let line_idx := cursor_row e in
  '(e, w) ← ensure_line_exists e w line_idx;
  line ← line_at e line_idx;
  let len := strlen line in
  let e := if cursor_col e >? len then with_cursor (cursor_row e) len e else e in
  if line_count e >=? MAX_LINES then Some (e, w)
  else
    '(ok, e) ← make_room e (line_idx + 1) 1;
    if negb ok then Some (e, w)
    else
      let '(ok, h) := malloc (mem w) in
      let w := with_mem h w in
      if negb ok then Some (e, w)
      else if cursor_col e <? 0 then None
      else
        let col := Z.to_nat (cursor_col e) in
        l ← aset (lines e) line_idx (Some (take col line));
        l ← aset l (line_idx + 1) (Some (drop col line));
        Some (with_cursor (cursor_row e + 1) 0 (with_lines l e), w).

(** ** Fullscreen editor: the key loop (lines 1258-1479) *)

(** [getch]: the next key code, [None] when no key is left. *)
Definition getch (w : world) : option (Z * world) :=
  match keyboard w with
  | [] => None
  | k :: ks => Some (k, with_keyboard ks w)
  end.

(** [if (cursor_col > strlen(lines[cursor_row])) cursor_col = strlen(...)] *)
Definition clamp_col (e : editor) : option editor :=
  line ← line_at e (cursor_row e);
  Some (if cursor_col e >? strlen line
        then with_cursor (cursor_row e) (strlen line) e else e).

(** [if (cursor_row >= top_line + SCREEN_ROWS - 1) top_line = ...] *)
Definition scroll_down (e : editor) : editor :=
  if cursor_row e >=? top_line e + SCREEN_ROWS - 1
  then with_top_line (cursor_row e - SCREEN_ROWS + 2) e else e.

(** [if (cursor_row < top_line) top_line = cursor_row] *)
Definition scroll_up (e : editor) : editor :=
  if cursor_row e <? top_line e then with_top_line (cursor_row e) e else e.

(** The [switch] on the second code of an extended key (lines 1272-1431);
    the flag is [running]. *)
Definition extended_key (e : editor) (w : world) (ch : Z)
  : option (bool * editor * world) :=
  if ch =? 72 then
    if cursor_row e >? 0 then
      e ← clamp_col (scroll_up (with_cursor (cursor_row e - 1) (cursor_col e) e));
      Some (true, e, w)
    else Some (true, e, w)
  else if ch =? 80 then
    if cursor_row e <? line_count e - 1 then
      e ← clamp_col (scroll_down (with_cursor (cursor_row e + 1) (cursor_col e) e));
      Some (true, e, w)
    else Some (true, e, w)
  else if ch =? 75 then
    if cursor_col e >? 0 then
      Some (true, with_cursor (cursor_row e) (cursor_col e - 1) e, w)
    else if cursor_row e >? 0 then
      line ← line_at e (cursor_row e - 1);
      Some (true, scroll_up (with_cursor (cursor_row e - 1) (strlen line) e), w)
    else Some (true, e, w)
  else if ch =? 77 then
    if cursor_row e <? line_count e then
      line ← line_at e (cursor_row e);
      if cursor_col e <? strlen line then
        Some (true, with_cursor (cursor_row e) (cursor_col e + 1) e, w)
      else if cursor_row e <? line_count e - 1 then
        Some (true, scroll_down (with_cursor (cursor_row e + 1) 0 e), w)
      else Some (true, e, w)
    else Some (true, e, w)
  else if ch =? 71 then Some (true, with_cursor (cursor_row e) 0 e, w)
  else if ch =? 79 then
    if cursor_row e <? line_count e then
      line ← line_at e (cursor_row e);
      Some (true, with_cursor (cursor_row e) (strlen line) e, w)
    else Some (true, e, w)
  else if ch =? 73 then
    let row := cursor_row e - (SCREEN_ROWS - 1) in
    let row := if row <? 0 then 0 else row in
    e ← clamp_col (with_top_line row (with_cursor row (cursor_col e) e));
    Some (true, e, w)
  else if ch =? 81 then
    let row := cursor_row e + (SCREEN_ROWS - 1) in
    let row := if row >=? line_count e then line_count e - 1 else row in
    let row := if row <? 0 then 0 else row in
    e ← clamp_col (with_top_line row (with_cursor row (cursor_col e) e));
    Some (true, e, w)
  else if ch =? 59 then
    match getch w with
    | Some (_, w) => Some (true, e, w)
    | None => Some (true, e, w)
    end
  else if ch =? 60 then
    match current_file e with
    | [] => Some (true, e, w)
    | _ => '(_, e, w) ← write_file e w (current_file e); Some (true, e, w)
    end
  else if ch =? 68 then Some (false, e, w)
  else if ch =? 83 then
    '(e, w) ← delete_char e w; Some (true, e, w)
  else Some (true, e, w).

(** Tab: eight calls of [insert_char(' ')] (lines 1444-1451). *)
Fixpoint insert_spaces (n : nat) (e : editor) (w : world) : option (editor * world) :=
  match n with
  | O => Some (e, w)
  | S n' => '(e, w) ← insert_char e w " "; insert_spaces n' e w
  end.

(** One round of the key loop, the key [ch] already read. *)
Definition key_step (e : editor) (w : world) (ch : Z)
  : option (bool * editor * world) :=
  if (ch =? 0) || (ch =? 224) then
    match getch w with
    | Some (ch2, w) => extended_key e w ch2
    | None => Some (true, e, w)
    end
  else if ch =? 13 then
    '(e, w) ← insert_newline e w; Some (true, scroll_down e, w)
  else if ch =? 9 then
    '(e, w) ← insert_spaces 8 e w; Some (true, e, w)
  else if ch =? 8 then
    '(e, w) ← backspace_char e w; Some (true, scroll_up e, w)
  else if ch =? 27 then Some (false, e, w)
  else if (32 <=? ch) && (ch <? 127) then
    '(e, w) ← insert_char e w (ascii_of_N (Z.to_N ch)); Some (true, e, w)
  else Some (true, e, w).

(** The key loop; it stops where the editor would wait for a key that
    [keyboard] does not hold.  Every round reads a key, so [fuel] above
    the number of keys is never used up. *)
Fixpoint key_loop (fuel : nat) (e : editor) (w : world) : option (editor * world) :=
  match fuel with
  | O => Some (e, w)
  | S fuel' =>
      match getch w with
      | None => Some (e, w)
      | Some (ch, w) =>
          '(running, e, w) ← key_step e w ch;
          if running : bool then key_loop fuel' e w else Some (e, w)
      end
  end.

(** [cmd_fullscreen] (lines 1240-1482). *)
Definition cmd_fullscreen (e : editor) (w : world) : option (editor * world) :=
  '(e, w) ← (if line_count e =? 0 then ensure_line_exists e w 0 else Some (e, w));
  key_loop (length (keyboard w)) (with_top_line 0 (with_cursor 0 0 e)) w.

(** ** The REPL (lines 1486-1506 and 1590-1856) *)

Definition help_text : list string :=
  [ "Commands:";
    "  L [a][,b]           list lines";
    "  I [n]               insert at n (end with a single '.')";
    "  D a[,b]             delete lines";
    "  E n                 edit (replace) line";
    "  R a[,b] /old/new/[g]  replace; 'g' = global per line";
    "  S [a][,b] /text/    search (case-insensitive)";
    "  O name              open (load) file";
    "  W [name]            write (save) file";
    "  V                   fullscreen visual editor mode";
    "  P                   print status";
    "  H or ?              help";
    "  Q                   quit" ]%string.

Definition help (w : world) : world :=
  foldl (fun w s => puts (lit s) w) w help_text.

Definition status_line (e : editor) (w : world) : world :=
  print (lit "Lines: " ++ fmt_d (line_count e) ++ lit "  File: "
         ++ (match current_file e with [] => lit "(none)" | f => f end) ++ [LF]) w.

(** [strchr(s, c)]: the text before the first [c] and the text from it on. *)
Fixpoint strchr (s : cstr) (c : ascii) : option (cstr * cstr) :=
  match s with
  | [] => None
  | x :: s' =>
      if Ascii.eqb x c then Some ([], s)
      else '(before, from) ← strchr s' c; Some (x :: before, from)
  end.

(** The range of an [R] or [S] command whose text [buf] has a slash
    (lines 1686-1712): [Some None] for a bad range, else the arguments
    handed to the command, [a = b = -1] when no range is written. *)
Definition slash_range (e : editor) (before : cstr) : option (option (Z * Z)) :=
  match before with
  | [] => Some (Some (-1, -1))
  | _ => parse_range e before
  end.

(** [printf("-- wrote %d line(s) to %s\n", line_count, name)] *)
Definition wrote (e : editor) (name : cstr) : cstr :=
  lit "-- wrote " ++ fmt_d (line_count e) ++ lit " line(s) to " ++ name ++ [LF].

(** The [switch (cmd)] of [main] (lines 1625-1853), [p] being the command
    text after the command letter and the white space behind it.  The
    flag is false when the command is [Q]. *)
Definition dispatch (e : editor) (w : world) (cmd : ascii) (p : cstr)
  : option (bool * editor * world) :=
  if Ascii.eqb cmd "L" then
    match p with
    | [] => '(e, w) ← cmd_list e w 1 (line_count e); Some (true, e, w)
    | _ =>
        r ← parse_range e p;
        match r with
        | None => Some (true, e, puts (lit "! bad range") w)
        | Some (a, b) => '(e, w) ← cmd_list e w a b; Some (true, e, w)
        end
    end
  else if Ascii.eqb cmd "I" then
    n ← match p with [] => Some (line_count e + 1) | _ => atoi p end;
    '(e, w) ← cmd_insert e w n; Some (true, e, w)
  else if Ascii.eqb cmd "D" then
    r ← parse_range e p;
    match r with
    | None => Some (true, e, puts (lit "! need D a[,b]") w)
    | Some (a, b) => e ← cmd_delete e a b; Some (true, e, w)
    end
  else if Ascii.eqb cmd "E" then
    match p with
    | [] => Some (true, e, puts (lit "! need E n") w)
    | _ => n ← atoi p; '(e, w) ← cmd_edit e w n; Some (true, e, w)
    end
  else if Ascii.eqb cmd "R" then
    match strchr (take (Z.to_nat (INPUT_LEN - 1)) p) "/" with
    | Some (before, spec) =>
        r ← slash_range e before;
        match r with
        | None => Some (true, e, puts (lit "! bad range") w)
        | Some (a, b) => '(e, w) ← cmd_replace e w a b spec; Some (true, e, w)
        end
    | None => Some (true, e, puts (lit "! syntax: R a,b /old/new/[g]") w)
    end
  else if Ascii.eqb cmd "O" then
    match p with
    | [] => Some (true, e, puts (lit "! need filename") w)
    | _ =>
        '(ok, e, w) ← load_file e w p;
        if ok : bool
        then Some (true, e,
                   print (lit "-- loaded " ++ fmt_d (line_count e) ++ lit " line(s)" ++ [LF]) w)
        else Some (true, e, puts (lit "! open failed") w)
    end
  else if Ascii.eqb cmd "S" then
    match strchr (take (Z.to_nat (INPUT_LEN - 1)) p) "/" with
    | Some (before, spec) =>
        r ← slash_range e before;
        match r with
        | None => Some (true, e, puts (lit "! bad range") w)
        | Some (a, b) => '(e, w) ← cmd_search e w a b spec; Some (true, e, w)
        end
    | None => '(e, w) ← cmd_search e w 1 (line_count e) p; Some (true, e, w)
    end
  else if Ascii.eqb cmd "W" then
    match p, current_file e with
    | _ :: _, _ =>
        '(ok, e, w) ← write_file e w p;
        if ok : bool then Some (true, e, print (wrote e p) w)
        else Some (true, e, puts (lit "! write failed") w)
    | [], _ :: _ =>
        '(ok, e, w) ← write_file e w (current_file e);
        if ok : bool then Some (true, e, print (wrote e (current_file e)) w)
        else Some (true, e, puts (lit "! write failed") w)
    | [], [] => Some (true, e, puts (lit "! W needs filename (no current file)") w)
    end
  else if Ascii.eqb cmd "V" then
    '(e, w) ← cmd_fullscreen e w; Some (true, e, w)
  else if Ascii.eqb cmd "P" then Some (true, e, status_line e w)
  else if Ascii.eqb cmd "H" || Ascii.eqb cmd "?" then Some (true, e, help w)
  else if Ascii.eqb cmd "Q" then Some (false, e, w)
  else Some (true, e, puts (lit "?") w).

(** One round of the loop of [main] on the command line [input], already
    read by [fgets] (lines 1605-1855). *)
Definition repl_command (e : editor) (w : world) (input : cstr)
  : option (bool * editor * world) :=
  match skip_space (chomp input) with
  | [] => Some (true, e, w)
  | c :: p =>
      '(running, e, w) ← dispatch e w (toupper c) (skip_space p);
      if running : bool then Some (true, e, status_line e w) else Some (false, e, w)
  end.

(** The loop of [main] (lines 1590-1856); every round reads a command
    line, so fuel above the length of [stdin] is never used up. *)
Fixpoint repl (fuel : nat) (e : editor) (w : world) : option (editor * world) :=
  match fuel with
  | O => None
  | S fuel' =>
      let w := print (lit "* ") w in
      match fgets INPUT_LEN (stdin w) with
      | None => Some (e, w)
      | Some (input, rest) =>
          '(running, e, w) ← repl_command e (with_stdin rest w) input;
          if running : bool then repl fuel' e w else Some (e, w)
      end
  end.

(** ** Auxiliary notions for the statements below *)

(** A store holding the lines [doc] (at most [MAX_LINES] of them), every
    other global as at program start. *)
Definition editor_of (doc : list cstr) : editor :=
  with_line_count (Z.of_nat (length doc))
    (with_lines (map Some doc ++ replicate (Z.to_nat MAX_LINES - length doc) None)
                initial).

(** The next [n] allocations succeed. *)
Definition allocs_succeed (n : nat) (h : heap) : Prop :=
  Forall (fun ok => ok = true) (take n h).

(** An environment with the given input and nothing else. *)
Definition typing (input : list ascii) : world := World [] input [] [] [] [].

(** One substitution as the loop of [replace_in_line] performs it: the
    first occurrence of [oldp] is replaced when the guard of line 270
    lets it through; [None] when [oldp] does not occur or the guard stops
    the loop. *)
Definition substitute (s oldp newp : cstr) : option cstr :=
  found ← strstr s oldp;
  let suffix := drop (found + length oldp) s in
  if Z.of_nat found + strlen newp + strlen suffix + 1 >=? LINE_LEN then None
  else Some (take found s ++ newp ++ suffix).

(** [k] substitutions in a row. *)
Fixpoint substitute_times (k : nat) (s oldp newp : cstr) : option cstr :=
  match k with
  | O => Some s
  | S k' => s' ← substitute s oldp newp; substitute_times k' s' oldp newp
  end.

(** Blanking [last_a] and [last_b], in a state and in the results of the
    functions that return one; and setting them in such results. *)
Definition forget_last (e : editor) : editor := with_last 0 0 e.

Definition forget_ew {Y : Type} (r : editor * Y) : editor * Y :=
  (forget_last r.1, r.2).

Definition forget_xew {X Y : Type} (r : X * editor * Y) : X * editor * Y :=
  (r.1.1, forget_last r.1.2, r.2).

Definition relast_xe {X : Type} (a b : Z) (r : X * editor) : X * editor :=
  (r.1, with_last a b r.2).

Definition relast_ew {Y : Type} (a b : Z) (r : editor * Y) : editor * Y :=
  (with_last a b r.1, r.2).

Definition relast_xew {X Y : Type} (a b : Z) (r : X * editor * Y) : X * editor * Y :=
  (r.1.1, with_last a b r.1.2, r.2).

(** A line that [load_file] reads back as it is: no NUL and no line feed
    inside, short enough for [fgets] to read it together with its
    terminator in one call, and, when the terminator is a bare line feed,
    no carriage return at its end. *)
Definition plain_line (eol : list ascii) (l : cstr) : Prop :=
  Forall (fun c => c <> NUL /\ c <> LF) l /\
  strlen l + strlen eol <= LINE_LEN - 1 /\
  (eol = [LF] -> ends_in [CR] l = false).

(** Load the file [name], save the document as [out], read [out] back;
    the flags are the results of [load_file] and [write_file]. *)
Definition load_then_save (e : editor) (w : world) (name out : cstr)
  : option (bool * bool * option (list ascii)) :=
  '(loaded, e1, w1) ← load_file e w name;
  '(saved, e2, w2) ← write_file e1 w1 out;
  Some (loaded, saved, fopen_read (disk w2) out).

(** ** The specification's wording, for comparison with the code *)

(** A file whose lines [ls] are each terminated by [eol]. *)
Definition file_of_lines (eol : list ascii) (ls : list cstr) : list ascii :=
  concat (map (fun l => l ++ eol) ls).

(** A range lies in the document: [1 <= a <= b <= line_count]. *)
Definition range_in_document (e : editor) (r : Z * Z) : Prop :=
  1 <= r.1 /\ r.1 <= r.2 /\ r.2 <= line_count e.


(** ** File type of the fullscreen status line *)

(** [strcasecmp] (lines 79-93): the difference of the first two characters
    that differ once lowered, the terminating NUL counting as a character. *)
Fixpoint strcasecmp (s1 s2 : cstr) : Z :=
  match s1, s2 with
  | c1 :: r1, c2 :: r2 =>
      if code (tolower c1) =? code (tolower c2) then strcasecmp r1 r2
      else code (tolower c1) - code (tolower c2)
  | _, _ => code (tolower (hd NUL s1)) - code (tolower (hd NUL s2))
  end.

(** [strrchr(s, c)]: the text from the last [c] on, [None] for NULL. *)
Fixpoint strrchr (s : cstr) (c : ascii) : option cstr :=
  match s with
  | [] => None
  | x :: s' =>
      match strrchr s' c with
      | Some r => Some r
      | None => if Ascii.eqb x c then Some s else None
      end
  end.

(** [strcasecmp(ext, name) == 0] *)
Definition ext_is (ext : cstr) (name : string) : bool :=
  strcasecmp ext (lit name) =? 0.

(** [get_file_type] (lines 734-895). *)
Definition get_file_type (filename : cstr) : cstr :=
  match filename with
  | [] => []
  | _ =>
      match strrchr filename "." with
      | None => []
      | Some dot =>
          let ext := drop 1 dot in
          if ext_is ext "FOR" || ext_is ext "FTN" || ext_is ext "F77"
             || ext_is ext "F" || ext_is ext "F90" || ext_is ext "F95"
          then lit "FORTRAN source file"
          else if ext_is ext "ASM" || ext_is ext "S" then lit "ASSEMBLER source file"
          else if ext_is ext "SUB" || ext_is ext "SBR" then lit "SUBROUTINE source file"
          else if ext_is ext "C" then lit "C source file"
          else if ext_is ext "H" then lit "C header file"
          else if ext_is ext "CPP" || ext_is ext "CXX" || ext_is ext "CC"
          then lit "C++ source file"
          else if ext_is ext "HPP" || ext_is ext "HXX" then lit "C++ header file"
          else if ext_is ext "PAS" then lit "PASCAL source file"
          else if ext_is ext "BAS" then lit "BASIC source file"
          else if ext_is ext "COB" || ext_is ext "CBL" then lit "COBOL source file"
          else if ext_is ext "PLI" || ext_is ext "PL1" then lit "PL/I source file"
          else if ext_is ext "PLM" then lit "PL/M source file"
          else if ext_is ext "ALG" || ext_is ext "ALGOL" then lit "ALGOL source file"
          else if ext_is ext "BAT" then lit "DOS batch file"
          else if ext_is ext "CMD" then lit "Command script"
          else if ext_is ext "TXT" then lit "Text file"
          else if ext_is ext "DOC" then lit "Document file"
          else if ext_is ext "MD" then lit "Markdown file"
          else if ext_is ext "DAT" then lit "Data file"
          else if ext_is ext "INI" || ext_is ext "CFG" then lit "Configuration file"
          else if ext_is ext "HEX" then lit "Intel HEX file"
          else if ext_is ext "BIN" then lit "Binary file"
          else if ext_is ext "COM" then lit "DOS executable"
          else if ext_is ext "EXE" then lit "DOS executable"
          else if ext_is ext "OBJ" then lit "Object file"
          else if ext_is ext "LIB" then lit "Library file"
          else if ext_is ext "MAK" then lit "Makefile"
          else []
      end
  end.

(** ** Banner and program start (lines 95-108, 1508-1588) *)

(** The conversion [%02d]. *)
Definition fmt_02d (z : Z) : cstr :=
  let body := lit (NilZero.string_of_uint (N.to_uint (Z.to_N (Z.abs z)))) in
  let sign := if z <? 0 then lit "-" else [] in
  sign ++ replicate (2 - length sign - length body)%nat "0"%char ++ body.

(** The conversion [%-45s]: at least 45 columns, the text to the left. *)
Definition fmt_left45 (s : cstr) : cstr :=
  s ++ replicate (45 - length s)%nat " "%char.

(** [get_time_string] (lines 95-108), the local time being
    [hour : minute : second]. *)
Definition get_time_string (clock : Z * Z * Z) : cstr :=
  fmt_02d clock.1.1 ++ lit ":" ++ fmt_02d clock.1.2 ++ lit ":" ++ fmt_02d clock.2.

(** The text [banner] puts into [file_status] (lines 1527-1543). *)
Definition file_status (e : editor) (w : world) (fname : cstr) : cstr :=
  if streq fname (lit "(none)") then lit "NEW FILE"
  else match fopen_read (disk w) fname with
       | Some _ => lit "EXISTING FILE (" ++ fmt_d (line_count e) ++ lit " LINES)"
       | None => lit "NEW FILE"
       end.

(** [banner] (lines 1508-1565). *)
Definition banner (e : editor) (w : world) (fname : cstr) (clock : Z * Z * Z)
  : world :=
  let upper := map toupper (take 127 fname) in
  let w := puts (lit "=================================================================") w in
  let w := puts (lit "              E V I L I N E D   Advanced Line Editor             ") w in
  let w := puts (lit "=================================================================") w in
  let w := puts (lit "   Version 2.0 Enhanced Edition  (C)  2025-2026 Mickey Lawless   ") w in
  let w := puts (lit "          Licensed under GNU GPL v3 - Free Software              ") w in
  let w := puts (lit "-----------------------------------------------------------------") w in
  let w := puts (lit "   Full-Featured Line Editor with Visual Mode & Advanced Search  ") w in
  let w := puts (lit "   Compatible: IBM-PC / CP-M / MS-DOS / Terminal Environments    ") w in
  let w := puts (lit "-----------------------------------------------------------------") w in
  let w := print (lit "               Active File    :   " ++ fmt_left45 upper ++ [LF]) w in
  let w := print (lit "               File Status    :   "
                  ++ fmt_left45 (file_status e w fname) ++ [LF]) w in
  let w := print (lit "               System Time    :   "
                  ++ fmt_left45 (get_time_string clock) ++ [LF]) w in
  let w := puts (lit "-----------------------------------------------------------------") w in
  let w := puts (lit "   Features: Multi-line Insert, Search/Replace, Visual Editor,   ") w in
  let w := puts (lit "   Range Operations, Case-Insensitive Search, Memory Management  ") w in
  let w := puts (lit "=================================================================") w in
  let w := puts (lit "         Ready.  Type '?' for Help or 'V' for Visual Mode.       ") w in
  let w := puts (lit "            !  Visual Mode not teletype compatible.  !           ") w in
  let w := puts (lit "=================================================================") w in
  puts [] w.

(** What [main] does before its loop (lines 1577-1588), [arg] being
    [argv[1]] when there is one. *)
Definition startup (e : editor) (w : world) (arg : option cstr) (clock : Z * Z * Z)
  : option (editor * world) :=
  '(e, w) ← match arg with
            | Some name =>
                '(ok, e, w) ← load_file e w name;
                if ok : bool then Some (e, w)
                else Some (set_current_file name e,
                           print (lit "! couldn't open '" ++ name
                                  ++ lit "' (starting empty)" ++ [LF]) w)
            | None => Some (e, w)
            end;
  Some (e, status_line e (banner e w (default (lit "(none)") arg) clock)).

(** [main] (lines 1573-1859): the start, then the command loop. *)
Definition main (w : world) (arg : option cstr) (clock : Z * Z * Z)
  : option (editor * world) :=
  '(e, w) ← startup initial w arg clock;
  repl (S (length (stdin w))) e w.

(** ** Further notions for the statements below *)

(** Every allocation still to come succeeds. *)
Definition never_fails (h : heap) : Prop := Forall (fun ok => ok = true) h.

(** A slot holds no buffer, or one whose string fits [LINE_LEN] bytes with
    its terminator; [lines_fit]: every slot of the array does. *)
Definition fits (v : option cstr) : Prop :=
  forall s, v = Some s -> strlen s < LINE_LEN.

Definition lines_fit (e : editor) : Prop := Forall fits (lines e).

(** A store the commands can work on: well formed, no NULL line in the
    document, every line within its buffer. *)
Definition sound (e : editor) : Prop :=
  store_wf e /\ no_null e /\ lines_fit e.

(** The cursor of the fullscreen editor is on a character position of a
    document line. *)
Definition cursor_in_document (e : editor) : Prop :=
  0 <= cursor_row e < line_count e /\
  exists s, line_at e (cursor_row e) = Some s /\ 0 <= cursor_col e <= strlen s.

(** The cursor line is one of the [SCREEN_ROWS - 1] text rows on screen. *)
Definition cursor_on_screen (e : editor) : Prop :=
  0 <= top_line e <= cursor_row e /\ cursor_row e < top_line e + SCREEN_ROWS - 1.

(** The state of the fullscreen editor between two keys. *)
Definition editing (e : editor) : Prop :=
  sound e /\ cursor_in_document e /\ cursor_on_screen e.

(** [w'] comes after [w] in a run in which allocation never fails: it
    never will, and the input left is an end of the input there was. *)
Definition steps (w w' : world) : Prop :=
  never_fails (mem w') /\ stdin w' `suffix_of` stdin w.

(** Every number written in the text [s] is below [INT_MAX]: so is the
    value of every run of digits in it. *)
Definition small_numbers (s : list ascii) : Prop :=
  forall pre ds post,
    s = pre ++ ds ++ post -> Forall (fun c => isdigit c = true) ds ->
    digits_value 0 ds < INT_MAX.

(** No run of digits of [s] is longer than nine, [k] digits standing
    before [s]. *)
Fixpoint short_runs (k : nat) (s : list ascii) : bool :=
  match s with
  | [] => true
  | c :: s' => if isdigit c then (k <? 9)%nat && short_runs (S k) s' else short_runs 0 s'
  end.

(** [needle] is found in [hay] at offset [i] when case is ignored. *)
Definition found_at (hay needle : cstr) (i : nat) : Prop :=
  map tolower (take (length needle) (drop i hay)) = map tolower needle.

(** The document as a list of lines, NULL slots read as empty lines. *)
Definition text_of (e : editor) : list cstr := default [] <$> document e.

(** The lines [a] to [b] of the document, each with the number the editor
    shows for it, which is one less than its line number. *)
Definition shown_lines (e : editor) (a b : Z) : list (Z * cstr) :=
  imap (fun k s => (a - 1 + Z.of_nat k, s))
       (take (Z.to_nat (b - a + 1)) (drop (Z.to_nat (a - 1)) (text_of e))).

(** What the listing commands print for such lines. *)
Definition listing (ls : list (Z * cstr)) : list ascii :=
  concat ((fun p => numbered p.1 p.2) <$> ls).

(** The state of the fullscreen editor after [text] has been typed at the
    cursor, [s] being the line the cursor is on. *)
Definition typed (e : editor) (s text : cstr) : editor :=
  let col := Z.to_nat (cursor_col e) in
  with_cursor (cursor_row e) (cursor_col e + strlen text)
    (with_lines (<[Z.to_nat (cursor_row e) := Some (take col s ++ text ++ drop col s)]>
                   (lines e)) e).

(** A character of a key that the editor inserts as it is. *)
Definition printable (c : ascii) : Prop := 32 <= code c < 127.

(** The count and the text [replace_in_line] gives for the line [s] when
    allocation succeeds. *)
Definition rewritten (oldp newp : cstr) (global : bool) (s : cstr) : Z * cstr :=
  (replace_in_line [] s oldp newp global).1.

(** The same for a slot of the array: a NULL line is passed over. *)
Definition rewritten_slot (oldp newp : cstr) (global : bool) (v : option cstr)
  : Z * option cstr :=
  match v with
  | Some s => ((rewritten oldp newp global s).1, Some (rewritten oldp newp global s).2)
  | None => (0, None)
  end.

Definition sum_list (l : list Z) : Z := foldr Z.add 0 l.

(** The character of a decimal digit. *)
Definition digit_char (d : Z) : ascii := ascii_of_N (Z.to_N (48 + d)).

(** * Properties *)

(** ** Basic facts about the state *)

Lemma strlen_nonneg (s : cstr) : 0 <= strlen s.
Proof. unfold strlen. lia. Qed.

Lemma strlen_app (s t : cstr) : strlen (s ++ t) = strlen s + strlen t.
Proof. unfold strlen. rewrite length_app. lia. Qed.

(** A loop up to a bound below [INT_MAX] is the plain counting loop. *)
Lemma for_upto_int_small {S : Type} (a b : Z) (body : Z -> S -> option S) (s : S) :
  b < INT_MAX -> for_upto_int a b body s = for_upto a b body s.
Proof.
  intros Hb. unfold for_upto_int. destruct (a <=? b); [|reflexivity].
  destruct (INT_MAX <=? b) eqn:E; [apply Z.leb_le in E; lia | reflexivity].
Qed.

(** ** Range resolver *)

(** C1, the failing input: on a ten-line document the endpoints
    (100, 5), which [parse_range] reads from the text "100,5", leave
    [to_range_defaults] as (5, 100).  The clamp of [b] to [line_count]
    comes before the swap, which puts the unclamped [a] in its place, so
    that the upper endpoint lies beyond [line_count]. *)
Lemma to_range_defaults_upper_escapes :
  let e := with_line_count 10 initial in
  parse_range e (lit "100,5") = Some (Some (100, 5)) /\
  line_count e > 0 /\
  to_range_defaults e 100 5 = (5, 100) /\
  ~ range_in_document e (to_range_defaults e 100 5).
Proof.
  cbv zeta. repeat split; try reflexivity.
  unfold range_in_document. vm_compute. intros (_ & _ & H). apply H. reflexivity.
Qed.

(** What [to_range_defaults] does ensure on a non-empty document:
    [1 <= a <= b] and [a <= line_count]; [b <= line_count] holds as well
    whenever the incoming [a] does not exceed [line_count]. *)
Lemma to_range_defaults_bounds (e : editor) (a b : Z) :
  line_count e > 0 ->
  let r := to_range_defaults e a b in
  1 <= r.1 /\ r.1 <= r.2 /\ r.1 <= line_count e /\
  (a <= line_count e -> range_in_document e r).
Proof.
  intros Hpos. unfold to_range_defaults, range_in_document.
  destruct (a <? 1) eqn:Ha; destruct ((b <? 1) || (b >? line_count e)) eqn:Hb;
    cbv zeta;
    match goal with |- context [(?x >? ?y) && _] => destruct (x >? y) eqn:Hab end;
    destruct (line_count e >? 0) eqn:Hlc; simpl; lia.
Qed.

Lemma to_range_defaults_bounds_witness :
  let e := with_line_count 10 initial in
  line_count e > 0 /\
  let r := to_range_defaults e 7 3 in
  1 <= r.1 /\ r.1 <= r.2 /\ r.1 <= line_count e /\
  (7 <= line_count e -> range_in_document e r).
Proof.
  cbv zeta. split; [reflexivity |].
  apply (to_range_defaults_bounds (with_line_count 10 initial) 7 3). reflexivity.
Defined.

(** What becomes of the escaped endpoint.  [cmd_list] given (100, 3) on
    a three-line document runs its loop up to 100, printing nothing for
    the indices beyond the document, and records the range (3, 100). *)
Lemma cmd_list_guards_indices :
  let e := editor_of [lit "a"; lit "b"; lit "c"] in
  (fun r => (stdout r.2, last_a r.1, last_b r.1)) <$> cmd_list e (typing []) 100 3
  = Some (lit "00002: c" ++ [LF], 3, 100).
Proof. vm_compute. reflexivity. Qed.

(** With [INT_MAX] for the number the loop has no end: the list command
    on the text "2147483647" has no result on any non-empty document. *)
Lemma list_up_to_int_max_has_no_end (e : editor) (w : world) :
  0 < line_count e < INT_MAX -> dispatch e w "L" (lit "2147483647") = None.
Proof.
  intros Hlc.
  assert (Hrange : parse_range e (lit "2147483647") = Some (Some (INT_MAX, INT_MAX)))
    by reflexivity.
  unfold dispatch. change (Ascii.eqb "L" "L") with true. cbv iota.
  change (lit "2147483647") with ("2"%char :: lit "147483647") at 1.
  cbv iota. rewrite Hrange. cbn [mbind option_bind].
  assert (R : to_range_defaults e INT_MAX INT_MAX = (line_count e, INT_MAX)).
  { unfold to_range_defaults. change (INT_MAX <? 1) with false. cbn [orb]. cbv zeta.
    destruct (INT_MAX >? line_count e) eqn:B; [|unfold INT_MAX in *; lia].
    rewrite B. destruct (line_count e >? 0) eqn:C; [reflexivity | lia]. }
  unfold cmd_list. rewrite R.
  destruct (line_count e =? 0) eqn:E; [lia|].
  unfold for_upto_int.
  destruct (line_count e <=? INT_MAX) eqn:F; [|lia].
  reflexivity.
Qed.

(** On an empty document the result is the empty range [(a, 0)]. *)
Lemma to_range_defaults_empty (e : editor) (a b : Z) :
  line_count e = 0 -> (to_range_defaults e a b).2 = 0.
Proof.
  intros H. unfold to_range_defaults. rewrite H.
  destruct (a <? 1); destruct ((b <? 1) || (b >? 0)) eqn:Hb; simpl; try lia;
    rewrite andb_false_r; simpl; lia.
Qed.

(** ** Substitution engine *)

(** C4: on the line "aaa" with old "a" and new "b", [replace_in_line]
    returns count 3 and leaves "bbb" when global, and returns count 1
    and leaves "baa" otherwise (allocations succeeding). *)
Theorem replace_count_aaa :
  replace_in_line [] (lit "aaa") (lit "a") (lit "b") true = (3, lit "bbb", []) /\
  replace_in_line [] (lit "aaa") (lit "a") (lit "b") false = (1, lit "baa", []).
Proof. split; reflexivity. Qed.

(** C3, the failing input: a 254-character line whose single "x" is
    replaced by "yy" would become 255 characters long, which does not
    exceed [LINE_LEN - 1]; the guard of line 270 refuses it all the same
    and the function returns 0 with the line unchanged. *)
Theorem replace_in_line_refuses_255 :
  let s := lit "x" ++ replicate 253 "b"%char in
  let r := lit "yy" ++ replicate 253 "b"%char in
  strlen s = 254 /\ strlen r = LINE_LEN - 1 /\
  strstr s (lit "x") = Some 0%nat /\
  replace_in_line [] s (lit "x") (lit "yy") false = (0, s, []) /\
  replace_in_line [] s (lit "x") (lit "yy") true = (0, s, []).
Proof. cbv zeta. repeat split; vm_compute; reflexivity. Qed.

(** One character less and the same substitution goes through. *)
Lemma replace_in_line_accepts_254 :
  let s := lit "x" ++ replicate 252 "b"%char in
  replace_in_line [] s (lit "x") (lit "yy") false
  = (1, lit "yy" ++ replicate 252 "b"%char, []).
Proof. vm_compute. reflexivity. Qed.

(** The fullscreen editor builds lines in buffers of the same size and
    accepts 255 characters: typing a character at the end of a line of
    254, and joining a line of 254 with a line of one. *)
Lemma fullscreen_accepts_255 :
  let e := with_cursor 0 254 (editor_of [replicate 254 "b"%char; lit "c"]) in
  (insert_char e (typing []) "x" ≫= fun r => line_at r.1 0)
  = Some (replicate 254 "b"%char ++ lit "x") /\
  (delete_char e (typing []) ≫= fun r => line_at r.1 0)
  = Some (replicate 254 "b"%char ++ lit "c").
Proof. cbv zeta. split; vm_compute; reflexivity. Qed.

Lemma strstr_le (s needle : cstr) (i : nat) :
  strstr s needle = Some i -> (i <= length s)%nat.
Proof.
  revert i. induction s as [|c s IH]; intros i; simpl.
  - destruct (starts_with needle []); intros H; inversion H; lia.
  - destruct (starts_with needle (c :: s)).
    + intros H; inversion H; lia.
    + destruct (strstr s needle) as [j|] eqn:E; simpl; intros H; inversion H.
      specialize (IH j eq_refl). lia.
Qed.

(** A substitution that goes through leaves a line of at most
    [LINE_LEN - 2] characters. *)
Lemma substitute_length (s oldp newp s' : cstr) :
  substitute s oldp newp = Some s' -> strlen s' <= LINE_LEN - 2.
Proof.
  unfold substitute. destruct (strstr s oldp) as [found|] eqn:E; simpl; [|discriminate].
  destruct (_ >=? LINE_LEN) eqn:G; [discriminate|].
  intros H; inversion H; subst s'; clear H.
  apply strstr_le in E.
  rewrite !strlen_app. unfold strlen in *. rewrite length_take. unfold LINE_LEN in *. lia.
Qed.

(** The loop of [replace_in_line] in terms of [substitute]: starting with
    [made] substitutions counted, it performs some number [k] of further
    substitutions, one after the other, and returns [made + k]; it stops
    because the next substitution is impossible or refused, because the
    budget is used up, or after one substitution when not global. *)
Lemma replace_loop_counts (limit : nat) (s oldp newp : cstr) (global : bool) (made : Z) :
  exists (k : nat) (s' : cstr),
    replace_loop limit [] s oldp newp global made = (made + Z.of_nat k, s', []) /\
    substitute_times k s oldp newp = Some s' /\
    (k <= limit)%nat /\
    (substitute s' oldp newp = None \/ k = limit \/ (global = false /\ k = 1%nat)).
Proof.
  revert s made. induction limit as [|limit IH]; intros s made.
  - exists 0%nat, s. simpl. repeat split; auto. f_equal. f_equal. lia.
  - simpl. unfold substitute at 1.
    destruct (strstr s oldp) as [found|] eqn:E; simpl.
    + destruct (_ >=? LINE_LEN) eqn:G.
      * exists 0%nat, s. simpl. repeat split; try lia.
        -- f_equal. f_equal. lia.
        -- left. unfold substitute. rewrite E. simpl. rewrite G. reflexivity.
      * destruct global; simpl.
        -- destruct (IH (take found s ++ newp ++ drop (found + length oldp) s) (made + 1))
             as (k & s' & Hrun & Hiter & Hk & Hstop).
           exists (S k), s'. repeat split.
           ++ rewrite Hrun. f_equal. f_equal. lia.
           ++ simpl. unfold substitute at 1. rewrite E. simpl. rewrite G. exact Hiter.
           ++ lia.
           ++ destruct Hstop as [H|[H|[H _]]]; [left; exact H | right; left; lia | discriminate].
        -- exists 1%nat, (take found s ++ newp ++ drop (found + length oldp) s).
           repeat split.
           ++ simpl. unfold substitute. rewrite E. simpl. rewrite G. reflexivity.
           ++ lia.
           ++ right. right. split; reflexivity.
    + exists 0%nat, s. simpl. repeat split; try lia.
      * f_equal. f_equal. lia.
      * left. unfold substitute. rewrite E. reflexivity.
Qed.

(** What [replace_in_line] does, allocations succeeding: the returned
    count is the number of substitutions carried out on the line, each
    of them let through by the guard, at most one when not global and at
    most 1024 otherwise. *)
Lemma replace_in_line_counts (s oldp newp : cstr) (global : bool) :
  exists (k : nat) (s' : cstr),
    replace_in_line [] s oldp newp global = (Z.of_nat k, s', []) /\
    substitute_times k s oldp newp = Some s' /\
    (k <= 1024)%nat /\ (global = false -> (k <= 1)%nat).
Proof.
  unfold replace_in_line. destruct (strlen oldp =? 0) eqn:E.
  - exists 0%nat, s. repeat split; auto; lia.
  - destruct (replace_loop_counts 1024 s oldp newp global 0)
      as (k & s' & Hrun & Hiter & Hk & Hstop).
    exists k, s'. repeat split; auto.
    intros Hg. subst global.
    destruct k as [|[|k]]; try lia.
    exfalso. clear Hstop Hk.
    simpl in Hrun. destruct (strstr s oldp) as [found|]; simpl in Hrun.
    + destruct (_ >=? LINE_LEN) in Hrun; inversion Hrun; lia.
    + inversion Hrun; lia.
Qed.

(** ** Insert: the start position *)




(** ** Capacity *)

(** C6: [make_room] returns 0 and leaves the state as it is whenever
    [line_count + count] would exceed [MAX_LINES]; and on a document of
    [MAX_LINES] lines [cmd_insert], given a line to insert, reports
    "! out of space" and leaves every slot of [lines] and [line_count]
    untouched. *)
Theorem capacity_boundary (e0 : editor) (pos count : Z)
        (e : editor) (w : world) (n : Z) (buf rest : list ascii) :
  line_count e0 <= MAX_LINES ->
  MAX_LINES < line_count e0 + count ->
  line_count e = MAX_LINES ->
  fgets LINE_LEN (stdin w) = Some (buf, rest) ->
  streq (chomp buf) (lit ".") = false ->
  make_room e0 pos count = Some (false, e0) /\
  exists e' w',
    cmd_insert e w n = Some (e', w') /\
    lines e' = lines e /\ line_count e' = MAX_LINES /\
    exists printed, stdout w' = printed ++ lit "! out of space" ++ [LF].
Proof.
  intros H0 Hover Hfull Hgets Hdot. split.
  - unfold make_room.
    destruct (count <=? 0) eqn:C; [lia|].
    destruct (line_count e0 + count >? MAX_LINES) eqn:G; [reflexivity|lia].
  - unfold cmd_insert. cbn [insert_loop]. cbn [print with_stdout stdin].
    rewrite Hgets. cbn zeta. rewrite Hdot.
    unfold make_room. cbn [Z.leb Z.compare].
    rewrite Hfull. cbn [Z.add MAX_LINES Z.gtb Z.compare Pos.add Pos.succ Pos.compare Pos.compare_cont].
    simpl.
    eexists _, _. split; [reflexivity|]. simpl. repeat split; auto.
    eexists. reflexivity.
Qed.

Lemma capacity_boundary_witness :
  let e := editor_of (replicate 1200 (lit "a")) in
  let w := typing (lit "one more" ++ [LF]) in
  line_count e <= MAX_LINES /\
  MAX_LINES < line_count e + 1 /\
  line_count e = MAX_LINES /\
  fgets LINE_LEN (stdin w) = Some (lit "one more" ++ [LF], []) /\
  streq (chomp (lit "one more" ++ [LF])) (lit ".") = false /\
  (make_room e 5 1 = Some (false, e) /\
   exists e' w',
     cmd_insert e w 1201 = Some (e', w') /\
     lines e' = lines e /\ line_count e' = MAX_LINES /\
     exists printed, stdout w' = printed ++ lit "! out of space" ++ [LF]).
Proof.
  cbv zeta.
  assert (Hlc : line_count (editor_of (replicate 1200 (lit "a"))) = MAX_LINES)
    by (vm_compute; reflexivity).
  assert (Hg : fgets LINE_LEN (stdin (typing (lit "one more" ++ [LF])))
               = Some (lit "one more" ++ [LF], [])) by (vm_compute; reflexivity).
  assert (Hd : streq (chomp (lit "one more" ++ [LF])) (lit ".") = false)
    by (vm_compute; reflexivity).
  split; [rewrite Hlc; reflexivity|].
  split; [rewrite Hlc; reflexivity|].
  split; [exact Hlc|]. split; [exact Hg|]. split; [exact Hd|].
  apply (capacity_boundary (editor_of (replicate 1200 (lit "a"))) 5 1
                           (editor_of (replicate 1200 (lit "a")))
                           (typing (lit "one more" ++ [LF])) 1201
                           (lit "one more" ++ [LF]) []); try assumption.
  - rewrite Hlc. vm_compute. discriminate.
  - rewrite Hlc. reflexivity.
Defined.

(** ** The array [lines] *)

Lemma aget_Some_range (l : list (option cstr)) (i : Z) (v : option cstr) :
  aget l i = Some v -> 0 <= i < Z.of_nat (length l).
Proof.
  unfold aget. destruct (i <? 0) eqn:E; [discriminate|].
  intros H. apply lookup_lt_Some in H. lia.
Qed.

Lemma aget_in_range (l : list (option cstr)) (i : Z) :
  0 <= i < Z.of_nat (length l) -> exists v, aget l i = Some v.
Proof.
  intros H. unfold aget. destruct (i <? 0) eqn:E; [lia|].
  destruct (lookup_lt_is_Some_2 l (Z.to_nat i)) as [v Hv]; [lia|]. eauto.
Qed.

Lemma aset_in_range (l : list (option cstr)) (i : Z) (v : option cstr) :
  0 <= i < Z.of_nat (length l) -> aset l i v = Some (<[Z.to_nat i := v]> l).
Proof.
  intros H. unfold aset.
  destruct (0 <=? i) eqn:A; [|lia]. destruct (i <? Z.of_nat (length l)) eqn:B; [|lia].
  reflexivity.
Qed.

Lemma aset_Some (l l' : list (option cstr)) (i : Z) (v : option cstr) :
  aset l i v = Some l' ->
  0 <= i < Z.of_nat (length l) /\ l' = <[Z.to_nat i := v]> l /\ length l' = length l.
Proof.
  unfold aset. destruct (0 <=? i) eqn:A; simpl; [|discriminate].
  destruct (i <? Z.of_nat (length l)) eqn:B; [|discriminate].
  intros H; inversion H; subst. rewrite length_insert. repeat split; lia.
Qed.

Lemma aget_aset_eq (l l' : list (option cstr)) (i : Z) (v : option cstr) :
  aset l i v = Some l' -> aget l' i = Some v.
Proof.
  intros H. apply aset_Some in H as (Hr & -> & _).
  unfold aget. destruct (i <? 0) eqn:E; [lia|].
  apply list_lookup_insert_eq. lia.
Qed.

Lemma aget_aset_ne (l l' : list (option cstr)) (i j : Z) (v : option cstr) :
  aset l i v = Some l' -> j <> i -> aget l' j = aget l j.
Proof.
  intros H Hne. apply aset_Some in H as (Hr & -> & _).
  unfold aget. destruct (j <? 0) eqn:E; [reflexivity|].
  apply list_lookup_insert_ne. lia.
Qed.

(** Two arrays that agree on the first [n] slots show the same document. *)
Lemma take_ext (l l' : list (option cstr)) (n : Z) :
  length l = length l' ->
  (forall j, 0 <= j < n -> aget l' j = aget l j) ->
  take (Z.to_nat n) l' = take (Z.to_nat n) l.
Proof.
  intros Hlen H. apply list_eq. intros i.
  destruct (decide (i < Z.to_nat n)%nat) as [Hi|Hi].
  - rewrite !lookup_take_lt by exact Hi.
    specialize (H (Z.of_nat i)). unfold aget in H.
    destruct (Z.of_nat i <? 0) eqn:E; [lia|].
    rewrite Nat2Z.id in H. apply H. lia.
  - rewrite !lookup_take_ge by lia. reflexivity.
Qed.

(** The loop of [close_gap]: slots [i, i + n) receive the contents of
    the slots [count] further up, all others keep theirs. *)
Lemma shift_down_spec (n : nat) (i count : Z) (l : list (option cstr)) :
  0 <= i -> 0 < count -> i + Z.of_nat n + count <= Z.of_nat (length l) ->
  exists l',
    shift_down n i count l = Some l' /\ length l' = length l /\
    (forall j, i <= j < i + Z.of_nat n -> aget l' j = aget l (j + count)) /\
    (forall j, ~ (i <= j < i + Z.of_nat n) -> aget l' j = aget l j).
Proof.
  revert i l. induction n as [|n IH]; intros i l Hi Hc Hlen.
  - exists l. simpl. repeat split; auto. intros j Hj. lia.
  - cbn [shift_down].
    destruct (aget_in_range l (i + count)) as [v Hv]; [lia|]. rewrite Hv. simpl.
    rewrite aset_in_range by lia. simpl.
    assert (Hset : aset l i v = Some (<[Z.to_nat i := v]> l)) by (apply aset_in_range; lia).
    destruct (IH (i + 1) (<[Z.to_nat i := v]> l)) as (l' & Hrun & Hl' & Hin & Hout);
      [lia | lia | rewrite length_insert; lia |].
    exists l'. rewrite Hrun. split; [reflexivity|]. split; [rewrite Hl'; apply length_insert|].
    split.
    + intros j Hj. destruct (Z.eq_dec j i) as [->|Hne].
      * rewrite Hout by lia. rewrite (aget_aset_eq _ _ _ _ Hset). symmetry. exact Hv.
      * rewrite Hin by lia. apply (aget_aset_ne _ _ _ _ _ Hset). lia.
    + intros j Hj. rewrite Hout by lia. apply (aget_aset_ne _ _ _ _ _ Hset). lia.
Qed.

(** The loop of [make_room]: counting down from [i], the [n] slots
    [(i - n, i]] are copied [count] slots up, all other slots keep their
    contents. *)
Lemma shift_up_spec (n : nat) (i count : Z) (l : list (option cstr)) :
  0 <= i - Z.of_nat n + 1 -> 0 < count -> i + count < Z.of_nat (length l) ->
  exists l',
    shift_up n i count l = Some l' /\ length l' = length l /\
    (forall j, i - Z.of_nat n + count < j <= i + count -> aget l' j = aget l (j - count)) /\
    (forall j, ~ (i - Z.of_nat n + count < j <= i + count) -> aget l' j = aget l j).
Proof.
  revert i l. induction n as [|n IH]; intros i l Hi Hc Hlen.
  - exists l. simpl. repeat split; auto. intros j Hj. lia.
  - cbn [shift_up].
    destruct (aget_in_range l i) as [v Hv]; [lia|]. rewrite Hv. simpl.
    rewrite aset_in_range by lia. simpl.
    assert (Hset : aset l (i + count) v = Some (<[Z.to_nat (i + count) := v]> l))
      by (apply aset_in_range; lia).
    destruct (IH (i - 1) (<[Z.to_nat (i + count) := v]> l)) as (l' & Hrun & Hl' & Hin & Hout);
      [lia | lia | rewrite length_insert; lia |].
    exists l'. rewrite Hrun. split; [reflexivity|]. split; [rewrite Hl'; apply length_insert|].
    split.
    + intros j Hj. destruct (Z.eq_dec j (i + count)) as [->|Hne].
      * rewrite Hout by lia. rewrite (aget_aset_eq _ _ _ _ Hset).
        replace (i + count - count) with i by lia. symmetry. exact Hv.
      * rewrite Hin by lia. apply (aget_aset_ne _ _ _ _ _ Hset). lia.
    + intros j Hj. rewrite Hout by lia. apply (aget_aset_ne _ _ _ _ _ Hset). lia.
Qed.

(** [make_room] on a well-formed store, for a position inside the
    document: the flag tells whether there was room; if so the lines from
    [pos] on have moved [count] slots up and [line_count] has grown. *)
Lemma make_room_spec (e : editor) (pos count : Z) :
  store_wf e -> 0 <= pos <= line_count e -> 0 < count ->
  line_count e + count <= MAX_LINES ->
  exists l',
    make_room e pos count
    = Some (true, with_line_count (line_count e + count) (with_lines l' e)) /\
    length l' = length (lines e) /\
    (forall j, pos + count <= j < line_count e + count ->
               aget l' j = aget (lines e) (j - count)) /\
    (forall j, ~ (pos + count <= j < line_count e + count) ->
               aget l' j = aget (lines e) j).
Proof.
  intros [Hlen Hlc] Hpos Hc Hroom. unfold make_room.
  destruct (count <=? 0) eqn:C; [lia|].
  destruct (line_count e + count >? MAX_LINES) eqn:G; [lia|].
  destruct (shift_up_spec (Z.to_nat (line_count e - pos)) (line_count e - 1) count (lines e))
    as (l' & Hrun & Hl' & Hin & Hout); try lia.
  exists l'. rewrite Hrun. simpl. split; [reflexivity|]. split; [exact Hl'|].
  split.
  - intros j Hj. apply Hin. lia.
  - intros j Hj. apply Hout. lia.
Qed.

(** [close_gap] on a well-formed store, for a gap inside the document. *)
Lemma close_gap_spec (e : editor) (start count : Z) :
  store_wf e -> 0 <= start -> 0 < count -> start + count <= line_count e ->
  exists l',
    close_gap e start count
    = Some (with_line_count (line_count e - count) (with_lines l' e)) /\
    length l' = length (lines e) /\
    (forall j, start <= j < line_count e - count ->
               aget l' j = aget (lines e) (j + count)) /\
    (forall j, ~ (start <= j < line_count e - count) ->
               aget l' j = aget (lines e) j).
Proof.
  intros [Hlen Hlc] Hs Hc Hgap. unfold close_gap.
  destruct (shift_down_spec (Z.to_nat (line_count e - count - start)) start count (lines e))
    as (l' & Hrun & Hl' & Hin & Hout); try lia.
  exists l'. rewrite Hrun. simpl. split; [reflexivity|]. split; [exact Hl'|].
  split.
  - intros j Hj. apply Hin. lia.
  - intros j Hj. apply Hout. lia.
Qed.

(** ** Fullscreen editor: split and join *)

Lemma malloc_succeeds (n : nat) (h : heap) :
  allocs_succeed (S n) h -> exists h', malloc h = (true, h') /\ allocs_succeed n h'.
Proof.
  unfold allocs_succeed, malloc. destruct h as [|ok h]; simpl.
  - intros _. exists []. split; [reflexivity|]. destruct n; constructor.
  - intros H. inversion H; subst. exists h. split; [reflexivity | assumption].
Qed.

Lemma line_at_aget (e : editor) (i : Z) (s : cstr) :
  line_at e i = Some s <-> aget (lines e) i = Some (Some s).
Proof.
  unfold line_at. destruct (aget (lines e) i) as [[t|]|]; simpl; split; intros H;
    inversion H; subst; reflexivity.
Qed.

(** Enter inside the document, with room for one more line: the line
    under the cursor is split at the cursor, the lines below move one
    slot down and the cursor goes to the start of the new line. *)
Lemma insert_newline_splits (e : editor) (w : world) (s : cstr) :
  store_wf e ->
  0 <= cursor_row e < line_count e ->
  line_count e < MAX_LINES ->
  line_at e (cursor_row e) = Some s ->
  0 <= cursor_col e <= strlen s ->
  allocs_succeed 1 (mem w) ->
  exists l' h',
    malloc (mem w) = (true, h') /\
    insert_newline e w
    = Some (with_cursor (cursor_row e + 1) 0
              (with_line_count (line_count e + 1) (with_lines l' e)),
            with_mem h' w) /\
    length l' = length (lines e) /\
    aget l' (cursor_row e) = Some (Some (take (Z.to_nat (cursor_col e)) s)) /\
    aget l' (cursor_row e + 1) = Some (Some (drop (Z.to_nat (cursor_col e)) s)) /\
    (forall j, j < cursor_row e -> aget l' j = aget (lines e) j) /\
    (forall j, cursor_row e + 1 < j <= line_count e -> aget l' j = aget (lines e) (j - 1)).
Proof.
  intros Hwf Hrow Hroom Hline Hcol Hmem.
  destruct (malloc_succeeds 0 (mem w) Hmem) as (h' & Hmalloc & _).
  destruct (make_room_spec e (cursor_row e + 1) 1 Hwf) as (l1 & Hmk & Hl1 & Hmoved & Hkept);
    try lia.
  destruct Hwf as [Hlen Hlc].
  assert (Hs1 : exists l2, aset l1 (cursor_row e) (Some (take (Z.to_nat (cursor_col e)) s))
                           = Some l2) by (rewrite aset_in_range by lia; eauto).
  destruct Hs1 as (l2 & Hs1).
  pose proof (aset_Some _ _ _ _ Hs1) as (_ & _ & Hl2).
  assert (Hs2 : exists l3, aset l2 (cursor_row e + 1) (Some (drop (Z.to_nat (cursor_col e)) s))
                           = Some l3) by (rewrite aset_in_range by lia; eauto).
  destruct Hs2 as (l3 & Hs2).
  pose proof (aset_Some _ _ _ _ Hs2) as (_ & _ & Hl3).
  exists l3, h'. split; [exact Hmalloc|]. split.
  - unfold insert_newline, ensure_line_exists.
    replace (Z.to_nat (cursor_row e + 1 - line_count e)) with 0%nat by lia.
    cbn [ensure_loop mbind option_bind].
    assert (Hw : with_mem (mem w) w = w) by (destruct w; reflexivity).
    rewrite Hw, Hline. cbn [mbind option_bind].
    destruct (cursor_col e >? strlen s) eqn:C; [lia|].
    destruct (line_count e >=? MAX_LINES) eqn:F; [lia|].
    rewrite Hmk. cbn [mbind option_bind negb]. rewrite Hmalloc. cbn [negb].
    cbn [cursor_col with_line_count with_lines cursor_row lines].
    destruct (cursor_col e <? 0) eqn:N; [lia|].
    rewrite Hs1. cbn [mbind option_bind]. rewrite Hs2. cbn [mbind option_bind].
    reflexivity.
  - split; [lia|]. split.
    + rewrite (aget_aset_ne _ _ _ _ _ Hs2) by lia. apply (aget_aset_eq _ _ _ _ Hs1).
    + split; [apply (aget_aset_eq _ _ _ _ Hs2)|]. split.
      * intros j Hj. rewrite (aget_aset_ne _ _ _ _ _ Hs2) by lia.
        rewrite (aget_aset_ne _ _ _ _ _ Hs1) by lia. apply Hkept. lia.
      * intros j Hj. rewrite (aget_aset_ne _ _ _ _ _ Hs2) by lia.
        rewrite (aget_aset_ne _ _ _ _ _ Hs1) by lia. apply Hmoved. lia.
Qed.

(** Backspace at the start of a line that has a line above it, the two
    fitting into one buffer: the line is appended to the one above, the
    lines below move one slot up and the cursor goes to the join. *)
Lemma backspace_joins (e : editor) (w : world) (a b : cstr) :
  store_wf e ->
  cursor_col e = 0 ->
  0 < cursor_row e < line_count e ->
  line_at e (cursor_row e - 1) = Some a ->
  line_at e (cursor_row e) = Some b ->
  strlen a + strlen b < LINE_LEN ->
  allocs_succeed 1 (mem w) ->
  exists e' h',
    malloc (mem w) = (true, h') /\
    backspace_char e w = Some (e', with_mem h' w) /\
    line_count e' = line_count e - 1 /\
    cursor_row e' = cursor_row e - 1 /\ cursor_col e' = strlen a /\
    top_line e' = top_line e /\ current_file e' = current_file e /\
    last_a e' = last_a e /\ last_b e' = last_b e /\
    length (lines e') = length (lines e) /\
    aget (lines e') (cursor_row e - 1) = Some (Some (a ++ b)) /\
    (forall j, j < cursor_row e - 1 -> aget (lines e') j = aget (lines e) j) /\
    (forall j, cursor_row e <= j < line_count e - 1 ->
               aget (lines e') j = aget (lines e) (j + 1)).
Proof.
  intros Hwf Hcol Hrow Ha Hb Hfit Hmem.
  destruct (malloc_succeeds 0 (mem w) Hmem) as (h' & Hmalloc & _).
  pose proof Hwf as [Hlen Hlc].
  assert (Hs1 : exists l1, aset (lines e) (cursor_row e - 1) (Some (a ++ b)) = Some l1)
    by (rewrite aset_in_range by lia; eauto).
  destruct Hs1 as (l1 & Hs1).
  pose proof (aset_Some _ _ _ _ Hs1) as (_ & _ & Hl1).
  assert (Hb1 : aget l1 (cursor_row e) = Some (Some b)).
  { rewrite (aget_aset_ne _ _ _ _ _ Hs1) by lia. apply line_at_aget. exact Hb. }
  set (e1 := with_lines (<[Z.to_nat (cursor_row e) := None]> l1)
               (with_cursor (cursor_row e - 1) (strlen a) e)).
  assert (Hwf1 : store_wf e1).
  { split; simpl; [rewrite length_insert; lia | lia]. }
  assert (Hnull : aset l1 (cursor_row e) None
                  = Some (<[Z.to_nat (cursor_row e) := None]> l1))
    by (apply aset_in_range; lia).
  destruct (close_gap_spec e1 (cursor_row e) 1 Hwf1) as (l2 & Hcg & Hl2 & Hmoved & Hkept);
    try (simpl; lia).
  eexists _, h'. split; [exact Hmalloc|]. split.
  - unfold backspace_char.
    destruct (cursor_col e >? 0) eqn:C; [lia|].
    destruct (cursor_row e >? 0) eqn:R; [|lia].
    rewrite Ha. cbn [mbind option_bind].
    unfold delete_char. cbn [cursor_row cursor_col with_cursor line_count].
    destruct (cursor_row e - 1 >=? line_count e) eqn:G; [lia|].
    change (line_at (with_cursor (cursor_row e - 1) (strlen a) e)) with (line_at e).
    rewrite Ha. cbn [mbind option_bind].
    destruct (strlen a >=? strlen a) eqn:L; [|lia].
    replace (cursor_row e - 1 + 1) with (cursor_row e) by lia.
    destruct (cursor_row e <? line_count e) eqn:N; [|lia].
    rewrite Hb. cbn [mbind option_bind].
    destruct (strlen a + strlen b <? LINE_LEN) eqn:F; [|lia].
    rewrite Hmalloc. cbn [lines with_cursor]. rewrite Hs1. cbn [mbind option_bind].
    unfold free_line. cbn [line_count lines with_lines with_cursor].
    destruct ((0 <=? cursor_row e) && (cursor_row e <? line_count e)) eqn:B; [|lia].
    rewrite Hb1.
    change (with_lines (<[Z.to_nat (cursor_row e) := None]> l1)
              (with_lines l1 (with_cursor (cursor_row e - 1) (strlen a) e))) with e1.
    rewrite Hcg. reflexivity.
  - cbn [line_count cursor_row cursor_col top_line current_file last_a last_b lines
         with_line_count with_lines with_cursor e1].
    repeat (split; [first [reflexivity | lia]|]).
    split; [rewrite Hl2; simpl; rewrite length_insert; lia|].
    split.
    + rewrite Hkept by (simpl; lia). simpl.
      rewrite (aget_aset_ne _ _ _ _ _ Hnull) by lia. apply (aget_aset_eq _ _ _ _ Hs1).
    + split.
      * intros j Hj. rewrite Hkept by (simpl; lia). simpl.
        rewrite (aget_aset_ne _ _ _ _ _ Hnull) by lia.
        apply (aget_aset_ne _ _ _ _ _ Hs1). lia.
      * intros j Hj. rewrite Hmoved by (simpl; lia). simpl.
        rewrite (aget_aset_ne _ _ _ _ _ Hnull) by lia.
        apply (aget_aset_ne _ _ _ _ _ Hs1). lia.
Qed.

Lemma scroll_down_keeps (e : editor) :
  lines (scroll_down e) = lines e /\ line_count (scroll_down e) = line_count e /\
  cursor_row (scroll_down e) = cursor_row e /\ cursor_col (scroll_down e) = cursor_col e.
Proof. unfold scroll_down. destruct (_ >=? _); repeat split; reflexivity. Qed.

Lemma scroll_up_keeps (e : editor) :
  lines (scroll_up e) = lines e /\ line_count (scroll_up e) = line_count e /\
  cursor_row (scroll_up e) = cursor_row e /\ cursor_col (scroll_up e) = cursor_col e.
Proof. unfold scroll_up. destruct (_ <? _); repeat split; reflexivity. Qed.

(** C7: with the cursor at column [c] of a line [s] of the document,
    room for one more line and the two allocations succeeding, the Enter
    key splits the line into [take c s] and [drop c s] with the cursor at
    the start of the new line, and the Backspace key pressed there
    restores the whole document, [line_count] and the cursor [(row, c)]. *)
Theorem enter_then_backspace (e : editor) (w : world) (s : cstr) :
  store_wf e ->
  0 <= cursor_row e < line_count e ->
  line_count e < MAX_LINES ->
  line_at e (cursor_row e) = Some s ->
  0 <= cursor_col e <= strlen s ->
  strlen s <= LINE_LEN - 1 ->
  allocs_succeed 2 (mem w) ->
  exists e1 w1 e2 w2,
    key_step e w 13 = Some (true, e1, w1) /\
    cursor_row e1 = cursor_row e + 1 /\ cursor_col e1 = 0 /\
    line_count e1 = line_count e + 1 /\
    line_at e1 (cursor_row e) = Some (take (Z.to_nat (cursor_col e)) s) /\
    line_at e1 (cursor_row e + 1) = Some (drop (Z.to_nat (cursor_col e)) s) /\
    key_step e1 w1 8 = Some (true, e2, w2) /\
    document e2 = document e /\
    line_count e2 = line_count e /\
    line_at e2 (cursor_row e) = Some s /\
    cursor_row e2 = cursor_row e /\ cursor_col e2 = cursor_col e.
Proof.
  intros Hwf Hrow Hroom Hline Hcol Hlen Hmem.
  assert (Hmem1 : allocs_succeed 1 (mem w)).
  { unfold allocs_succeed in *. destruct (mem w) as [|x [|y h]]; simpl in *;
      inversion Hmem; subst; repeat constructor; auto. }
  destruct (insert_newline_splits e w s Hwf Hrow Hroom Hline Hcol Hmem1)
    as (l1 & h1 & Hmalloc & Hnl & Hl1 & Hhead & Htail & Hbelow & Habove).
  assert (Hmem2 : allocs_succeed 1 h1).
  { destruct (malloc_succeeds 1 (mem w) Hmem) as (h & Hm & Hok). congruence. }
  set (e1 := scroll_down (with_cursor (cursor_row e + 1) 0
                (with_line_count (line_count e + 1) (with_lines l1 e)))).
  destruct (scroll_down_keeps (with_cursor (cursor_row e + 1) 0
                (with_line_count (line_count e + 1) (with_lines l1 e))))
    as (Hk1 & Hk2 & Hk3 & Hk4). fold e1 in Hk1, Hk2, Hk3, Hk4. simpl in Hk1, Hk2, Hk3, Hk4.
  pose proof Hwf as [Hlines Hlc].
  assert (Hwf1 : store_wf e1) by (split; [rewrite Hk1; lia | rewrite Hk2; lia]).
  assert (Hsplit : strlen (take (Z.to_nat (cursor_col e)) s)
                   + strlen (drop (Z.to_nat (cursor_col e)) s) = strlen s).
  { rewrite <- strlen_app, take_drop. reflexivity. }
  assert (Hrow1 : cursor_row e1 - 1 = cursor_row e) by lia.
  destruct (backspace_joins e1 (with_mem h1 w)
              (take (Z.to_nat (cursor_col e)) s) (drop (Z.to_nat (cursor_col e)) s))
    as (e2 & h2 & _ & Hbs & Hc2 & Hr2 & Hcol2 & _ & _ & _ & _ & Hl2 & Hjoin & Hlow & Hup);
    try assumption; try lia.
  { rewrite Hrow1. apply line_at_aget. rewrite Hk1. exact Hhead. }
  { rewrite Hk3. apply line_at_aget. rewrite Hk1. exact Htail. }
  rewrite Hrow1, take_drop in Hjoin. rewrite Hrow1 in Hlow.
  rewrite Hk3, Hk2 in Hup. rewrite Hk1 in Hup, Hlow, Hl2.
  destruct (scroll_up_keeps e2) as (Hu1 & Hu2 & Hu3 & Hu4).
  exists e1, (with_mem h1 w), (scroll_up e2), (with_mem h2 (with_mem h1 w)).
  split; [unfold key_step; simpl; rewrite Hnl; reflexivity|].
  split; [exact Hk3|]. split; [exact Hk4|]. split; [exact Hk2|].
  split; [apply line_at_aget; rewrite Hk1; exact Hhead|].
  split; [apply line_at_aget; rewrite Hk1; exact Htail|].
  split; [unfold key_step; simpl; rewrite Hbs; reflexivity|].
  split.
  - unfold document. rewrite Hu1, Hu2, Hc2, Hk2.
    replace (line_count e + 1 - 1) with (line_count e) by lia.
    apply take_ext; [lia|].
    intros j Hj.
    destruct (Z.lt_trichotomy j (cursor_row e)) as [Hlt|[->|Hgt]].
    + rewrite Hlow by lia. apply Hbelow. lia.
    + rewrite Hjoin. symmetry. apply line_at_aget. exact Hline.
    + rewrite Hup by lia. rewrite Habove by lia. f_equal. lia.
  - split; [rewrite Hu2, Hc2, Hk2; lia|].
    split; [apply line_at_aget; rewrite Hu1; exact Hjoin|].
    split; [rewrite Hu3, Hr2; lia|].
    rewrite Hu4, Hcol2. unfold strlen. rewrite length_take.
    unfold strlen in Hcol. lia.
Qed.

Lemma enter_then_backspace_witness :
  let e := with_cursor 0 3 (editor_of [lit "abcdef"; lit "next"]) in
  let w := typing [] in
  store_wf e /\
  0 <= cursor_row e < line_count e /\
  line_count e < MAX_LINES /\
  line_at e (cursor_row e) = Some (lit "abcdef") /\
  0 <= cursor_col e <= strlen (lit "abcdef") /\
  strlen (lit "abcdef") <= LINE_LEN - 1 /\
  allocs_succeed 2 (mem w) /\
  exists e1 w1 e2 w2,
    key_step e w 13 = Some (true, e1, w1) /\
    cursor_row e1 = cursor_row e + 1 /\ cursor_col e1 = 0 /\
    line_count e1 = line_count e + 1 /\
    line_at e1 (cursor_row e) = Some (take (Z.to_nat (cursor_col e)) (lit "abcdef")) /\
    line_at e1 (cursor_row e + 1) = Some (drop (Z.to_nat (cursor_col e)) (lit "abcdef")) /\
    key_step e1 w1 8 = Some (true, e2, w2) /\
    document e2 = document e /\
    line_count e2 = line_count e /\
    line_at e2 (cursor_row e) = Some (lit "abcdef") /\
    cursor_row e2 = cursor_row e /\ cursor_col e2 = cursor_col e.
Proof.
  cbv zeta.
  assert (Hwf : store_wf (with_cursor 0 3 (editor_of [lit "abcdef"; lit "next"])))
    by (split; vm_compute; [reflexivity | split; discriminate]).
  assert (Hrow : 0 <= cursor_row (with_cursor 0 3 (editor_of [lit "abcdef"; lit "next"]))
                 < line_count (with_cursor 0 3 (editor_of [lit "abcdef"; lit "next"])))
    by (vm_compute; split; [discriminate | reflexivity]).
  assert (Hroom : line_count (with_cursor 0 3 (editor_of [lit "abcdef"; lit "next"])) < MAX_LINES)
    by (vm_compute; reflexivity).
  assert (Hline : line_at (with_cursor 0 3 (editor_of [lit "abcdef"; lit "next"]))
                    (cursor_row (with_cursor 0 3 (editor_of [lit "abcdef"; lit "next"])))
                  = Some (lit "abcdef")) by (vm_compute; reflexivity).
  assert (Hcol : 0 <= cursor_col (with_cursor 0 3 (editor_of [lit "abcdef"; lit "next"]))
                 <= strlen (lit "abcdef")) by (vm_compute; split; discriminate).
  assert (Hlen : strlen (lit "abcdef") <= LINE_LEN - 1) by (vm_compute; discriminate).
  assert (Hmem : allocs_succeed 2 (mem (typing []))) by constructor.
  repeat (split; [assumption|]).
  exact (enter_then_backspace _ _ _ Hwf Hrow Hroom Hline Hcol Hlen Hmem).
Defined.

(** On a full document the Enter key changes nothing but, at most, the
    column, which it clamps to the length of the line. *)
Lemma insert_newline_full (e : editor) (w : world) (s : cstr) :
  line_count e = MAX_LINES ->
  0 <= cursor_row e < line_count e ->
  line_at e (cursor_row e) = Some s ->
  cursor_col e <= strlen s ->
  insert_newline e w = Some (e, w).
Proof.
  intros Hfull Hrow Hline Hcol. unfold insert_newline, ensure_line_exists.
  replace (Z.to_nat (cursor_row e + 1 - line_count e)) with 0%nat by lia.
  cbn [ensure_loop mbind option_bind].
  assert (Hw : with_mem (mem w) w = w) by (destruct w; reflexivity).
  rewrite Hw, Hline. cbn [mbind option_bind].
  destruct (cursor_col e >? strlen s) eqn:C; [lia|].
  destruct (line_count e >=? MAX_LINES) eqn:F; [reflexivity|lia].
Qed.

(** ** File adapter: loading and saving *)

(** C2, the claim as stated fails.  A file of 1201 one-character lines
    is cut to its first [MAX_LINES] lines: [load_file] stops, returning 0,
    when the store is full, and saving writes 1200 lines.  And a file of
    one LF-terminated line of 255 characters is loaded as two lines, the
    255 characters and an empty line, because [fgets] stops before the
    line feed; saving writes a second line feed. *)
Lemma round_trip_fails :
  (let F := file_of_lines [LF] (replicate 1201 (lit "a")) in
   load_then_save initial (World [] [] [] [(lit "f", F)] [] []) (lit "f") (lit "g")
   = Some (false, true, Some (file_of_lines [LF] (replicate 1200 (lit "a")))) /\
   file_of_lines [LF] (replicate 1200 (lit "a")) <> F) /\
  (let F := replicate 255 "a"%char ++ [LF] in
   F = file_of_lines [LF] [replicate 255 "a"%char] /\
   load_then_save initial (World [] [] [] [(lit "f", F)] [] []) (lit "f") (lit "g")
   = Some (true, true, Some (replicate 255 "a"%char ++ [LF; LF])) /\
   replicate 255 "a"%char ++ [LF; LF] <> F).
Proof.
  split; cbv zeta.
  - split; [vm_compute; reflexivity|].
    intros H. apply (f_equal length) in H. vm_compute in H. discriminate.
  - split; [reflexivity|]. split; [vm_compute; reflexivity|].
    intros H. apply (f_equal length) in H. vm_compute in H. discriminate.
Qed.

(** A NUL character ends the line in the buffer: what follows it on the
    line is lost. *)
Lemma round_trip_drops_after_nul :
  let F := lit "a" ++ [NUL] ++ lit "b" ++ [LF] in
  load_then_save initial (World [] [] [] [(lit "f", F)] [] []) (lit "f") (lit "g")
  = Some (true, true, Some (lit "a" ++ [LF])).
Proof. vm_compute. reflexivity. Qed.

Lemma streq_refl (a : cstr) : streq a a = true.
Proof.
  induction a as [|c a IH]; simpl; [reflexivity|].
  rewrite IH. rewrite Ascii.eqb_refl. reflexivity.
Qed.

Lemma fopen_read_store (name : cstr) (text : list ascii) (d : list (cstr * list ascii)) :
  fopen_read (store_file name text d) name = Some text.
Proof. unfold fopen_read, store_file. simpl. rewrite streq_refl. reflexivity. Qed.

Lemma fgets_chars_line (n : nat) (body rest : list ascii) :
  Forall (fun c => c <> LF) body -> (length body < n)%nat ->
  fgets_chars n (body ++ LF :: rest) = (body ++ [LF], rest).
Proof.
  revert n. induction body as [|c body IH]; intros n Hb Hn.
  - destruct n; [lia|]. reflexivity.
  - destruct n; [simpl in Hn; lia|]. simpl.
    inversion Hb; subst.
    destruct (Ascii.eqb c LF) eqn:E; [apply Ascii.eqb_eq in E; contradiction|].
    rewrite IH; [reflexivity | assumption | simpl in Hn; lia].
Qed.

Lemma c_str_no_nul (s : list ascii) :
  Forall (fun c => c <> NUL) s -> c_str s = s.
Proof.
  induction 1 as [|c s Hc _ IH]; simpl; [reflexivity|].
  destruct (Ascii.eqb c NUL) eqn:E; [apply Ascii.eqb_eq in E; contradiction|].
  rewrite IH. reflexivity.
Qed.

Lemma ends_in_snoc (cs : list ascii) (s : cstr) (c : ascii) :
  ends_in cs (s ++ [c]) = existsb (Ascii.eqb c) cs.
Proof.
  unfold ends_in.
  replace (length (s ++ [c]) - 1)%nat with (length s)
    by (rewrite length_app; simpl; lia).
  rewrite list_lookup_middle by reflexivity. reflexivity.
Qed.

Lemma drop_last_snoc (s : cstr) (c : ascii) :
  take (length (s ++ [c]) - 1) (s ++ [c]) = s.
Proof.
  replace (length (s ++ [c]) - 1)%nat with (length s)
    by (rewrite length_app; simpl; lia).
  rewrite take_app_length. reflexivity.
Qed.

Lemma chomp_lf (l : cstr) : ends_in [CR] l = false -> chomp (l ++ [LF]) = l.
Proof.
  intros H. unfold chomp. rewrite ends_in_snoc. simpl.
  rewrite drop_last_snoc. rewrite H. reflexivity.
Qed.

Lemma chomp_crlf (l : cstr) : chomp (l ++ [CR; LF]) = l.
Proof.
  unfold chomp. change (l ++ [CR; LF]) with (l ++ [CR] ++ [LF]).
  rewrite app_assoc. rewrite ends_in_snoc. simpl.
  rewrite drop_last_snoc. rewrite ends_in_snoc. simpl.
  rewrite drop_last_snoc. reflexivity.
Qed.

Lemma fgets_line (size : Z) (body rest : list ascii) :
  Forall (fun c => c <> LF) body -> Forall (fun c => c <> NUL) body ->
  Z.of_nat (length body) < size - 1 ->
  fgets size (body ++ LF :: rest) = Some (body ++ [LF], rest).
Proof.
  intros Hlf Hnul Hlen. unfold fgets.
  rewrite fgets_chars_line by (auto; lia).
  rewrite c_str_no_nul.
  - destruct body; reflexivity.
  - apply Forall_app. split; [assumption|]. repeat constructor. discriminate.
Qed.

(** [fgets] followed by [chomp] on a plain line gives the line back. *)
Lemma fgets_plain_line (eol : list ascii) (l : cstr) (rest : list ascii) :
  eol = [LF] \/ eol = [CR; LF] ->
  plain_line eol l ->
  exists buf, fgets LINE_LEN ((l ++ eol) ++ rest) = Some (buf, rest) /\ chomp buf = l.
Proof.
  intros Heol (Hchars & Hlen & Hcr).
  assert (Hnolf : Forall (fun c => c <> LF) l)
    by (eapply Forall_impl; [|exact Hchars]; intros c [_ H]; exact H).
  assert (Hnonul : Forall (fun c => c <> NUL) l)
    by (eapply Forall_impl; [|exact Hchars]; intros c [H _]; exact H).
  unfold strlen in Hlen.
  destruct Heol as [-> | ->].
  - exists (l ++ [LF]). split; [|apply chomp_lf; auto].
    rewrite <- app_assoc. apply fgets_line; auto. simpl in Hlen. lia.
  - exists (l ++ [CR; LF]). split; [|apply chomp_crlf].
    rewrite <- app_assoc.
    change (l ++ [CR; LF] ++ rest) with (l ++ [CR] ++ LF :: rest).
    rewrite app_assoc. rewrite fgets_line.
    + rewrite <- app_assoc. reflexivity.
    + apply Forall_app. split; [assumption|]. repeat constructor. discriminate.
    + apply Forall_app. split; [assumption|]. repeat constructor. discriminate.
    + rewrite length_app. simpl in *. lia.
Qed.

Lemma lookup_map_list {A B : Type} (f : A -> B) (l : list A) (i : nat) :
  map f l !! i = f <$> (l !! i).
Proof.
  revert i. induction l as [|x l IH]; intros [|i]; simpl; auto.
Qed.

(** The loop of [load_file] on a file of plain lines: one line is stored
    per round, behind the lines already counted. *)
Lemma load_loop_lines (eol : list ascii) (ls : list cstr) :
  eol = [LF] \/ eol = [CR; LF] ->
  Forall (plain_line eol) ls ->
  forall (fuel : nat) (h : heap) (e : editor),
    Z.of_nat (length (lines e)) = MAX_LINES ->
    0 <= line_count e ->
    line_count e + Z.of_nat (length ls) < MAX_LINES ->
    (length ls <= fuel)%nat ->
    allocs_succeed (length ls) h ->
    exists e' h',
      load_loop fuel h (file_of_lines eol ls) e = Some (true, e', h') /\
      line_count e' = line_count e + Z.of_nat (length ls) /\
      length (lines e') = length (lines e) /\
      (forall j, 0 <= j < line_count e -> aget (lines e') j = aget (lines e) j) /\
      (forall (i : nat) (l : cstr),
          ls !! i = Some l -> aget (lines e') (line_count e + Z.of_nat i) = Some (Some l)).
Proof.
  intros Heol Hplain. induction Hplain as [|l ls Hl Hls IH];
    intros fuel h e Hlen Hlc Hroom Hfuel Hmem.
  - exists e, h. split; [destruct fuel; reflexivity|].
    simpl. repeat split; auto; try lia. intros i l H. rewrite lookup_nil in H. discriminate.
  - destruct fuel as [|fuel]; [simpl in Hfuel; lia|].
    destruct (fgets_plain_line eol l (file_of_lines eol ls) Heol Hl) as (buf & Hgets & Hchomp).
    destruct (malloc_succeeds _ _ Hmem) as (h1 & Hmalloc & Hmem1).
    simpl length in Hroom.
    assert (Hset : aset (lines e) (line_count e) (Some l)
                   = Some (<[Z.to_nat (line_count e) := Some l]> (lines e)))
      by (apply aset_in_range; lia).
    set (e2 := with_line_count (line_count e + 1)
                 (with_lines (<[Z.to_nat (line_count e) := Some l]> (lines e)) e)).
    destruct (IH fuel h1 e2) as (e' & h' & Hrun & Hcount & Hlines & Hold & Hnew).
    { simpl. rewrite length_insert. exact Hlen. }
    { simpl. lia. }
    { simpl. lia. }
    { simpl in Hfuel. lia. }
    { exact Hmem1. }
    exists e', h'. split.
    + cbn [load_loop]. unfold file_of_lines. cbn [map concat].
      fold (file_of_lines eol ls).
      rewrite Hgets. rewrite Hchomp. unfold xstrdup. rewrite Hmalloc.
      rewrite Hset. cbn [mbind option_bind line_count with_line_count with_lines].
      destruct (line_count e + 1 >=? MAX_LINES) eqn:F; [lia|].
      exact Hrun.
    + simpl in Hcount, Hlines, Hold, Hnew. rewrite length_insert in Hlines.
      split; [simpl length; lia|]. split; [exact Hlines|]. split.
      * intros j Hj. rewrite Hold by lia. apply (aget_aset_ne _ _ _ _ _ Hset). lia.
      * intros [|i] l0 Hi; simpl in Hi.
        -- inversion Hi; subst l0. rewrite Z.add_0_r.
           rewrite Hold by lia. apply (aget_aset_eq _ _ _ _ Hset).
        -- specialize (Hnew i l0 Hi).
           replace (line_count e + Z.of_nat (S i)) with (line_count e + 1 + Z.of_nat i) by lia.
           exact Hnew.
Qed.

(** The loop of [file_text]. *)
Lemma file_text_loop (l : list (option cstr)) (n : nat) (i : Z) (out : list ascii) :
  0 <= i -> i + Z.of_nat n <= Z.of_nat (length l) ->
  for_range n i
    (fun i (out : list ascii) => v ← aget l i; Some (out ++ default [] v ++ [LF])) out
  = Some (out ++ concat (map (fun v => default [] v ++ [LF])
                             (take n (drop (Z.to_nat i) l)))).
Proof.
  revert i out. induction n as [|n IH]; intros i out Hi Hlen.
  - simpl. rewrite app_nil_r. reflexivity.
  - cbn [for_range].
    destruct (aget_in_range l i) as [v Hv]; [lia|]. rewrite Hv. cbn [mbind option_bind].
    rewrite IH by lia.
    unfold aget in Hv. destruct (i <? 0) eqn:E; [lia|].
    rewrite (drop_S _ _ _ Hv). cbn [take map concat].
    replace (Z.to_nat (i + 1)) with (S (Z.to_nat i)) by lia.
    rewrite <- !app_assoc. reflexivity.
Qed.

Lemma file_text_spec (e : editor) :
  0 <= line_count e <= Z.of_nat (length (lines e)) ->
  file_text e = Some (concat (map (fun v => default [] v ++ [LF]) (document e))).
Proof.
  intros H. unfold file_text, for_upto, document.
  rewrite file_text_loop by lia. simpl.
  replace (Z.to_nat (line_count e - 1 - 0 + 1)) with (Z.to_nat (line_count e)) by lia.
  reflexivity.
Qed.

(** Freeing lines leaves the array length and every global but [lines]
    as they are. *)
Lemma free_line_keeps (e : editor) (i : Z) :
  length (lines (free_line e i)) = length (lines e) /\
  line_count (free_line e i) = line_count e.
Proof.
  unfold free_line. destruct ((0 <=? i) && (i <? line_count e)); [|auto].
  destruct (aget (lines e) i) as [[s|]|]; simpl; auto.
  rewrite length_insert. auto.
Qed.

Lemma free_loop_keeps (n : nat) (i : Z) (e : editor) :
  exists e', for_range n i (fun i e => Some (free_line e i)) e = Some e' /\
             length (lines e') = length (lines e) /\ line_count e' = line_count e.
Proof.
  revert i e. induction n as [|n IH]; intros i e.
  - exists e. auto.
  - cbn [for_range mbind option_bind].
    destruct (IH (i + 1) (free_line e i)) as (e' & Hrun & Hl & Hc).
    destruct (free_line_keeps e i) as [Hl0 Hc0].
    exists e'. rewrite Hrun. repeat split; congruence.
Qed.

(** C2, amended: a file of lines that contain neither NUL nor line feed
    and that [fgets] reads together with their terminator in one call
    (at most 254 characters before a line feed, at most 253 before a
    carriage return and a line feed), fewer than [MAX_LINES] of them,
    is loaded as exactly these lines, and saving writes each of them
    followed by one line feed: the copy of an LF-terminated file whose
    lines do not end in a carriage return is identical to the file, the
    copy of a CRLF-terminated file has the same lines with LF endings. *)
Theorem load_save_round_trip (e : editor) (w : world) (name out : cstr)
        (eol : list ascii) (ls : list cstr) :
  store_wf e ->
  eol = [LF] \/ eol = [CR; LF] ->
  Forall (plain_line eol) ls ->
  Z.of_nat (length ls) < MAX_LINES ->
  allocs_succeed (length ls) (mem w) ->
  fopen_read (disk w) name = Some (file_of_lines eol ls) ->
  can_write w out = true ->
  exists e1 w1,
    load_file e w name = Some (true, e1, w1) /\
    document e1 = map Some ls /\
    load_then_save e w name out = Some (true, true, Some (file_of_lines [LF] ls)).
Proof.
  intros [Hlen Hlc] Heol Hplain Hfew Hmem Hopen Hwrite.
  destruct (free_loop_keeps (Z.to_nat (line_count e - 1 - 0 + 1)) 0 e)
    as (e0 & Hfree & Hl0 & Hc0).
  destruct (load_loop_lines eol ls Heol Hplain (Z.to_nat MAX_LINES) (mem w)
                            (with_line_count 0 e0))
    as (e1 & h1 & Hrun & Hcount & Hlines & _ & Hnew); simpl; try lia; try assumption.
  simpl in Hcount, Hlines, Hnew.
  set (e2 := with_last 1 (line_count e1) (set_current_file name e1)).
  assert (Hload : load_file e w name = Some (true, e2, with_mem h1 w)).
  { unfold load_file. rewrite Hopen. unfold for_upto. rewrite Hfree.
    cbn [mbind option_bind]. rewrite Hrun. reflexivity. }
  assert (Hdoc : document e2 = map Some ls).
  { unfold document. simpl. rewrite Hcount.
    replace (Z.to_nat (0 + Z.of_nat (length ls))) with (length ls) by lia.
    apply list_eq. intros i. rewrite lookup_map_list.
    destruct (ls !! i) as [l|] eqn:Hi; simpl.
    - rewrite lookup_take_lt by (apply lookup_lt_Some in Hi; exact Hi).
      specialize (Hnew i l Hi). unfold aget in Hnew.
      destruct (0 + Z.of_nat i <? 0) eqn:E; [discriminate|].
      replace (Z.to_nat (0 + Z.of_nat i)) with i in Hnew by lia. exact Hnew.
    - apply lookup_ge_None in Hi. rewrite lookup_take_ge by lia. reflexivity. }
  exists e2, (with_mem h1 w). split; [exact Hload|]. split; [exact Hdoc|].
  unfold load_then_save. rewrite Hload. cbn [mbind option_bind].
  unfold write_file.
  change (can_write (with_mem h1 w) out) with (can_write w out). rewrite Hwrite.
  rewrite file_text_spec by (unfold e2; simpl; lia). rewrite Hdoc.
  cbn [mbind option_bind disk with_disk]. rewrite fopen_read_store.
  do 3 f_equal. unfold file_of_lines.
  clear. induction ls as [|l ls IH]; simpl; [reflexivity|].
  rewrite IH. rewrite <- app_assoc. reflexivity.
Qed.

Lemma plain_line_hello : plain_line [LF] (lit "hello").
Proof.
  split; [|split].
  - repeat constructor; discriminate.
  - vm_compute. discriminate.
  - intros _. reflexivity.
Qed.

Lemma load_save_round_trip_witness :
  let F := file_of_lines [LF] [lit "hello"; lit "hello"] in
  let w := World [] [] [] [(lit "f", F)] [] [] in
  store_wf initial /\
  ([LF] = [LF] \/ [LF] = [CR; LF]) /\
  Forall (plain_line [LF]) [lit "hello"; lit "hello"] /\
  Z.of_nat (length [lit "hello"; lit "hello"]) < MAX_LINES /\
  allocs_succeed (length [lit "hello"; lit "hello"]) (mem w) /\
  fopen_read (disk w) (lit "f") = Some F /\
  can_write w (lit "g") = true /\
  exists e1 w1,
    load_file initial w (lit "f") = Some (true, e1, w1) /\
    document e1 = map Some [lit "hello"; lit "hello"] /\
    load_then_save initial w (lit "f") (lit "g") = Some (true, true, Some F).
Proof.
  cbv zeta.
  assert (Hwf : store_wf initial) by (split; vm_compute; [reflexivity | split; discriminate]).
  assert (Hplain : Forall (plain_line [LF]) [lit "hello"; lit "hello"])
    by (constructor; [apply plain_line_hello | constructor; [apply plain_line_hello | constructor]]).
  split; [exact Hwf|]. split; [left; reflexivity|]. split; [exact Hplain|].
  split; [reflexivity|]. split; [constructor|]. split; [reflexivity|].
  split; [reflexivity|].
  apply (load_save_round_trip initial
           (World [] [] [] [(lit "f", file_of_lines [LF] [lit "hello"; lit "hello"])] [] [])
           (lit "f") (lit "g") [LF] [lit "hello"; lit "hello"]);
    first [exact Hwf | exact Hplain | (left; reflexivity) | reflexivity | constructor].
Defined.

(** A CRLF-terminated file comes back with LF endings. *)
Lemma crlf_is_canonicalized :
  let F := file_of_lines [CR; LF] [lit "ab"; lit "cd"] in
  load_then_save initial (World [] [] [] [(lit "f", F)] [] []) (lit "f") (lit "f")
  = Some (true, true, Some (file_of_lines [LF] [lit "ab"; lit "cd"])).
Proof. vm_compute. reflexivity. Qed.

(** ** The store invariant under the REPL commands *)

Lemma fgets_chars_length (n : nat) (input l r : list ascii) :
  fgets_chars n input = (l, r) -> length input = (length l + length r)%nat.
Proof.
  revert input l r. induction n as [|n IH]; intros input l r H.
  - simpl in H. destruct input; inversion H; reflexivity.
  - destruct input as [|c input]; simpl in H; [inversion H; reflexivity|].
    destruct (Ascii.eqb c LF).
    + inversion H; subst. reflexivity.
    + destruct (fgets_chars n input) as [l0 r0] eqn:E. inversion H; subst.
      simpl. rewrite (IH _ _ _ E). reflexivity.
Qed.

(** Every successful [fgets] into a buffer of two bytes or more consumes
    at least one character. *)
Lemma fgets_shrinks (size : Z) (input buf rest : list ascii) :
  2 <= size -> fgets size input = Some (buf, rest) ->
  (length rest < length input)%nat.
Proof.
  intros Hsize. unfold fgets. destruct input as [|c input]; [discriminate|].
  destruct (fgets_chars (Z.to_nat (size - 1)) (c :: input)) as [l r] eqn:E.
  intros H; inversion H; subst r.
  pose proof (fgets_chars_length _ _ _ _ E) as Hlen.
  destruct (Z.to_nat (size - 1)) as [|n] eqn:N; [lia|].
  simpl in E. destruct (Ascii.eqb c LF).
  - inversion E; subst. simpl. lia.
  - destruct (fgets_chars n input) as [l0 r0]. inversion E; subst. simpl in *. lia.
Qed.

Lemma allocs_succeed_le (m n : nat) (h : heap) :
  (m <= n)%nat -> allocs_succeed n h -> allocs_succeed m h.
Proof.
  unfold allocs_succeed. intros Hmn H.
  replace (take m h) with (take m (take n h)) by (rewrite take_take; f_equal; lia).
  apply Forall_take. exact H.
Qed.

Lemma free_line_other (e : editor) (i j : Z) :
  j <> i -> aget (lines (free_line e i)) j = aget (lines e) j.
Proof.
  intros Hne. unfold free_line.
  destruct ((0 <=? i) && (i <? line_count e)) eqn:G; [|reflexivity].
  destruct (aget (lines e) i) as [[s|]|] eqn:E; try reflexivity.
  simpl. unfold aget. destruct (j <? 0) eqn:N; [reflexivity|].
  apply list_lookup_insert_ne. apply aget_Some_range in E. lia.
Qed.

(** One accepted line of [cmd_insert]: the gap opened by [make_room] at
    [pos] is filled, and every slot of the longer document holds a line. *)
Lemma insert_step_no_null (e : editor) (pos : Z) (l1 l2 : list (option cstr)) (s : cstr) :
  store_wf e -> no_null e -> 0 <= pos <= line_count e -> line_count e + 1 <= MAX_LINES ->
  length l1 = length (lines e) ->
  (forall j, pos + 1 <= j < line_count e + 1 -> aget l1 j = aget (lines e) (j - 1)) ->
  (forall j, ~ (pos + 1 <= j < line_count e + 1) -> aget l1 j = aget (lines e) j) ->
  aset l1 pos (Some s) = Some l2 ->
  let e' := with_lines l2 (with_line_count (line_count e + 1) (with_lines l1 e)) in
  store_wf e' /\ no_null e'.
Proof.
  intros [Hlen Hlc] Hnn Hpos Hroom Hl1 Hmoved Hkept Hset. cbv zeta.
  pose proof (aset_Some _ _ _ _ Hset) as (_ & _ & Hl2).
  split.
  - split; simpl; lia.
  - intros i Hi. simpl in Hi. simpl.
    destruct (Z.eq_dec i pos) as [->|Hne].
    + exists s. apply (aget_aset_eq _ _ _ _ Hset).
    + rewrite (aget_aset_ne _ _ _ _ _ Hset) by exact Hne.
      destruct (Z_lt_dec i pos).
      * rewrite Hkept by lia. apply Hnn. lia.
      * rewrite Hmoved by lia. apply Hnn. lia.
Qed.

(** The loop of [cmd_insert] on a well-formed store without NULL lines,
    the allocations succeeding: it returns, and the store it leaves is
    well formed, without NULL lines and no shorter than before. *)
Lemma insert_loop_invariant (fuel : nat) :
  forall (pos : Z) (e : editor) (w : world),
    store_wf e -> no_null e -> 0 <= pos <= line_count e ->
    (length (stdin w) < fuel)%nat ->
    allocs_succeed (length (stdin w)) (mem w) ->
    exists pos' e' w',
      insert_loop fuel pos e w = Some (pos', e', w') /\
      store_wf e' /\ no_null e' /\ line_count e <= line_count e'.
Proof.
  induction fuel as [|fuel IH]; intros pos e w Hwf Hnn Hpos Hfuel Hmem; [lia|].
  cbn [insert_loop]. cbn [print with_stdout stdin].
  destruct (fgets LINE_LEN (stdin w)) as [[buf rest]|] eqn:Hgets.
  2:{ eexists _, _, _. split; [reflexivity|]. repeat split; auto; try apply Hwf. lia. }
  assert (Hshort : (length rest < length (stdin w))%nat)
    by (apply (fgets_shrinks LINE_LEN _ buf); [unfold LINE_LEN; lia | exact Hgets]).
  cbn zeta. destruct (streq (chomp buf) (lit ".")).
  { eexists _, _, _. split; [reflexivity|]. repeat split; auto; try apply Hwf. lia. }
  unfold make_room. cbn [Z.leb Z.compare].
  destruct (line_count e + 1 >? MAX_LINES) eqn:Hfull.
  { cbn [mbind option_bind negb]. eexists _, _, _. split; [reflexivity|].
    repeat split; auto; try apply Hwf. lia. }
  destruct (make_room_spec e pos 1 Hwf) as (l1 & Hmk & Hl1 & Hmoved & Hkept); try lia.
  unfold make_room in Hmk. cbn [Z.leb Z.compare] in Hmk. rewrite Hfull in Hmk.
  destruct (shift_up _ _ _ _) as [l1'|]; [|discriminate].
  cbn [mbind option_bind] in Hmk. inversion Hmk; subst l1'. clear Hmk.
  cbn [mbind option_bind negb].
  unfold print. cbn [mem with_stdin with_stdout stdout stdin].
  assert (Hmem1 : allocs_succeed (S (length rest)) (mem w))
    by (eapply allocs_succeed_le; [|exact Hmem]; lia).
  destruct (malloc_succeeds _ _ Hmem1) as (h1 & Hmalloc & Hmem2).
  unfold xstrdup. rewrite Hmalloc.
  cbn [lines with_line_count with_lines].
  pose proof Hwf as [Hlen Hlc].
  assert (Hset : exists l2, aset l1 pos (Some (chomp buf)) = Some l2)
    by (rewrite aset_in_range by lia; eauto).
  destruct Hset as (l2 & Hset). rewrite Hset. cbn [mbind option_bind].
  destruct (insert_step_no_null e pos l1 l2 (chomp buf)) as [Hwf' Hnn']; auto; try lia.
  match goal with
  | |- context [insert_loop fuel ?p ?e0 ?w0] =>
      destruct (IH p e0 w0) as (pos' & e' & w' & Hrun & Hwf2 & Hnn2 & Hmono); auto
  end.
  { simpl. lia. }
  { simpl. lia. }
  exists pos', e', w'. split; [exact Hrun|]. repeat split; auto; try apply Hwf2.
  simpl in Hmono. lia.
Qed.

(** [cmd_edit] on a well-formed store without NULL lines: it returns,
    [line_count] is unchanged, a bad line number changes nothing, and
    when the allocation succeeds no slot of the document is NULL. *)
Lemma cmd_edit_invariant (e : editor) (w : world) (n : Z) :
  store_wf e -> no_null e -> allocs_succeed (length (stdin w)) (mem w) ->
  exists e' w',
    cmd_edit e w n = Some (e', w') /\
    store_wf e' /\ no_null e' /\ line_count e' = line_count e /\
    (n < 1 \/ line_count e < n -> e' = e).
Proof.
  intros Hwf Hnn Hmem. pose proof Hwf as [Hlen Hlc]. unfold cmd_edit.
  destruct ((n <? 1) || (n >? line_count e)) eqn:Hbad.
  { eexists _, _. split; [reflexivity|]. repeat split; auto; apply Hwf. }
  destruct (aget_in_range (lines e) (n - 1)) as [v Hv]; [lia|].
  rewrite Hv. cbn [mbind option_bind]. unfold print. cbn [stdin with_stdout stdout].
  destruct (fgets LINE_LEN (stdin w)) as [[buf rest]|] eqn:Hgets.
  2:{ eexists _, _. split; [reflexivity|]. repeat split; auto; apply Hwf. }
  assert (Hshort : (length rest < length (stdin w))%nat)
    by (apply (fgets_shrinks LINE_LEN _ buf); [unfold LINE_LEN; lia | exact Hgets]).
  assert (Hmem1 : allocs_succeed 1 (mem w))
    by (eapply allocs_succeed_le; [|exact Hmem]; lia).
  destruct (malloc_succeeds _ _ Hmem1) as (h1 & Hmalloc & _).
  cbn [mem with_stdin with_stdout]. unfold xstrdup. rewrite Hmalloc.
  destruct (free_line_keeps e (n - 1)) as [Hfl Hfc].
  assert (Hset : exists l, aset (lines (free_line e (n - 1))) (n - 1) (Some (chomp buf))
                           = Some l) by (rewrite aset_in_range by lia; eauto).
  destruct Hset as (l & Hset). rewrite Hset. cbn [mbind option_bind].
  pose proof (aset_Some _ _ _ _ Hset) as (_ & _ & Hl).
  eexists _, _. split; [reflexivity|].
  split; [split; simpl; lia|]. split.
  - intros i Hi. simpl in Hi. simpl. rewrite Hfc in Hi.
    destruct (Z.eq_dec i (n - 1)) as [->|Hne].
    + exists (chomp buf). apply (aget_aset_eq _ _ _ _ Hset).
    + rewrite (aget_aset_ne _ _ _ _ _ Hset) by exact Hne.
      rewrite free_line_other by exact Hne. apply Hnn. exact Hi.
  - split; [simpl; exact Hfc|]. intros H. lia.
Qed.


(** The same in the fullscreen editor: Enter on the first of two lines,
    the allocation failing after [make_room] has succeeded, returns with
    three lines counted and the second line in two slots. *)
Lemma insert_newline_alloc_failure :
  let e := editor_of [lit "a"; lit "b"] in
  (document <$> (fst <$> insert_newline e (World [false] [] [] [] [] [])))
  = Some [Some (lit "a"); Some (lit "b"); Some (lit "b")].
Proof. vm_compute. reflexivity. Qed.



Lemma store_wf_two_lines : store_wf (editor_of [lit "a"; lit "b"]).
Proof. split; vm_compute; [reflexivity | split; discriminate]. Qed.


(** ** Bounds of [line_count] *)

Lemma shift_down_length (n : nat) (i count : Z) (l l' : list (option cstr)) :
  shift_down n i count l = Some l' -> length l' = length l.
Proof.
  revert i l. induction n as [|n IH]; intros i l; simpl.
  - intros H; inversion H; reflexivity.
  - destruct (aget l (i + count)) as [v|]; simpl; [|discriminate].
    destruct (aset l i v) as [l1|] eqn:E; simpl; [|discriminate].
    intros H. apply IH in H. apply aset_Some in E as (_ & _ & E). congruence.
Qed.

Lemma shift_up_length (n : nat) (i count : Z) (l l' : list (option cstr)) :
  shift_up n i count l = Some l' -> length l' = length l.
Proof.
  revert i l. induction n as [|n IH]; intros i l; simpl.
  - intros H; inversion H; reflexivity.
  - destruct (aget l i) as [v|]; simpl; [|discriminate].
    destruct (aset l (i + count) v) as [l1|] eqn:E; simpl; [|discriminate].
    intros H. apply IH in H. apply aset_Some in E as (_ & _ & E). congruence.
Qed.

(** Whatever [make_room] is asked, the store it returns is well formed. *)
Lemma make_room_bounds (e : editor) (pos count : Z) (ok : bool) (e' : editor) :
  store_wf e -> make_room e pos count = Some (ok, e') -> store_wf e'.
Proof.
  intros [Hlen Hlc]. unfold make_room.
  destruct (count <=? 0) eqn:C; [intros H; inversion H; subst; split; assumption|].
  destruct (line_count e + count >? MAX_LINES) eqn:G;
    [intros H; inversion H; subst; split; assumption|].
  destruct (shift_up _ _ _ _) as [l|] eqn:S; simpl; [|discriminate].
  intros H; inversion H; subst. apply shift_up_length in S.
  split; simpl; lia.
Qed.

(** The range [cmd_delete] hands to [close_gap] lies in the document. *)
Lemma delete_range_bounds (e : editor) (a b a' b' : Z) :
  0 <= line_count e -> delete_range e a b = Some (a', b') ->
  1 <= a' /\ a' <= b' /\ b' <= line_count e.
Proof.
  intros Hlc. unfold delete_range.
  destruct (to_range_defaults e a b) as [x y].
  destruct (x <? 1) eqn:A; destruct (y >? line_count e) eqn:B;
    match goal with |- context [(_ =? 0) || (?u >? ?v)] => destruct (u >? v) eqn:G end;
    destruct (line_count e =? 0) eqn:Z; simpl; intros H; inversion H; subst; lia.
Qed.

(** [cmd_delete] returns on every well-formed store; the count it passes
    to [close_gap] is between 1 and [line_count], which it lowers by
    exactly that count. *)
Lemma cmd_delete_bounds (e : editor) (a b : Z) :
  store_wf e ->
  exists e',
    cmd_delete e a b = Some e' /\ store_wf e' /\
    (delete_range e a b = None -> e' = e) /\
    (forall a' b', delete_range e a b = Some (a', b') ->
                   1 <= b' - a' + 1 <= line_count e /\
                   line_count e' = line_count e - (b' - a' + 1)).
Proof.
  intros Hwf. pose proof Hwf as [Hlen Hlc]. unfold cmd_delete.
  destruct (delete_range e a b) as [[a' b']|] eqn:R.
  2:{ exists e. repeat split; auto; try apply Hwf; intros; discriminate. }
  destruct (delete_range_bounds e a b a' b' ltac:(lia) R) as (Ha & Hab & Hb).
  unfold for_upto.
  destruct (free_loop_keeps (Z.to_nat (b' - 1 - (a' - 1) + 1)) (a' - 1) e)
    as (e1 & Hfree & Hl1 & Hc1).
  rewrite Hfree. cbn [mbind option_bind].
  assert (Hwf1 : store_wf e1) by (split; lia).
  destruct (close_gap_spec e1 (a' - 1) (b' - a' + 1) Hwf1) as (l2 & Hcg & Hl2 & _ & _);
    try lia.
  rewrite Hcg. cbn [mbind option_bind].
  eexists. split; [reflexivity|]. split; [split; simpl; lia|].
  split; [discriminate|].
  intros x y H. inversion H; subst. simpl. lia.
Qed.

(** [delete_char], the Delete key and the join of Backspace: whenever it
    is defined the store stays well formed and [line_count] drops by at
    most one; [close_gap] is called with count 1 and at least two lines. *)
Lemma delete_char_bounds (e : editor) (w : world) (e' : editor) (w' : world) :
  store_wf e -> delete_char e w = Some (e', w') ->
  store_wf e' /\ line_count e - 1 <= line_count e' <= line_count e.
Proof.
  intros Hwf. pose proof Hwf as [Hlen Hlc]. unfold delete_char.
  destruct (cursor_row e >=? line_count e) eqn:R.
  { intros H; inversion H; subst. split; [assumption|lia]. }
  destruct (line_at e (cursor_row e)) as [line|] eqn:L; simpl; [|discriminate].
  apply line_at_aget in L. pose proof (aget_Some_range _ _ _ L) as Hrow.
  destruct (cursor_col e >=? strlen line) eqn:C.
  - destruct (cursor_row e + 1 <? line_count e) eqn:N.
    2:{ intros H; inversion H; subst. split; [assumption|lia]. }
    destruct (line_at e (cursor_row e + 1)) as [next|]; simpl; [|discriminate].
    destruct (strlen line + strlen next <? LINE_LEN).
    2:{ intros H; inversion H; subst. split; [assumption|lia]. }
    destruct (malloc (mem w)) as [[|] h].
    2:{ intros H; inversion H; subst. split; [assumption|lia]. }
    destruct (aset (lines e) (cursor_row e) (Some (line ++ next))) as [l1|] eqn:S1;
      simpl; [|discriminate].
    apply aset_Some in S1 as (_ & _ & Hl1).
    unfold close_gap.
    destruct (shift_down _ _ _ _) as [l2|] eqn:S2; simpl; [|discriminate].
    intros H; inversion H; subst. apply shift_down_length in S2.
    destruct (free_line_keeps (with_lines l1 e) (cursor_row e + 1)) as [Hfl Hfc].
    simpl in Hfl, Hfc. split; [split|]; simpl; lia.
  - destruct (cursor_col e <? 0); [discriminate|].
    destruct (aset _ _ _) as [l1|] eqn:S1; simpl; [|discriminate].
    apply aset_Some in S1 as (_ & _ & Hl1).
    intros H; inversion H; subst. split; [split|]; simpl; lia.
Qed.

(** With the cursor in the document and no NULL line, [delete_char] is
    defined. *)
Lemma delete_char_defined (e : editor) (w : world) :
  store_wf e -> no_null e -> 0 <= cursor_row e -> 0 <= cursor_col e ->
  exists e' w', delete_char e w = Some (e', w').
Proof.
  intros Hwf Hnn Hrow Hcol. pose proof Hwf as [Hlen Hlc]. unfold delete_char.
  destruct (cursor_row e >=? line_count e) eqn:R; [eauto|].
  destruct (Hnn (cursor_row e)) as [line L]; [lia|].
  apply line_at_aget in L. rewrite L. cbn [mbind option_bind].
  destruct (cursor_col e >=? strlen line) eqn:C.
  - destruct (cursor_row e + 1 <? line_count e) eqn:N; [|eauto].
    destruct (Hnn (cursor_row e + 1)) as [next L2]; [lia|].
    pose proof L2 as L2'. apply line_at_aget in L2. rewrite L2. cbn [mbind option_bind].
    destruct (strlen line + strlen next <? LINE_LEN); [|eauto].
    destruct (malloc (mem w)) as [[|] h]; [|eauto].
    rewrite aset_in_range by lia. cbn [mbind option_bind].
    set (e1 := free_line _ _).
    destruct (free_line_keeps
                (with_lines (<[Z.to_nat (cursor_row e) := Some (line ++ next)]> (lines e)) e)
                (cursor_row e + 1)) as [Hfl Hfc].
    fold e1 in Hfl, Hfc. simpl in Hfl, Hfc. rewrite length_insert in Hfl.
    destruct (close_gap_spec e1 (cursor_row e + 1) 1) as (l2 & Hcg & _); try lia.
    { split; lia. }
    rewrite Hcg. cbn [mbind option_bind]. eauto.
  - destruct (cursor_col e <? 0) eqn:Z; [lia|].
    rewrite aset_in_range by lia. cbn [mbind option_bind]. eauto.
Qed.

(** The loop of [ensure_line_exists] returns a well-formed store. *)
Lemma ensure_loop_bounds (n : nat) (e : editor) (h : heap) :
  store_wf e -> exists e' h', ensure_loop n e h = Some (e', h') /\ store_wf e'.
Proof.
  revert e h. induction n as [|n IH]; intros e h Hwf; [simpl; eauto|].
  pose proof Hwf as [Hlen Hlc]. cbn [ensure_loop].
  destruct (line_count e >=? MAX_LINES) eqn:F; [eauto|].
  unfold xstrdup. destruct (malloc h) as [[|] h1].
  - rewrite aset_in_range by lia. cbn [mbind option_bind].
    apply IH. split; simpl; [rewrite length_insert|]; lia.
  - rewrite aset_in_range by lia. cbn [mbind option_bind].
    eexists _, _. split; [reflexivity|]. split; simpl; [rewrite length_insert|]; lia.
Qed.

(** The loop of [load_file]: the fuel suffices and the store stays well
    formed, however the file and the allocator behave. *)
Lemma load_loop_bounds (fuel : nat) :
  forall (h : heap) (input : list ascii) (e : editor),
    Z.of_nat (length (lines e)) = MAX_LINES ->
    0 <= line_count e < MAX_LINES ->
    MAX_LINES <= Z.of_nat fuel + line_count e + 1 ->
    exists ok e' h', load_loop fuel h input e = Some (ok, e', h') /\ store_wf e'.
Proof.
  induction fuel as [|fuel IH]; intros h input e Hlen Hlc Hfuel.
  - cbn [load_loop]. destruct (fgets LINE_LEN input) as [[buf rest]|].
    2:{ eexists _, _, _. split; [reflexivity|]. split; lia. }
    unfold xstrdup. destruct (malloc h) as [[|] h1];
      rewrite aset_in_range by lia; cbn [mbind option_bind line_count with_line_count].
    + destruct (line_count _ + 1 >=? MAX_LINES) eqn:F; [|simpl in F; lia].
      eexists _, _, _. split; [reflexivity|].
      split; simpl; [rewrite length_insert|]; lia.
    + eexists _, _, _. split; [reflexivity|].
      split; simpl; [rewrite length_insert|]; lia.
  - cbn [load_loop]. destruct (fgets LINE_LEN input) as [[buf rest]|].
    2:{ eexists _, _, _. split; [reflexivity|]. split; lia. }
    unfold xstrdup. destruct (malloc h) as [[|] h1];
      rewrite aset_in_range by lia; cbn [mbind option_bind line_count with_line_count].
    + destruct (line_count _ + 1 >=? MAX_LINES) eqn:F.
      * eexists _, _, _. split; [reflexivity|].
        split; simpl in *; [rewrite length_insert|]; lia.
      * apply IH; simpl in *; [rewrite length_insert|..]; lia.
    + eexists _, _, _. split; [reflexivity|].
      split; simpl; [rewrite length_insert|]; lia.
Qed.

(** [load_file] returns a well-formed store on every file. *)
Lemma load_file_bounds (e : editor) (w : world) (name : cstr) :
  store_wf e -> exists ok e' w', load_file e w name = Some (ok, e', w') /\ store_wf e'.
Proof.
  intros Hwf. pose proof Hwf as [Hlen Hlc]. unfold load_file.
  destruct (fopen_read (disk w) name) as [content|]; [|eauto 6].
  unfold for_upto.
  destruct (free_loop_keeps (Z.to_nat (line_count e - 1 - 0 + 1)) 0 e)
    as (e0 & Hfree & Hl0 & Hc0).
  rewrite Hfree. cbn [mbind option_bind].
  destruct (load_loop_bounds (Z.to_nat MAX_LINES) (mem w) content (with_line_count 0 e0))
    as (ok & e1 & h1 & Hrun & Hwf1);
    [cbn [lines with_line_count]; lia
    | cbn [line_count with_line_count]; unfold MAX_LINES; lia
    | cbn [line_count with_line_count]; lia |].
  rewrite Hrun. cbn [mbind option_bind].
  destruct ok; eexists _, _, _; (split; [reflexivity|]); [|exact Hwf1].
  destruct Hwf1. split; simpl; assumption.
Qed.

Lemma backspace_char_bounds (e : editor) (w : world) (e' : editor) (w' : world) :
  store_wf e -> backspace_char e w = Some (e', w') ->
  store_wf e' /\ line_count e - 1 <= line_count e' <= line_count e.
Proof.
  intros Hwf. unfold backspace_char.
  destruct (cursor_col e >? 0).
  - intros H. apply delete_char_bounds in H; [exact H | exact Hwf].
  - destruct (cursor_row e >? 0).
    + destruct (line_at e (cursor_row e - 1)) as [line|]; simpl; [|discriminate].
      intros H. apply delete_char_bounds in H; [exact H | exact Hwf].
    + intros H; inversion H; subst. split; [exact Hwf | lia].
Qed.

(** C10: on a well-formed store (MAX_LINES slots and
    [0 <= line_count <= MAX_LINES]) every operation that changes
    [line_count] returns a well-formed store: [make_room] whatever its
    arguments, [cmd_delete], which calls [close_gap] with a count between
    1 and [line_count] and lowers [line_count] by that count, the join of
    the fullscreen editor ([delete_char], also through [backspace_char]),
    which lowers it by at most one, [ensure_line_exists] and
    [load_file]. *)
Theorem line_count_stays_in_bounds (e : editor) (w : world)
        (pos count a b idx : Z) (name : cstr) :
  store_wf e ->
  (forall ok e', make_room e pos count = Some (ok, e') -> store_wf e') /\
  (exists e', cmd_delete e a b = Some e' /\ store_wf e' /\
              (delete_range e a b = None -> e' = e) /\
              forall a' b', delete_range e a b = Some (a', b') ->
                            1 <= b' - a' + 1 <= line_count e /\
                            line_count e' = line_count e - (b' - a' + 1)) /\
  (forall e' w', delete_char e w = Some (e', w') ->
                 store_wf e' /\ line_count e - 1 <= line_count e' <= line_count e) /\
  (forall e' w', backspace_char e w = Some (e', w') ->
                 store_wf e' /\ line_count e - 1 <= line_count e' <= line_count e) /\
  (no_null e -> 0 <= cursor_row e -> 0 <= cursor_col e ->
   exists e' w', delete_char e w = Some (e', w')) /\
  (exists e' w', ensure_line_exists e w idx = Some (e', w') /\ store_wf e') /\
  (exists ok e' w', load_file e w name = Some (ok, e', w') /\ store_wf e').
Proof.
  intros Hwf.
  split. { intros ok e' H. exact (make_room_bounds e pos count ok e' Hwf H). }
  split. { apply cmd_delete_bounds. exact Hwf. }
  split. { intros e' w' H. exact (delete_char_bounds e w e' w' Hwf H). }
  split. { intros e' w' H. exact (backspace_char_bounds e w e' w' Hwf H). }
  split. { intros Hnn Hrow Hcol. apply delete_char_defined; assumption. }
  split.
  - unfold ensure_line_exists.
    destruct (ensure_loop_bounds (Z.to_nat (idx + 1 - line_count e)) e (mem w) Hwf)
      as (e' & h' & Hrun & Hwf').
    rewrite Hrun. cbn [mbind option_bind]. eauto.
  - apply load_file_bounds. exact Hwf.
Qed.

Lemma line_count_stays_in_bounds_witness :
  let e := editor_of [lit "a"; lit "b"] in
  let w := typing [] in
  store_wf e /\
  ((forall ok e', make_room e 1 1 = Some (ok, e') -> store_wf e') /\
   (exists e', cmd_delete e 1 2 = Some e' /\ store_wf e' /\
               (delete_range e 1 2 = None -> e' = e) /\
               forall a' b', delete_range e 1 2 = Some (a', b') ->
                             1 <= b' - a' + 1 <= line_count e /\
                             line_count e' = line_count e - (b' - a' + 1)) /\
   (forall e' w', delete_char e w = Some (e', w') ->
                  store_wf e' /\ line_count e - 1 <= line_count e' <= line_count e) /\
   (forall e' w', backspace_char e w = Some (e', w') ->
                  store_wf e' /\ line_count e - 1 <= line_count e' <= line_count e) /\
   (no_null e -> 0 <= cursor_row e -> 0 <= cursor_col e ->
    exists e' w', delete_char e w = Some (e', w')) /\
   (exists e' w', ensure_line_exists e w 5 = Some (e', w') /\ store_wf e') /\
   (exists ok e' w', load_file e w (lit "f") = Some (ok, e', w') /\ store_wf e')).
Proof.
  cbv zeta. split; [exact store_wf_two_lines|].
  apply (line_count_stays_in_bounds (editor_of [lit "a"; lit "b"]) (typing [])
                                    1 1 1 2 5 (lit "f")).
  exact store_wf_two_lines.
Defined.

(** ** LastRange memory: no function reads it *)

Create Rewrite HintDb last_db.

(** Reduction of the option monad and of the result maps only, so that
    no loop of the model is unfolded. *)
Ltac reduce_binds :=
  cbn [mbind option_bind fmap option_fmap option_map negb fst snd
       relast_xe relast_ew relast_xew forget_ew forget_xew].

Ltac head_if :=
  match goal with |- (if ?c then _ else _) = _ => destruct c end.

Ltac reduce_all :=
  cbn [mbind option_bind fmap option_fmap option_map negb fst snd
       relast_xe relast_ew relast_xew forget_ew forget_xew
       lines line_count current_file cursor_row cursor_col top_line
       with_last with_lines with_line_count with_cursor with_top_line
       with_current_file set_current_file].

(** Case analysis on every [match] and [if] of the goal. *)
Ltac split_cases :=
  reduce_all;
  repeat match goal with
         | |- context [match ?x with _ => _ end] => destruct x eqn:?; reduce_all
         | |- context [mbind _ ?m] => destruct m eqn:?; reduce_all
         | |- context [fmap _ ?m] => destruct m eqn:?; reduce_all
         end.

(** Case analysis on the innermost scrutinee of a stuck term. *)
Ltac destruct_atom m :=
  lazymatch m with
  | mbind _ ?m' => destruct_atom m'
  | fmap _ ?m' => destruct_atom m'
  | match ?x with _ => _ end => destruct_atom x
  | _ => destruct m eqn:?
  end.

(** Push [with_last] outwards, split on the next [match], and repeat. *)
Ltac last_cases :=
  repeat (autorewrite with last_db; reduce_binds;
          try reflexivity;
          match goal with
          | |- context [match ?x with _ => _ end] => destruct_atom x
          | |- context [mbind _ ?m] => destruct_atom m
          | |- context [fmap _ ?m] => destruct_atom m
          end);
  repeat (progress (reduce_binds; autorewrite with last_db));
  try reflexivity.

Section LastRange.

Variables a b : Z.

(** The setters commute with [with_last], and no projection but
    [last_a], [last_b] sees it. *)
Lemma lines_with_last e : lines (with_last a b e) = lines e.
Proof. reflexivity. Qed.
Lemma line_count_with_last e : line_count (with_last a b e) = line_count e.
Proof. reflexivity. Qed.
Lemma current_file_with_last e : current_file (with_last a b e) = current_file e.
Proof. reflexivity. Qed.
Lemma cursor_row_with_last e : cursor_row (with_last a b e) = cursor_row e.
Proof. reflexivity. Qed.
Lemma cursor_col_with_last e : cursor_col (with_last a b e) = cursor_col e.
Proof. reflexivity. Qed.
Lemma top_line_with_last e : top_line (with_last a b e) = top_line e.
Proof. reflexivity. Qed.
Lemma with_lines_last l e :
  with_lines l (with_last a b e) = with_last a b (with_lines l e).
Proof. reflexivity. Qed.
Lemma with_line_count_last n e :
  with_line_count n (with_last a b e) = with_last a b (with_line_count n e).
Proof. reflexivity. Qed.
Lemma with_cursor_last r c e :
  with_cursor r c (with_last a b e) = with_last a b (with_cursor r c e).
Proof. reflexivity. Qed.
Lemma with_top_line_last t e :
  with_top_line t (with_last a b e) = with_last a b (with_top_line t e).
Proof. reflexivity. Qed.
Lemma set_current_file_last name e :
  set_current_file name (with_last a b e) = with_last a b (set_current_file name e).
Proof. reflexivity. Qed.
Lemma with_last_last x y e : with_last x y (with_last a b e) = with_last x y e.
Proof. reflexivity. Qed.

#[local] Hint Rewrite lines_with_last line_count_with_last current_file_with_last
  cursor_row_with_last cursor_col_with_last top_line_with_last
  with_lines_last with_line_count_last with_cursor_last with_top_line_last
  set_current_file_last with_last_last : last_db.

Lemma free_line_last e i :
  free_line (with_last a b e) i = with_last a b (free_line e i).
Proof.
  unfold free_line. autorewrite with last_db. split_cases; reflexivity.
Qed.

Lemma free_loop_last n : forall i e,
  for_range n i (fun i e => Some (free_line e i)) (with_last a b e)
  = with_last a b <$> for_range n i (fun i e => Some (free_line e i)) e.
Proof.
  induction n as [|n IH]; intros i e; [reflexivity|].
  cbn [for_range mbind option_bind]. rewrite free_line_last. apply IH.
Qed.

Lemma make_room_last e pos count :
  make_room (with_last a b e) pos count = relast_xe a b <$> make_room e pos count.
Proof.
  unfold make_room. autorewrite with last_db. split_cases; reflexivity.
Qed.

Lemma close_gap_last e start count :
  close_gap (with_last a b e) start count = with_last a b <$> close_gap e start count.
Proof.
  unfold close_gap. autorewrite with last_db. split_cases; reflexivity.
Qed.

Lemma to_range_defaults_last e x y :
  to_range_defaults (with_last a b e) x y = to_range_defaults e x y.
Proof. reflexivity. Qed.

Lemma parse_range_last e p : parse_range (with_last a b e) p = parse_range e p.
Proof. reflexivity. Qed.

Lemma file_text_last e : file_text (with_last a b e) = file_text e.
Proof. reflexivity. Qed.

Lemma line_at_last e i : line_at (with_last a b e) i = line_at e i.
Proof. reflexivity. Qed.

Lemma status_line_last e w : status_line (with_last a b e) w = status_line e w.
Proof. reflexivity. Qed.

Lemma write_file_last e w name :
  write_file (with_last a b e) w name = relast_xew a b <$> write_file e w name.
Proof.
  unfold write_file. rewrite file_text_last. split_cases; reflexivity.
Qed.

Lemma load_loop_last fuel : forall h input e,
  load_loop fuel h input (with_last a b e) = relast_xew a b <$> load_loop fuel h input e.
Proof.
  induction fuel as [|fuel IH]; intros h input e; cbn [load_loop];
    autorewrite with last_db.
  - split_cases; reflexivity.
  - destruct (fgets LINE_LEN input) as [[buf rest]|]; [|reflexivity].
    destruct (xstrdup h (chomp buf)) as [p h'].
    destruct (aset (lines e) (line_count e) p) as [l|]; [|reflexivity].
    cbn [mbind option_bind]. destruct p; [|reflexivity].
    autorewrite with last_db.
    match goal with |- context [if ?c then _ else _] => destruct c end;
      [reflexivity | apply IH].
Qed.

#[local] Hint Rewrite free_line_last make_room_last close_gap_last
  to_range_defaults_last parse_range_last file_text_last line_at_last
  status_line_last write_file_last load_loop_last free_loop_last : last_db.

(** *** The REPL commands *)

Lemma cmd_list_last e w x y :
  forget_ew <$> cmd_list (with_last a b e) w x y = forget_ew <$> cmd_list e w x y.
Proof.
  unfold cmd_list. autorewrite with last_db.
  cbn [lines line_count with_last]. split_cases; reflexivity.
Qed.

Lemma delete_range_last e x y :
  delete_range (with_last a b e) x y = delete_range e x y.
Proof. reflexivity. Qed.

Lemma cmd_delete_last e x y :
  forget_last <$> cmd_delete (with_last a b e) x y = forget_last <$> cmd_delete e x y.
Proof.
  unfold cmd_delete, for_upto. rewrite delete_range_last.
  destruct (delete_range e x y) as [[x' y']|]; [|reflexivity].
  rewrite free_loop_last. destruct (for_range _ _ _ e) as [e1|]; [|reflexivity].
  reduce_binds. rewrite close_gap_last.
  destruct (close_gap e1 _ _) as [e2|]; [|reflexivity]. reflexivity.
Qed.

Lemma insert_loop_last fuel : forall pos e w,
  insert_loop fuel pos (with_last a b e) w = relast_xew a b <$> insert_loop fuel pos e w.
Proof.
  induction fuel as [|fuel IH]; intros pos e w; [reflexivity|].
  cbn [insert_loop].
  destruct (fgets LINE_LEN _) as [[buf rest]|]; [|reflexivity].
  cbn zeta. destruct (streq _ _); [reflexivity|].
  rewrite make_room_last. destruct (make_room e pos 1) as [[ok e1]|]; [|reflexivity].
  reduce_binds. destruct ok; [|reflexivity]. reduce_binds.
  destruct (xstrdup _ _) as [p h]. autorewrite with last_db.
  destruct (aset (lines e1) pos p) as [l|]; [|reflexivity]. reduce_binds.
  destruct p; [|reflexivity]. autorewrite with last_db. apply IH.
Qed.

Lemma cmd_insert_last e w n :
  forget_ew <$> cmd_insert (with_last a b e) w n = forget_ew <$> cmd_insert e w n.
Proof.
  unfold cmd_insert.
  change (insert_start (with_last a b e) n) with (insert_start e n).
  cbv zeta. rewrite insert_loop_last.
  destruct (insert_loop _ _ e _) as [[[pos e1] w1]|]; reflexivity.
Qed.

Lemma cmd_edit_last e w n :
  forget_ew <$> cmd_edit (with_last a b e) w n = forget_ew <$> cmd_edit e w n.
Proof.
  unfold cmd_edit. autorewrite with last_db.
  destruct ((n <? 1) || (n >? line_count e)); [reflexivity|].
  destruct (aget (lines e) (n - 1)) as [v|]; [|reflexivity]. reduce_binds.
  cbv zeta. destruct (fgets LINE_LEN _) as [[buf rest]|]; [|reflexivity].
  destruct (xstrdup _ _) as [p h]. autorewrite with last_db.
  destruct (aset _ _ _); reflexivity.
Qed.

Lemma cmd_replace_last e w x y spec :
  forget_ew <$> cmd_replace (with_last a b e) w x y spec
  = forget_ew <$> cmd_replace e w x y spec.
Proof.
  unfold cmd_replace. autorewrite with last_db.
  cbn [lines line_count with_last]. split_cases; reflexivity.
Qed.

Lemma cmd_search_last e w x y spec :
  forget_ew <$> cmd_search (with_last a b e) w x y spec
  = forget_ew <$> cmd_search e w x y spec.
Proof.
  unfold cmd_search. autorewrite with last_db.
  cbn [lines line_count with_last]. split_cases; reflexivity.
Qed.

Lemma load_file_last e w name :
  forget_xew <$> load_file (with_last a b e) w name = forget_xew <$> load_file e w name.
Proof.
  unfold load_file, for_upto.
  destruct (fopen_read (disk w) name) as [content|]; [|reflexivity].
  autorewrite with last_db.
  destruct (for_range _ _ _ e) as [e1|]; [|reflexivity]. reduce_binds.
  autorewrite with last_db.
  destruct (load_loop _ _ _ _) as [[[ok e3] h]|]; [|reflexivity]. reduce_binds.
  destruct ok; reflexivity.
Qed.

(** *** The fullscreen editor *)

Lemma ensure_loop_last n : forall e h,
  ensure_loop n (with_last a b e) h = relast_ew a b <$> ensure_loop n e h.
Proof.
  induction n as [|n IH]; intros e h; [reflexivity|].
  cbn [ensure_loop]. autorewrite with last_db.
  destruct (line_count e >=? MAX_LINES); [reflexivity|].
  destruct (xstrdup h []) as [p h'].
  destruct (aset (lines e) (line_count e) p) as [l|]; [|reflexivity]. reduce_binds.
  destruct p; [|reflexivity]. autorewrite with last_db. apply IH.
Qed.

Lemma ensure_line_exists_last e w idx :
  ensure_line_exists (with_last a b e) w idx
  = relast_ew a b <$> ensure_line_exists e w idx.
Proof.
  unfold ensure_line_exists. autorewrite with last_db. rewrite ensure_loop_last.
  destruct (ensure_loop _ e _) as [[e1 h1]|]; reflexivity.
Qed.

Lemma scroll_down_last e : scroll_down (with_last a b e) = with_last a b (scroll_down e).
Proof. unfold scroll_down. autorewrite with last_db. destruct (_ >=? _); reflexivity. Qed.

Lemma scroll_up_last e : scroll_up (with_last a b e) = with_last a b (scroll_up e).
Proof. unfold scroll_up. autorewrite with last_db. destruct (_ <? _); reflexivity. Qed.

Lemma clamp_col_last e : clamp_col (with_last a b e) = with_last a b <$> clamp_col e.
Proof.
  unfold clamp_col. autorewrite with last_db.
  destruct (line_at e (cursor_row e)) as [line|]; [|reflexivity]. reduce_binds.
  destruct (_ >? _); reflexivity.
Qed.

#[local] Hint Rewrite ensure_line_exists_last scroll_down_last scroll_up_last
  clamp_col_last : last_db.

Lemma insert_char_last e w c :
  insert_char (with_last a b e) w c = relast_ew a b <$> insert_char e w c.
Proof.
  unfold insert_char. autorewrite with last_db.
  destruct (ensure_line_exists e w (cursor_row e)) as [[e1 w1]|]; [|reflexivity].
  reduce_binds. autorewrite with last_db.
  destruct (line_at e1 (cursor_row e)) as [line|]; [|reflexivity]. reduce_binds.
  cbv zeta. autorewrite with last_db.
  destruct (cursor_col e1 >? strlen line); autorewrite with last_db;
    (destruct (strlen line >=? LINE_LEN - 1); [reflexivity|]);
    destruct (malloc (mem w1)) as [ok h]; (destruct ok; [|reflexivity]);
    cbn [negb];
    match goal with |- context [if ?c then None else _] => destruct c end;
    try reflexivity;
    destruct (aset _ _ _); reflexivity.
Qed.

Lemma delete_char_last e w :
  delete_char (with_last a b e) w = relast_ew a b <$> delete_char e w.
Proof.
  unfold delete_char. autorewrite with last_db.
  destruct (cursor_row e >=? line_count e); [reflexivity|].
  destruct (line_at e (cursor_row e)) as [line|]; [|reflexivity]. reduce_binds.
  destruct (cursor_col e >=? strlen line).
  - destruct (cursor_row e + 1 <? line_count e); [|reflexivity].
    destruct (line_at e (cursor_row e + 1)) as [next|]; [|reflexivity]. reduce_binds.
    destruct (_ <? LINE_LEN); [|reflexivity].
    destruct (malloc (mem w)) as [ok h]. destruct ok; [|reflexivity].
    destruct (aset _ _ _) as [l|]; [|reflexivity]. reduce_binds.
    autorewrite with last_db.
    destruct (close_gap _ _ _); reflexivity.
  - destruct (cursor_col e <? 0); [reflexivity|].
    destruct (aset _ _ _); reflexivity.
Qed.

#[local] Hint Rewrite insert_char_last delete_char_last : last_db.

Lemma backspace_char_last e w :
  backspace_char (with_last a b e) w = relast_ew a b <$> backspace_char e w.
Proof.
  unfold backspace_char. autorewrite with last_db.
  destruct (cursor_col e >? 0); [reflexivity|].
  destruct (cursor_row e >? 0); [|reflexivity].
  destruct (line_at e (cursor_row e - 1)) as [line|]; [|reflexivity]. reduce_binds.
  autorewrite with last_db. reflexivity.
Qed.

Lemma insert_newline_last e w :
  insert_newline (with_last a b e) w = relast_ew a b <$> insert_newline e w.
Proof.
  unfold insert_newline. autorewrite with last_db.
  destruct (ensure_line_exists e w (cursor_row e)) as [[e1 w1]|]; [|reflexivity].
  reduce_binds. autorewrite with last_db.
  destruct (line_at e1 (cursor_row e)) as [line|]; [|reflexivity]. reduce_binds.
  cbv zeta. autorewrite with last_db.
  destruct (cursor_col e1 >? strlen line); autorewrite with last_db;
    (head_if; [reflexivity|]);
    (destruct (make_room _ (cursor_row e + 1) 1) as [[ok e3]|]; [|reflexivity]);
    reduce_binds; (destruct ok; [|reflexivity]); cbn [negb];
    destruct (malloc (mem w1)) as [ok h]; (destruct ok; [|reflexivity]);
    cbn [negb]; autorewrite with last_db;
    (destruct (cursor_col e3 <? 0); [reflexivity|]);
    (destruct (aset (lines e3) _ _) as [l|]; [|reflexivity]); reduce_binds;
    destruct (aset l _ _); reflexivity.
Qed.

#[local] Hint Rewrite backspace_char_last insert_newline_last : last_db.

Lemma insert_spaces_last n : forall e w,
  insert_spaces n (with_last a b e) w = relast_ew a b <$> insert_spaces n e w.
Proof.
  induction n as [|n IH]; intros e w; [reflexivity|].
  cbn [insert_spaces]. rewrite insert_char_last.
  destruct (insert_char e w " ") as [[e1 w1]|]; [|reflexivity].
  reduce_binds. apply IH.
Qed.

Lemma extended_key_last e w ch :
  extended_key (with_last a b e) w ch = relast_xew a b <$> extended_key e w ch.
Proof.
  unfold extended_key.
  repeat match goal with
         | |- context [ch =? ?k] => destruct (ch =? k); cbv beta iota
         end;
    last_cases.
Qed.

Lemma key_step_last e w ch :
  key_step (with_last a b e) w ch = relast_xew a b <$> key_step e w ch.
Proof.
  unfold key_step.
  destruct ((ch =? 0) || (ch =? 224)).
  { destruct (getch w) as [[ch2 w1]|]; [apply extended_key_last | reflexivity]. }
  destruct (ch =? 13).
  { rewrite insert_newline_last. destruct (insert_newline e w) as [[e1 w1]|]; [|reflexivity].
    reduce_binds. rewrite scroll_down_last. reflexivity. }
  destruct (ch =? 9).
  { rewrite insert_spaces_last. destruct (insert_spaces 8 e w) as [[e1 w1]|]; reflexivity. }
  destruct (ch =? 8).
  { rewrite backspace_char_last. destruct (backspace_char e w) as [[e1 w1]|]; [|reflexivity].
    reduce_binds. rewrite scroll_up_last. reflexivity. }
  destruct (ch =? 27); [reflexivity|].
  destruct ((32 <=? ch) && (ch <? 127)); [|reflexivity].
  rewrite insert_char_last. destruct (insert_char e w _) as [[e1 w1]|]; reflexivity.
Qed.

Lemma key_loop_last fuel : forall e w,
  key_loop fuel (with_last a b e) w = relast_ew a b <$> key_loop fuel e w.
Proof.
  induction fuel as [|fuel IH]; intros e w; [reflexivity|].
  cbn [key_loop]. destruct (getch w) as [[ch w1]|]; [|reflexivity].
  rewrite key_step_last. destruct (key_step e w1 ch) as [[[running e1] w2]|]; [|reflexivity].
  reduce_binds. destruct running; [apply IH | reflexivity].
Qed.

Lemma cmd_fullscreen_last e w :
  cmd_fullscreen (with_last a b e) w = relast_ew a b <$> cmd_fullscreen e w.
Proof.
  unfold cmd_fullscreen. autorewrite with last_db.
  destruct (line_count e =? 0).
  - destruct (ensure_line_exists e w 0) as [[e1 w1]|]; [|reflexivity].
    reduce_binds. autorewrite with last_db. apply key_loop_last.
  - reduce_binds. autorewrite with last_db. apply key_loop_last.
Qed.

(** *** The command loop *)

Lemma forget_last_eq (e1 e2 : editor) :
  forget_last e1 = forget_last e2 ->
  lines e1 = lines e2 /\ line_count e1 = line_count e2 /\
  current_file e1 = current_file e2 /\ cursor_row e1 = cursor_row e2 /\
  cursor_col e1 = cursor_col e2 /\ top_line e1 = top_line e2.
Proof.
  intros H.
  pose proof (f_equal lines H). pose proof (f_equal line_count H).
  pose proof (f_equal current_file H). pose proof (f_equal cursor_row H).
  pose proof (f_equal cursor_col H). pose proof (f_equal top_line H).
  repeat split; assumption.
Qed.

Lemma status_line_forget (e1 e2 : editor) (w : world) :
  forget_last e1 = forget_last e2 -> status_line e1 w = status_line e2 w.
Proof.
  intros H. apply forget_last_eq in H as (_ & Hc & Hf & _).
  unfold status_line. rewrite Hc, Hf. reflexivity.
Qed.

Lemma forget_ew_inv {Y : Type} (e1 e2 : editor) (y1 y2 : Y) :
  Some (forget_ew (e1, y1)) = Some (forget_ew (e2, y2)) ->
  forget_last e1 = forget_last e2 /\ y1 = y2.
Proof.
  unfold forget_ew. cbn [fst snd]. intros H. injection H. intros.
  split; [unfold forget_last, with_last; congruence | assumption].
Qed.

Lemma forget_xew_inv {X Y : Type} (x1 x2 : X) (e1 e2 : editor) (y1 y2 : Y) :
  Some (forget_xew (x1, e1, y1)) = Some (forget_xew (x2, e2, y2)) ->
  x1 = x2 /\ forget_last e1 = forget_last e2 /\ y1 = y2.
Proof.
  unfold forget_xew. cbn [fst snd]. intros H. injection H. intros.
  split; [assumption|].
  split; [unfold forget_last, with_last; congruence | assumption].
Qed.

(** A command that returns a state and an environment, run by [main]. *)
Lemma run_command_forget (r1 r2 : option (editor * world)) :
  forget_ew <$> r1 = forget_ew <$> r2 ->
  forget_xew <$> (r1 ≫= fun '(e, w) => Some (true, e, w))
  = forget_xew <$> (r2 ≫= fun '(e, w) => Some (true, e, w)).
Proof.
  destruct r1 as [[e1 w1]|], r2 as [[e2 w2]|]; simpl; intros H;
    try discriminate; try reflexivity.
  apply forget_ew_inv in H as [Hf ->].
  unfold forget_xew. cbn [fst snd]. rewrite Hf. reflexivity.
Qed.

Lemma dispatch_last e w cmd p :
  forget_xew <$> dispatch (with_last a b e) w cmd p = forget_xew <$> dispatch e w cmd p.
Proof.
  unfold dispatch. autorewrite with last_db.
  destruct (Ascii.eqb cmd "L").
  { destruct p as [|c p].
    - apply run_command_forget, cmd_list_last.
    - destruct (parse_range e (c :: p)) as [[[x y]|]|]; [|reflexivity|reflexivity].
      reduce_binds. apply run_command_forget, cmd_list_last. }
  destruct (Ascii.eqb cmd "I").
  { destruct p as [|c p]; [|destruct (atoi (c :: p)) as [n|]; [|reflexivity]];
      reduce_binds; apply run_command_forget, cmd_insert_last. }
  destruct (Ascii.eqb cmd "D").
  { destruct (parse_range e p) as [[[x y]|]|]; [|reflexivity|reflexivity].
    reduce_binds. pose proof (cmd_delete_last e x y) as H.
    destruct (cmd_delete (with_last a b e) x y) as [e1|], (cmd_delete e x y) as [e2|];
      simpl in H; try discriminate; try reflexivity.
    assert (Hf : forget_last e1 = forget_last e2) by congruence.
    simpl. unfold forget_xew. cbn [fst snd]. rewrite Hf. reflexivity. }
  destruct (Ascii.eqb cmd "E").
  { destruct p as [|c p]; [reflexivity|].
    destruct (atoi (c :: p)) as [n|]; [|reflexivity].
    reduce_binds. apply run_command_forget, cmd_edit_last. }
  destruct (Ascii.eqb cmd "R").
  { destruct (strchr _ "/") as [[before spec]|]; [|reflexivity].
    unfold slash_range. destruct before as [|c before].
    - reduce_binds. apply run_command_forget, cmd_replace_last.
    - rewrite parse_range_last.
      destruct (parse_range e (c :: before)) as [[[x y]|]|]; [|reflexivity|reflexivity].
      reduce_binds. apply run_command_forget, cmd_replace_last. }
  destruct (Ascii.eqb cmd "O").
  { destruct p as [|c p]; [reflexivity|].
    pose proof (load_file_last e w (c :: p)) as H.
    destruct (load_file (with_last a b e) w (c :: p)) as [[[ok1 e1] w1]|],
             (load_file e w (c :: p)) as [[[ok2 e2] w2]|];
      simpl in H; try discriminate; try reflexivity.
    apply forget_xew_inv in H as (-> & Hf & ->). reduce_binds.
    destruct (forget_last_eq _ _ Hf) as (_ & Hc & _).
    rewrite Hc.
    destruct ok2; simpl; unfold forget_xew; cbn [fst snd]; rewrite Hf; reflexivity. }
  destruct (Ascii.eqb cmd "S").
  { destruct (strchr _ "/") as [[before spec]|].
    - unfold slash_range. destruct before as [|c before].
      + reduce_binds. apply run_command_forget, cmd_search_last.
      + rewrite parse_range_last.
        destruct (parse_range e (c :: before)) as [[[x y]|]|]; [|reflexivity|reflexivity].
        reduce_binds. apply run_command_forget, cmd_search_last.
    - apply run_command_forget, cmd_search_last. }
  destruct (Ascii.eqb cmd "W").
  { destruct p as [|c p].
    - destruct (current_file e) as [|c f] eqn:Hf; [reflexivity|].
      destruct (write_file e w (c :: f)) as [[[ok e1] w1]|]; [|reflexivity].
      reduce_binds. destruct ok; reflexivity.
    - destruct (write_file e w (c :: p)) as [[[ok e1] w1]|]; [|reflexivity].
      reduce_binds. destruct ok; reflexivity. }
  destruct (Ascii.eqb cmd "V").
  { rewrite cmd_fullscreen_last.
    destruct (cmd_fullscreen e w) as [[e1 w1]|]; reflexivity. }
  destruct (Ascii.eqb cmd "P"); [reflexivity|].
  destruct (Ascii.eqb cmd "H" || Ascii.eqb cmd "?"); [reflexivity|].
  destruct (Ascii.eqb cmd "Q"); reflexivity.
Qed.

Lemma repl_command_last e w input :
  forget_xew <$> repl_command (with_last a b e) w input
  = forget_xew <$> repl_command e w input.
Proof.
  unfold repl_command.
  destruct (skip_space (chomp input)) as [|c p]; [reflexivity|].
  pose proof (dispatch_last e w (toupper c) (skip_space p)) as H.
  destruct (dispatch (with_last a b e) w (toupper c) (skip_space p)) as [[[r1 e1] w1]|],
           (dispatch e w (toupper c) (skip_space p)) as [[[r2 e2] w2]|];
    simpl in H; try discriminate; try reflexivity.
  apply forget_xew_inv in H as (-> & Hf & ->). reduce_binds.
  rewrite (status_line_forget _ _ w2 Hf).
  destruct r2; simpl; unfold forget_xew; cbn [fst snd]; rewrite Hf; reflexivity.
Qed.

End LastRange.

(** C9: the result of a REPL command line does not depend on the values
    of [last_a] and [last_b] it starts with.  Two runs of [repl_command]
    from states that differ in these two globals only are both undefined
    or both return, and then with the same flag, the same environment
    (what was printed, what is left on the input, the files, the heap)
    and states that agree on every global but [last_a] and [last_b]. *)
Theorem last_range_is_write_only (e : editor) (w : world) (input : cstr)
        (a b a' b' : Z) :
  forget_xew <$> repl_command (with_last a b e) w input
  = forget_xew <$> repl_command (with_last a' b' e) w input.
Proof.
  rewrite (repl_command_last a b e w input).
  rewrite (repl_command_last a' b' e w input). reflexivity.
Qed.

Lemma forget_last_with_last (e1 e2 : editor) :
  forget_last e1 = forget_last e2 -> e1 = with_last (last_a e1) (last_b e1) e2.
Proof.
  intros H. apply forget_last_eq in H as (H1 & H2 & H3 & H4 & H5 & H6).
  destruct e1, e2. simpl in *. subst. reflexivity.
Qed.

(** The same holds for a whole session: the loop of [main] prints the
    same text and leaves the same document whatever [last_a] and [last_b]
    were when it started. *)
Lemma repl_last fuel : forall a b e w,
  forget_ew <$> repl fuel (with_last a b e) w = forget_ew <$> repl fuel e w.
Proof.
  induction fuel as [|fuel IH]; intros a b e w; [reflexivity|].
  cbn [repl]. cbv zeta.
  destruct (fgets INPUT_LEN _) as [[input rest]|]; [|reflexivity].
  pose proof (repl_command_last a b e (with_stdin rest (print (lit "* ") w)) input) as H.
  destruct (repl_command (with_last a b e) _ input) as [[[r1 e1] w1]|],
           (repl_command e _ input) as [[[r2 e2] w2]|];
    simpl in H; try discriminate; try reflexivity.
  apply forget_xew_inv in H as (-> & Hf & ->). reduce_binds.
  destruct r2.
  - rewrite (forget_last_with_last _ _ Hf).
    apply IH.
  - simpl. unfold forget_ew. cbn [fst snd]. rewrite Hf. reflexivity.
Qed.

(** ** Character classes and case folding *)

Lemma tolower_toupper (c : ascii) : tolower (toupper c) = tolower c.
Proof. destruct c as [[] [] [] [] [] [] [] []]; reflexivity. Qed.

Lemma tolower_tolower (c : ascii) : tolower (tolower c) = tolower c.
Proof. destruct c as [[] [] [] [] [] [] [] []]; reflexivity. Qed.

Lemma toupper_toupper (c : ascii) : toupper (toupper c) = toupper c.
Proof. destruct c as [[] [] [] [] [] [] [] []]; reflexivity. Qed.

Lemma toupper_dot (c : ascii) : Ascii.eqb (toupper c) "." = Ascii.eqb c ".".
Proof. destruct c as [[] [] [] [] [] [] [] []]; reflexivity. Qed.

Lemma tolower_dot (c : ascii) : Ascii.eqb (tolower c) "." = Ascii.eqb c ".".
Proof. destruct c as [[] [] [] [] [] [] [] []]; reflexivity. Qed.

Lemma tolower_nul (c : ascii) : tolower c = NUL -> c = NUL.
Proof.
  destruct c as [[] [] [] [] [] [] [] []]; intros H;
    first [reflexivity | (vm_compute in H; discriminate H)].
Qed.

Lemma code_inj (c1 c2 : ascii) : code c1 = code c2 -> c1 = c2.
Proof.
  unfold code. intros H. apply N2Z.inj in H.
  rewrite <- (ascii_N_embedding c1), <- (ascii_N_embedding c2). congruence.
Qed.

Lemma isdigit_plain (c : ascii) :
  isdigit c = true ->
  isspace c = false /\ Ascii.eqb c "," = false /\
  Ascii.eqb c "-" = false /\ Ascii.eqb c "+" = false.
Proof.
  destruct c as [[] [] [] [] [] [] [] []]; intros H;
    first [(vm_compute in H; discriminate H) | (repeat split; reflexivity)].
Qed.

(** ** [strcasecmp] and [get_file_type] *)

Lemma strcasecmp_zero (a : cstr) :
  forall b, Forall (fun c => c <> NUL) a -> Forall (fun c => c <> NUL) b ->
            (strcasecmp a b = 0 <-> map tolower a = map tolower b).
Proof.
  induction a as [|x a IH]; intros [|y b] Ha Hb; cbn [strcasecmp map hd].
  - split; reflexivity.
  - split; [|discriminate]. intros H. exfalso.
    apply Forall_cons_1 in Hb as [Hy _]. apply Hy, tolower_nul, code_inj.
    change (code (tolower NUL)) with 0 in H. change (code NUL) with 0. lia.
  - split; [|discriminate]. intros H. exfalso.
    apply Forall_cons_1 in Ha as [Hx _]. apply Hx, tolower_nul, code_inj.
    change (code (tolower NUL)) with 0 in H. change (code NUL) with 0. lia.
  - apply Forall_cons_1 in Ha as [_ Ha]. apply Forall_cons_1 in Hb as [_ Hb].
    destruct (code (tolower x) =? code (tolower y)) eqn:E.
    + apply Z.eqb_eq, code_inj in E. rewrite E, (IH b Ha Hb).
      split; [intros ->; reflexivity | intros H; injection H; auto].
    + apply Z.eqb_neq in E. split; [lia|].
      intros H. injection H as Hxy _. rewrite Hxy in E. contradiction.
Qed.

Lemma strcasecmp_swap (a : cstr) : forall b, strcasecmp b a = - strcasecmp a b.
Proof.
  induction a as [|x a IH]; intros [|y b]; cbn [strcasecmp hd]; try lia.
  rewrite (Z.eqb_sym (code (tolower y))).
  destruct (code (tolower x) =? code (tolower y)); [apply IH | lia].
Qed.

(** X1. [strcasecmp] returns 0 exactly for two strings that are equal once
    lowered, and swapping its arguments negates its result. *)
Theorem strcasecmp_ignores_case (a b : cstr) :
  Forall (fun c => c <> NUL) a -> Forall (fun c => c <> NUL) b ->
  (strcasecmp a b = 0 <-> map tolower a = map tolower b) /\
  strcasecmp b a = - strcasecmp a b.
Proof.
  intros Ha Hb. split; [apply strcasecmp_zero; assumption | apply strcasecmp_swap].
Qed.

Lemma strcasecmp_ignores_case_witness :
  Forall (fun c => c <> NUL) (lit "Mak") /\
  Forall (fun c => c <> NUL) (lit "mAK") /\
  (strcasecmp (lit "Mak") (lit "mAK") = 0
   <-> map tolower (lit "Mak") = map tolower (lit "mAK")) /\
  strcasecmp (lit "mAK") (lit "Mak") = - strcasecmp (lit "Mak") (lit "mAK").
Proof.
  assert (H1 : Forall (fun c => c <> NUL) (lit "Mak"))
    by (repeat constructor; discriminate).
  assert (H2 : Forall (fun c => c <> NUL) (lit "mAK"))
    by (repeat constructor; discriminate).
  split; [exact H1|]. split; [exact H2|].
  exact (strcasecmp_ignores_case (lit "Mak") (lit "mAK") H1 H2).
Defined.

Lemma strcasecmp_toupper (a : cstr) :
  forall b, strcasecmp (map toupper a) b = strcasecmp a b.
Proof.
  induction a as [|x a IH]; intros [|y b]; cbn [strcasecmp map hd];
    rewrite ?tolower_toupper; try reflexivity.
  rewrite IH. reflexivity.
Qed.

Lemma strcasecmp_tolower (a : cstr) :
  forall b, strcasecmp (map tolower a) b = strcasecmp a b.
Proof.
  induction a as [|x a IH]; intros [|y b]; cbn [strcasecmp map hd];
    rewrite ?tolower_tolower; try reflexivity.
  rewrite IH. reflexivity.
Qed.

Lemma strrchr_toupper (s : cstr) :
  strrchr (map toupper s) "." = map toupper <$> strrchr s ".".
Proof.
  induction s as [|x s IH]; cbn [strrchr map]; [reflexivity|].
  rewrite IH, toupper_dot. destruct (strrchr s "."); cbn; [reflexivity|].
  destruct (Ascii.eqb x "."); reflexivity.
Qed.

Lemma strrchr_tolower (s : cstr) :
  strrchr (map tolower s) "." = map tolower <$> strrchr s ".".
Proof.
  induction s as [|x s IH]; cbn [strrchr map]; [reflexivity|].
  rewrite IH, tolower_dot. destruct (strrchr s "."); cbn; [reflexivity|].
  destruct (Ascii.eqb x "."); reflexivity.
Qed.

Lemma get_file_type_fold (f : ascii -> ascii) (s : cstr) :
  (forall a b, strcasecmp (map f a) b = strcasecmp a b) ->
  strrchr (map f s) "." = map f <$> strrchr s "." ->
  get_file_type (map f s) = get_file_type s.
Proof.
  intros Hcmp Hdot. unfold get_file_type. rewrite Hdot.
  destruct s as [|x s]; [reflexivity|]. cbn [map].
  destruct (strrchr (x :: s) ".") as [dot|]; cbn [fmap option_fmap option_map];
    [|reflexivity].
  change (drop 1 (map f dot)) with (skipn 1 (map f dot)).
  rewrite skipn_map. unfold ext_is. rewrite !Hcmp. reflexivity.
Qed.

(** X2. The file type shown in the fullscreen status line does not depend
    on the case of the file name. *)
Theorem get_file_type_ignores_case (filename : cstr) :
  get_file_type (map toupper filename) = get_file_type filename /\
  get_file_type (map tolower filename) = get_file_type filename.
Proof.
  split; apply get_file_type_fold;
    auto using strcasecmp_toupper, strcasecmp_tolower, strrchr_toupper, strrchr_tolower.
Qed.

Lemma strrchr_none (s : cstr) (c : ascii) :
  Forall (fun x => x <> c) s -> strrchr s c = None.
Proof.
  induction 1 as [|x s Hx _ IH]; cbn [strrchr]; [reflexivity|].
  rewrite IH. destruct (Ascii.eqb_spec x c); [contradiction | reflexivity].
Qed.

Lemma strrchr_last (dir ext : cstr) (c : ascii) :
  Forall (fun x => x <> c) ext -> strrchr (dir ++ c :: ext) c = Some (c :: ext).
Proof.
  intros Hext. induction dir as [|x dir IH]; cbn [strrchr app].
  - rewrite (strrchr_none ext c Hext), Ascii.eqb_refl. reflexivity.
  - rewrite IH. reflexivity.
Qed.

(** X3. Only what follows the last dot of the name decides the file type;
    a name without a dot has none. *)
Theorem get_file_type_last_dot (dir ext : cstr) :
  Forall (fun c => c <> "."%char) ext ->
  get_file_type (dir ++ "."%char :: ext) = get_file_type ("."%char :: ext) /\
  get_file_type ext = [].
Proof.
  intros Hext. split.
  - unfold get_file_type.
    pose proof (strrchr_last [] ext "." Hext) as H0. cbn [app] in H0.
    rewrite (strrchr_last dir ext "." Hext), H0.
    destruct dir; reflexivity.
  - unfold get_file_type. rewrite (strrchr_none ext "." Hext).
    destruct ext; reflexivity.
Qed.

Lemma get_file_type_last_dot_witness :
  Forall (fun c => c <> "."%char) (lit "pas") /\
  get_file_type (lit "PROG.OLD" ++ "."%char :: lit "pas")
  = get_file_type ("."%char :: lit "pas") /\
  get_file_type (lit "pas") = [].
Proof.
  assert (H : Forall (fun c => c <> "."%char) (lit "pas"))
    by (repeat constructor; discriminate).
  split; [exact H|].
  exact (get_file_type_last_dot (lit "PROG.OLD") (lit "pas") H).
Defined.

(** ** [strcasestr_pos] *)

Lemma starts_with_take (p s : cstr) :
  starts_with p s = true <-> take (length p) s = p.
Proof.
  revert s. induction p as [|x p IH]; intros [|y s]; cbn [starts_with take length firstn].
  - split; reflexivity.
  - split; reflexivity.
  - split; discriminate.
  - rewrite andb_true_iff, IH. split.
    + intros [Hxy ->]. apply Ascii.eqb_eq in Hxy. subst. reflexivity.
    + intros H. injection H as -> H. rewrite Ascii.eqb_refl. auto.
Qed.

Lemma starts_with_found (hay needle : cstr) :
  starts_with (map tolower needle) (map tolower hay) = true <-> found_at hay needle 0.
Proof.
  rewrite starts_with_take. unfold found_at. cbn [drop skipn].
  rewrite length_map. change (take (length needle) (map tolower hay))
    with (firstn (length needle) (map tolower hay)).
  rewrite firstn_map. reflexivity.
Qed.

Lemma casestr_from_spec (hay needle : cstr) :
  forall i : Z,
    (casestr_from i hay needle = -1 /\ forall k, ~ found_at hay needle k) \/
    (exists k : nat, casestr_from i hay needle = i + Z.of_nat k /\
                     found_at hay needle k /\
                     forall j, (j < k)%nat -> ~ found_at hay needle j).
Proof.
  induction hay as [|x hay IH]; intros i; cbn [casestr_from].
  - destruct (starts_with (map tolower needle) (map tolower [])) eqn:E.
    + right. exists 0%nat. apply starts_with_found in E.
      split; [lia|]. split; [exact E | intros j Hj; lia].
    + left. split; [reflexivity|]. intros k Hk.
      assert (found_at [] needle 0) as H0
          by (unfold found_at in *; destruct k; exact Hk).
      apply starts_with_found in H0. congruence.
  - destruct (starts_with (map tolower needle) (map tolower (x :: hay))) eqn:E.
    + right. exists 0%nat. apply starts_with_found in E.
      split; [lia|]. split; [exact E | intros j Hj; lia].
    + assert (H0 : ~ found_at (x :: hay) needle 0)
        by (intros H; apply starts_with_found in H; congruence).
      destruct (IH (i + 1)) as [[-> Hno] | (k & -> & Hk & Hfirst)].
      * left. split; [reflexivity|]. intros [|k]; [exact H0 | apply (Hno k)].
      * right. exists (S k). split; [lia|]. split; [exact Hk|].
        intros [|j] Hj; [exact H0 | apply (Hfirst j); lia].
Qed.

(** X4. [strcasestr_pos] returns the offset of the first place where the
    needle occurs in the line when case is ignored, and -1 exactly when
    there is no such place. *)
Theorem strcasestr_pos_first_match (hay needle : cstr) :
  let r := strcasestr_pos hay needle in
  (r = -1 /\ forall i, ~ found_at hay needle i) \/
  (0 <= r /\ found_at hay needle (Z.to_nat r) /\
   forall i, (i < Z.to_nat r)%nat -> ~ found_at hay needle i).
Proof.
  cbv zeta.
  assert (E : strcasestr_pos hay needle = casestr_from 0 hay needle).
  { unfold strcasestr_pos. destruct needle; [|reflexivity].
    destruct hay; reflexivity. }
  rewrite E.
  destruct (casestr_from_spec hay needle 0) as [[-> Hno] | (k & -> & Hk & Hfirst)].
  - left. split; [reflexivity | exact Hno].
  - right. rewrite Z.add_0_l, Nat2Z.id. split; [lia|]. split; assumption.
Qed.

(** ** Reading a line: [fgets] followed by [chomp] *)

Lemma fgets_chars_shape (n : nat) :
  forall input l r,
    fgets_chars n input = (l, r) ->
    input = l ++ r /\ (length l <= n)%nat /\
    exists body, Forall (fun c => c <> LF) body /\ (l = body \/ l = body ++ [LF]).
Proof.
  induction n as [|n IH]; intros input l r H.
  - cbn [fgets_chars] in H. injection H as <- <-.
    split; [reflexivity|]. split; [cbn; lia|]. exists []. split; [constructor | left; reflexivity].
  - destruct input as [|c rest]; cbn [fgets_chars] in H.
    + injection H as <- <-. split; [reflexivity|]. split; [cbn; lia|].
      exists []. split; [constructor | left; reflexivity].
    + destruct (Ascii.eqb_spec c LF) as [->|Hc].
      * injection H as <- <-. split; [reflexivity|]. split; [cbn; lia|].
        exists []. split; [constructor | right; reflexivity].
      * destruct (fgets_chars n rest) as [l0 r0] eqn:E. injection H as <- <-.
        destruct (IH rest l0 r0 E) as (-> & Hlen & body & Hbody & Hl).
        split; [reflexivity|]. split; [cbn; lia|].
        exists (c :: body). split; [constructor; assumption|].
        destruct Hl as [-> | ->]; [left | right]; reflexivity.
Qed.

Lemma c_str_prefix (l : list ascii) :
  exists t, l = c_str l ++ t /\ Forall (fun c => c <> NUL) (c_str l).
Proof.
  induction l as [|c l (t & Ht & Hn)]; cbn [c_str].
  - exists []. split; [reflexivity | constructor].
  - destruct (Ascii.eqb_spec c NUL) as [->|Hc].
    + exists (NUL :: l). split; [reflexivity | constructor].
    + exists t. split; [cbn; congruence | constructor; assumption].
Qed.

Lemma c_str_snoc (body : list ascii) (c : ascii) :
  (exists t, body = c_str (body ++ [c]) ++ t) \/ c_str (body ++ [c]) = body ++ [c].
Proof.
  induction body as [|x body IH]; cbn [c_str app].
  - destruct (Ascii.eqb c NUL); [left; exists []; reflexivity | right; reflexivity].
  - destruct (Ascii.eqb x NUL); [left; exists (x :: body); reflexivity|].
    destruct IH as [[t Ht] | ->]; [left; exists t; cbn; congruence | right; reflexivity].
Qed.

Lemma chomp_prefix (s : cstr) : exists t, s = chomp s ++ t.
Proof.
  unfold chomp.
  set (s1 := if ends_in [LF; CR] s then take (length s - 1) s else s).
  assert (H1 : exists t, s = s1 ++ t).
  { unfold s1. destruct (ends_in [LF; CR] s).
    - exists (drop (length s - 1) s). symmetry. apply take_drop.
    - exists []. symmetry. apply app_nil_r. }
  destruct H1 as [t1 Ht1].
  destruct (ends_in [CR] s1).
  - exists (drop (length s1 - 1) s1 ++ t1).
    rewrite app_assoc, take_drop. exact Ht1.
  - exists t1. exact Ht1.
Qed.

Lemma Forall_prefix {A : Type} (P : A -> Prop) (l p t : list A) :
  l = p ++ t -> Forall P l -> Forall P p.
Proof. intros -> H. apply Forall_app in H. tauto. Qed.

Lemma chomp_line_clean (l : list ascii) (body : list ascii) :
  Forall (fun c => c <> LF) body -> l = body \/ l = body ++ [LF] ->
  Forall (fun c => c <> LF /\ c <> NUL) (chomp (c_str l)).
Proof.
  intros Hbody Hl.
  destruct (c_str_prefix l) as (t & Ht & Hnul).
  destruct (chomp_prefix (c_str l)) as (t' & Ht').
  assert (Hn : Forall (fun c => c <> NUL) (chomp (c_str l)))
    by (eapply Forall_prefix; [exact Ht' | exact Hnul]).
  assert (Hlf : Forall (fun c => c <> LF) (chomp (c_str l))).
  { destruct Hl as [-> | ->].
    - eapply Forall_prefix; [exact Ht'|]. eapply Forall_prefix; [exact Ht | exact Hbody].
    - destruct (c_str_snoc body LF) as [[u Hu] | E].
      + eapply Forall_prefix; [exact Ht'|]. eapply Forall_prefix; [exact Hu | exact Hbody].
      + rewrite E. unfold chomp. rewrite ends_in_snoc. cbn [existsb].
        rewrite Ascii.eqb_refl. cbn [orb]. rewrite drop_last_snoc.
        destruct (ends_in [CR] body); [|exact Hbody].
        eapply Forall_prefix; [|exact Hbody]. symmetry. apply take_drop. }
  clear - Hn Hlf. induction Hn as [|c s Hc _ IH]; [constructor|].
  apply Forall_cons_1 in Hlf as [Hc' Hlf]. constructor; [split; assumption | apply IH, Hlf].
Qed.

Lemma fgets_chomp_clean (size : Z) (input buf rest : list ascii) :
  2 <= size -> fgets size input = Some (buf, rest) ->
  Forall (fun c => c <> LF /\ c <> NUL) (chomp buf) /\
  strlen (chomp buf) <= size - 1 /\
  (length rest < length input)%nat.
Proof.
  intros Hsize H. split; [|split].
  - unfold fgets in H. destruct input as [|c input]; [discriminate|].
    destruct (fgets_chars (Z.to_nat (size - 1)) (c :: input)) as [l r] eqn:E.
    injection H as <- <-.
    destruct (fgets_chars_shape _ _ _ _ E) as (_ & _ & body & Hbody & Hl).
    exact (chomp_line_clean l body Hbody Hl).
  - unfold fgets in H. destruct input as [|c input]; [discriminate|].
    destruct (fgets_chars (Z.to_nat (size - 1)) (c :: input)) as [l r] eqn:E.
    injection H as <- <-.
    destruct (fgets_chars_shape _ _ _ _ E) as (_ & Hlen & _).
    destruct (c_str_prefix l) as (t & Ht & _).
    destruct (chomp_prefix (c_str l)) as (t' & Ht').
    apply (f_equal (@length ascii)) in Ht, Ht'. rewrite length_app in Ht, Ht'.
    unfold strlen. lia.
  - exact (fgets_shrinks size input buf rest Hsize H).
Qed.

(** X5. A line taken from a stream by [fgets] and cleaned by [chomp], as
    [load_file], [cmd_insert], [cmd_edit] and [main] do, contains neither
    a line feed nor a NUL, is shorter than the buffer, and the read has
    consumed at least one character of the stream. *)
Theorem input_line_is_clean (size : Z) (input buf rest : list ascii) :
  2 <= size -> fgets size input = Some (buf, rest) ->
  Forall (fun c => c <> LF /\ c <> NUL) (chomp buf) /\
  strlen (chomp buf) <= size - 1 /\
  (length rest < length input)%nat.
Proof. exact (fgets_chomp_clean size input buf rest). Qed.

Lemma input_line_is_clean_witness :
  2 <= LINE_LEN /\
  fgets LINE_LEN (lit "ab" ++ [CR; LF] ++ lit "cd") = Some (lit "ab" ++ [CR; LF], lit "cd") /\
  Forall (fun c => c <> LF /\ c <> NUL) (chomp (lit "ab" ++ [CR; LF])) /\
  strlen (chomp (lit "ab" ++ [CR; LF])) <= LINE_LEN - 1 /\
  (length (lit "cd") < length (lit "ab" ++ [CR; LF] ++ lit "cd"))%nat.
Proof.
  assert (H1 : 2 <= LINE_LEN) by (vm_compute; discriminate).
  assert (H2 : fgets LINE_LEN (lit "ab" ++ [CR; LF] ++ lit "cd")
               = Some (lit "ab" ++ [CR; LF], lit "cd")) by (vm_compute; reflexivity).
  split; [exact H1|]. split; [exact H2|].
  exact (input_line_is_clean LINE_LEN _ _ _ H1 H2).
Defined.

(** ** Command parsing *)

Lemma scan_between_spec (d : ascii) (s rest : cstr) (outsz : Z) :
  Forall (fun c => c <> d) s ->
  forall out, strlen out <= outsz - 1 ->
    scan_between (s ++ d :: rest) d outsz out
    = Some (take (Z.to_nat (outsz - 1)) (out ++ s), rest).
Proof.
  induction 1 as [|c s Hc _ IH]; intros out Hout; cbn [scan_between app].
  - rewrite Ascii.eqb_refl, app_nil_r, take_ge; [reflexivity|].
    unfold strlen in Hout. lia.
  - destruct (Ascii.eqb_spec c d) as [->|_]; [contradiction|].
    destruct (strlen out + 1 <? outsz) eqn:E.
    + apply Z.ltb_lt in E. rewrite IH.
      * rewrite <- app_assoc. reflexivity.
      * unfold strlen in *. rewrite length_app. cbn [length]. lia.
    + apply Z.ltb_ge in E. rewrite (IH out Hout).
      unfold strlen in *.
      rewrite !take_app_le by lia. reflexivity.
Qed.

Lemma scan_between_open (d : ascii) (s : cstr) (outsz : Z) :
  Forall (fun c => c <> d) s -> forall out, scan_between s d outsz out = None.
Proof.
  induction 1 as [|c s Hc _ IH]; intros out; cbn [scan_between]; [reflexivity|].
  destruct (Ascii.eqb_spec c d) as [->|_]; [contradiction | apply IH].
Qed.



Lemma digits_value_stop (ds : cstr) (c : ascii) (rest : cstr) :
  Forall (fun x => isdigit x = true) ds -> isdigit c = false ->
  forall acc, digits_value acc (ds ++ c :: rest) = digits_value acc ds.
Proof.
  intros Hds Hc. induction Hds as [|x ds' Hx _ IH]; intros acc; cbn [digits_value app].
  - rewrite Hc. reflexivity.
  - rewrite Hx. apply IH.
Qed.

Lemma skip_digits_stop (ds : cstr) (c : ascii) (rest : cstr) :
  Forall (fun x => isdigit x = true) ds -> isdigit c = false ->
  skip_digits (ds ++ c :: rest) = c :: rest.
Proof.
  intros Hds Hc. induction Hds as [|x ds' Hx _ IH]; cbn [skip_digits app].
  - rewrite Hc. reflexivity.
  - rewrite Hx. exact IH.
Qed.

Lemma skip_digits_all (ds : cstr) :
  Forall (fun x => isdigit x = true) ds -> skip_digits ds = [].
Proof.
  induction 1 as [|x ds' Hx _ IH]; cbn [skip_digits]; [reflexivity|].
  rewrite Hx. exact IH.
Qed.

Lemma digits_value_nonneg (s : cstr) : forall acc, 0 <= acc -> 0 <= digits_value acc s.
Proof.
  induction s as [|c s IH]; intros acc Hacc; cbn [digits_value]; [exact Hacc|].
  destruct (isdigit c) eqn:Hc; [|exact Hacc].
  apply IH. unfold isdigit in Hc. apply andb_prop in Hc as [H1 H2].
  apply Z.leb_le in H1. lia.
Qed.

(** [atoi] on a number that fits an [int]. *)
Lemma atoi_digits (c : ascii) (s : cstr) :
  isdigit c = true -> digits_value 0 (c :: s) <= INT_MAX ->
  atoi (c :: s) = Some (digits_value 0 (c :: s)).
Proof.
  intros Hc Hfit. destruct (isdigit_plain c Hc) as (Hsp & _ & Hminus & Hplus).
  pose proof (digits_value_nonneg (c :: s) 0 ltac:(lia)) as Hpos.
  unfold atoi. cbn [skip_space]. rewrite Hsp, Hminus, Hplus. cbv zeta.
  destruct (- INT_MAX - 1 <=? digits_value 0 (c :: s)) eqn:A;
    [|apply Z.leb_gt in A; unfold INT_MAX in *; lia].
  destruct (digits_value 0 (c :: s) <=? INT_MAX) eqn:B;
    [reflexivity | apply Z.leb_gt in B; lia].
Qed.

Lemma atoi_digit_string (ds : cstr) :
  Forall (fun x => isdigit x = true) ds -> digits_value 0 ds <= INT_MAX ->
  atoi ds = Some (digits_value 0 ds).
Proof.
  intros [|c ds' Hc _] Hfit; [reflexivity | apply atoi_digits; assumption].
Qed.

(** A single number as a range: line [n], or the whole document when the
    number reads as 0. *)
Lemma parse_range_single (e : editor) (ds : cstr) :
  Forall (fun c => isdigit c = true) ds -> ds <> [] ->
  digits_value 0 ds <= INT_MAX ->
  parse_range e ds
  = Some (Some (if digits_value 0 ds >? 0 then digits_value 0 ds else 1,
                if digits_value 0 ds >? 0 then digits_value 0 ds else line_count e)).
Proof.
  intros Hds Hne Hfit. destruct Hds as [|c ds' Hc Hds]; [contradiction|].
  destruct (isdigit_plain c Hc) as (Hsp & Hcm & _ & _).
  unfold parse_range. cbn [skip_space]. rewrite Hsp, Hcm, Hc.
  rewrite (atoi_digits c ds' Hc Hfit),
    (skip_digits_all (c :: ds') ltac:(constructor; assumption)).
  cbn [skip_space mbind option_bind]. reflexivity.
Qed.

(** X7. The range grammar of the commands, for numbers that fit an
    [int]: [n] selects line [n], [a,b] the lines from [a] to [b], [,b]
    the lines up to [b], and nothing the whole document; a number that
    reads as 0, or a missing end, stands for line 1 as a start and for
    the last line as an end. *)
Theorem parse_range_grammar (e : editor) (ds1 ds2 : cstr) :
  Forall (fun c => isdigit c = true) ds1 -> ds1 <> [] ->
  Forall (fun c => isdigit c = true) ds2 ->
  digits_value 0 ds1 <= INT_MAX -> digits_value 0 ds2 <= INT_MAX ->
  let x := digits_value 0 ds1 in
  let y := digits_value 0 ds2 in
  parse_range e ds1
  = Some (Some (if x >? 0 then x else 1, if x >? 0 then x else line_count e)) /\
  parse_range e (ds1 ++ ","%char :: ds2)
  = Some (Some (if x >? 0 then x else 1, if y >? 0 then y else line_count e)) /\
  parse_range e (","%char :: ds2)
  = Some (Some (1, if y >? 0 then y else line_count e)) /\
  parse_range e [] = Some (Some (1, line_count e)).
Proof.
  intros H1 Hne H2 Hfit1 Hfit2. cbv zeta.
  assert (Hcomma : isdigit "," = false) by reflexivity.
  split; [exact (parse_range_single e ds1 H1 Hne Hfit1)|].
  destruct H1 as [|c ds1' Hc H1]; [contradiction|]. clear Hne. rename ds1' into ds1.
  destruct (isdigit_plain c Hc) as (Hsp & Hcm & _ & _).
  assert (Hds1 : Forall (fun c => isdigit c = true) (c :: ds1))
    by (constructor; assumption).
  split; [|split].
  - assert (Hx : digits_value 0 (c :: ds1 ++ ","%char :: ds2) = digits_value 0 (c :: ds1))
      by exact (digits_value_stop (c :: ds1) "," ds2 Hds1 Hcomma 0).
    unfold parse_range. cbn [skip_space app]. rewrite Hsp, Hcm, Hc.
    rewrite (atoi_digits c (ds1 ++ ","%char :: ds2) Hc) by (rewrite Hx; exact Hfit1).
    rewrite Hx. cbn [mbind option_bind].
    change (c :: ds1 ++ ","%char :: ds2) with ((c :: ds1) ++ ","%char :: ds2).
    rewrite (skip_digits_stop (c :: ds1) "," ds2 Hds1 Hcomma).
    cbn [skip_space]. change (isspace ",") with false. cbn iota.
    rewrite Ascii.eqb_refl.
    destruct H2 as [|c2 ds2' Hc2 H2]; cbn [skip_space].
    + cbn [digits_value mbind option_bind]. destruct (line_count e >? 0); reflexivity.
    + destruct (isdigit_plain c2 Hc2) as (Hsp2 & _). rewrite Hsp2.
      rewrite (atoi_digits c2 ds2' Hc2 Hfit2). reflexivity.
  - unfold parse_range. cbn [skip_space]. change (isspace ",") with false. cbn iota.
    rewrite Ascii.eqb_refl. rewrite (atoi_digit_string ds2 H2 Hfit2). reflexivity.
  - reflexivity.
Qed.

Lemma parse_range_grammar_witness :
  Forall (fun c => isdigit c = true) (lit "0") /\ lit "0" <> [] /\
  Forall (fun c => isdigit c = true) (lit "12") /\
  digits_value 0 (lit "0") <= INT_MAX /\ digits_value 0 (lit "12") <= INT_MAX /\
  parse_range initial (lit "0") = Some (Some (1, line_count initial)) /\
  parse_range initial (lit "0" ++ ","%char :: lit "12") = Some (Some (1, 12)) /\
  parse_range initial (","%char :: lit "12") = Some (Some (1, 12)) /\
  parse_range initial [] = Some (Some (1, line_count initial)).
Proof.
  assert (H1 : Forall (fun c => isdigit c = true) (lit "0"))
    by (repeat constructor).
  assert (H2 : Forall (fun c => isdigit c = true) (lit "12"))
    by (repeat constructor).
  assert (Hne : lit "0" <> []) by discriminate.
  assert (Hfit1 : digits_value 0 (lit "0") <= INT_MAX) by (vm_compute; discriminate).
  assert (Hfit2 : digits_value 0 (lit "12") <= INT_MAX) by (vm_compute; discriminate).
  split; [exact H1|]. split; [exact Hne|]. split; [exact H2|].
  split; [exact Hfit1|]. split; [exact Hfit2|].
  exact (parse_range_grammar initial (lit "0") (lit "12") H1 Hne H2 Hfit1 Hfit2).
Defined.

(** Case analysis on the integer comparisons of the goal, innermost first. *)
Ltac plain_term x :=
  lazymatch x with
  | context [if _ then _ else _] => fail
  | _ => idtac
  end.

Ltac zcase1 :=
  match goal with
  | |- context [?x <? ?y] => plain_term x; plain_term y; destruct (Z.ltb_spec x y); try lia
  | |- context [?x >? ?y] => plain_term x; plain_term y; destruct (Z.gtb_spec x y); try lia
  | |- context [?x <=? ?y] => plain_term x; plain_term y; destruct (Z.leb_spec x y); try lia
  | |- context [?x >=? ?y] => plain_term x; plain_term y; destruct (Z.geb_spec x y); try lia
  | |- context [?x =? ?y] => plain_term x; plain_term y; destruct (Z.eqb_spec x y); try lia
  end.

Ltac zcases :=
  cbv zeta; cbn [andb orb negb fst snd];
  repeat (zcase1; cbv zeta; cbn [andb orb negb fst snd]).

(** ** The document as a list *)

Lemma aget_nat (l : list (option cstr)) (i : nat) : aget l (Z.of_nat i) = l !! i.
Proof.
  unfold aget. destruct (Z.of_nat i <? 0) eqn:E; [apply Z.ltb_lt in E; lia|].
  rewrite Nat2Z.id. reflexivity.
Qed.

Lemma aget_lookup (l : list (option cstr)) (i : Z) :
  0 <= i -> aget l i = l !! Z.to_nat i.
Proof.
  intros Hi. unfold aget. destruct (i <? 0) eqn:E; [apply Z.ltb_lt in E; lia|].
  reflexivity.
Qed.

(** A list is the document of [e] when it has [line_count] elements and
    agrees with the array slot by slot. *)
Lemma document_lookup (e : editor) (ls : list (option cstr)) :
  line_count e = Z.of_nat (length ls) ->
  (forall (i : nat) v, ls !! i = Some v -> aget (lines e) (Z.of_nat i) = Some v) ->
  document e = ls.
Proof.
  intros Hlc H. unfold document. rewrite Hlc, Nat2Z.id. apply list_eq. intros i.
  destruct (ls !! i) as [v|] eqn:E.
  - rewrite lookup_take_lt by (apply lookup_lt_Some in E; exact E).
    rewrite <- aget_nat. apply H, E.
  - apply lookup_take_ge. apply lookup_ge_None in E. exact E.
Qed.

Lemma document_length (e : editor) :
  0 <= line_count e <= Z.of_nat (length (lines e)) ->
  Z.of_nat (length (document e)) = line_count e.
Proof. intros H. unfold document. rewrite length_take. lia. Qed.

Lemma document_aget (e : editor) (i : nat) (v : option cstr) :
  document e !! i = Some v ->
  aget (lines e) (Z.of_nat i) = Some v /\ Z.of_nat i < line_count e.
Proof.
  unfold document. intros H. apply lookup_take_Some in H as [H Hi].
  rewrite aget_nat. split; [exact H | lia].
Qed.

Lemma aget_document (e : editor) (i : Z) :
  0 <= i < line_count e -> aget (lines e) i = document e !! Z.to_nat i.
Proof.
  intros Hi. unfold document. rewrite lookup_take_lt by lia. apply aget_lookup. lia.
Qed.

(** ** [cmd_delete] on the document *)

Lemma free_loop_other (n : nat) :
  forall (i : Z) (e e1 : editor),
    for_range n i (fun i e => Some (free_line e i)) e = Some e1 ->
    forall j, ~ (i <= j < i + Z.of_nat n) -> aget (lines e1) j = aget (lines e) j.
Proof.
  induction n as [|n IH]; intros i e e1 H j Hj.
  - cbn [for_range] in H. congruence.
  - cbn [for_range mbind option_bind] in H.
    rewrite (IH (i + 1) (free_line e i) e1 H j) by lia.
    apply free_line_other. lia.
Qed.

Lemma cmd_delete_document (e : editor) (a b lo hi : Z) :
  store_wf e -> delete_range e a b = Some (lo, hi) ->
  exists e',
    cmd_delete e a b = Some e' /\
    document e'
    = take (Z.to_nat (lo - 1)) (document e) ++ drop (Z.to_nat hi) (document e) /\
    line_count e' = line_count e - (hi - lo + 1) /\
    length (lines e') = length (lines e).
Proof.
  intros Hwf R. pose proof Hwf as [Hlen Hlc].
  destruct (delete_range_bounds e a b lo hi ltac:(lia) R) as (Hlo & Hlh & Hhi).
  unfold cmd_delete. rewrite R. unfold for_upto.
  destruct (free_loop_keeps (Z.to_nat (hi - 1 - (lo - 1) + 1)) (lo - 1) e)
    as (e1 & Hfree & Hl1 & Hc1).
  rewrite Hfree. cbn [mbind option_bind].
  pose proof (free_loop_other _ _ _ _ Hfree) as Hother.
  assert (Hwf1 : store_wf e1) by (split; lia).
  destruct (close_gap_spec e1 (lo - 1) (hi - lo + 1) Hwf1) as (l2 & Hcg & Hl2 & Hmoved & Hkept);
    try lia.
  rewrite Hcg. cbn [mbind option_bind].
  eexists. split; [reflexivity|].
  assert (Hdoc : Z.of_nat (length (document e)) = line_count e)
    by (apply document_length; lia).
  split; [|split; [cbn; lia | cbn; congruence]].
  apply document_lookup.
  - cbn [line_count with_last with_line_count with_lines].
    rewrite length_app, length_take, length_drop. lia.
  - intros i v Hi. cbn [lines with_last with_line_count with_lines].
    destruct (decide (i < Z.to_nat (lo - 1))%nat) as [Hlt|Hge].
    + rewrite lookup_app_l in Hi by (rewrite length_take; lia).
      rewrite lookup_take_lt in Hi by lia.
      apply document_aget in Hi as [Hi _].
      rewrite Hkept by lia. rewrite Hother by lia. exact Hi.
    + rewrite lookup_app_r in Hi by (rewrite length_take; lia).
      rewrite length_take, lookup_drop in Hi.
      apply document_aget in Hi as [Hi Hrange].
      rewrite Hmoved by lia. rewrite Hother by lia.
      rewrite <- Hi. f_equal. lia.
Qed.

(** X8. Deleting the lines [a] to [b] of the document, [1 <= a <= b <=
    line_count], removes exactly those lines: what is left is the lines
    before [a] followed by the lines after [b]. *)
Theorem cmd_delete_removes_range (e : editor) (a b : Z) :
  store_wf e -> 1 <= a <= b -> b <= line_count e ->
  exists e',
    cmd_delete e a b = Some e' /\
    document e'
    = take (Z.to_nat (a - 1)) (document e) ++ drop (Z.to_nat b) (document e) /\
    line_count e' = line_count e - (b - a + 1).
Proof.
  intros Hwf Hab Hb.
  assert (R : delete_range e a b = Some (a, b)).
  { unfold delete_range, to_range_defaults. zcases; reflexivity. }
  destruct (cmd_delete_document e a b a b Hwf R) as (e' & H1 & H2 & H3 & _).
  exists e'. auto.
Qed.

Lemma cmd_delete_removes_range_witness :
  let e := editor_of [lit "one"; lit "two"; lit "three"; lit "four"] in
  store_wf e /\ 1 <= 2 <= 3 /\ 3 <= line_count e /\
  exists e',
    cmd_delete e 2 3 = Some e' /\
    document e'
    = take (Z.to_nat (2 - 1)) (document e) ++ drop (Z.to_nat 3) (document e) /\
    line_count e' = line_count e - (3 - 2 + 1).
Proof.
  cbv zeta.
  assert (Hwf : store_wf (editor_of [lit "one"; lit "two"; lit "three"; lit "four"]))
    by (split; vm_compute; [reflexivity | split; discriminate]).
  split; [exact Hwf|]. split; [lia|]. split; [vm_compute; discriminate|].
  apply (cmd_delete_removes_range _ 2 3 Hwf); [lia | vm_compute; discriminate].
Defined.

(** X9. A delete whose first line number lies beyond the end of the
    document is not refused: it removes the last line, or everything from
    line [b] on when [b] is a line of the document. *)
Theorem cmd_delete_beyond_end (e : editor) (a b : Z) :
  store_wf e -> 0 < line_count e < a ->
  let from := if (1 <=? b) && (b <=? line_count e) then b else line_count e in
  exists e',
    cmd_delete e a b = Some e' /\
    document e' = take (Z.to_nat (from - 1)) (document e) /\
    line_count e' = from - 1.
Proof.
  intros Hwf Ha. cbv zeta. pose proof Hwf as [Hlen Hlc].
  set (from := if (1 <=? b) && (b <=? line_count e) then b else line_count e).
  assert (Hfrom : 1 <= from <= line_count e).
  { unfold from. destruct (Z.leb_spec 1 b), (Z.leb_spec b (line_count e)); cbn; lia. }
  assert (R : delete_range e a b = Some (from, line_count e)).
  { clear Hfrom. unfold delete_range, to_range_defaults, from. zcases; reflexivity. }
  destruct (cmd_delete_document e a b from (line_count e) Hwf R) as (e' & H1 & H2 & H3 & _).
  exists e'. split; [exact H1|]. split; [|lia].
  rewrite H2, drop_ge, app_nil_r; [reflexivity|].
  unfold document. rewrite length_take. lia.
Qed.

Lemma cmd_delete_beyond_end_witness :
  let e := editor_of [lit "one"; lit "two"; lit "three"] in
  store_wf e /\ 0 < line_count e < 20 /\
  exists e',
    cmd_delete e 20 20 = Some e' /\
    document e' = take (Z.to_nat (line_count e - 1)) (document e) /\
    line_count e' = line_count e - 1.
Proof.
  cbv zeta.
  assert (Hwf : store_wf (editor_of [lit "one"; lit "two"; lit "three"]))
    by (split; vm_compute; [reflexivity | split; discriminate]).
  split; [exact Hwf|]. split; [vm_compute; split; reflexivity|].
  apply (cmd_delete_beyond_end _ 20 20 Hwf). vm_compute. split; reflexivity.
Defined.

(** ** [cmd_insert] and [cmd_edit] on the document *)

(** The document after a slot has been opened at [pos] and filled. *)
Lemma insert_slot_document (e : editor) (pos : Z) (l1 l2 : list (option cstr))
      (v : option cstr) :
  store_wf e -> 0 <= pos <= line_count e -> line_count e + 1 <= MAX_LINES ->
  length l1 = length (lines e) ->
  (forall j, pos + 1 <= j < line_count e + 1 -> aget l1 j = aget (lines e) (j - 1)) ->
  (forall j, ~ (pos + 1 <= j < line_count e + 1) -> aget l1 j = aget (lines e) j) ->
  aset l1 pos v = Some l2 ->
  document (with_lines l2 (with_line_count (line_count e + 1) (with_lines l1 e)))
  = take (Z.to_nat pos) (document e) ++ v :: drop (Z.to_nat pos) (document e).
Proof.
  intros [Hlen Hlc] Hpos Hroom Hl1 Hmoved Hkept Hset.
  assert (Hdoc : Z.of_nat (length (document e)) = line_count e)
    by (apply document_length; lia).
  apply document_lookup.
  - cbn [line_count with_line_count with_lines].
    rewrite length_app, length_take. cbn [length]. rewrite length_drop. lia.
  - intros i x Hi. cbn [lines with_line_count with_lines].
    destruct (decide (i < Z.to_nat pos)%nat) as [Hlt|Hge].
    + rewrite lookup_app_l in Hi by (rewrite length_take; lia).
      rewrite lookup_take_lt in Hi by lia.
      apply document_aget in Hi as [Hi _].
      rewrite (aget_aset_ne _ _ _ _ _ Hset) by lia.
      rewrite Hkept by lia. exact Hi.
    + rewrite lookup_app_r in Hi by (rewrite length_take; lia).
      rewrite length_take in Hi.
      replace (i - Z.to_nat pos `min` length (document e))%nat
        with (i - Z.to_nat pos)%nat in Hi by lia.
      destruct (i - Z.to_nat pos)%nat as [|k] eqn:Ek.
      * cbn in Hi. injection Hi as <-.
        replace (Z.of_nat i) with pos by lia.
        apply (aget_aset_eq _ _ _ _ Hset).
      * change (drop (Z.to_nat pos) (document e) !! k = Some x) in Hi.
        rewrite lookup_drop in Hi.
        apply document_aget in Hi as [Hi Hrange].
        rewrite (aget_aset_ne _ _ _ _ _ Hset) by lia.
        rewrite Hmoved by lia. rewrite <- Hi. f_equal. lia.
Qed.

(** One round of the loop of [cmd_insert] that stores a line. *)
Lemma insert_loop_step (fuel : nat) (pos : Z) (e : editor) (w : world)
      (buf : cstr) (rest : list ascii) (l1 l2 : list (option cstr)) (h' : heap) :
  fgets LINE_LEN (stdin w) = Some (buf, rest) ->
  streq (chomp buf) (lit ".") = false ->
  make_room e pos 1
  = Some (true, with_line_count (line_count e + 1) (with_lines l1 e)) ->
  malloc (mem w) = (true, h') ->
  aset l1 pos (Some (chomp buf)) = Some l2 ->
  insert_loop (S fuel) pos e w
  = insert_loop fuel (pos + 1)
      (with_lines l2 (with_line_count (line_count e + 1) (with_lines l1 e)))
      (with_mem h' (with_stdin rest (print (fmt_05d (pos + 1) ++ lit ": ") w))).
Proof.
  intros Hgets Hdot Hroom Hmalloc Hset.
  cbn [insert_loop]. cbn [print with_stdout stdin]. rewrite Hgets.
  cbv zeta. rewrite Hdot, Hroom. cbn [mbind option_bind negb].
  unfold xstrdup, print. cbn [mem with_stdin with_stdout]. rewrite Hmalloc.
  cbn [lines with_line_count with_lines]. rewrite Hset.
  cbn [mbind option_bind]. reflexivity.
Qed.

(** The round that reads the closing ["."]. *)
Lemma insert_loop_stop (fuel : nat) (pos : Z) (e : editor) (w : world)
      (buf : cstr) (rest : list ascii) :
  fgets LINE_LEN (stdin w) = Some (buf, rest) ->
  streq (chomp buf) (lit ".") = true ->
  insert_loop (S fuel) pos e w
  = Some (pos, e, with_stdin rest (print (fmt_05d (pos + 1) ++ lit ": ") w)).
Proof.
  intros Hgets Hdot.
  cbn [insert_loop]. cbn [print with_stdout stdin]. rewrite Hgets.
  cbv zeta. rewrite Hdot. reflexivity.
Qed.

Lemma file_of_lines_cons (eol : list ascii) (l : cstr) (ls : list cstr) :
  file_of_lines eol (l :: ls) = (l ++ eol) ++ file_of_lines eol ls.
Proof. reflexivity. Qed.

Lemma fgets_dot (rest : list ascii) :
  exists buf, fgets LINE_LEN (lit "." ++ [LF] ++ rest) = Some (buf, rest) /\
              streq (chomp buf) (lit ".") = true.
Proof.
  exists (lit "." ++ [LF]). split; [|reflexivity].
  apply (fgets_line LINE_LEN (lit ".") rest).
  - repeat constructor; discriminate.
  - repeat constructor; discriminate.
  - vm_compute. reflexivity.
Qed.

Lemma insert_loop_document (typed : list cstr) (rest : list ascii) :
  Forall (fun l => plain_line [LF] l /\ streq l (lit ".") = false) typed ->
  forall (fuel : nat) (pos : Z) (e : editor) (w : world),
    store_wf e -> 0 <= pos <= line_count e ->
    line_count e + Z.of_nat (length typed) <= MAX_LINES ->
    allocs_succeed (length typed) (mem w) ->
    stdin w = file_of_lines [LF] typed ++ lit "." ++ [LF] ++ rest ->
    (length (stdin w) < fuel)%nat ->
    exists e' w',
      insert_loop fuel pos e w = Some (pos + Z.of_nat (length typed), e', w') /\
      store_wf e' /\
      line_count e' = line_count e + Z.of_nat (length typed) /\
      document e'
      = take (Z.to_nat pos) (document e) ++ map Some typed
        ++ drop (Z.to_nat pos) (document e) /\
      stdin w' = rest /\ disk w' = disk w.
Proof.
  induction 1 as [|l typed [Hplain Hnodot] _ IH];
    intros fuel pos e w Hwf Hpos Hroom Hmem Hin Hfuel.
  - destruct fuel as [|fuel]; [lia|].
    destruct (fgets_dot rest) as (buf & Hgets & Hdot).
    change (stdin w = lit "." ++ [LF] ++ rest) in Hin.
    rewrite <- Hin in Hgets.
    rewrite (insert_loop_stop fuel pos e w buf rest Hgets Hdot).
    eexists _, _. split; [cbn [length]; rewrite Z.add_0_r; reflexivity|].
    split; [exact Hwf|]. split; [cbn [length]; lia|].
    split; [cbn [map app]; symmetry; apply take_drop|].
    split; reflexivity.
  - destruct fuel as [|fuel]; [lia|].
    rewrite file_of_lines_cons, <- app_assoc in Hin.
    destruct (fgets_plain_line [LF] l
                (file_of_lines [LF] typed ++ lit "." ++ [LF] ++ rest))
      as (buf & Hgets & Hbuf); [left; reflexivity | exact Hplain |].
    rewrite <- Hin in Hgets.
    cbn [length] in Hroom, Hmem.
    destruct (make_room_spec e pos 1 Hwf) as (l1 & Hmk & Hl1 & Hmoved & Hkept); try lia.
    destruct (malloc_succeeds _ _ Hmem) as (h1 & Hmalloc & Hmem1).
    pose proof Hwf as [Hlen Hlc].
    assert (Hset : aset l1 pos (Some (chomp buf)) = Some (<[Z.to_nat pos := Some (chomp buf)]> l1))
      by (apply aset_in_range; lia).
    assert (Hnodot' : streq (chomp buf) (lit ".") = false) by (rewrite Hbuf; exact Hnodot).
    rewrite (insert_loop_step fuel pos e w buf _ l1 _ h1 Hgets Hnodot' Hmk Hmalloc Hset).
    pose proof (insert_slot_document e pos l1 _ (Some (chomp buf)) Hwf Hpos
                  ltac:(lia) Hl1 Hmoved Hkept Hset) as Hdoc1.
    match goal with
    | |- context [insert_loop fuel ?p ?e0 ?w0] =>
        destruct (IH fuel p e0 w0) as (e' & w' & Hrun & Hwf' & Hlc' & Hdoc' & Hin' & Hdisk')
    end.
    + split; cbn [lines line_count with_lines with_line_count];
        [rewrite length_insert; lia | lia].
    + cbn [line_count with_lines with_line_count]. lia.
    + cbn [line_count with_lines with_line_count]. lia.
    + exact Hmem1.
    + reflexivity.
    + cbn [stdin with_mem with_stdin].
      apply (fgets_shrinks LINE_LEN) in Hgets; [lia | unfold LINE_LEN; lia].
    + exists e', w'. split; [rewrite Hrun; f_equal; f_equal; f_equal; cbn [length]; lia|].
      split; [exact Hwf'|].
      split; [rewrite Hlc'; cbn [line_count with_lines with_line_count length]; lia|].
      split; [|split; [exact Hin' | exact Hdisk']].
      rewrite Hdoc', Hdoc1, Hbuf.
      assert (Hdoc : Z.of_nat (length (document e)) = line_count e)
        by (apply document_length; lia).
      assert (Htl : length (take (Z.to_nat pos) (document e)) = Z.to_nat pos)
        by (rewrite length_take; lia).
      replace (Z.to_nat (pos + 1)) with (Z.to_nat pos + 1)%nat by lia.
      rewrite (take_app_add' _ (Some l :: drop (Z.to_nat pos) (document e)) (Z.to_nat pos) 1 (eq_sym Htl)).
      rewrite (drop_app_add' _ (Some l :: drop (Z.to_nat pos) (document e)) (Z.to_nat pos) 1 (eq_sym Htl)).
      cbn [take drop firstn skipn map]. rewrite <- app_assoc. reflexivity.
Qed.

(** X10. [cmd_insert] puts the lines typed up to the closing ["."] into
    the document at the insertion position, in the order typed, and moves
    the lines that were there behind them; the input behind the ["."] is
    left unread. *)
Theorem cmd_insert_inserts (e : editor) (w : world) (n : Z)
        (typed : list cstr) (rest : list ascii) :
  store_wf e ->
  Forall (fun l => plain_line [LF] l /\ streq l (lit ".") = false) typed ->
  line_count e + Z.of_nat (length typed) <= MAX_LINES ->
  allocs_succeed (length typed) (mem w) ->
  stdin w = file_of_lines [LF] typed ++ lit "." ++ [LF] ++ rest ->
  let pos := Z.to_nat (insert_start e n - 1) in
  exists e' w',
    cmd_insert e w n = Some (e', w') /\
    document e' = take pos (document e) ++ map Some typed ++ drop pos (document e) /\
    line_count e' = line_count e + Z.of_nat (length typed) /\
    stdin w' = rest.
Proof.
  intros Hwf Htyped Hroom Hmem Hin. cbv zeta. unfold cmd_insert.
  assert (Hpos : 0 <= insert_start e n - 1 <= line_count e).
  { destruct Hwf as [_ Hlc]. unfold insert_start. zcases; lia. }
  match goal with
  | |- context [insert_loop ?f ?p e ?w0] =>
      destruct (insert_loop_document typed rest Htyped f p e w0)
        as (e' & w' & Hrun & _ & Hlc' & Hdoc' & Hin' & _);
        [exact Hwf | exact Hpos | exact Hroom | exact Hmem | exact Hin
        | cbn [print stdin with_stdout]; lia |]
  end.
  rewrite Hrun. cbn [mbind option_bind].
  eexists _, _. split; [reflexivity|].
  split; [exact Hdoc' | split; [exact Hlc' | exact Hin']].
Qed.
Lemma plain_line_short (s : string) :
  forallb (fun c => negb (Ascii.eqb c NUL) && negb (Ascii.eqb c LF)) (lit s) = true ->
  (Z.of_nat (length (lit s)) <=? 200) = true ->
  ends_in [CR] (lit s) = false ->
  plain_line [LF] (lit s).
Proof.
  intros Hchars Hlen Hcr. split; [|split].
  - apply Forall_forall. intros c Hc.
    rewrite forallb_forall in Hchars. specialize (Hchars c Hc).
    apply andb_true_iff in Hchars as [H1 H2].
    split; intros ->; discriminate.
  - apply Z.leb_le in Hlen. unfold strlen, LINE_LEN. cbn [length]. lia.
  - intros _. exact Hcr.
Qed.

Lemma cmd_insert_inserts_witness :
  let e := editor_of [lit "a"; lit "c"] in
  let w := typing (file_of_lines [LF] [lit "b"] ++ lit "." ++ [LF] ++ lit "L") in
  store_wf e /\
  Forall (fun l => plain_line [LF] l /\ streq l (lit ".") = false) [lit "b"] /\
  line_count e + Z.of_nat (length [lit "b"]) <= MAX_LINES /\
  allocs_succeed (length [lit "b"]) (mem w) /\
  stdin w = file_of_lines [LF] [lit "b"] ++ lit "." ++ [LF] ++ lit "L" /\
  exists e' w',
    cmd_insert e w 2 = Some (e', w') /\
    document e' = [Some (lit "a"); Some (lit "b"); Some (lit "c")] /\
    line_count e' = 3 /\
    stdin w' = lit "L".
Proof.
  cbv zeta.
  assert (Hwf : store_wf (editor_of [lit "a"; lit "c"]))
    by (split; vm_compute; [reflexivity | split; discriminate]).
  assert (Htyped : Forall (fun l => plain_line [LF] l /\ streq l (lit ".") = false)
                          [lit "b"]).
  { constructor; [|constructor]. split; [|reflexivity].
    apply plain_line_short; reflexivity. }
  assert (Hroom : line_count (editor_of [lit "a"; lit "c"])
                  + Z.of_nat (length [lit "b"]) <= MAX_LINES)
    by (vm_compute; discriminate).
  assert (Hmem : allocs_succeed (length [lit "b"])
                   (mem (typing (file_of_lines [LF] [lit "b"] ++ lit "." ++ [LF] ++ lit "L"))))
    by constructor.
  split; [exact Hwf|]. split; [exact Htyped|]. split; [exact Hroom|].
  split; [exact Hmem|]. split; [reflexivity|].
  exact (cmd_insert_inserts (editor_of [lit "a"; lit "c"])
           (typing (file_of_lines [LF] [lit "b"] ++ lit "." ++ [LF] ++ lit "L"))
           2 [lit "b"] (lit "L") Hwf Htyped Hroom Hmem eq_refl).
Defined.

(** X11. [cmd_edit] replaces line [n] of the document by the line typed
    and leaves every other line as it was. *)
Theorem cmd_edit_replaces_line (e : editor) (w : world) (n : Z)
        (l : cstr) (rest : list ascii) :
  store_wf e -> 1 <= n <= line_count e -> plain_line [LF] l ->
  allocs_succeed 1 (mem w) -> stdin w = (l ++ [LF]) ++ rest ->
  exists e' w',
    cmd_edit e w n = Some (e', w') /\
    document e' = <[Z.to_nat (n - 1) := Some l]> (document e) /\
    line_count e' = line_count e /\ stdin w' = rest.
Proof.
  intros Hwf Hn Hplain Hmem Hin. pose proof Hwf as [Hlen Hlc]. unfold cmd_edit.
  replace ((n <? 1) || (n >? line_count e)) with false by (zcases; reflexivity).
  destruct (aget_in_range (lines e) (n - 1)) as [v Hv]; [lia|].
  rewrite Hv. cbn [mbind option_bind]. unfold print. cbn [stdin with_stdout stdout].
  destruct (fgets_plain_line [LF] l rest) as (buf & Hgets & Hbuf);
    [left; reflexivity | exact Hplain |].
  rewrite <- Hin in Hgets. rewrite Hgets.
  destruct (malloc_succeeds _ _ Hmem) as (h1 & Hmalloc & _).
  cbn [mem with_stdin with_stdout]. unfold xstrdup. rewrite Hmalloc.
  destruct (free_line_keeps e (n - 1)) as [Hfl Hfc].
  assert (Hset : aset (lines (free_line e (n - 1))) (n - 1) (Some (chomp buf))
                 = Some (<[Z.to_nat (n - 1) := Some (chomp buf)]> (lines (free_line e (n - 1)))))
    by (apply aset_in_range; lia).
  rewrite Hset. cbn [mbind option_bind].
  eexists _, _. split; [reflexivity|].
  split; [|split; [cbn; exact Hfc | reflexivity]].
  assert (Hdoc : Z.of_nat (length (document e)) = line_count e)
    by (apply document_length; lia).
  apply document_lookup.
  - cbn [line_count with_last with_lines]. rewrite length_insert. lia.
  - intros i x Hi. cbn [lines with_last with_lines].
    destruct (decide (i = Z.to_nat (n - 1))) as [->|Hne].
    + rewrite list_lookup_insert_eq in Hi by lia. injection Hi as <-.
      rewrite Z2Nat.id by lia. rewrite Hbuf.
      rewrite <- Hbuf. apply (aget_aset_eq _ _ _ _ Hset).
    + rewrite list_lookup_insert_ne in Hi by congruence.
      apply document_aget in Hi as [Hi _].
      rewrite (aget_aset_ne _ _ _ _ _ Hset) by lia.
      rewrite free_line_other by lia. exact Hi.
Qed.

Lemma cmd_edit_replaces_line_witness :
  let e := editor_of [lit "a"; lit "x"; lit "c"] in
  let w := typing ((lit "b" ++ [LF]) ++ lit "L") in
  store_wf e /\ 1 <= 2 <= line_count e /\ plain_line [LF] (lit "b") /\
  allocs_succeed 1 (mem w) /\ stdin w = (lit "b" ++ [LF]) ++ lit "L" /\
  exists e' w',
    cmd_edit e w 2 = Some (e', w') /\
    document e' = <[Z.to_nat (2 - 1) := Some (lit "b")]> (document e) /\
    line_count e' = line_count e /\ stdin w' = lit "L".
Proof.
  cbv zeta.
  assert (Hwf : store_wf (editor_of [lit "a"; lit "x"; lit "c"]))
    by (split; vm_compute; [reflexivity | split; discriminate]).
  assert (Hn : 1 <= 2 <= line_count (editor_of [lit "a"; lit "x"; lit "c"]))
    by (vm_compute; split; discriminate).
  assert (Hplain : plain_line [LF] (lit "b")) by (apply plain_line_short; reflexivity).
  assert (Hmem : allocs_succeed 1 (mem (typing ((lit "b" ++ [LF]) ++ lit "L"))))
    by constructor.
  split; [exact Hwf|]. split; [exact Hn|]. split; [exact Hplain|].
  split; [exact Hmem|]. split; [reflexivity|].
  exact (cmd_edit_replaces_line _ _ 2 (lit "b") (lit "L") Hwf Hn Hplain Hmem eq_refl).
Defined.

(** ** What [cmd_list] and [cmd_search] print *)

Lemma print_print (a b : cstr) (w : world) : print b (print a w) = print (a ++ b) w.
Proof. unfold print, with_stdout. cbn. rewrite app_assoc. reflexivity. Qed.

Lemma print_nil (w : world) : print [] w = w.
Proof. destruct w. unfold print, with_stdout. cbn. rewrite app_nil_r. reflexivity. Qed.

Lemma listing_cons (p : Z * cstr) (ps : list (Z * cstr)) :
  listing (p :: ps) = numbered p.1 p.2 ++ listing ps.
Proof. reflexivity. Qed.

(** A slice of the text that lies inside the document can be taken from
    the array. *)
Lemma slice_of_document (e : editor) (k n : nat) :
  Z.of_nat k + Z.of_nat n <= line_count e ->
  take n (drop k (text_of e)) = take n (drop k (default [] <$> lines e)).
Proof.
  intros H. unfold text_of, document. apply list_eq. intros j.
  destruct (decide (j < n)%nat) as [Hj|Hj].
  - rewrite !lookup_take_lt, !lookup_drop, !list_lookup_fmap by exact Hj.
    rewrite lookup_take_lt by lia. reflexivity.
  - rewrite !lookup_take_ge by lia. reflexivity.
Qed.

Lemma slice_step (L : list cstr) (k n : nat) (s : cstr) :
  L !! k = Some s -> take (S n) (drop k L) = s :: take n (drop (S k) L).
Proof. intros H. rewrite (drop_S L s k H). reflexivity. Qed.

Lemma shown_step (i : Z) (s : cstr) (l : list cstr) :
  imap (fun k s => (i - 1 + Z.of_nat k, s)) (s :: l)
  = (i - 1, s) :: imap (fun k s => (i + 1 - 1 + Z.of_nat k, s)) l.
Proof.
  rewrite imap_cons. f_equal; [f_equal; lia|].
  apply imap_ext. intros k x _. cbn. f_equal. lia.
Qed.

Lemma list_loop (e : editor) (n : nat) :
  forall (i : Z) (w : world),
    1 <= i -> i + Z.of_nat n - 1 <= line_count e ->
    line_count e <= Z.of_nat (length (lines e)) ->
    for_range n i
      (fun i w =>
         if (1 <=? i) && (i <=? line_count e)
         then v ← aget (lines e) (i - 1);
              Some (print (numbered (i - 1) (default [] v)) w)
         else Some w) w
    = Some (print (listing (imap (fun k s => (i - 1 + Z.of_nat k, s))
                              (take n (drop (Z.to_nat (i - 1))
                                            (default [] <$> lines e))))) w).
Proof.
  induction n as [|n IH]; intros i w Hi Hn Hlen.
  - cbn [for_range take firstn]. rewrite print_nil. reflexivity.
  - cbn [for_range].
    replace ((1 <=? i) && (i <=? line_count e)) with true by (zcases; reflexivity).
    destruct (aget_in_range (lines e) (i - 1)) as [v Hv]; [lia|].
    rewrite Hv. cbn [mbind option_bind].
    rewrite IH by lia. rewrite print_print. f_equal. f_equal.
    rewrite aget_lookup in Hv by lia.
    rewrite (slice_step _ _ n (default [] v))
      by (rewrite list_lookup_fmap, Hv; reflexivity).
    rewrite shown_step, listing_cons. cbn [fst snd].
    replace (Z.to_nat (i + 1 - 1)) with (S (Z.to_nat (i - 1))) by lia.
    reflexivity.
Qed.

(** X12. [cmd_list] on a range of the document prints exactly its lines,
    in order, each behind a five-digit number that is one less than its
    line number; it changes nothing but the remembered range. *)
Theorem cmd_list_prints_range (e : editor) (w : world) (a b : Z) :
  store_wf e -> 1 <= a <= b -> b <= line_count e ->
  cmd_list e w a b = Some (with_last a b e, print (listing (shown_lines e a b)) w).
Proof.
  intros [Hlen Hlc] Hab Hb. unfold cmd_list.
  replace (to_range_defaults e a b) with (a, b)
    by (unfold to_range_defaults; zcases; reflexivity).
  replace (line_count e =? 0) with false by (zcases; reflexivity).
  rewrite for_upto_int_small by (unfold INT_MAX, MAX_LINES in *; lia).
  unfold for_upto. rewrite list_loop by lia. cbn [mbind option_bind].
  unfold shown_lines. rewrite slice_of_document by lia. reflexivity.
Qed.

Lemma cmd_list_prints_range_witness :
  let e := editor_of [lit "one"; lit "two"; lit "three"] in
  store_wf e /\ 1 <= 2 <= 3 /\ 3 <= line_count e /\
  cmd_list e (typing []) 2 3
  = Some (with_last 2 3 e,
          print (lit "00001: two" ++ [LF] ++ lit "00002: three" ++ [LF]) (typing [])).
Proof.
  cbv zeta.
  assert (Hwf : store_wf (editor_of [lit "one"; lit "two"; lit "three"]))
    by (split; vm_compute; [reflexivity | split; discriminate]).
  assert (Hb : 3 <= line_count (editor_of [lit "one"; lit "two"; lit "three"]))
    by (vm_compute; discriminate).
  split; [exact Hwf|]. split; [lia|]. split; [exact Hb|].
  exact (cmd_list_prints_range _ (typing []) 2 3 Hwf ltac:(lia) Hb).
Defined.

Lemma search_loop (e : editor) (pat : cstr)
      (body : Z -> world * Z -> option (world * Z)) :
  (forall i w hits,
      body i (w, hits)
      = if (1 <=? i) && (i <=? line_count e)
        then v ← aget (lines e) (i - 1);
             match v with
             | Some s =>
                 if strcasestr_pos s pat >=? 0
                 then Some (print (numbered (i - 1) s) w, hits + 1)
                 else Some (w, hits)
             | None => Some (w, hits)
             end
        else Some (w, hits)) ->
  no_null e ->
  forall (n : nat) (i : Z) (w : world) (hits : Z),
    1 <= i -> i + Z.of_nat n - 1 <= line_count e ->
    let found :=
      filter (fun p => 0 <= strcasestr_pos p.2 pat)
             (imap (fun k s => (i - 1 + Z.of_nat k, s))
                   (take n (drop (Z.to_nat (i - 1)) (default [] <$> lines e)))) in
    for_range n i body (w, hits)
    = Some (print (listing found) w, hits + Z.of_nat (length found)).
Proof.
  intros Hbody Hnn.
  induction n as [|n IH]; intros i w hits Hi Hn; cbv zeta.
  - cbn [for_range take firstn]. rewrite print_nil.
    cbn. rewrite Z.add_0_r. reflexivity.
  - cbn [for_range]. rewrite Hbody.
    replace ((1 <=? i) && (i <=? line_count e)) with true by (zcases; reflexivity).
    destruct (Hnn (i - 1)) as [s Hs]; [lia|].
    rewrite Hs. cbn [mbind option_bind].
    rewrite aget_lookup in Hs by lia.
    rewrite (slice_step _ _ n s) by (rewrite list_lookup_fmap, Hs; reflexivity).
    rewrite shown_step.
    destruct (strcasestr_pos s pat >=? 0) eqn:E.
    + rewrite filter_cons_True by (cbn; apply Z.geb_le, E).
      cbn [mbind option_bind].
      specialize (IH (i + 1) (print (numbered (i - 1) s) w) (hits + 1)
                     ltac:(lia) ltac:(lia)).
      cbv zeta in IH. rewrite IH. rewrite print_print, listing_cons.
      replace (Z.to_nat (i + 1 - 1)) with (S (Z.to_nat (i - 1))) by lia.
      cbn [fst snd length]. f_equal. f_equal. lia.
    + rewrite filter_cons_False
        by (cbn; intros H; apply Z.geb_le in H; congruence).
      cbn [mbind option_bind].
      specialize (IH (i + 1) w hits ltac:(lia) ltac:(lia)).
      cbv zeta in IH. rewrite IH.
      replace (Z.to_nat (i + 1 - 1)) with (S (Z.to_nat (i - 1))) by lia.
      reflexivity.
Qed.

(** X13. [cmd_search] on a range of the document prints, with their
    numbers, exactly the lines of the range in which [strcasestr_pos]
    finds the pattern, followed by their count; it changes nothing but
    the remembered range. *)
Theorem cmd_search_prints_matches (e : editor) (w : world) (a b : Z)
        (spec pat : cstr) :
  store_wf e -> no_null e -> 1 <= a <= b -> b <= line_count e ->
  search_pattern spec = Some pat ->
  let found := filter (fun p => 0 <= strcasestr_pos p.2 pat) (shown_lines e a b) in
  cmd_search e w a b spec
  = Some (with_last a b e,
          print (lit "-- " ++ fmt_d (Z.of_nat (length found)) ++ lit " match(es)" ++ [LF])
                (print (listing found) w)).
Proof.
  intros [Hlen Hlc] Hnn Hab Hb Hpat. cbv zeta. unfold cmd_search. rewrite Hpat.
  replace (to_range_defaults e a b) with (a, b)
    by (unfold to_range_defaults; zcases; reflexivity).
  rewrite for_upto_int_small by (unfold INT_MAX, MAX_LINES in *; lia).
  unfold for_upto.
  erewrite (search_loop e pat _ (fun i w hits => eq_refl) Hnn) by lia.
  cbn [mbind option_bind].
  unfold shown_lines. rewrite slice_of_document by lia. reflexivity.
Qed.

Lemma cmd_search_prints_matches_witness :
  let e := editor_of [lit "Alpha"; lit "beta"; lit "ALPINE"] in
  store_wf e /\ no_null e /\ 1 <= 1 <= 3 /\ 3 <= line_count e /\
  search_pattern (lit "/alp/") = Some (lit "alp") /\
  cmd_search e (typing []) 1 3 (lit "/alp/")
  = Some (with_last 1 3 e,
          print (lit "-- 2 match(es)" ++ [LF])
                (print (lit "00000: Alpha" ++ [LF] ++ lit "00002: ALPINE" ++ [LF])
                       (typing []))).
Proof.
  cbv zeta.
  assert (Hwf : store_wf (editor_of [lit "Alpha"; lit "beta"; lit "ALPINE"]))
    by (split; vm_compute; [reflexivity | split; discriminate]).
  assert (Hnn : no_null (editor_of [lit "Alpha"; lit "beta"; lit "ALPINE"])).
  { intros i Hi. change (line_count _) with 3 in Hi.
    assert (i = 0 \/ i = 1 \/ i = 2) as [-> | [-> | ->]] by lia; eexists; reflexivity. }
  assert (Hb : 3 <= line_count (editor_of [lit "Alpha"; lit "beta"; lit "ALPINE"]))
    by (vm_compute; discriminate).
  split; [exact Hwf|]. split; [exact Hnn|]. split; [lia|]. split; [exact Hb|].
  split; [reflexivity|].
  exact (cmd_search_prints_matches _ (typing []) 1 3 (lit "/alp/") (lit "alp")
           Hwf Hnn ltac:(lia) Hb eq_refl).
Defined.

(** ** Saving, and loading what was saved *)

Lemma file_text_lines (e : editor) (ls : list cstr) :
  0 <= line_count e <= Z.of_nat (length (lines e)) ->
  document e = map Some ls ->
  file_text e = Some (file_of_lines [LF] ls).
Proof.
  intros Hlc Hdoc. rewrite file_text_spec by exact Hlc. rewrite Hdoc.
  f_equal. unfold file_of_lines. f_equal. rewrite map_map. reflexivity.
Qed.

Lemma file_of_lines_app (eol : list ascii) (a b : list cstr) :
  file_of_lines eol (a ++ b) = file_of_lines eol a ++ file_of_lines eol b.
Proof. unfold file_of_lines. rewrite map_app, concat_app. reflexivity. Qed.

(** The document of a store whose first slots hold the lines [ls]. *)
Lemma document_of_lines (e : editor) (ls : list cstr) :
  line_count e = Z.of_nat (length ls) ->
  (forall (i : nat) (l : cstr), ls !! i = Some l ->
                                aget (lines e) (Z.of_nat i) = Some (Some l)) ->
  document e = map Some ls.
Proof.
  intros Hlc H. apply document_lookup.
  - rewrite length_map. exact Hlc.
  - intros i v Hi. rewrite lookup_map_list in Hi.
    destruct (ls !! i) as [l|] eqn:E; [|discriminate].
    injection Hi as <-. apply H, E.
Qed.

(** X14. A document of fewer than [MAX_LINES] lines that a text file can
    hold is read back by [load_file] exactly as [write_file] saved it. *)
Theorem save_load_round_trip (e : editor) (w : world) (name : cstr) (ls : list cstr) :
  store_wf e -> document e = map Some ls ->
  Forall (plain_line [LF]) ls -> line_count e < MAX_LINES ->
  can_write w name = true -> allocs_succeed (length ls) (mem w) ->
  exists e1 w1 e2 w2,
    write_file e w name = Some (true, e1, w1) /\
    fopen_read (disk w1) name = Some (file_of_lines [LF] ls) /\
    load_file e1 w1 name = Some (true, e2, w2) /\
    document e2 = document e /\ line_count e2 = line_count e /\
    current_file e2 = take 127 name.
Proof.
  intros Hwf Hdoc Hplain Hfew Hwrite Hmem. pose proof Hwf as [Hlen Hlc].
  assert (Hcount : line_count e = Z.of_nat (length ls)).
  { rewrite <- (document_length e) by lia. rewrite Hdoc, length_map. reflexivity. }
  set (e1 := set_current_file name e).
  set (w1 := with_disk (store_file name (file_of_lines [LF] ls) (disk w)) w).
  assert (Hsave : write_file e w name = Some (true, e1, w1)).
  { unfold write_file. rewrite Hwrite, (file_text_lines e ls) by (lia || exact Hdoc).
    reflexivity. }
  assert (Hopen : fopen_read (disk w1) name = Some (file_of_lines [LF] ls))
    by apply fopen_read_store.
  destruct (free_loop_keeps (Z.to_nat (line_count e1 - 1 - 0 + 1)) 0 e1)
    as (e0 & Hfree & Hl0 & Hc0).
  destruct (load_loop_lines [LF] ls (or_introl eq_refl) Hplain (Z.to_nat MAX_LINES)
                            (mem w1) (with_line_count 0 e0))
    as (e3 & h3 & Hrun & Hcount3 & Hlines3 & _ & Hnew);
    [cbn [lines with_line_count]; rewrite Hl0; exact Hlen
    | cbn [line_count with_line_count]; lia
    | cbn [line_count with_line_count]; lia
    | unfold MAX_LINES in *; lia
    | exact Hmem |].
  cbn [line_count with_line_count] in Hcount3, Hnew.
  exists e1, w1, (with_last 1 (line_count e3) (set_current_file name e3)), (with_mem h3 w1).
  split; [exact Hsave|]. split; [exact Hopen|].
  split; [|split; [|split]].
  - unfold load_file. rewrite Hopen. unfold for_upto. rewrite Hfree.
    cbn [mbind option_bind]. rewrite Hrun. reflexivity.
  - rewrite Hdoc. apply document_of_lines.
    + cbn [line_count with_last set_current_file with_current_file]. lia.
    + intros i l Hi. cbn [lines with_last set_current_file with_current_file].
      rewrite <- (Hnew i l Hi). f_equal.
  - cbn [line_count with_last set_current_file with_current_file]. lia.
  - reflexivity.
Qed.

Lemma save_load_round_trip_witness :
  let e := editor_of [lit "one"; lit "two"] in
  let w := typing [] in
  store_wf e /\ document e = map Some [lit "one"; lit "two"] /\
  Forall (plain_line [LF]) [lit "one"; lit "two"] /\ line_count e < MAX_LINES /\
  can_write w (lit "f.txt") = true /\ allocs_succeed 2 (mem w) /\
  exists e1 w1 e2 w2,
    write_file e w (lit "f.txt") = Some (true, e1, w1) /\
    fopen_read (disk w1) (lit "f.txt") = Some (file_of_lines [LF] [lit "one"; lit "two"]) /\
    load_file e1 w1 (lit "f.txt") = Some (true, e2, w2) /\
    document e2 = document e /\ line_count e2 = line_count e /\
    current_file e2 = take 127 (lit "f.txt").
Proof.
  cbv zeta.
  assert (Hwf : store_wf (editor_of [lit "one"; lit "two"]))
    by (split; vm_compute; [reflexivity | split; discriminate]).
  assert (Hplain : Forall (plain_line [LF]) [lit "one"; lit "two"])
    by (constructor; [apply plain_line_short; reflexivity
                     | constructor; [apply plain_line_short; reflexivity | constructor]]).
  assert (Hfew : line_count (editor_of [lit "one"; lit "two"]) < MAX_LINES)
    by (vm_compute; reflexivity).
  assert (Hmem : allocs_succeed (length [lit "one"; lit "two"]) (mem (typing [])))
    by constructor.
  split; [exact Hwf|]. split; [reflexivity|]. split; [exact Hplain|].
  split; [exact Hfew|]. split; [reflexivity|]. split; [exact Hmem|].
  exact (save_load_round_trip _ (typing []) (lit "f.txt") [lit "one"; lit "two"]
           Hwf eq_refl Hplain Hfew eq_refl Hmem).
Defined.

(** ** Loading a file that fills the array *)

Lemma load_loop_prefix (eol : list ascii) (ls : list cstr) (rest : list ascii) :
  eol = [LF] \/ eol = [CR; LF] ->
  Forall (plain_line eol) ls ->
  forall (fuel : nat) (h : heap) (e : editor),
    Z.of_nat (length (lines e)) = MAX_LINES ->
    0 <= line_count e ->
    line_count e + Z.of_nat (length ls) < MAX_LINES ->
    allocs_succeed (length ls) h ->
    exists e',
      load_loop (length ls + fuel) h (file_of_lines eol ls ++ rest) e
      = load_loop fuel (drop (length ls) h) rest e' /\
      line_count e' = line_count e + Z.of_nat (length ls) /\
      length (lines e') = length (lines e) /\
      current_file e' = current_file e /\
      (forall j, 0 <= j < line_count e -> aget (lines e') j = aget (lines e) j) /\
      (forall (i : nat) (l : cstr),
          ls !! i = Some l -> aget (lines e') (line_count e + Z.of_nat i) = Some (Some l)).
Proof.
  intros Heol Hplain. induction Hplain as [|l ls Hl Hls IH];
    intros fuel h e Hlen Hlc Hroom Hmem.
  - exists e. split; [reflexivity|].
    cbn [length]. repeat split; auto; try lia.
    intros i l H. rewrite lookup_nil in H. discriminate.
  - rewrite file_of_lines_cons, <- app_assoc.
    destruct (fgets_plain_line eol l (file_of_lines eol ls ++ rest) Heol Hl)
      as (buf & Hgets & Hchomp).
    destruct (malloc_succeeds _ _ Hmem) as (h1 & Hmalloc & Hmem1).
    assert (Hh1 : h1 = drop 1 h).
    { destruct h as [|ok h]; cbn in Hmalloc; inversion Hmalloc; reflexivity. }
    cbn [length] in Hroom.
    assert (Hset : aset (lines e) (line_count e) (Some l)
                   = Some (<[Z.to_nat (line_count e) := Some l]> (lines e)))
      by (apply aset_in_range; lia).
    set (e2 := with_line_count (line_count e + 1)
                 (with_lines (<[Z.to_nat (line_count e) := Some l]> (lines e)) e)).
    destruct (IH fuel h1 e2) as (e' & Hrun & Hcount & Hlines & Hfile & Hold & Hnew).
    { cbn [lines e2 with_line_count with_lines]. rewrite length_insert. exact Hlen. }
    { cbn [line_count e2 with_line_count]. lia. }
    { cbn [line_count e2 with_line_count]. lia. }
    { exact Hmem1. }
    exists e'. split.
    + cbn [length Nat.add]. cbn [load_loop].
      rewrite Hgets. rewrite Hchomp. unfold xstrdup. rewrite Hmalloc.
      rewrite Hset. cbn [mbind option_bind line_count with_line_count with_lines].
      destruct (line_count e + 1 >=? MAX_LINES) eqn:F; [lia|].
      fold e2. rewrite Hrun. rewrite Hh1, drop_drop. reflexivity.
    + cbn [line_count lines current_file e2 with_line_count with_lines]
        in Hcount, Hlines, Hfile, Hold, Hnew.
      rewrite length_insert in Hlines.
      split; [cbn [length]; lia|]. split; [exact Hlines|]. split; [exact Hfile|]. split.
      * intros j Hj. rewrite Hold by lia. apply (aget_aset_ne _ _ _ _ _ Hset). lia.
      * intros [|i] l0 Hi; cbn in Hi.
        -- injection Hi as <-. rewrite Z.add_0_r.
           rewrite Hold by lia. apply (aget_aset_eq _ _ _ _ Hset).
        -- specialize (Hnew i l0 Hi).
           replace (line_count e + Z.of_nat (S i)) with (line_count e + 1 + Z.of_nat i) by lia.
           exact Hnew.
Qed.

(** X15. A file of [MAX_LINES] lines or more is read up to its line
    [MAX_LINES]; [load_file] then reports a failure, although that many
    lines have replaced the document, and leaves the name of the current
    file as it was. *)
Theorem load_file_stops_at_capacity (e : editor) (w : world) (name : cstr)
        (eol : list ascii) (ls : list cstr) (rest : list ascii) :
  store_wf e -> eol = [LF] \/ eol = [CR; LF] ->
  Forall (plain_line eol) ls -> Z.of_nat (length ls) = MAX_LINES ->
  allocs_succeed (length ls) (mem w) ->
  fopen_read (disk w) name = Some (file_of_lines eol ls ++ rest) ->
  exists e' w',
    load_file e w name = Some (false, e', w') /\
    document e' = map Some ls /\ line_count e' = MAX_LINES /\
    current_file e' = current_file e.
Proof.
  intros Hwf Heol Hplain Hmany Hmem Hopen. pose proof Hwf as [Hlen Hlc].
  destruct (free_loop_keeps (Z.to_nat (line_count e - 1 - 0 + 1)) 0 e)
    as (e0 & Hfree & Hl0 & Hc0).
  assert (Hfile0 : current_file e0 = current_file e).
  { clear - Hfree. revert Hfree. generalize 0 at 2. generalize (Z.to_nat (line_count e - 1 - 0 + 1)).
    intros n. revert e. induction n as [|n IH]; intros e i H.
    - cbn in H. congruence.
    - cbn [for_range mbind option_bind] in H. rewrite (IH _ _ H).
      unfold free_line. destruct (_ && _); [|reflexivity].
      destruct (aget (lines e) i) as [[s|]|]; reflexivity. }
  (* the first MAX_LINES - 1 lines, then the line that fills the array *)
  set (k := (length ls - 1)%nat).
  assert (Hsplit : ls = take k ls ++ drop k ls) by (symmetry; apply take_drop).
  destruct (drop k ls) as [|l tl] eqn:Hdrop.
  { apply (f_equal (@length cstr)) in Hdrop. rewrite length_drop in Hdrop.
    cbn in Hdrop. unfold MAX_LINES, k in *. lia. }
  assert (Htl : tl = []).
  { apply (f_equal (@length cstr)) in Hdrop. rewrite length_drop in Hdrop.
    cbn [length] in Hdrop. destruct tl; [reflexivity|]. cbn [length] in Hdrop.
    unfold k in Hdrop. lia. }
  subst tl.
  assert (Hk : length (take k ls) = k) by (rewrite length_take; unfold k; lia).
  assert (Hpre : Forall (plain_line eol) (take k ls)) by (apply Forall_take, Hplain).
  assert (Hl : plain_line eol l).
  { rewrite Hsplit in Hplain. apply Forall_app in Hplain as [_ H].
    apply Forall_cons_1 in H as [H _]. exact H. }
  destruct (load_loop_prefix eol (take k ls) ((l ++ eol) ++ rest) Heol Hpre
              (Z.to_nat MAX_LINES - k) (mem w) (with_line_count 0 e0))
    as (e1 & Hrun & Hcount & Hlines & Hfile & _ & Hnew);
    [cbn [lines with_line_count]; rewrite Hl0; exact Hlen
    | cbn [line_count with_line_count]; lia
    | cbn [line_count with_line_count]; rewrite Hk; unfold k, MAX_LINES in *; lia
    | rewrite Hk; eapply allocs_succeed_le; [|exact Hmem]; unfold k; lia |].
  cbn [line_count lines current_file with_line_count] in Hcount, Hlines, Hfile, Hnew.
  rewrite Hk in Hrun, Hcount.
  replace (k + (Z.to_nat MAX_LINES - k))%nat with (Z.to_nat MAX_LINES) in Hrun
    by (unfold k, MAX_LINES in *; lia).
  assert (Hinput : file_of_lines eol ls ++ rest
                   = file_of_lines eol (take k ls) ++ (l ++ eol) ++ rest).
  { rewrite Hsplit at 1. rewrite file_of_lines_app, <- app_assoc. f_equal.
    unfold file_of_lines. cbn [map concat]. rewrite app_nil_r. reflexivity. }
  destruct (fgets_plain_line eol l rest Heol Hl) as (buf & Hgets & Hchomp).
  assert (Hmem1 : allocs_succeed 1 (drop k (mem w))).
  { unfold allocs_succeed in *. rewrite take_drop_commute. apply Forall_drop.
    eapply Forall_take in Hmem. rewrite take_take in Hmem.
    replace (k + 1)%nat with ((k + 1) `min` length ls)%nat by (unfold k, MAX_LINES in *; lia).
    exact Hmem. }
  destruct (malloc_succeeds _ _ Hmem1) as (h2 & Hmalloc & _).
  assert (Hset : aset (lines e1) (line_count e1) (Some l)
                 = Some (<[Z.to_nat (line_count e1) := Some l]> (lines e1)))
    by (apply aset_in_range; unfold k, MAX_LINES in *; lia).
  set (e2 := with_line_count (line_count e1 + 1)
               (with_lines (<[Z.to_nat (line_count e1) := Some l]> (lines e1)) e1)).
  assert (Hload : load_file e w name = Some (false, e2, with_mem h2 w)).
  { unfold load_file. rewrite Hopen. unfold for_upto. rewrite Hfree.
    cbn [mbind option_bind]. rewrite Hinput, Hrun.
    destruct (Z.to_nat MAX_LINES - k)%nat as [|fuel];
      cbn [load_loop]; rewrite Hgets, Hchomp; unfold xstrdup; rewrite Hmalloc, Hset;
      cbn [mbind option_bind line_count with_line_count with_lines];
      (destruct (line_count e1 + 1 >=? MAX_LINES) eqn:F;
       [reflexivity | unfold k, MAX_LINES in *; lia]). }
  exists e2, (with_mem h2 w). split; [exact Hload|].
  split; [|split; [cbn [line_count e2 with_line_count]; unfold k, MAX_LINES in *; lia
                  | cbn; congruence]].
  apply document_of_lines.
  - cbn [line_count e2 with_line_count]. unfold k, MAX_LINES in *. lia.
  - intros i x Hi. cbn [lines e2 with_line_count with_lines].
    rewrite Hsplit in Hi.
    destruct (decide (i < k)%nat) as [Hlt|Hge].
    + rewrite lookup_app_l in Hi by lia.
      rewrite (aget_aset_ne _ _ _ _ _ Hset) by lia.
      rewrite <- (Hnew i x Hi). f_equal.
    + rewrite lookup_app_r in Hi by lia. rewrite Hk in Hi.
      destruct (i - k)%nat as [|j] eqn:Ej; cbn in Hi; [|try rewrite lookup_nil in Hi; discriminate].
      injection Hi as <-. replace (Z.of_nat i) with (line_count e1) by lia.
      apply (aget_aset_eq _ _ _ _ Hset).
Qed.
Lemma load_file_stops_at_capacity_witness :
  let ls := replicate 1200 (lit "a") in
  let F := file_of_lines [LF] ls ++ lit "one more" in
  let w := World [] [] [] [(lit "big", F)] [] [] in
  store_wf initial /\ ([LF] = [LF] \/ [LF] = [CR; LF]) /\
  Forall (plain_line [LF]) ls /\ Z.of_nat (length ls) = MAX_LINES /\
  allocs_succeed (length ls) (mem w) /\
  fopen_read (disk w) (lit "big") = Some F /\
  exists e' w',
    load_file initial w (lit "big") = Some (false, e', w') /\
    document e' = map Some ls /\ line_count e' = MAX_LINES /\
    current_file e' = current_file initial.
Proof.
  cbv zeta.
  assert (Hwf : store_wf initial) by (split; vm_compute; [reflexivity | split; discriminate]).
  assert (Hplain : Forall (plain_line [LF]) (replicate 1200 (lit "a")))
    by (apply Forall_replicate, plain_line_short; reflexivity).
  assert (Hmany : Z.of_nat (length (replicate 1200 (lit "a"))) = MAX_LINES)
    by (rewrite length_replicate; reflexivity).
  assert (Hmem : allocs_succeed (length (replicate 1200 (lit "a"))) []).
  { unfold allocs_succeed. rewrite take_nil. constructor. }
  split; [exact Hwf|]. split; [left; reflexivity|]. split; [exact Hplain|].
  split; [exact Hmany|]. split; [exact Hmem|]. split; [reflexivity|].
  exact (load_file_stops_at_capacity initial
           (World [] [] [] [(lit "big", file_of_lines [LF] (replicate 1200 (lit "a"))
                                        ++ lit "one more")] [] [])
           (lit "big") [LF] (replicate 1200 (lit "a")) (lit "one more")
           Hwf (or_introl eq_refl) Hplain Hmany Hmem eq_refl).
Defined.

(** ** The documented form of the replace command *)

Lemma skip_space_before_slash (new flags : cstr) :
  Forall (fun c => c <> "/"%char) new ->
  (exists c r, skip_space (new ++ "/"%char :: flags) = c :: r /\ c <> "/"%char) \/
  skip_space (new ++ "/"%char :: flags) = "/"%char :: flags.
Proof.
  induction 1 as [|c new Hc _ IH]; cbn [app skip_space].
  - right. reflexivity.
  - destruct (isspace c); [exact IH|]. left. eauto.
Qed.

(** X16. The form [/old/new/] that the help text and the error message
    give for the replace command is always refused: after the closing
    slash of [old], [cmd_replace] expects a second opening slash. *)
Theorem cmd_replace_documented_form_refused (e : editor) (w : world) (a b : Z)
        (old new flags : cstr) :
  Forall (fun c => c <> "/"%char) old ->
  Forall (fun c => c <> "/"%char) new ->
  Forall (fun c => c <> "/"%char) flags ->
  cmd_replace e w a b ("/"%char :: old ++ "/"%char :: new ++ "/"%char :: flags)
  = Some (e, puts (lit "! syntax: R a,b /old/new/[g]") w).
Proof.
  intros Hold Hnew Hflags. unfold cmd_replace. cbn [skip_space].
  change (isspace "/") with false. cbn iota.
  unfold parse_between at 1. rewrite Ascii.eqb_refl.
  rewrite (scan_between_spec "/" old _ LINE_LEN Hold [])
    by (unfold strlen, LINE_LEN; cbn [length]; lia).
  destruct (skip_space_before_slash new flags Hnew) as [(c & r & -> & Hc) | ->];
    unfold parse_between.
  - destruct (Ascii.eqb_spec c "/"); [contradiction | reflexivity].
  - rewrite Ascii.eqb_refl, (scan_between_open "/" flags LINE_LEN Hflags). reflexivity.
Qed.

Lemma cmd_replace_documented_form_refused_witness :
  Forall (fun c => c <> "/"%char) (lit "cat") /\
  Forall (fun c => c <> "/"%char) (lit "dog") /\
  Forall (fun c => c <> "/"%char) (lit "g") /\
  cmd_replace (editor_of [lit "a cat"]) (typing []) 1 1
              ("/"%char :: lit "cat" ++ "/"%char :: lit "dog" ++ "/"%char :: lit "g")
  = Some (editor_of [lit "a cat"], puts (lit "! syntax: R a,b /old/new/[g]") (typing [])).
Proof.
  assert (H1 : Forall (fun c => c <> "/"%char) (lit "cat"))
    by (repeat constructor; discriminate).
  assert (H2 : Forall (fun c => c <> "/"%char) (lit "dog"))
    by (repeat constructor; discriminate).
  assert (H3 : Forall (fun c => c <> "/"%char) (lit "g"))
    by (repeat constructor; discriminate).
  split; [exact H1|]. split; [exact H2|]. split; [exact H3|].
  exact (cmd_replace_documented_form_refused _ _ 1 1 _ _ _ H1 H2 H3).
Defined.

(** ** Sound stores: basic facts *)

Lemma never_fails_malloc (h : heap) :
  never_fails h -> exists h', malloc h = (true, h') /\ never_fails h'.
Proof.
  destruct h as [|ok h]; intros H; cbn [malloc].
  - exists []. split; [reflexivity | constructor].
  - apply Forall_cons_1 in H as [-> H]. exists h. split; [reflexivity | exact H].
Qed.

Lemma never_fails_allocs (n : nat) (h : heap) : never_fails h -> allocs_succeed n h.
Proof. apply Forall_take. Qed.

Lemma fits_none : fits None.
Proof. intros s H. discriminate. Qed.

Lemma fits_some (s : cstr) : strlen s < LINE_LEN -> fits (Some s).
Proof. intros H s' E. injection E as <-. exact H. Qed.

Lemma fits_lookup (l : list (option cstr)) (i : Z) (v : option cstr) :
  Forall fits l -> aget l i = Some v -> fits v.
Proof.
  intros Hl H. unfold aget in H. destruct (i <? 0); [discriminate|].
  exact (Forall_lookup_1 _ _ _ _ Hl H).
Qed.

Lemma fit_aset (l l' : list (option cstr)) (i : Z) (v : option cstr) :
  Forall fits l -> fits v -> aset l i v = Some l' -> Forall fits l'.
Proof.
  intros Hl Hv H. apply aset_Some in H as (_ & -> & _). apply Forall_insert; assumption.
Qed.

Lemma fit_pointwise (l l' : list (option cstr)) :
  Forall fits l ->
  (forall j v, aget l' j = Some v -> exists k, aget l k = Some v) ->
  Forall fits l'.
Proof.
  intros Hl H. apply Forall_lookup_2. intros i x Hi.
  rewrite <- aget_nat in Hi. destruct (H _ _ Hi) as [k Hk].
  exact (fits_lookup l k x Hl Hk).
Qed.

Lemma line_fits (e : editor) (i : Z) (s : cstr) :
  lines_fit e -> line_at e i = Some s -> strlen s < LINE_LEN.
Proof.
  intros Hfit H. apply line_at_aget in H. exact (fits_lookup _ _ _ Hfit H s eq_refl).
Qed.

Lemma sound_fields (e e' : editor) :
  lines e' = lines e -> line_count e' = line_count e -> sound e -> sound e'.
Proof.
  intros Hl Hc (Hwf & Hnn & Hfit).
  unfold sound, store_wf, no_null, lines_fit. rewrite Hl, Hc. auto.
Qed.

Lemma sound_initial : sound initial.
Proof.
  split; [|split].
  - split; vm_compute; [reflexivity | split; discriminate].
  - intros i Hi. change (line_count initial) with 0 in Hi. lia.
  - unfold lines_fit, initial. cbn [lines]. apply Forall_replicate, fits_none.
Qed.

Lemma no_null_line (e : editor) (i : Z) :
  no_null e -> 0 <= i < line_count e -> exists s, line_at e i = Some s.
Proof.
  intros Hnn Hi. destruct (Hnn i Hi) as [s Hs]. exists s. apply line_at_aget, Hs.
Qed.

Lemma steps_refl (w : world) : never_fails (mem w) -> steps w w.
Proof. intros H. split; [exact H | reflexivity]. Qed.

Lemma steps_trans (w1 w2 w3 : world) : steps w1 w2 -> steps w2 w3 -> steps w1 w3.
Proof. intros [_ H1] [H2 H3]. split; [exact H2 | etrans; eassumption]. Qed.

Lemma steps_mem (w : world) (h : heap) : never_fails h -> steps w (with_mem h w).
Proof. intros H. split; [exact H | reflexivity]. Qed.

Lemma steps_length (w w' : world) :
  steps w w' -> (length (stdin w') <= length (stdin w))%nat.
Proof. intros [_ H]. apply suffix_length, H. Qed.

Lemma steps_fields (w0 w w' : world) :
  mem w' = mem w -> stdin w' = stdin w -> steps w0 w -> steps w0 w'.
Proof. intros Hm Hs [H1 H2]. unfold steps. rewrite Hm, Hs. auto. Qed.

Lemma steps_print (w0 w : world) (s : cstr) : steps w0 w -> steps w0 (print s w).
Proof. apply steps_fields; reflexivity. Qed.

Lemma steps_puts (w0 w : world) (s : cstr) : steps w0 w -> steps w0 (puts s w).
Proof. apply steps_fields; reflexivity. Qed.

(** A counting loop keeps what each of its rounds keeps. *)
Lemma for_range_inv {S : Type} (Inv : S -> Prop) (body : Z -> S -> option S) :
  (forall i s, Inv s -> exists s', body i s = Some s' /\ Inv s') ->
  forall n i s, Inv s -> exists s', for_range n i body s = Some s' /\ Inv s'.
Proof.
  intros Hbody. induction n as [|n IH]; intros i s Hs.
  - exists s. split; [reflexivity | exact Hs].
  - cbn [for_range]. destruct (Hbody i s Hs) as (s1 & -> & Hs1).
    cbn [mbind option_bind]. apply IH, Hs1.
Qed.

(** ** Sound stores: the line commands *)

(** Endpoints below [INT_MAX] leave the resolver below [INT_MAX]. *)
Lemma to_range_defaults_small (e : editor) (a b : Z) :
  line_count e <= MAX_LINES -> a < INT_MAX -> b < INT_MAX ->
  (to_range_defaults e a b).2 < INT_MAX.
Proof.
  intros Hlc Ha Hb. unfold to_range_defaults, MAX_LINES, INT_MAX in *.
  zcases; cbn [snd]; lia.
Qed.

Lemma cmd_list_sound (e : editor) (w : world) (a b : Z) :
  sound e -> never_fails (mem w) -> a < INT_MAX -> b < INT_MAX ->
  exists e' w', cmd_list e w a b = Some (e', w') /\ sound e' /\ steps w w'.
Proof.
  intros Hs Hw Ha Hb. pose proof Hs as ([Hlen Hlc] & _ & _). unfold cmd_list.
  pose proof (to_range_defaults_small e a b ltac:(lia) Ha Hb) as Hsmall.
  destruct (to_range_defaults e a b) as [a' b']. cbn [snd] in Hsmall.
  destruct (line_count e =? 0).
  { eexists _, _. split; [reflexivity|]. split; [exact Hs|]. apply steps_puts, steps_refl, Hw. }
  rewrite for_upto_int_small by exact Hsmall. unfold for_upto.
  match goal with
  | |- context [for_range ?n0 ?i0 ?body w] =>
      assert (Hloop : exists w', for_range n0 i0 body w = Some w' /\ steps w w');
        [apply (for_range_inv (fun w' => steps w w'))
        | destruct Hloop as (w' & Hrun & Hw')]
  end.
  - intros i w0 Hw0. destruct ((1 <=? i) && (i <=? line_count e)) eqn:G.
    + destruct (aget_in_range (lines e) (i - 1)) as [v Hv];
        [revert G; zcases; intros; lia|].
      rewrite Hv. cbn [mbind option_bind]. eexists. split; [reflexivity|].
      apply steps_print, Hw0.
    + eauto.
  - apply steps_refl, Hw.
  - rewrite Hrun. cbn [mbind option_bind]. eexists _, _. split; [reflexivity|].
    split; [|exact Hw']. apply (sound_fields e); [reflexivity | reflexivity | exact Hs].
Qed.

Lemma cmd_search_sound (e : editor) (w : world) (a b : Z) (spec : cstr) :
  sound e -> never_fails (mem w) -> a < INT_MAX -> b < INT_MAX ->
  exists e' w', cmd_search e w a b spec = Some (e', w') /\ sound e' /\ steps w w'.
Proof.
  intros Hs Hw Ha Hb. pose proof Hs as ([Hlen Hlc] & _ & _). unfold cmd_search.
  destruct (search_pattern spec) as [pat|].
  2:{ eexists _, _. split; [reflexivity|]. split; [exact Hs|].
      apply steps_puts, steps_refl, Hw. }
  pose proof (to_range_defaults_small e a b ltac:(lia) Ha Hb) as Hsmall.
  destruct (to_range_defaults e a b) as [a' b']. cbn [snd] in Hsmall.
  rewrite for_upto_int_small by exact Hsmall. unfold for_upto.
  match goal with
  | |- context [for_range ?n0 ?i0 ?body (w, 0)] =>
      assert (Hloop : exists s, for_range n0 i0 body (w, 0) = Some s /\ steps w s.1);
        [apply (for_range_inv (fun s : world * Z => steps w s.1))
        | destruct Hloop as ([w' hits] & Hrun & Hw')]
  end.
  - intros i [w0 hits] Hw0. cbn [fst] in Hw0.
    destruct ((1 <=? i) && (i <=? line_count e)) eqn:G.
    + destruct (aget_in_range (lines e) (i - 1)) as [v Hv];
        [revert G; zcases; intros; lia|].
      rewrite Hv. cbn [mbind option_bind].
      destruct v as [s|]; [|eauto].
      destruct (strcasestr_pos s pat >=? 0); [|eauto].
      eexists. split; [reflexivity|]. cbn [fst]. apply steps_print, Hw0.
    + eauto.
  - apply steps_refl, Hw.
  - rewrite Hrun. cbn [mbind option_bind fst] in *. eexists _, _. split; [reflexivity|].
    split; [|apply steps_print, Hw'].
    apply (sound_fields e); [reflexivity | reflexivity | exact Hs].
Qed.

Lemma replace_loop_fit (limit : nat) :
  forall (h : heap) (s oldp newp : cstr) (global : bool) (made : Z),
    strlen s < LINE_LEN -> never_fails h ->
    strlen (replace_loop limit h s oldp newp global made).1.2 < LINE_LEN /\
    never_fails (replace_loop limit h s oldp newp global made).2.
Proof.
  induction limit as [|limit IH]; intros h s oldp newp global made Hs Hh;
    cbn [replace_loop]; [auto|].
  destruct (strstr s oldp) as [found|]; [|auto].
  cbv zeta.
  destruct (Z.of_nat found + strlen newp + strlen (drop (found + length oldp) s) + 1
            >=? LINE_LEN) eqn:G; [auto|].
  destruct (never_fails_malloc h Hh) as (h' & -> & Hh'). cbn [negb].
  assert (Hbuf : strlen (take found s ++ newp ++ drop (found + length oldp) s) < LINE_LEN).
  { unfold strlen in *. rewrite !length_app, length_take. lia. }
  destruct global; cbn [negb]; [apply IH; assumption | auto].
Qed.

Lemma replace_in_line_fit (h : heap) (s oldp newp : cstr) (global : bool) :
  strlen s < LINE_LEN -> never_fails h ->
  strlen (replace_in_line h s oldp newp global).1.2 < LINE_LEN /\
  never_fails (replace_in_line h s oldp newp global).2.
Proof.
  intros Hs Hh. unfold replace_in_line. destruct (strlen oldp =? 0); [auto|].
  apply replace_loop_fit; assumption.
Qed.

Lemma cmd_replace_sound (e : editor) (w : world) (a b : Z) (spec : cstr) :
  sound e -> never_fails (mem w) -> a < INT_MAX -> b < INT_MAX ->
  exists e' w', cmd_replace e w a b spec = Some (e', w') /\ sound e' /\ steps w w'.
Proof.
  intros Hs Hw Ha Hb. pose proof Hs as ([Hlen Hlc] & Hnn & Hfit). unfold cmd_replace.
  destruct (parse_between (skip_space spec) "/" LINE_LEN) as [[oldp p]|].
  2:{ eexists _, _. split; [reflexivity|]. split; [exact Hs|].
      apply steps_puts, steps_refl, Hw. }
  destruct (parse_between (skip_space p) "/" LINE_LEN) as [[newp p']|].
  2:{ eexists _, _. split; [reflexivity|]. split; [exact Hs|].
      apply steps_puts, steps_refl, Hw. }
  cbv zeta.
  set (global := match skip_space p' with
                 | [] => false
                 | c :: _ => (c =? "g")%char || (c =? "G")%char
                 end).
  pose proof (to_range_defaults_small e a b ltac:(lia) Ha Hb) as Hsmall.
  destruct (to_range_defaults e a b) as [a' b']. cbn [snd] in Hsmall.
  rewrite for_upto_int_small by exact Hsmall. unfold for_upto.
  set (Inv := fun s : list (option cstr) * Z * heap =>
                length s.1.1 = length (lines e) /\ Forall fits s.1.1 /\
                (forall j, 0 <= j < line_count e ->
                           exists x, aget s.1.1 j = Some (Some x)) /\
                never_fails s.2).
  match goal with
  | |- context [for_range ?n0 ?i0 ?body (lines e, 0, mem w)] =>
      assert (Hloop : exists s, for_range n0 i0 body (lines e, 0, mem w) = Some s /\ Inv s);
        [apply (for_range_inv Inv)
        | destruct Hloop as ([[l total] h] & Hrun & Hl & Hfl & Hnl & Hh)]
  end.
  - intros i [[l total] h] (Hl & Hfl & Hnl & Hh). unfold Inv. cbn [fst snd] in *.
    destruct ((1 <=? i) && (i <=? line_count e)) eqn:G.
    2:{ eexists. split; [reflexivity|]. cbn [fst snd]. auto. }
    assert (Hi : 1 <= i <= line_count e) by (revert G; zcases; intros; lia).
    destruct (Hnl (i - 1)) as [s Hsl]; [lia|].
    rewrite Hsl. cbn [mbind option_bind].
    pose proof (replace_in_line_fit h s oldp newp global
                  (fits_lookup _ _ _ Hfl Hsl s eq_refl) Hh) as [Hfit' Hh'].
    destruct (replace_in_line h s oldp newp global) as [[made s'] h'].
    cbn [fst snd] in Hfit', Hh'.
    rewrite aset_in_range by lia. cbn [mbind option_bind].
    eexists. split; [reflexivity|]. cbn [fst snd].
    split; [rewrite length_insert; exact Hl|].
    split; [apply Forall_insert; [exact Hfl | apply fits_some, Hfit']|].
    split; [|exact Hh'].
    intros j Hj. destruct (Z.eq_dec j (i - 1)) as [->|Hne].
    + exists s'. rewrite aget_lookup by lia. apply list_lookup_insert_eq. lia.
    + destruct (Hnl j Hj) as [x Hx]. exists x.
      rewrite aget_lookup in * by lia. rewrite list_lookup_insert_ne by lia. exact Hx.
  - unfold Inv. cbn [fst snd]. auto.
  - rewrite Hrun. cbn [mbind option_bind fst snd] in *.
    eexists _, _. split; [reflexivity|]. split.
    + split; [|split].
      * split; cbn [lines line_count with_last with_lines]; lia.
      * intros j Hj. apply Hnl, Hj.
      * exact Hfl.
    + apply steps_print, steps_mem, Hh.
Qed.

Lemma free_line_fit (e : editor) (i : Z) : lines_fit e -> lines_fit (free_line e i).
Proof.
  intros H. unfold free_line. destruct (_ && _); [|exact H].
  destruct (aget (lines e) i) as [[s|]|]; try exact H.
  apply Forall_insert; [exact H | apply fits_none].
Qed.

Lemma free_loop_fit (n : nat) :
  forall (i : Z) (e e1 : editor),
    for_range n i (fun i e => Some (free_line e i)) e = Some e1 ->
    lines_fit e -> lines_fit e1.
Proof.
  induction n as [|n IH]; intros i e e1 H Hfit.
  - cbn [for_range] in H. congruence.
  - cbn [for_range mbind option_bind] in H.
    exact (IH _ _ _ H (free_line_fit e i Hfit)).
Qed.

Lemma shift_down_fit (n : nat) :
  forall (i count : Z) (l l' : list (option cstr)),
    shift_down n i count l = Some l' -> Forall fits l -> Forall fits l'.
Proof.
  induction n as [|n IH]; intros i count l l' H Hl; cbn [shift_down] in H.
  - congruence.
  - destruct (aget l (i + count)) as [v|] eqn:Hv; [|discriminate].
    cbn [mbind option_bind] in H.
    destruct (aset l i v) as [l1|] eqn:Hset; [|discriminate].
    cbn [mbind option_bind] in H.
    apply (IH _ _ _ _ H). exact (fit_aset _ _ _ _ Hl (fits_lookup _ _ _ Hl Hv) Hset).
Qed.

Lemma shift_up_fit (n : nat) :
  forall (i count : Z) (l l' : list (option cstr)),
    shift_up n i count l = Some l' -> Forall fits l -> Forall fits l'.
Proof.
  induction n as [|n IH]; intros i count l l' H Hl; cbn [shift_up] in H.
  - congruence.
  - destruct (aget l i) as [v|] eqn:Hv; [|discriminate].
    cbn [mbind option_bind] in H.
    destruct (aset l (i + count) v) as [l1|] eqn:Hset; [|discriminate].
    cbn [mbind option_bind] in H.
    apply (IH _ _ _ _ H). exact (fit_aset _ _ _ _ Hl (fits_lookup _ _ _ Hl Hv) Hset).
Qed.

Lemma close_gap_fit (e e' : editor) (start count : Z) :
  close_gap e start count = Some e' -> lines_fit e -> lines_fit e'.
Proof.
  unfold close_gap. intros H Hfit.
  destruct (shift_down _ _ _ _) as [l|] eqn:Hl; [|discriminate].
  cbn [mbind option_bind] in H. injection H as <-.
  exact (shift_down_fit _ _ _ _ _ Hl Hfit).
Qed.

Lemma make_room_fit (e e' : editor) (pos count : Z) (ok : bool) :
  make_room e pos count = Some (ok, e') -> lines_fit e -> lines_fit e'.
Proof.
  unfold make_room. intros H Hfit.
  destruct (count <=? 0); [injection H as _ <-; exact Hfit|].
  destruct (_ >? _); [injection H as _ <-; exact Hfit|].
  destruct (shift_up _ _ _ _) as [l|] eqn:Hl; [|discriminate].
  cbn [mbind option_bind] in H. injection H as _ <-.
  exact (shift_up_fit _ _ _ _ _ Hl Hfit).
Qed.

(** No NULL line, read off the document. *)
Lemma no_null_document (e : editor) :
  0 <= line_count e <= Z.of_nat (length (lines e)) ->
  (no_null e <-> Forall (fun v => exists s, v = Some s) (document e)).
Proof.
  intros Hlc. split.
  - intros Hnn. apply Forall_lookup_2. intros i v Hi.
    apply document_aget in Hi as [Hi Hr].
    destruct (Hnn (Z.of_nat i)) as [s Hs]; [lia|]. exists s. congruence.
  - intros H i Hi. rewrite aget_document by exact Hi.
    destruct (lookup_lt_is_Some_2 (document e) (Z.to_nat i)) as [v Hv].
    { pose proof (document_length e Hlc). lia. }
    destruct (Forall_lookup_1 _ _ _ _ H Hv) as [s ->]. exists s. exact Hv.
Qed.

Lemma cmd_delete_fit (e e' : editor) (a b : Z) :
  cmd_delete e a b = Some e' -> lines_fit e -> lines_fit e'.
Proof.
  unfold cmd_delete. intros H Hfit.
  destruct (delete_range e a b) as [[lo hi]|]; [|injection H as <-; exact Hfit].
  unfold for_upto in H.
  destruct (for_range _ _ _ e) as [e1|] eqn:Hfree; [|discriminate].
  cbn [mbind option_bind] in H.
  destruct (close_gap e1 (lo - 1) (hi - lo + 1)) as [e2|] eqn:Hgap; [|discriminate].
  cbn [mbind option_bind] in H. injection H as <-.
  apply (close_gap_fit _ _ _ _ Hgap), (free_loop_fit _ _ _ _ Hfree), Hfit.
Qed.

Lemma cmd_delete_sound (e : editor) (a b : Z) :
  sound e -> exists e', cmd_delete e a b = Some e' /\ sound e'.
Proof.
  intros Hs. pose proof Hs as (Hwf & Hnn & Hfit). pose proof Hwf as [Hlen Hlc].
  destruct (delete_range e a b) as [[lo hi]|] eqn:R.
  - destruct (cmd_delete_document e a b lo hi Hwf R) as (e' & Hrun & Hdoc & Hcount & Hlen').
    destruct (delete_range_bounds e a b lo hi ltac:(lia) R) as (Hlo & Hlh & Hhi).
    exists e'. split; [exact Hrun|].
    assert (Hwf' : store_wf e') by (split; lia).
    split; [exact Hwf'|]. split; [|exact (cmd_delete_fit _ _ _ _ Hrun Hfit)].
    apply no_null_document; [destruct Hwf'; lia|]. rewrite Hdoc.
    apply (no_null_document e ltac:(lia)) in Hnn.
    apply Forall_app. split; [apply Forall_take | apply Forall_drop]; exact Hnn.
  - exists e. unfold cmd_delete. rewrite R. auto.
Qed.

Lemma write_file_sound (e : editor) (w : world) (name : cstr) :
  sound e -> never_fails (mem w) ->
  exists ok e' w',
    write_file e w name = Some (ok, e', w') /\ sound e' /\ steps w w' /\
    cursor_row e' = cursor_row e /\ cursor_col e' = cursor_col e /\
    top_line e' = top_line e /\ lines e' = lines e /\ line_count e' = line_count e /\
    keyboard w' = keyboard w.
Proof.
  intros Hs Hw. pose proof Hs as ([Hlen Hlc] & _ & _). unfold write_file.
  destruct (can_write w name).
  - rewrite file_text_spec by lia. cbn [mbind option_bind].
    eexists _, _, _. split; [reflexivity|].
    split; [apply (sound_fields e); [reflexivity | reflexivity | exact Hs]|].
    split; [apply (steps_fields w w); [reflexivity | reflexivity | apply steps_refl, Hw]|].
    repeat split; reflexivity.
  - eexists _, _, _. split; [reflexivity|]. split; [exact Hs|].
    split; [apply steps_refl, Hw|]. repeat split; reflexivity.
Qed.

(** ** Sound stores: the commands that read lines *)

Lemma fgets_chomp_fits (input buf rest : list ascii) :
  fgets LINE_LEN input = Some (buf, rest) -> fits (Some (chomp buf)).
Proof.
  intros H. apply fits_some.
  destruct (fgets_chomp_clean LINE_LEN input buf rest) as (_ & Hlen & _);
    [unfold LINE_LEN; lia | exact H | lia].
Qed.

(** What [fgets] returns is the start of the stream, up to its first
    NUL, and what it leaves is the rest. *)
Lemma fgets_split (size : Z) (input buf rest : list ascii) :
  fgets size input = Some (buf, rest) ->
  exists l, input = l ++ rest /\ buf = c_str l.
Proof.
  unfold fgets. destruct input as [|c input]; [discriminate|].
  destruct (fgets_chars (Z.to_nat (size - 1)) (c :: input)) as [l r] eqn:E.
  intros H. injection H as <- <-.
  destruct (fgets_chars_shape _ _ _ _ E) as (Hin & _). exists l. split; [exact Hin | reflexivity].
Qed.

Lemma fgets_suffix (size : Z) (input buf rest : list ascii) :
  fgets size input = Some (buf, rest) -> rest `suffix_of` input.
Proof.
  intros H. destruct (fgets_split _ _ _ _ H) as (l & -> & _). apply suffix_app_r. reflexivity.
Qed.

Lemma fgets_steps (w0 w : world) (size : Z) (buf rest : list ascii) :
  fgets size (stdin w) = Some (buf, rest) ->
  steps w0 w -> steps w0 (with_stdin rest w).
Proof.
  intros H [Hm Hin]. apply fgets_suffix in H.
  split; [exact Hm | cbn [stdin with_stdin]; etrans; eassumption].
Qed.

(** The store after a line has been appended to the document. *)
Lemma append_line_sound (e : editor) (s : cstr) :
  Z.of_nat (length (lines e)) = MAX_LINES -> 0 <= line_count e < MAX_LINES ->
  no_null e -> lines_fit e -> strlen s < LINE_LEN ->
  sound (with_line_count (line_count e + 1)
           (with_lines (<[Z.to_nat (line_count e) := Some s]> (lines e)) e)).
Proof.
  intros Hlen Hlc Hnn Hfit Hs. split; [|split].
  - split; cbn [lines line_count with_line_count with_lines];
      [rewrite length_insert; exact Hlen | lia].
  - intros i Hi. cbn [lines line_count with_line_count with_lines] in *.
    rewrite aget_lookup by lia.
    destruct (Z.eq_dec i (line_count e)) as [->|Hne].
    + exists s. apply list_lookup_insert_eq. lia.
    + rewrite list_lookup_insert_ne by lia. rewrite <- aget_lookup by lia.
      apply Hnn. lia.
  - unfold lines_fit. cbn [lines with_line_count with_lines].
    apply Forall_insert; [exact Hfit | apply fits_some, Hs].
Qed.

Lemma insert_loop_frame (fuel : nat) :
  forall (pos : Z) (e : editor) (w : world) (pos' : Z) (e' : editor) (w' : world),
    insert_loop fuel pos e w = Some (pos', e', w') ->
    lines_fit e -> never_fails (mem w) ->
    lines_fit e' /\ steps w w'.
Proof.
  induction fuel as [|fuel IH]; intros pos e w pos' e' w' H Hfit Hw; [discriminate|].
  cbn [insert_loop] in H. cbn [print with_stdout stdin] in H.
  destruct (fgets LINE_LEN (stdin w)) as [[buf rest]|] eqn:Hgets.
  2:{ injection H as <- <- <-. split; [exact Hfit | apply steps_print, steps_refl, Hw]. }
  assert (Hin : steps w (with_stdin rest (print (fmt_05d (pos + 1) ++ lit ": ") w))).
  { apply (fgets_steps w _ LINE_LEN buf rest); [exact Hgets|].
    apply steps_print, steps_refl, Hw. }
  cbv zeta in H. destruct (streq (chomp buf) (lit ".")).
  { injection H as <- <- <-. split; [exact Hfit | exact Hin]. }
  destruct (make_room e pos 1) as [[ok e1]|] eqn:Hmk; [|discriminate].
  cbn [mbind option_bind] in H. pose proof (make_room_fit _ _ _ _ _ Hmk Hfit) as Hfit1.
  destruct ok; cbn [negb] in H.
  2:{ injection H as <- <- <-. split; [exact Hfit1 | apply steps_puts, Hin]. }
  unfold xstrdup, print in H. cbn [mem with_stdin with_stdout] in H.
  destruct (never_fails_malloc (mem w) Hw) as (h' & Hm & Hh'). rewrite Hm in H.
  destruct (aset (lines e1) pos (Some (chomp buf))) as [l|] eqn:Hset; [|discriminate].
  cbn [mbind option_bind] in H.
  apply IH in H as [Hfit' Hsteps].
  - split; [exact Hfit'|]. eapply steps_trans; [|exact Hsteps].
    split; [exact Hh'|]. destruct Hin as [_ Hin]. exact Hin.
  - unfold lines_fit. cbn [lines with_lines].
    exact (fit_aset _ _ _ _ Hfit1 (fgets_chomp_fits _ _ _ Hgets) Hset).
  - exact Hh'.
Qed.

Lemma cmd_insert_sound (e : editor) (w : world) (n : Z) :
  sound e -> never_fails (mem w) ->
  exists e' w', cmd_insert e w n = Some (e', w') /\ sound e' /\ steps w w'.
Proof.
  intros (Hwf & Hnn & Hfit) Hw. unfold cmd_insert.
  assert (Hpos : 0 <= insert_start e n - 1 <= line_count e).
  { destruct Hwf as [_ Hlc]. unfold insert_start. zcases; lia. }
  match goal with
  | |- context [insert_loop ?f ?p e ?w0] =>
      destruct (insert_loop_invariant f p e w0 Hwf Hnn Hpos)
        as (pos' & e' & w' & Hrun & Hwf' & Hnn' & _);
        [cbn [print stdin with_stdout]; lia
        | apply never_fails_allocs; exact Hw |];
        destruct (insert_loop_frame f p e w0 pos' e' w' Hrun Hfit Hw) as [Hfit' Hsteps]
  end.
  rewrite Hrun. cbn [mbind option_bind]. eexists _, _. split; [reflexivity|].
  split; [|eapply steps_trans; [apply steps_print, steps_refl, Hw | exact Hsteps]].
  apply (sound_fields e'); [reflexivity | reflexivity|].
  exact (conj Hwf' (conj Hnn' Hfit')).
Qed.

Lemma cmd_edit_frame (e : editor) (w : world) (n : Z) (e' : editor) (w' : world) :
  cmd_edit e w n = Some (e', w') -> lines_fit e -> never_fails (mem w) ->
  lines_fit e' /\ steps w w'.
Proof.
  unfold cmd_edit. intros H Hfit Hw.
  destruct ((n <? 1) || (n >? line_count e)).
  { injection H as <- <-. split; [exact Hfit | apply steps_puts, steps_refl, Hw]. }
  destruct (aget (lines e) (n - 1)) as [v|]; [|discriminate].
  cbn [mbind option_bind] in H. unfold print in H. cbn [stdin with_stdout] in H.
  destruct (fgets LINE_LEN (stdin w)) as [[buf rest]|] eqn:Hgets.
  2:{ injection H as <- <-. split; [exact Hfit|].
      apply (steps_fields w w); [reflexivity | reflexivity | apply steps_refl, Hw]. }
  unfold xstrdup in H. cbn [mem with_stdin with_stdout] in H.
  destruct (never_fails_malloc (mem w) Hw) as (h' & Hm & Hh'). rewrite Hm in H.
  destruct (aset _ _ _) as [l|] eqn:Hset; [|discriminate].
  cbn [mbind option_bind] in H. injection H as <- <-. split.
  - unfold lines_fit. cbn [lines with_last with_lines].
    exact (fit_aset _ _ _ _ (free_line_fit e (n - 1) Hfit) (fgets_chomp_fits _ _ _ Hgets) Hset).
  - apply fgets_suffix in Hgets. split; [exact Hh' | exact Hgets].
Qed.

Lemma cmd_edit_sound (e : editor) (w : world) (n : Z) :
  sound e -> never_fails (mem w) ->
  exists e' w', cmd_edit e w n = Some (e', w') /\ sound e' /\ steps w w'.
Proof.
  intros (Hwf & Hnn & Hfit) Hw.
  destruct (cmd_edit_invariant e w n Hwf Hnn (never_fails_allocs _ _ Hw))
    as (e' & w' & Hrun & Hwf' & Hnn' & _).
  destruct (cmd_edit_frame e w n e' w' Hrun Hfit Hw) as [Hfit' Hsteps].
  exists e', w'. split; [exact Hrun|]. split; [|exact Hsteps].
  exact (conj Hwf' (conj Hnn' Hfit')).
Qed.

Lemma load_loop_sound (fuel : nat) :
  forall (h : heap) (input : list ascii) (e : editor),
    Z.of_nat (length (lines e)) = MAX_LINES ->
    0 <= line_count e < MAX_LINES ->
    MAX_LINES <= Z.of_nat fuel + line_count e + 1 ->
    no_null e -> lines_fit e -> never_fails h ->
    exists ok e' h',
      load_loop fuel h input e = Some (ok, e', h') /\ sound e' /\ never_fails h'.
Proof.
  induction fuel as [|fuel IH]; intros h input e Hlen Hlc Hfuel Hnn Hfit Hh;
    (assert (Hs0 : sound e) by (split; [split; [exact Hlen | lia] | split; assumption]));
    cbn [load_loop];
    (destruct (fgets LINE_LEN input) as [[buf rest]|] eqn:Hgets;
     [|eexists _, _, _; split; [reflexivity|]; split; [exact Hs0 | exact Hh]]);
    unfold xstrdup; destruct (never_fails_malloc h Hh) as (h' & -> & Hh');
    rewrite aset_in_range by lia; cbn [mbind option_bind line_count with_line_count];
    pose proof (append_line_sound e (chomp buf) Hlen Hlc Hnn Hfit
                  (fgets_chomp_fits _ _ _ Hgets (chomp buf) eq_refl)) as Hs2.
  - destruct (line_count e + 1 >=? MAX_LINES) eqn:F; [|lia].
    eexists _, _, _. split; [reflexivity|]. split; [exact Hs2 | exact Hh'].
  - destruct (line_count e + 1 >=? MAX_LINES) eqn:F.
    + eexists _, _, _. split; [reflexivity|]. split; [exact Hs2 | exact Hh'].
    + destruct Hs2 as ([Hlen2 Hlc2] & Hnn2 & Hfit2).
      apply IH; try assumption.
      * cbn [line_count with_line_count with_lines]. lia.
      * cbn [line_count with_line_count with_lines]. lia.
Qed.

Lemma load_file_sound (e : editor) (w : world) (name : cstr) :
  sound e -> never_fails (mem w) ->
  exists ok e' w', load_file e w name = Some (ok, e', w') /\ sound e' /\ steps w w'.
Proof.
  intros (Hwf & Hnn & Hfit) Hw. pose proof Hwf as [Hlen Hlc]. unfold load_file.
  destruct (fopen_read (disk w) name) as [content|].
  2:{ eexists _, _, _. split; [reflexivity|].
      split; [exact (conj Hwf (conj Hnn Hfit)) | apply steps_refl, Hw]. }
  unfold for_upto.
  destruct (free_loop_keeps (Z.to_nat (line_count e - 1 - 0 + 1)) 0 e)
    as (e0 & Hfree & Hl0 & Hc0).
  rewrite Hfree. cbn [mbind option_bind].
  pose proof (free_loop_fit _ _ _ _ Hfree Hfit) as Hfit0.
  destruct (load_loop_sound (Z.to_nat MAX_LINES) (mem w) content (with_line_count 0 e0))
    as (ok & e1 & h1 & Hrun & Hs1 & Hh1);
    [cbn [lines with_line_count]; lia
    | cbn [line_count with_line_count]; unfold MAX_LINES; lia
    | cbn [line_count with_line_count]; lia
    | intros i Hi; cbn [line_count with_line_count] in Hi; lia
    | exact Hfit0 | exact Hw |].
  rewrite Hrun. cbn [mbind option_bind].
  assert (Hsteps : steps w (with_mem h1 w)) by (split; [exact Hh1 | cbn; reflexivity]).
  destruct ok; eexists _, _, _; (split; [reflexivity|]); (split; [|exact Hsteps]).
  - apply (sound_fields e1); [reflexivity | reflexivity | exact Hs1].
  - exact Hs1.
Qed.

(** ** Sound stores: the editing primitives of the fullscreen editor *)

(** Reduction of the projections of an updated state. *)
Ltac proj :=
  cbn [lines line_count current_file last_a last_b cursor_row cursor_col top_line
       with_lines with_line_count with_current_file with_last with_cursor
       with_top_line set_current_file mem stdin stdout disk readonly keyboard
       with_mem with_stdin with_stdout with_disk with_keyboard] in *.

Lemma with_mem_same (w : world) : with_mem (mem w) w = w.
Proof. destruct w. reflexivity. Qed.

Lemma ensure_noop (e : editor) (w : world) (idx : Z) :
  idx < line_count e -> ensure_line_exists e w idx = Some (e, w).
Proof.
  intros H. unfold ensure_line_exists.
  replace (Z.to_nat (idx + 1 - line_count e)) with 0%nat by lia.
  cbn [ensure_loop mbind option_bind]. rewrite with_mem_same. reflexivity.
Qed.

Lemma ensure_loop_frame (n : nat) :
  forall (e : editor) (h : heap) (e' : editor) (h' : heap),
    ensure_loop n e h = Some (e', h') -> lines_fit e -> never_fails h ->
    lines_fit e' /\ never_fails h'.
Proof.
  induction n as [|n IH]; intros e h e' h' H Hfit Hh; cbn [ensure_loop] in H.
  - injection H as <- <-. auto.
  - destruct (line_count e >=? MAX_LINES); [injection H as <- <-; auto|].
    unfold xstrdup in H. destruct (never_fails_malloc h Hh) as (h1 & Hm & Hh1).
    rewrite Hm in H.
    destruct (aset (lines e) (line_count e) (Some [])) as [l|] eqn:Hset; [|discriminate].
    cbn [mbind option_bind] in H. apply IH in H; [exact H| |exact Hh1].
    unfold lines_fit. proj.
    apply (fit_aset _ _ _ _ Hfit (fits_some [] ltac:(vm_compute; reflexivity)) Hset).
Qed.

Lemma ensure_frame (e : editor) (w : world) (idx : Z) (e' : editor) (w' : world) :
  ensure_line_exists e w idx = Some (e', w') -> lines_fit e -> never_fails (mem w) ->
  lines_fit e' /\ steps w w'.
Proof.
  unfold ensure_line_exists. intros H Hfit Hw.
  destruct (ensure_loop _ e (mem w)) as [[e1 h1]|] eqn:E; [|discriminate].
  cbn [mbind option_bind] in H. injection H as <- <-.
  destruct (ensure_loop_frame _ _ _ _ _ E Hfit Hw) as [Hfit1 Hh1].
  split; [exact Hfit1|]. split; [exact Hh1 | cbn; reflexivity].
Qed.

(** An empty document gets its first line when the fullscreen editor
    starts. *)
Lemma ensure_first (e : editor) (w : world) :
  sound e -> line_count e = 0 -> never_fails (mem w) ->
  exists e' w',
    ensure_line_exists e w 0 = Some (e', w') /\ sound e' /\ line_count e' = 1 /\
    steps w w' /\ keyboard w' = keyboard w.
Proof.
  intros (Hwf & Hnn & Hfit) Hlc Hw. pose proof Hwf as [Hlen _].
  unfold ensure_line_exists. rewrite Hlc.
  change (Z.to_nat (0 + 1 - 0)) with 1%nat.
  cbn [ensure_loop]. rewrite Hlc.
  change (0 >=? MAX_LINES) with false. cbn iota.
  unfold xstrdup. destruct (never_fails_malloc (mem w) Hw) as (h1 & -> & Hh1).
  rewrite aset_in_range by (unfold MAX_LINES in *; lia).
  cbn [mbind option_bind]. eexists _, _. split; [reflexivity|].
  pose proof (append_line_sound e [] Hlen ltac:(rewrite Hlc; unfold MAX_LINES; lia)
                Hnn Hfit ltac:(vm_compute; reflexivity)) as Hs.
  rewrite Hlc in Hs. split; [exact Hs|]. split; [reflexivity|].
  split; [split; [exact Hh1 | cbn; reflexivity] | reflexivity].
Qed.

(** The store after a line of the document has been replaced. *)
Lemma set_line_sound (e : editor) (i : Z) (s : cstr) :
  sound e -> 0 <= i < line_count e -> strlen s < LINE_LEN ->
  sound (with_lines (<[Z.to_nat i := Some s]> (lines e)) e) /\
  line_at (with_lines (<[Z.to_nat i := Some s]> (lines e)) e) i = Some s.
Proof.
  intros ([Hlen Hlc] & Hnn & Hfit) Hi Hs. split; [split; [|split]|].
  - split; proj; [rewrite length_insert; exact Hlen | exact Hlc].
  - intros j Hj. proj. rewrite aget_lookup by lia.
    destruct (Z.eq_dec j i) as [->|Hne].
    + exists s. apply list_lookup_insert_eq. lia.
    + rewrite list_lookup_insert_ne by lia. rewrite <- aget_lookup by lia.
      apply Hnn, Hj.
  - unfold lines_fit. proj. apply Forall_insert; [exact Hfit | apply fits_some, Hs].
  - apply line_at_aget. proj. rewrite aget_lookup by lia.
    apply list_lookup_insert_eq. lia.
Qed.

Lemma insert_char_sound (e : editor) (w : world) (c : ascii) :
  sound e -> cursor_in_document e -> never_fails (mem w) ->
  exists e' w',
    insert_char e w c = Some (e', w') /\ sound e' /\ cursor_in_document e' /\
    steps w w' /\ keyboard w' = keyboard w /\
    cursor_row e' = cursor_row e /\ top_line e' = top_line e.
Proof.
  intros Hs (Hrow & s & Hline & Hcol) Hw. pose proof Hs as ([Hlen Hlc] & Hnn & Hfit).
  unfold insert_char. rewrite ensure_noop by lia. cbn [mbind option_bind].
  rewrite Hline. cbn [mbind option_bind].
  replace (cursor_col e >? strlen s) with false by (zcases; reflexivity).
  destruct (strlen s >=? LINE_LEN - 1) eqn:Hfull.
  { eexists _, _. split; [reflexivity|]. split; [exact Hs|].
    split; [split; eauto|]. split; [apply steps_refl, Hw|]. auto. }
  destruct (never_fails_malloc (mem w) Hw) as (h' & -> & Hh'). cbn [negb].
  replace (cursor_col e <? 0) with false by (zcases; reflexivity).
  rewrite aset_in_range by lia. cbn [mbind option_bind].
  eexists _, _. split; [reflexivity|].
  set (new := take (Z.to_nat (cursor_col e)) s ++ [c] ++ drop (Z.to_nat (cursor_col e)) s).
  assert (Hnew : strlen new = strlen s + 1).
  { unfold new, strlen. rewrite !length_app, length_take, length_drop. cbn [length].
    unfold strlen in Hcol. lia. }
  destruct (set_line_sound e (cursor_row e) new Hs Hrow) as [Hs' Hline'];
    [revert Hfull; zcases; intros; lia|].
  split; [apply (sound_fields (with_lines (<[Z.to_nat (cursor_row e) := Some new]> (lines e)) e));
          [reflexivity | reflexivity | exact Hs']|].
  split.
  - split; [proj; exact Hrow|]. exists new. split; [exact Hline' | proj; lia].
  - split; [split; [exact Hh' | cbn; reflexivity]|]. auto.
Qed.

Lemma free_line_cursor (e : editor) (i : Z) :
  cursor_row (free_line e i) = cursor_row e /\
  cursor_col (free_line e i) = cursor_col e /\
  top_line (free_line e i) = top_line e.
Proof.
  unfold free_line. destruct (_ && _); [|auto].
  destruct (aget (lines e) i) as [[s|]|]; auto.
Qed.

(** Joining line [row] with the line behind it. *)
Lemma join_sound (e : editor) (row : Z) (a b : cstr) :
  sound e -> 0 <= row -> row + 1 < line_count e ->
  line_at e row = Some a -> line_at e (row + 1) = Some b ->
  strlen a + strlen b < LINE_LEN ->
  exists e2,
    close_gap (free_line (with_lines (<[Z.to_nat row := Some (a ++ b)]> (lines e)) e)
                         (row + 1)) (row + 1) 1 = Some e2 /\
    sound e2 /\ line_count e2 = line_count e - 1 /\
    line_at e2 row = Some (a ++ b) /\
    cursor_row e2 = cursor_row e /\ cursor_col e2 = cursor_col e /\
    top_line e2 = top_line e.
Proof.
  intros Hs Hrow Hnext Ha Hb Hlen.
  set (e0 := with_lines (<[Z.to_nat row := Some (a ++ b)]> (lines e)) e).
  destruct (set_line_sound e row (a ++ b) Hs) as [Hs0 Hline0];
    [lia | unfold strlen in *; rewrite length_app; lia |].
  fold e0 in Hs0, Hline0. destruct Hs0 as ([Hlen0 Hlc0] & Hnn0 & Hfit0).
  set (e1 := free_line e0 (row + 1)).
  destruct (free_line_keeps e0 (row + 1)) as [Hl1 Hc1]. fold e1 in Hl1, Hc1.
  destruct (free_line_cursor e0 (row + 1)) as (Hr1 & Hcol1 & Ht1). fold e1 in Hr1, Hcol1, Ht1.
  assert (Hlc : line_count e0 = line_count e) by reflexivity.
  assert (Hwf1 : store_wf e1) by (split; lia).
  destruct (close_gap_spec e1 (row + 1) 1 Hwf1) as (l2 & Hcg & Hl2 & Hmoved & Hkept);
    try lia.
  eexists. split; [exact Hcg|].
  assert (Hold : forall j, j <> row + 1 -> aget (lines e1) j = aget (lines e0) j)
    by (intros j Hj; apply free_line_other, Hj).
  split; [split; [|split]|].
  - split; proj; lia.
  - intros j Hj. proj. destruct (Z_lt_dec j (row + 1)).
    + rewrite Hkept by lia. rewrite Hold by lia. apply Hnn0. lia.
    + rewrite Hmoved by lia. rewrite Hold by lia. apply Hnn0. lia.
  - apply (close_gap_fit _ _ _ _ Hcg). apply free_line_fit, Hfit0.
  - split; [proj; lia|]. split.
    + apply line_at_aget. proj. rewrite Hkept by lia. rewrite Hold by lia.
      apply line_at_aget, Hline0.
    + proj. rewrite Hr1, Hcol1, Ht1. auto.
Qed.

Lemma delete_char_sound (e : editor) (w : world) :
  sound e -> cursor_in_document e -> never_fails (mem w) ->
  exists e' w',
    delete_char e w = Some (e', w') /\ sound e' /\ cursor_in_document e' /\
    steps w w' /\ keyboard w' = keyboard w /\
    cursor_row e' = cursor_row e /\ cursor_col e' = cursor_col e /\
    top_line e' = top_line e.
Proof.
  intros Hs (Hrow & s & Hline & Hcol) Hw. pose proof Hs as ([Hlen Hlc] & Hnn & Hfit).
  assert (Hsame : exists e' w',
             Some (e, w) = Some (e', w') /\ sound e' /\ cursor_in_document e' /\
             steps w w' /\ keyboard w' = keyboard w /\
             cursor_row e' = cursor_row e /\ cursor_col e' = cursor_col e /\
             top_line e' = top_line e).
  { exists e, w. split; [reflexivity|]. split; [exact Hs|].
    split; [split; eauto|]. split; [apply steps_refl, Hw|]. auto. }
  unfold delete_char.
  replace (cursor_row e >=? line_count e) with false by (zcases; reflexivity).
  rewrite Hline. cbn [mbind option_bind].
  destruct (cursor_col e >=? strlen s) eqn:Hend.
  - destruct (cursor_row e + 1 <? line_count e) eqn:Hnext; [|exact Hsame].
    destruct (no_null_line e (cursor_row e + 1) Hnn) as [b Hb];
      [revert Hnext; zcases; intros; lia|].
    rewrite Hb. cbn [mbind option_bind].
    destruct (strlen s + strlen b <? LINE_LEN) eqn:Hroom; [|exact Hsame].
    destruct (never_fails_malloc (mem w) Hw) as (h' & -> & Hh').
    rewrite aset_in_range by lia. cbn [mbind option_bind].
    destruct (join_sound e (cursor_row e) s b Hs) as (e2 & -> & Hs2 & Hlc2 & Hline2 & Hr2 & Hc2 & Ht2);
      try assumption; try (revert Hnext Hroom; zcases; intros; lia).
    cbn [mbind option_bind]. eexists _, _. split; [reflexivity|].
    split; [exact Hs2|]. split.
    + split; [rewrite Hr2, Hlc2; revert Hnext; zcases; intros; lia|].
      exists (s ++ b). rewrite Hr2, Hc2. split; [exact Hline2|].
      unfold strlen in *. rewrite length_app. lia.
    + split; [split; [exact Hh' | cbn; reflexivity]|]. auto.
  - replace (cursor_col e <? 0) with false by (zcases; reflexivity).
    rewrite aset_in_range by lia. cbn [mbind option_bind].
    eexists _, _. split; [reflexivity|].
    set (new := take (Z.to_nat (cursor_col e)) s ++ drop (S (Z.to_nat (cursor_col e))) s).
    assert (Hnew : strlen new = strlen s - 1).
    { unfold new, strlen. rewrite !length_app, length_take, length_drop.
      unfold strlen in *. revert Hend; zcases; intros; lia. }
    destruct (set_line_sound e (cursor_row e) new Hs Hrow) as [Hs' Hline'];
      [pose proof (line_fits e _ _ Hfit Hline); lia|].
    split; [exact Hs'|]. split.
    + split; [proj; exact Hrow|]. exists new. split; [exact Hline'|].
      proj. revert Hend; zcases; intros; lia.
    + split; [apply steps_refl, Hw|]. auto.
Qed.

Lemma move_cursor_sound (e : editor) (row col : Z) :
  sound e -> sound (with_cursor row col e).
Proof. apply sound_fields; reflexivity. Qed.

Lemma backspace_char_sound (e : editor) (w : world) :
  sound e -> cursor_in_document e -> never_fails (mem w) ->
  exists e' w',
    backspace_char e w = Some (e', w') /\ sound e' /\ cursor_in_document e' /\
    steps w w' /\ keyboard w' = keyboard w /\
    cursor_row e - 1 <= cursor_row e' <= cursor_row e /\ top_line e' = top_line e.
Proof.
  intros Hs (Hrow & s & Hline & Hcol) Hw. pose proof Hs as (_ & Hnn & _).
  unfold backspace_char.
  destruct (cursor_col e >? 0) eqn:Hc.
  - destruct (delete_char_sound (with_cursor (cursor_row e) (cursor_col e - 1) e) w)
      as (e' & w' & Hrun & Hs' & Hcur' & Hsteps & Hkb & Hr & _ & Ht);
      [apply move_cursor_sound, Hs | | exact Hw |].
    { split; [proj; exact Hrow|]. exists s. split; [exact Hline|].
      proj. revert Hc; zcases; intros; lia. }
    exists e', w'. split; [exact Hrun|]. split; [exact Hs'|]. split; [exact Hcur'|].
    split; [exact Hsteps|]. split; [exact Hkb|]. proj. split; [lia | exact Ht].
  - destruct (cursor_row e >? 0) eqn:Hr0.
    + destruct (no_null_line e (cursor_row e - 1) Hnn) as [a Ha];
        [revert Hr0; zcases; intros; lia|].
      rewrite Ha. cbn [mbind option_bind].
      destruct (delete_char_sound (with_cursor (cursor_row e - 1) (strlen a) e) w)
        as (e' & w' & Hrun & Hs' & Hcur' & Hsteps & Hkb & Hr & _ & Ht);
        [apply move_cursor_sound, Hs | | exact Hw |].
      { split; [proj; revert Hr0; zcases; intros; lia|]. exists a.
        split; [exact Ha|]. proj. pose proof (strlen_nonneg a). lia. }
      exists e', w'. split; [exact Hrun|]. split; [exact Hs'|]. split; [exact Hcur'|].
      split; [exact Hsteps|]. split; [exact Hkb|]. proj. split; [lia | exact Ht].
    + exists e, w. split; [reflexivity|]. split; [exact Hs|].
      split; [split; eauto|]. split; [apply steps_refl, Hw|].
      split; [reflexivity|]. split; [lia | reflexivity].
Qed.

Lemma insert_newline_frame (e : editor) (w : world) (e' : editor) (w' : world) :
  insert_newline e w = Some (e', w') -> lines_fit e -> never_fails (mem w) ->
  lines_fit e' /\ steps w w'.
Proof.
  unfold insert_newline. intros H Hfit Hw.
  destruct (ensure_line_exists e w (cursor_row e)) as [[e1 w1]|] eqn:He; [|discriminate].
  cbn [mbind option_bind] in H.
  destruct (ensure_frame _ _ _ _ _ He Hfit Hw) as [Hfit1 Hsteps1].
  destruct (line_at e1 (cursor_row e)) as [line|] eqn:Hline; [|discriminate].
  cbn [mbind option_bind] in H.
  pose proof (line_fits _ _ _ Hfit1 Hline) as Hshort.
  set (e2 := if cursor_col e1 >? strlen line
             then with_cursor (cursor_row e1) (strlen line) e1 else e1) in H.
  assert (Hfit2 : lines_fit e2) by (unfold e2; destruct (_ >? _); exact Hfit1).
  destruct (line_count e2 >=? MAX_LINES); [injection H as <- <-; auto|].
  destruct (make_room e2 (cursor_row e + 1) 1) as [[ok e3]|] eqn:Hmk; [|discriminate].
  cbn [mbind option_bind] in H. pose proof (make_room_fit _ _ _ _ _ Hmk Hfit2) as Hfit3.
  destruct ok; cbn [negb] in H; [|injection H as <- <-; auto].
  destruct Hsteps1 as [Hh1 Hin1].
  destruct (never_fails_malloc (mem w1) Hh1) as (h' & Hm & Hh'). rewrite Hm in H.
  cbn [negb] in H.
  destruct (cursor_col e3 <? 0); [discriminate|].
  destruct (aset (lines e3) (cursor_row e) _) as [l1|] eqn:Hs1; [|discriminate].
  cbn [mbind option_bind] in H.
  destruct (aset l1 (cursor_row e + 1) _) as [l2|] eqn:Hs2; [|discriminate].
  cbn [mbind option_bind] in H. injection H as <- <-. split.
  - unfold lines_fit. proj.
    refine (fit_aset _ _ _ _ (fit_aset _ _ _ _ Hfit3 _ Hs1) _ Hs2); apply fits_some;
      unfold strlen in *; [rewrite length_take | rewrite length_drop]; lia.
  - split; [exact Hh' | exact Hin1].
Qed.

Lemma insert_newline_sound (e : editor) (w : world) :
  sound e -> cursor_in_document e -> never_fails (mem w) ->
  exists e' w',
    insert_newline e w = Some (e', w') /\ sound e' /\ cursor_in_document e' /\
    steps w w' /\ keyboard w' = keyboard w /\
    cursor_row e <= cursor_row e' <= cursor_row e + 1 /\ top_line e' = top_line e.
Proof.
  intros Hs (Hrow & s & Hline & Hcol) Hw. pose proof Hs as (Hwf & Hnn & Hfit).
  pose proof Hwf as [Hlen Hlc].
  destruct (Z.eq_dec (line_count e) MAX_LINES) as [Hfull|Hroom].
  - rewrite (insert_newline_full e w s Hfull Hrow Hline) by lia.
    exists e, w. split; [reflexivity|]. split; [exact Hs|].
    split; [split; eauto|]. split; [apply steps_refl, Hw|].
    split; [reflexivity|]. split; [lia | reflexivity].
  - destruct (insert_newline_splits e w s Hwf Hrow ltac:(lia) Hline Hcol
                (never_fails_allocs 1 _ Hw))
      as (l' & h' & Hmalloc & Hrun & Hl' & Hfirst & Hsecond & Hbefore & Hafter).
    destruct (insert_newline_frame _ _ _ _ Hrun Hfit Hw) as [Hfit' Hsteps].
    eexists _, _. split; [exact Hrun|]. split; [split; [|split]|].
    + split; proj; lia.
    + intros j Hj. proj.
      destruct (Z_lt_dec j (cursor_row e)); [rewrite Hbefore by lia; apply Hnn; lia|].
      destruct (Z.eq_dec j (cursor_row e)) as [->|]; [eauto|].
      destruct (Z.eq_dec j (cursor_row e + 1)) as [->|]; [eauto|].
      rewrite Hafter by lia. apply Hnn. lia.
    + exact Hfit'.
    + split.
      * split; [proj; lia|]. eexists. split; [apply line_at_aget; proj; exact Hsecond|].
        proj. pose proof (strlen_nonneg (drop (Z.to_nat (cursor_col e)) s)). lia.
      * split; [exact Hsteps|]. proj. split; [reflexivity|]. split; [lia | reflexivity].
Qed.

(** ** Sound stores: the keys of the fullscreen editor *)

(** A state that differs from a sound one in the cursor and the window
    only is a state of the fullscreen editor when the cursor is placed
    well. *)
Lemma editing_intro (e e' : editor) (s : cstr) :
  sound e -> lines e' = lines e -> line_count e' = line_count e ->
  0 <= cursor_row e' < line_count e ->
  aget (lines e) (cursor_row e') = Some (Some s) ->
  0 <= cursor_col e' <= strlen s ->
  0 <= top_line e' <= cursor_row e' ->
  cursor_row e' < top_line e' + SCREEN_ROWS - 1 ->
  editing e'.
Proof.
  intros Hs Hl Hc Hrow Hline Hcol Htop Hbot. split; [|split].
  - exact (sound_fields e e' Hl Hc Hs).
  - split; [rewrite Hc; exact Hrow|]. exists s. split; [|exact Hcol].
    apply line_at_aget. rewrite Hl. exact Hline.
  - split; assumption.
Qed.

(** Case analysis for a cursor key: the comparisons of the handler, and
    the lines it measures, which the document holds. *)
Ltac key_case Hnn :=
  repeat first
    [ progress proj
    | progress (cbn [mbind option_bind])
    | zcase1
    | match goal with
      | |- context [aget (lines ?e0) ?r] =>
          let s := fresh "s" in
          let Hs := fresh "Hs" in
          destruct (Hnn r) as [s Hs]; [unfold SCREEN_ROWS in *; lia | rewrite Hs]
      end ].

Ltac key_done e Hs Hw :=
  eexists _, _, _; split; [reflexivity|]; split; [|apply steps_refl; exact Hw];
  eapply (editing_intro e);
  [ exact Hs | reflexivity | reflexivity
  | proj; unfold SCREEN_ROWS in *; lia
  | proj; eassumption
  | proj; unfold SCREEN_ROWS, strlen in *; lia
  | proj; unfold SCREEN_ROWS in *; lia
  | proj; unfold SCREEN_ROWS in *; lia ].

Lemma extended_key_sound (e : editor) (w : world) (ch : Z) :
  editing e -> never_fails (mem w) ->
  exists running e' w',
    extended_key e w ch = Some (running, e', w') /\ editing e' /\ steps w w'.
Proof.
  intros He Hw. pose proof He as (Hs & (Hrow & s & Hline & Hcol) & (Htop & Hbot)).
  pose proof Hs as (Hwf & Hnn & Hfit). apply line_at_aget in Hline.
  assert (Hstay : forall running : bool,
             exists r e' w', Some (running, e, w) = Some (r, e', w') /\
                             editing e' /\ steps w w').
  { intros running. eexists _, _, _. split; [reflexivity|].
    split; [exact He | apply steps_refl, Hw]. }
  unfold extended_key.
  destruct (ch =? 72).
  { unfold clamp_col, scroll_up, line_at. key_case Hnn. all: try apply Hstay. all: key_done e Hs Hw. }
  destruct (ch =? 80).
  { unfold clamp_col, scroll_down, line_at. key_case Hnn. all: try apply Hstay. all: key_done e Hs Hw. }
  destruct (ch =? 75).
  { unfold scroll_up, line_at. key_case Hnn. all: try apply Hstay. all: key_done e Hs Hw. }
  destruct (ch =? 77).
  { unfold scroll_down, line_at. key_case Hnn. all: try apply Hstay.
    all: try (key_done e Hs Hw).
    all: destruct (Hnn (cursor_row e + 1)) as [s1 Hs1]; [lia|]; key_done e Hs Hw. }
  destruct (ch =? 71).
  { key_done e Hs Hw. }
  destruct (ch =? 79).
  { unfold line_at. key_case Hnn. all: try apply Hstay. all: key_done e Hs Hw. }
  destruct (ch =? 73).
  { unfold clamp_col, line_at. key_case Hnn. all: try apply Hstay. all: key_done e Hs Hw. }
  destruct (ch =? 81).
  { unfold clamp_col, line_at. key_case Hnn. all: try apply Hstay. all: key_done e Hs Hw. }
  destruct (ch =? 59).
  { unfold getch. destruct (keyboard w) as [|k ks]; [apply Hstay|].
    eexists _, _, _. split; [reflexivity|]. split; [exact He|].
    apply (steps_fields w w); [reflexivity | reflexivity | apply steps_refl, Hw]. }
  destruct (ch =? 60).
  { destruct (current_file e) as [|c name] eqn:Hname; [apply Hstay|].
    destruct (write_file_sound e w (c :: name) Hs Hw)
      as (ok & e' & w' & -> & Hs' & Hsteps & Hr & Hc & Ht & Hl & Hlc & _).
    cbn [mbind option_bind]. eexists _, _, _. split; [reflexivity|].
    split; [|exact Hsteps].
    apply (editing_intro e e' s); try assumption; rewrite ?Hr, ?Hc, ?Ht; try assumption; lia. }
  destruct (ch =? 68); [apply Hstay|].
  destruct (ch =? 83); [|apply Hstay].
  destruct (delete_char_sound e w Hs)
    as (e' & w' & -> & Hs' & Hcur' & Hsteps & _ & Hr & _ & Ht);
    [split; [exact Hrow|]; exists s; split; [apply line_at_aget, Hline | exact Hcol]
    | exact Hw |].
  cbn [mbind option_bind]. eexists _, _, _. split; [reflexivity|].
  split; [|exact Hsteps]. split; [exact Hs'|]. split; [exact Hcur'|].
  unfold cursor_on_screen. rewrite Hr, Ht. split; assumption.
Qed.

Lemma scroll_down_editing (e : editor) :
  sound e -> cursor_in_document e -> 0 <= top_line e <= cursor_row e ->
  editing (scroll_down e).
Proof.
  intros Hs (Hrow & s & Hline & Hcol) Htop. apply line_at_aget in Hline.
  unfold scroll_down. zcases.
  - apply (editing_intro e _ s); proj; try assumption; try reflexivity;
      unfold SCREEN_ROWS in *; lia.
  - apply (editing_intro e _ s); proj; try assumption; try reflexivity;
      unfold SCREEN_ROWS in *; lia.
Qed.

Lemma scroll_up_editing (e : editor) :
  sound e -> cursor_in_document e ->
  0 <= top_line e -> cursor_row e < top_line e + SCREEN_ROWS - 1 ->
  editing (scroll_up e).
Proof.
  intros Hs (Hrow & s & Hline & Hcol) Htop Hbot. apply line_at_aget in Hline.
  unfold scroll_up. zcases.
  - apply (editing_intro e _ s); proj; try assumption; try reflexivity;
      unfold SCREEN_ROWS in *; lia.
  - apply (editing_intro e _ s); proj; try assumption; try reflexivity;
      unfold SCREEN_ROWS in *; lia.
Qed.

Lemma insert_spaces_sound (n : nat) :
  forall (e : editor) (w : world),
    editing e -> never_fails (mem w) ->
    exists e' w', insert_spaces n e w = Some (e', w') /\ editing e' /\ steps w w'.
Proof.
  induction n as [|n IH]; intros e w He Hw.
  - exists e, w. split; [reflexivity|]. split; [exact He | apply steps_refl, Hw].
  - destruct He as (Hs & Hcur & Htop & Hbot). cbn [insert_spaces].
    destruct (insert_char_sound e w " " Hs Hcur Hw)
      as (e1 & w1 & -> & Hs1 & Hcur1 & Hsteps1 & _ & Hr & Ht).
    cbn [mbind option_bind].
    destruct (IH e1 w1) as (e' & w' & Hrun & He' & Hsteps');
      [split; [exact Hs1|]; split; [exact Hcur1|]; unfold cursor_on_screen;
       rewrite Hr, Ht; split; assumption
      | apply Hsteps1 |].
    exists e', w'. split; [exact Hrun|]. split; [exact He'|].
    eapply steps_trans; eassumption.
Qed.

Lemma key_step_sound (e : editor) (w : world) (ch : Z) :
  editing e -> never_fails (mem w) ->
  exists running e' w',
    key_step e w ch = Some (running, e', w') /\ editing e' /\ steps w w'.
Proof.
  intros He Hw. pose proof He as (Hs & Hcur & Htop & Hbot).
  assert (Hstay : forall running : bool,
             exists r e' w', Some (running, e, w) = Some (r, e', w') /\
                             editing e' /\ steps w w').
  { intros running. eexists _, _, _. split; [reflexivity|].
    split; [exact He | apply steps_refl, Hw]. }
  unfold key_step.
  destruct ((ch =? 0) || (ch =? 224)).
  { unfold getch. destruct (keyboard w) as [|k ks]; [apply Hstay|].
    destruct (extended_key_sound e (with_keyboard ks w) k He Hw)
      as (r & e' & w' & Hrun & He' & Hsteps).
    exists r, e', w'. split; [exact Hrun|]. split; [exact He'|].
    exact Hsteps. }
  destruct (ch =? 13).
  { destruct (insert_newline_sound e w Hs Hcur Hw)
      as (e' & w' & -> & Hs' & Hcur' & Hsteps & _ & Hr & Ht).
    cbn [mbind option_bind]. eexists _, _, _. split; [reflexivity|].
    split; [|exact Hsteps]. apply scroll_down_editing; [assumption | assumption | lia]. }
  destruct (ch =? 9).
  { destruct (insert_spaces_sound 8 e w He Hw) as (e' & w' & -> & He' & Hsteps).
    cbn [mbind option_bind]. eexists _, _, _. split; [reflexivity|].
    split; assumption. }
  destruct (ch =? 8).
  { destruct (backspace_char_sound e w Hs Hcur Hw)
      as (e' & w' & -> & Hs' & Hcur' & Hsteps & _ & Hr & Ht).
    cbn [mbind option_bind]. eexists _, _, _. split; [reflexivity|].
    split; [|exact Hsteps]. apply scroll_up_editing; [assumption | assumption | lia | lia]. }
  destruct (ch =? 27); [apply Hstay|].
  destruct ((32 <=? ch) && (ch <? 127)); [|apply Hstay].
  destruct (insert_char_sound e w (ascii_of_N (Z.to_N ch)) Hs Hcur Hw)
    as (e' & w' & -> & Hs' & Hcur' & Hsteps & _ & Hr & Ht).
  cbn [mbind option_bind]. eexists _, _, _. split; [reflexivity|].
  split; [|exact Hsteps]. split; [exact Hs'|]. split; [exact Hcur'|].
  unfold cursor_on_screen. rewrite Hr, Ht. split; assumption.
Qed.

Lemma key_loop_sound (fuel : nat) :
  forall (e : editor) (w : world),
    editing e -> never_fails (mem w) ->
    exists e' w', key_loop fuel e w = Some (e', w') /\ editing e' /\ steps w w'.
Proof.
  induction fuel as [|fuel IH]; intros e w He Hw.
  - exists e, w. split; [reflexivity|]. split; [exact He | apply steps_refl, Hw].
  - cbn [key_loop]. unfold getch. destruct (keyboard w) as [|k ks].
    { exists e, w. split; [reflexivity|]. split; [exact He | apply steps_refl, Hw]. }
    destruct (key_step_sound e (with_keyboard ks w) k He Hw)
      as (r & e1 & w1 & -> & He1 & Hsteps1).
    cbn [mbind option_bind].
    assert (Hsteps : steps w w1) by exact Hsteps1.
    destruct r.
    + destruct (IH e1 w1 He1 (proj1 Hsteps1)) as (e' & w' & Hrun & He' & Hsteps').
      exists e', w'. split; [exact Hrun|]. split; [exact He'|].
      eapply steps_trans; eassumption.
    + exists e1, w1. split; [reflexivity|]. split; assumption.
Qed.

(** ** The fullscreen editor as a whole *)

(** A store made of lines that fit their buffers is sound. *)
Lemma sound_editor_of (doc : list cstr) :
  Z.of_nat (length doc) <= MAX_LINES -> Forall (fun s => strlen s < LINE_LEN) doc ->
  sound (editor_of doc).
Proof.
  intros Hlen Hdoc. unfold editor_of. split; [|split].
  - split; proj; [|lia].
    rewrite length_app, length_map, length_replicate. unfold MAX_LINES in *. lia.
  - intros i Hi. proj. rewrite aget_lookup by lia.
    destruct (lookup_lt_is_Some_2 doc (Z.to_nat i) ltac:(lia)) as [s Hs].
    exists s. rewrite lookup_app_l by (rewrite length_map; lia).
    change (map Some doc) with (Some <$> doc). rewrite list_lookup_fmap, Hs. reflexivity.
  - unfold lines_fit. proj. apply Forall_app. split.
    + change (map Some doc) with (Some <$> doc). apply Forall_fmap.
      eapply Forall_impl; [|exact Hdoc]. intros s Hs. apply fits_some, Hs.
    + apply Forall_replicate, fits_none.
Qed.

Lemma editing_start (e : editor) :
  sound e -> 0 < line_count e -> editing (with_top_line 0 (with_cursor 0 0 e)).
Proof.
  intros Hs Hlc. pose proof Hs as (_ & Hnn & _).
  destruct (Hnn 0) as [s Hline]; [lia|].
  apply (editing_intro e _ s); proj; try assumption; try reflexivity;
    unfold SCREEN_ROWS, strlen; lia.
Qed.

Lemma cmd_fullscreen_sound (e : editor) (w : world) :
  sound e -> never_fails (mem w) ->
  exists e' w', cmd_fullscreen e w = Some (e', w') /\ editing e' /\ steps w w'.
Proof.
  intros Hs Hw. pose proof Hs as ([_ Hlc] & _). unfold cmd_fullscreen.
  destruct (line_count e =? 0) eqn:E.
  - apply Z.eqb_eq in E.
    destruct (ensure_first e w Hs E Hw) as (e1 & w1 & -> & Hs1 & Hlc1 & Hsteps1 & _).
    cbn [mbind option_bind].
    destruct (key_loop_sound (length (keyboard w1)) (with_top_line 0 (with_cursor 0 0 e1)) w1)
      as (e' & w' & Hrun & He' & Hsteps');
      [apply editing_start; [exact Hs1 | lia] | apply Hsteps1 |].
    exists e', w'. split; [exact Hrun|]. split; [exact He'|].
    eapply steps_trans; eassumption.
  - apply Z.eqb_neq in E. cbn [mbind option_bind].
    apply key_loop_sound; [apply editing_start; [exact Hs | lia] | exact Hw].
Qed.

(** X17. Whatever keys are typed, the fullscreen editor started on a
    sound store (well formed, no NULL line in the document, every line
    within its buffer) runs without an access outside the array or
    through a NULL line as long as allocation succeeds, and leaves a sound
    store whose cursor is on a character position of a document line that
    is one of the text rows on screen. *)
Theorem cmd_fullscreen_keeps_cursor_valid (e : editor) (w : world) :
  sound e -> never_fails (mem w) ->
  exists e' w',
    cmd_fullscreen e w = Some (e', w') /\
    sound e' /\ cursor_in_document e' /\ cursor_on_screen e'.
Proof.
  intros Hs Hw.
  destruct (cmd_fullscreen_sound e w Hs Hw) as (e' & w' & Hrun & He' & _).
  exists e', w'. split; [exact Hrun | exact He'].
Qed.

Lemma cmd_fullscreen_keeps_cursor_valid_witness :
  let e := editor_of [lit "ab"; lit "cd"] in
  let w := World [] [] [] [] [] [0; 80; 0; 79; 13; 88; 8; 8; 9; 0; 83; 27] in
  sound e /\ never_fails (mem w) /\
  exists e' w',
    cmd_fullscreen e w = Some (e', w') /\
    sound e' /\ cursor_in_document e' /\ cursor_on_screen e'.
Proof.
  cbv zeta.
  assert (Hs : sound (editor_of [lit "ab"; lit "cd"])).
  { apply sound_editor_of; [vm_compute; discriminate|].
    repeat (constructor; [vm_compute; reflexivity|]). constructor. }
  assert (Hw : never_fails (mem (World [] [] [] [] [] [0; 80; 0; 79; 13; 88; 8; 8; 9; 0; 83; 27])))
    by constructor.
  split; [exact Hs|]. split; [exact Hw|].
  exact (cmd_fullscreen_keeps_cursor_valid _ _ Hs Hw).
Defined.

(** ** The program as a whole *)

Lemma steps_help (w0 w : world) : steps w0 w -> steps w0 (help w).
Proof.
  intros H. unfold help, help_text. cbn [foldl]. repeat apply steps_puts. exact H.
Qed.

Lemma steps_status_line (e : editor) (w0 w : world) :
  steps w0 w -> steps w0 (status_line e w).
Proof. intros H. unfold status_line. apply steps_print, H. Qed.

Lemma steps_banner (e : editor) (w0 w : world) (fname : cstr) (clock : Z * Z * Z) :
  steps w0 w -> steps w0 (banner e w fname clock).
Proof.
  intros H. unfold banner. cbv zeta.
  repeat first [apply steps_puts | apply steps_print]. exact H.
Qed.

(** A command that only prints. *)
Ltac says Hs Hw :=
  eexists _, _, _; split; [reflexivity|]; split; [exact Hs|];
  first [ apply steps_puts, steps_refl, Hw | apply steps_print, steps_refl, Hw
        | apply steps_status_line, steps_refl, Hw | apply steps_help, steps_refl, Hw
        | apply steps_refl, Hw ].

(** A command that is one call of a function of the editor. *)
Ltac calls lemma :=
  let e' := fresh "e'" in let w' := fresh "w'" in
  let Hs' := fresh "Hs'" in let Hsteps := fresh "Hsteps" in
  destruct lemma as (e' & w' & -> & Hs' & Hsteps);
  cbn [mbind option_bind]; eexists _, _, _; split; [reflexivity|];
  split; [exact Hs' | exact Hsteps].

(** *** Numbers in the input *)

Lemma small_infix (a s b : list ascii) :
  small_numbers (a ++ s ++ b) -> small_numbers s.
Proof.
  intros H pre ds post -> Hds. apply (H (a ++ pre) ds (post ++ b)); [|exact Hds].
  rewrite <- !app_assoc. reflexivity.
Qed.

Lemma small_prefix (s b : list ascii) : small_numbers (s ++ b) -> small_numbers s.
Proof. apply (small_infix [] s b). Qed.

Lemma small_suffix (a s : list ascii) : small_numbers (a ++ s) -> small_numbers s.
Proof. intros H. apply (small_infix a s []). rewrite app_nil_r. exact H. Qed.

Lemma small_suffix_of (s t : list ascii) :
  s `suffix_of` t -> small_numbers t -> small_numbers s.
Proof. intros [k ->]. apply small_suffix. Qed.

Lemma small_skip_space (s : cstr) : small_numbers s -> small_numbers (skip_space s).
Proof.
  induction s as [|c s IH]; intros H; cbn [skip_space]; [exact H|].
  destruct (isspace c); [|exact H]. apply IH, (small_suffix [c] s), H.
Qed.

Lemma small_skip_digits (s : cstr) : small_numbers s -> small_numbers (skip_digits s).
Proof.
  induction s as [|c s IH]; intros H; cbn [skip_digits]; [exact H|].
  destruct (isdigit c); [|exact H]. apply IH, (small_suffix [c] s), H.
Qed.

Lemma small_chomp (s : cstr) : small_numbers s -> small_numbers (chomp s).
Proof.
  intros H. destruct (chomp_prefix s) as [t Ht]. rewrite Ht in H. exact (small_prefix _ _ H).
Qed.

Lemma small_c_str (l : list ascii) : small_numbers l -> small_numbers (c_str l).
Proof.
  intros H. destruct (c_str_prefix l) as (t & Ht & _). rewrite Ht in H.
  exact (small_prefix _ _ H).
Qed.

Lemma small_take (n : nat) (s : cstr) : small_numbers s -> small_numbers (take n s).
Proof. intros H. rewrite <- (take_drop n s) in H. exact (small_prefix _ _ H). Qed.

Lemma strchr_split (s : cstr) (c : ascii) (before from : cstr) :
  strchr s c = Some (before, from) -> s = before ++ from.
Proof.
  revert before from. induction s as [|x s IH]; intros before from H; [discriminate|].
  cbn [strchr] in H. destruct (Ascii.eqb x c).
  - injection H as <- <-. reflexivity.
  - destruct (strchr s c) as [[b f]|]; [|discriminate].
    cbn [mbind option_bind] in H. injection H as <- <-.
    cbn [app]. f_equal. apply IH. reflexivity.
Qed.

(** The digits [digits_value] reads are the run of digits at the start. *)
Lemma digits_prefix (s : cstr) :
  exists ds rest,
    s = ds ++ rest /\ Forall (fun c => isdigit c = true) ds /\
    forall acc, digits_value acc s = digits_value acc ds.
Proof.
  induction s as [|c s (ds & rest & Hs & Hds & Hv)].
  - exists [], []. split; [reflexivity|]. split; [constructor | reflexivity].
  - destruct (isdigit c) eqn:Hc.
    + exists (c :: ds), rest. split; [cbn [app]; f_equal; exact Hs|].
      split; [constructor; assumption|].
      intros acc. cbn [digits_value]. rewrite Hc. apply Hv.
    + exists [], (c :: s). split; [reflexivity|]. split; [constructor|].
      intros acc. cbn [digits_value]. rewrite Hc. reflexivity.
Qed.

Lemma digits_small (s : cstr) :
  small_numbers s -> 0 <= digits_value 0 s < INT_MAX.
Proof.
  intros H. split; [apply digits_value_nonneg; lia|].
  destruct (digits_prefix s) as (ds & rest & Hs & Hds & Hv).
  rewrite Hv. apply (H [] ds rest); [exact Hs | exact Hds].
Qed.

(** [atoi] is defined on a text of small numbers. *)
Lemma atoi_small (s : cstr) :
  small_numbers s -> exists v, atoi s = Some v /\ - INT_MAX < v < INT_MAX.
Proof.
  intros H. apply small_skip_space in H. unfold atoi.
  assert (Hin : forall v, - INT_MAX < v < INT_MAX ->
                  exists v', (if (- INT_MAX - 1 <=? v) && (v <=? INT_MAX)
                              then Some v else None) = Some v' /\
                             - INT_MAX < v' < INT_MAX).
  { intros v Hv. exists v. split; [|exact Hv].
    destruct (- INT_MAX - 1 <=? v) eqn:A; [|apply Z.leb_gt in A; lia].
    destruct (v <=? INT_MAX) eqn:B; [reflexivity | apply Z.leb_gt in B; lia]. }
  cbv zeta. apply Hin.
  destruct (skip_space s) as [|c s']; [unfold INT_MAX; lia|].
  pose proof (digits_small s' (small_suffix [c] s' H)) as Hs'.
  pose proof (digits_small (c :: s') H) as Hcs'.
  destruct (Ascii.eqb c "-"); [lia|]. destruct (Ascii.eqb c "+"); lia.
Qed.

(** So is [parse_range], and the endpoints it returns are below
    [INT_MAX]. *)
Lemma parse_range_small (e : editor) (p : cstr) :
  small_numbers p -> line_count e < INT_MAX ->
  exists r, parse_range e p = Some r /\
            forall a b, r = Some (a, b) -> a < INT_MAX /\ b < INT_MAX.
Proof.
  intros Hp Hlc. apply small_skip_space in Hp. unfold parse_range.
  assert (Hone : 1 < INT_MAX) by (unfold INT_MAX; lia).
  destruct (skip_space p) as [|c rest].
  { eexists. split; [reflexivity|]. intros a b E. injection E as <- <-. lia. }
  destruct (Ascii.eqb c ",").
  { destruct (atoi_small rest (small_suffix [c] rest Hp)) as (y & -> & Hy).
    cbn [mbind option_bind]. eexists. split; [reflexivity|].
    intros a b E. injection E as <- <-. destruct (y >? 0); lia. }
  destruct (isdigit c); [|eexists; split; [reflexivity | discriminate]].
  destruct (atoi_small (c :: rest) Hp) as (x & -> & Hx). cbn [mbind option_bind].
  assert (Hend : exists y,
             match skip_space (skip_digits (c :: rest)) with
             | [] => Some x
             | c1 :: rest1 =>
                 if Ascii.eqb c1 ","
                 then match skip_space rest1 with
                      | [] => Some (line_count e)
                      | c2 :: rest2 => atoi (c2 :: rest2)
                      end
                 else Some x
             end = Some y /\ y < INT_MAX).
  { pose proof (small_skip_space _ (small_skip_digits _ Hp)) as Hq.
    destruct (skip_space (skip_digits (c :: rest))) as [|c1 rest1]; [exists x; split; [reflexivity | lia]|].
    destruct (Ascii.eqb c1 ","); [|exists x; split; [reflexivity | lia]].
    pose proof (small_skip_space _ (small_suffix [c1] rest1 Hq)) as Hr.
    destruct (skip_space rest1) as [|c2 rest2]; [exists (line_count e); split; [reflexivity | lia]|].
    destruct (atoi_small (c2 :: rest2) Hr) as (y & -> & Hy). exists y. split; [reflexivity | lia]. }
  destruct Hend as (y & -> & Hy). cbn [mbind option_bind].
  eexists. split; [reflexivity|]. intros a b E. injection E as <- <-.
  destruct (x >? 0); destruct (y >? 0); lia.
Qed.

Lemma slash_range_small (e : editor) (before : cstr) :
  small_numbers before -> line_count e < INT_MAX ->
  exists r, slash_range e before = Some r /\
            forall a b, r = Some (a, b) -> a < INT_MAX /\ b < INT_MAX.
Proof.
  intros Hp Hlc. unfold slash_range. destruct before as [|c before].
  - eexists. split; [reflexivity|]. intros a b E. injection E as <- <-.
    unfold INT_MAX. lia.
  - apply parse_range_small; assumption.
Qed.

(** A text without a run of more than nine digits holds small numbers:
    a test for texts that are given. *)
Lemma short_runs_suffix (pre t : list ascii) :
  forall k, short_runs k (pre ++ t) = true -> exists k', short_runs k' t = true.
Proof.
  induction pre as [|c pre IH]; intros k H; [exists k; exact H|].
  cbn [app short_runs] in H. destruct (isdigit c).
  - apply andb_prop in H as [_ H]. exact (IH _ H).
  - exact (IH _ H).
Qed.

Lemma short_runs_length (ds post : list ascii) :
  Forall (fun c => isdigit c = true) ds ->
  forall k, short_runs k (ds ++ post) = true -> ds = [] \/ (k + length ds <= 9)%nat.
Proof.
  induction 1 as [|c ds Hc _ IH]; intros k H; [left; reflexivity|].
  right. cbn [app short_runs] in H. rewrite Hc in H. apply andb_prop in H as [Hk H].
  apply Nat.ltb_lt in Hk. destruct (IH _ H) as [->|Hlen]; cbn [length]; lia.
Qed.

Lemma digits_value_below (ds : cstr) :
  Forall (fun c => isdigit c = true) ds ->
  forall acc, 0 <= acc -> digits_value acc ds < (acc + 1) * 10 ^ Z.of_nat (length ds).
Proof.
  induction 1 as [|c ds Hc _ IH]; intros acc Hacc; cbn [digits_value length].
  - cbn. lia.
  - rewrite Hc. unfold isdigit in Hc. apply andb_prop in Hc as [H1 H2].
    apply Z.leb_le in H1. apply Z.leb_le in H2.
    specialize (IH (10 * acc + (code c - 48)) ltac:(lia)).
    rewrite Nat2Z.inj_succ, Z.pow_succ_r by lia.
    assert (Hp : 0 < 10 ^ Z.of_nat (length ds)) by (apply Z.pow_pos_nonneg; lia).
    nia.
Qed.

Lemma short_runs_small (s : list ascii) : short_runs 0 s = true -> small_numbers s.
Proof.
  intros H pre ds post -> Hds.
  destruct (short_runs_suffix pre (ds ++ post) 0 H) as [k Hk].
  pose proof (digits_value_below ds Hds 0 ltac:(lia)) as Hv.
  assert (Hlen : (length ds <= 9)%nat)
    by (destruct (short_runs_length ds post Hds k Hk) as [->|Hl]; cbn [length]; lia).
  assert (Hpow : 10 ^ Z.of_nat (length ds) <= 10 ^ 9)
    by (apply Z.pow_le_mono_r; lia).
  unfold INT_MAX. lia.
Qed.

(** *** The command loop *)

Lemma dispatch_sound (e : editor) (w : world) (cmd : ascii) (p : cstr) :
  sound e -> never_fails (mem w) -> small_numbers p ->
  exists running e' w',
    dispatch e w cmd p = Some (running, e', w') /\ sound e' /\ steps w w'.
Proof.
  intros Hs Hw Hp. pose proof Hs as ([_ Hlc] & _).
  assert (Hcount : line_count e < INT_MAX) by (unfold MAX_LINES, INT_MAX in *; lia).
  assert (Hone : 1 < INT_MAX) by (unfold INT_MAX; lia).
  unfold dispatch.
  destruct (Ascii.eqb cmd "L").
  { destruct p as [|c p]; [calls (cmd_list_sound e w 1 (line_count e) Hs Hw Hone Hcount)|].
    destruct (parse_range_small e (c :: p) Hp Hcount) as (r & -> & Hr).
    cbn [mbind option_bind]. destruct r as [[a b]|]; [|says Hs Hw].
    destruct (Hr a b eq_refl) as [Ha Hb]. calls (cmd_list_sound e w a b Hs Hw Ha Hb). }
  destruct (Ascii.eqb cmd "I").
  { destruct p as [|c p]; cbn [mbind option_bind];
      [calls (cmd_insert_sound e w (line_count e + 1) Hs Hw)|].
    destruct (atoi_small (c :: p) Hp) as (n & -> & _). cbn [mbind option_bind].
    calls (cmd_insert_sound e w n Hs Hw). }
  destruct (Ascii.eqb cmd "D").
  { destruct (parse_range_small e p Hp Hcount) as (r & -> & _).
    cbn [mbind option_bind]. destruct r as [[a b]|]; [|says Hs Hw].
    destruct (cmd_delete_sound e a b Hs) as (e' & -> & Hs').
    cbn [mbind option_bind]. says Hs' Hw. }
  destruct (Ascii.eqb cmd "E").
  { destruct p as [|c p]; [says Hs Hw|].
    destruct (atoi_small (c :: p) Hp) as (n & -> & _). cbn [mbind option_bind].
    calls (cmd_edit_sound e w n Hs Hw). }
  destruct (Ascii.eqb cmd "R").
  { destruct (strchr _ "/") as [[before spec]|] eqn:Hcut; [|says Hs Hw].
    apply strchr_split in Hcut.
    assert (Hbefore : small_numbers before).
    { apply (small_prefix before spec). rewrite <- Hcut. apply small_take, Hp. }
    destruct (slash_range_small e before Hbefore Hcount) as (r & -> & Hr).
    cbn [mbind option_bind]. destruct r as [[a b]|]; [|says Hs Hw].
    destruct (Hr a b eq_refl) as [Ha Hb]. calls (cmd_replace_sound e w a b spec Hs Hw Ha Hb). }
  destruct (Ascii.eqb cmd "O").
  { destruct p as [|c p]; [says Hs Hw|].
    destruct (load_file_sound e w (c :: p) Hs Hw) as (ok & e' & w' & -> & Hs' & Hsteps).
    cbn [mbind option_bind].
    destruct ok; eexists _, _, _; (split; [reflexivity|]); (split; [exact Hs'|]);
      [apply steps_print, Hsteps | apply steps_puts, Hsteps]. }
  destruct (Ascii.eqb cmd "S").
  { destruct (strchr _ "/") as [[before spec]|] eqn:Hcut;
      [|calls (cmd_search_sound e w 1 (line_count e) p Hs Hw Hone Hcount)].
    apply strchr_split in Hcut.
    assert (Hbefore : small_numbers before).
    { apply (small_prefix before spec). rewrite <- Hcut. apply small_take, Hp. }
    destruct (slash_range_small e before Hbefore Hcount) as (r & -> & Hr).
    cbn [mbind option_bind]. destruct r as [[a b]|]; [|says Hs Hw].
    destruct (Hr a b eq_refl) as [Ha Hb]. calls (cmd_search_sound e w a b spec Hs Hw Ha Hb). }
  destruct (Ascii.eqb cmd "W").
  { assert (Hwrite : forall (name : cstr) (said : editor -> cstr),
               exists running e' w',
                 ('(ok, e0, w0) ← write_file e w name;
                  if ok : bool then Some (true, e0, print (said e0) w0)
                  else Some (true, e0, puts (lit "! write failed") w0))
                 = Some (running, e', w') /\ sound e' /\ steps w w').
    { intros name said.
      destruct (write_file_sound e w name Hs Hw) as (ok & e' & w' & -> & Hs' & Hsteps & _).
      cbn [mbind option_bind].
      destruct ok; eexists _, _, _; (split; [reflexivity|]); (split; [exact Hs'|]);
        [apply steps_print, Hsteps | apply steps_puts, Hsteps]. }
    destruct p as [|c p]; [|exact (Hwrite (c :: p) (fun e0 => wrote e0 (c :: p)))].
    destruct (current_file e) as [|c name] eqn:Hname; [says Hs Hw|].
    exact (Hwrite (c :: name) (fun e0 => wrote e0 (current_file e0))). }
  destruct (Ascii.eqb cmd "V").
  { destruct (cmd_fullscreen_sound e w Hs Hw) as (e' & w' & -> & (Hs' & _) & Hsteps).
    cbn [mbind option_bind]. eexists _, _, _. split; [reflexivity|].
    split; [exact Hs' | exact Hsteps]. }
  destruct (Ascii.eqb cmd "P"); [says Hs Hw|].
  destruct (Ascii.eqb cmd "H" || Ascii.eqb cmd "?"); [says Hs Hw|].
  destruct (Ascii.eqb cmd "Q"); says Hs Hw.
Qed.

Lemma repl_command_sound (e : editor) (w : world) (input : cstr) :
  sound e -> never_fails (mem w) -> small_numbers input ->
  exists running e' w',
    repl_command e w input = Some (running, e', w') /\ sound e' /\ steps w w'.
Proof.
  intros Hs Hw Hin. unfold repl_command.
  pose proof (small_skip_space _ (small_chomp _ Hin)) as Hline.
  destruct (skip_space (chomp input)) as [|c p]; [says Hs Hw|].
  destruct (dispatch_sound e w (toupper c) (skip_space p) Hs Hw
              (small_skip_space _ (small_suffix [c] p Hline)))
    as (r & e' & w' & -> & Hs' & Hsteps).
  cbn [mbind option_bind].
  destruct r; eexists _, _, _; (split; [reflexivity|]); (split; [exact Hs'|]);
    [apply steps_status_line, Hsteps | exact Hsteps].
Qed.

(** The loop of [main] ends before its fuel does: every round takes a
    line from the input, and no command puts any back. *)
Lemma repl_sound (fuel : nat) :
  forall (e : editor) (w : world),
    sound e -> never_fails (mem w) -> small_numbers (stdin w) ->
    (length (stdin w) < fuel)%nat ->
    exists e' w', repl fuel e w = Some (e', w') /\ sound e' /\ steps w w'.
Proof.
  induction fuel as [|fuel IH]; intros e w Hs Hw Hsmall Hfuel; [lia|].
  cbn [repl]. cbv zeta. unfold print at 1. cbn [stdin with_stdout].
  destruct (fgets INPUT_LEN (stdin w)) as [[input rest]|] eqn:Hgets.
  2:{ eexists _, _. split; [reflexivity|]. split; [exact Hs|].
      apply steps_print, steps_refl, Hw. }
  pose proof (fgets_shrinks INPUT_LEN _ _ _ ltac:(unfold INPUT_LEN; lia) Hgets) as Hless.
  pose proof (fgets_suffix _ _ _ _ Hgets) as Hrest.
  assert (Hinput : small_numbers input).
  { destruct (fgets_split _ _ _ _ Hgets) as (l & Hl & ->).
    apply small_c_str, (small_prefix l rest). rewrite <- Hl. exact Hsmall. }
  destruct (repl_command_sound e (with_stdin rest (print (lit "* ") w)) input Hs Hw Hinput)
    as (r & e1 & w1 & -> & Hs1 & Hh1 & Hin1).
  cbn [mbind option_bind]. cbn [stdin with_stdin] in Hin1.
  assert (Hsteps : steps w w1) by (split; [exact Hh1 | etrans; eassumption]).
  destruct r.
  - destruct (IH e1 w1 Hs1 Hh1) as (e' & w' & Hrun & Hs' & Hsteps').
    + exact (small_suffix_of _ _ (proj2 Hsteps) Hsmall).
    + apply suffix_length in Hin1. lia.
    + exists e', w'. split; [exact Hrun|]. split; [exact Hs'|].
      eapply steps_trans; eassumption.
  - exists e1, w1. split; [reflexivity|]. split; assumption.
Qed.

Lemma startup_sound (e : editor) (w : world) (arg : option cstr) (clock : Z * Z * Z) :
  sound e -> never_fails (mem w) ->
  exists e' w', startup e w arg clock = Some (e', w') /\ sound e' /\ steps w w'.
Proof.
  intros Hs Hw. unfold startup.
  destruct arg as [name|]; cbn [mbind option_bind default].
  - destruct (load_file_sound e w name Hs Hw) as (ok & e' & w' & -> & Hs' & Hsteps).
    cbn [mbind option_bind].
    destruct ok; cbn [mbind option_bind]; eexists _, _; (split; [reflexivity|]).
    + split; [exact Hs'|]. apply steps_status_line, steps_banner, Hsteps.
    + split; [apply (sound_fields e'); [reflexivity | reflexivity | exact Hs']|].
      apply steps_status_line, steps_banner, steps_print, Hsteps.
  - eexists _, _. split; [reflexivity|]. split; [exact Hs|].
    apply steps_status_line, steps_banner, steps_refl, Hw.
Qed.

(** X18. As long as allocation succeeds and every number in the input is
    below [INT_MAX], the run of the program is defined, with or without a
    file argument and whatever the disk and the keyboard hold: no command
    line and no key takes it to an access of the array of lines outside
    its bounds or through a NULL line, to an [atoi] out of range or to a
    command loop without end.  Every round of the command loop takes a
    line of the input, so that the run goes on to [Q] or to the end of
    the input, up to a fullscreen session that waits for a key which does
    not come, where the session of the model stops; the store is then
    well formed, has no NULL line in its document and has every line
    within its buffer. *)
Theorem main_run_is_defined (w : world) (arg : option cstr) (clock : Z * Z * Z) :
  never_fails (mem w) -> small_numbers (stdin w) ->
  exists e' w', main w arg clock = Some (e', w') /\ sound e'.
Proof.
  intros Hw Hsmall. unfold main.
  destruct (startup_sound initial w arg clock sound_initial Hw)
    as (e1 & w1 & -> & Hs1 & Hh1 & Hin1).
  cbn [mbind option_bind].
  destruct (repl_sound (S (length (stdin w1))) e1 w1 Hs1 Hh1
              (small_suffix_of _ _ Hin1 Hsmall) ltac:(lia))
    as (e' & w' & Hrun & Hs' & _).
  exists e', w'. split; [exact Hrun | exact Hs'].
Qed.

Lemma main_run_is_defined_witness :
  let w := World [] (lit "i" ++ [LF] ++ lit "hello" ++ [LF] ++ lit "." ++ [LF]
                     ++ lit "v" ++ [LF] ++ lit "w out.txt" ++ [LF] ++ lit "l 2,100" ++ [LF]
                     ++ lit "r 1,3 /l//L/g" ++ [LF] ++ lit "d 0" ++ [LF])
                 [] [(lit "in.txt", lit "one" ++ [LF] ++ lit "two" ++ [LF])] []
                 [88; 13; 0; 72; 8; 27] in
  never_fails (mem w) /\ small_numbers (stdin w) /\
  exists e' w', main w (Some (lit "in.txt")) (12, 30, 5) = Some (e', w') /\ sound e'.
Proof.
  cbv zeta.
  assert (Hsmall : small_numbers
                     (lit "i" ++ [LF] ++ lit "hello" ++ [LF] ++ lit "." ++ [LF]
                      ++ lit "v" ++ [LF] ++ lit "w out.txt" ++ [LF] ++ lit "l 2,100" ++ [LF]
                      ++ lit "r 1,3 /l//L/g" ++ [LF] ++ lit "d 0" ++ [LF]))
    by (apply short_runs_small; vm_compute; reflexivity).
  split; [constructor|]. split; [exact Hsmall|].
  apply main_run_is_defined; [constructor | exact Hsmall].
Defined.

(** ** Typing in the fullscreen editor *)

Lemma malloc_drop (n : nat) (h : heap) :
  allocs_succeed (S n) h -> malloc h = (true, drop 1 h) /\ allocs_succeed n (drop 1 h).
Proof.
  intros H. destruct (malloc_succeeds n h H) as (h' & Hm & Hh').
  destruct h as [|ok h]; cbn [malloc] in Hm; inversion Hm; subst;
    cbn [malloc drop]; split; assumption || reflexivity.
Qed.

Lemma drop_drop_heap (m n : nat) (h : heap) : drop m (drop n h) = drop (n + m) h.
Proof. apply drop_drop. Qed.

Lemma typed_nil (e : editor) (s : cstr) :
  0 <= cursor_row e -> line_at e (cursor_row e) = Some s -> typed e s [] = e.
Proof.
  intros Hrow Hline. apply line_at_aget in Hline. rewrite aget_lookup in Hline by lia.
  unfold typed. cbv zeta. cbn [app]. rewrite take_drop, list_insert_id by exact Hline.
  change (strlen []) with 0. rewrite Z.add_0_r. destruct e. reflexivity.
Qed.

Lemma typed_line (e : editor) (s text : cstr) :
  0 <= cursor_row e < Z.of_nat (length (lines e)) ->
  line_at (typed e s text) (cursor_row e)
  = Some (take (Z.to_nat (cursor_col e)) s ++ text ++ drop (Z.to_nat (cursor_col e)) s).
Proof.
  intros Hrow. apply line_at_aget. unfold typed. proj.
  rewrite aget_lookup by lia. apply list_lookup_insert_eq. lia.
Qed.

(** Typing [a], then [b], is typing [a ++ b]. *)
Lemma typed_typed (e : editor) (s a b : cstr) :
  0 <= cursor_col e <= strlen s ->
  typed (typed e s a) (take (Z.to_nat (cursor_col e)) s ++ a ++ drop (Z.to_nat (cursor_col e)) s) b
  = typed e s (a ++ b).
Proof.
  intros Hcol. unfold typed. cbv zeta. proj. unfold strlen in *.
  rewrite list_insert_insert_eq. rewrite length_app.
  replace (cursor_col e + Z.of_nat (length a) + Z.of_nat (length b))
    with (cursor_col e + Z.of_nat (length a + length b)) by lia.
  replace (Z.to_nat (cursor_col e + Z.of_nat (length a)))
    with (length (take (Z.to_nat (cursor_col e)) s ++ a))
    by (rewrite length_app, length_take; lia).
  rewrite (app_assoc (take _ s) a), take_app_length, drop_app_length.
  rewrite <- !app_assoc. reflexivity.
Qed.

(** One character typed where the line has room for it. *)
Lemma insert_char_typed (e : editor) (w : world) (s : cstr) (c : ascii) :
  store_wf e -> 0 <= cursor_row e < line_count e ->
  line_at e (cursor_row e) = Some s -> 0 <= cursor_col e <= strlen s ->
  strlen s < LINE_LEN - 1 -> allocs_succeed 1 (mem w) ->
  insert_char e w c = Some (typed e s [c], with_mem (drop 1 (mem w)) w).
Proof.
  intros [Hlen Hlc] Hrow Hline Hcol Hroom Hmem.
  unfold insert_char. rewrite ensure_noop by lia. cbn [mbind option_bind].
  rewrite Hline. cbn [mbind option_bind].
  replace (cursor_col e >? strlen s) with false by (zcases; reflexivity).
  replace (strlen s >=? LINE_LEN - 1) with false by (zcases; reflexivity).
  destruct (malloc_drop 0 (mem w) Hmem) as [-> _]. cbn [negb].
  replace (cursor_col e <? 0) with false by (zcases; reflexivity).
  rewrite aset_in_range by lia. cbn [mbind option_bind]. reflexivity.
Qed.

(** One character typed on a line that is full. *)
Lemma insert_char_full (e : editor) (w : world) (s : cstr) (c : ascii) :
  0 <= cursor_row e < line_count e ->
  line_at e (cursor_row e) = Some s -> 0 <= cursor_col e <= strlen s ->
  LINE_LEN - 1 <= strlen s ->
  insert_char e w c = Some (e, w).
Proof.
  intros Hrow Hline Hcol Hfull.
  unfold insert_char. rewrite ensure_noop by lia. cbn [mbind option_bind].
  rewrite Hline. cbn [mbind option_bind].
  replace (cursor_col e >? strlen s) with false by (zcases; reflexivity).
  replace (strlen s >=? LINE_LEN - 1) with true by (zcases; reflexivity).
  reflexivity.
Qed.

Lemma key_step_printable (e : editor) (w : world) (c : ascii) :
  printable c -> key_step e w (code c) = '(e, w) ← insert_char e w c; Some (true, e, w).
Proof.
  unfold printable. intros Hc. unfold key_step.
  replace ((code c =? 0) || (code c =? 224)) with false by (zcases; reflexivity).
  replace (code c =? 13) with false by (zcases; reflexivity).
  replace (code c =? 9) with false by (zcases; reflexivity).
  replace (code c =? 8) with false by (zcases; reflexivity).
  replace (code c =? 27) with false by (zcases; reflexivity).
  replace ((32 <=? code c) && (code c <? 127)) with true by (zcases; reflexivity).
  unfold code. rewrite N2Z.id, ascii_N_embedding. reflexivity.
Qed.

(** The key loop on the keys of [text]: it goes on from the state in
    which the text has been typed. *)
Lemma key_loop_typing (text : cstr) :
  forall (e : editor) (w : world) (s : cstr) (ks : list Z) (n : nat),
    store_wf e -> 0 <= cursor_row e < line_count e ->
    line_at e (cursor_row e) = Some s -> 0 <= cursor_col e <= strlen s ->
    Forall printable text -> strlen s + strlen text <= LINE_LEN - 1 ->
    allocs_succeed (length text) (mem w) ->
    keyboard w = map code text ++ ks ->
    key_loop (length text + n) e w
    = key_loop n (typed e s text)
        (with_keyboard ks (with_mem (drop (length text) (mem w)) w)).
Proof.
  induction text as [|c text IH]; intros e w s ks n Hwf Hrow Hline Hcol Hp Hroom Hmem Hkb.
  - cbn [length drop Nat.add]. rewrite typed_nil by (exact Hline || lia).
    cbn [map app] in Hkb. rewrite <- Hkb. destruct w. reflexivity.
  - apply Forall_cons_1 in Hp as [Hc Hp]. cbn [length Nat.add key_loop].
    unfold getch. rewrite Hkb. cbn [map app].
    change (strlen (c :: text)) with (Z.of_nat (S (length text))) in Hroom.
    rewrite key_step_printable by exact Hc.
    assert (Hmem1 : allocs_succeed 1 (mem w))
      by (apply (allocs_succeed_le 1 (length (c :: text))); [cbn; lia | exact Hmem]).
    rewrite (insert_char_typed e _ s c Hwf Hrow Hline Hcol)
      by (unfold strlen in *; proj; first [lia | exact Hmem1]).
    cbn [mbind option_bind]. proj.
    destruct Hwf as [Hlen Hlc].
    rewrite (IH _ _ (take (Z.to_nat (cursor_col e)) s ++ [c] ++ drop (Z.to_nat (cursor_col e)) s)
               ks n).
    + rewrite typed_typed by exact Hcol. proj. rewrite drop_drop. reflexivity.
    + split; unfold typed; proj; [rewrite length_insert; exact Hlen | exact Hlc].
    + unfold typed; proj. exact Hrow.
    + unfold typed at 2. proj. apply typed_line. lia.
    + unfold typed. proj. unfold strlen in *.
      rewrite !length_app, length_take, length_drop. cbn [length]. lia.
    + exact Hp.
    + unfold strlen in *. rewrite !length_app, length_take, length_drop. cbn [length]. lia.
    + proj. destruct (malloc_drop (length text) (mem w) Hmem) as [_ H]. exact H.
    + reflexivity.
Qed.

(** X19. Typing printable text in the fullscreen editor inserts it at the
    cursor when the line has room for it: after the text and the ESC key,
    the cursor line holds the text between what was left and what was
    right of the cursor, the cursor stands behind the text, and nothing
    else has changed; the keys behind ESC are left unread. *)
Theorem typing_inserts_text (e : editor) (w : world) (s text : cstr) (ks : list Z) :
  store_wf e -> 0 <= cursor_row e < line_count e ->
  line_at e (cursor_row e) = Some s -> 0 <= cursor_col e <= strlen s ->
  Forall printable text -> strlen s + strlen text <= LINE_LEN - 1 ->
  allocs_succeed (length text) (mem w) ->
  keyboard w = map code text ++ 27 :: ks ->
  key_loop (length (keyboard w)) e w
  = Some (typed e s text, with_keyboard ks (with_mem (drop (length text) (mem w)) w)).
Proof.
  intros Hwf Hrow Hline Hcol Hp Hroom Hmem Hkb.
  replace (length (keyboard w)) with (length text + S (length ks))%nat
    by (rewrite Hkb, length_app, length_map; reflexivity).
  rewrite (key_loop_typing text e w s (27 :: ks) _ Hwf Hrow Hline Hcol Hp Hroom Hmem Hkb).
  reflexivity.
Qed.

Lemma typing_inserts_text_witness :
  let e := with_cursor 1 2 (editor_of [lit "first"; lit "seond"]) in
  let w := World [] [] [] [] [] [99; 27; 65] in
  store_wf e /\ 0 <= cursor_row e < line_count e /\
  line_at e (cursor_row e) = Some (lit "seond") /\
  0 <= cursor_col e <= strlen (lit "seond") /\
  Forall printable (lit "c") /\ strlen (lit "seond") + strlen (lit "c") <= LINE_LEN - 1 /\
  allocs_succeed (length (lit "c")) (mem w) /\
  keyboard w = map code (lit "c") ++ 27 :: [65] /\
  key_loop (length (keyboard w)) e w
  = Some (with_cursor 1 3 (editor_of [lit "first"; lit "second"]),
          with_keyboard [65] w).
Proof.
  cbv zeta.
  assert (Hwf : store_wf (with_cursor 1 2 (editor_of [lit "first"; lit "seond"])))
    by (split; vm_compute; [reflexivity | split; discriminate]).
  assert (Hrow : 0 <= cursor_row (with_cursor 1 2 (editor_of [lit "first"; lit "seond"]))
                 < line_count (with_cursor 1 2 (editor_of [lit "first"; lit "seond"])))
    by (vm_compute; split; [discriminate | reflexivity]).
  assert (Hcol : 0 <= cursor_col (with_cursor 1 2 (editor_of [lit "first"; lit "seond"]))
                 <= strlen (lit "seond")) by (vm_compute; split; discriminate).
  assert (Hp : Forall printable (lit "c"))
    by (repeat constructor; vm_compute; discriminate).
  assert (Hroom : strlen (lit "seond") + strlen (lit "c") <= LINE_LEN - 1)
    by (vm_compute; discriminate).
  assert (Hmem : allocs_succeed (length (lit "c")) (mem (World [] [] [] [] [] [99; 27; 65])))
    by constructor.
  split; [exact Hwf|]. split; [exact Hrow|]. split; [reflexivity|]. split; [exact Hcol|].
  split; [exact Hp|]. split; [exact Hroom|]. split; [exact Hmem|]. split; [reflexivity|].
  exact (typing_inserts_text _ (World [] [] [] [] [] [99; 27; 65]) (lit "seond") (lit "c") [65]
           Hwf Hrow eq_refl Hcol Hp Hroom Hmem eq_refl).
Defined.

(** [n] space characters typed by the Tab key: as many as the line has
    room for. *)
Lemma insert_spaces_typed (n : nat) :
  forall (e : editor) (w : world) (s : cstr),
    store_wf e -> 0 <= cursor_row e < line_count e ->
    line_at e (cursor_row e) = Some s -> 0 <= cursor_col e <= strlen s ->
    strlen s <= LINE_LEN - 1 -> allocs_succeed n (mem w) ->
    insert_spaces n e w
    = Some (typed e s (replicate (n `min` Z.to_nat (LINE_LEN - 1 - strlen s)) " "%char),
            with_mem (drop (n `min` Z.to_nat (LINE_LEN - 1 - strlen s)) (mem w)) w).
Proof.
  induction n as [|n IH]; intros e w s Hwf Hrow Hline Hcol Hfit Hmem.
  - cbn [insert_spaces]. rewrite Nat.min_0_l. cbn [replicate drop].
    rewrite typed_nil by (exact Hline || lia). rewrite drop_0, with_mem_same. reflexivity.
  - cbn [insert_spaces]. destruct (Z_lt_dec (strlen s) (LINE_LEN - 1)) as [Hroom|Hfull].
    + assert (Hmem1 : allocs_succeed 1 (mem w))
        by (apply (allocs_succeed_le 1 (S n)); [lia | exact Hmem]).
      rewrite (insert_char_typed e w s " " Hwf Hrow Hline Hcol Hroom Hmem1).
      cbn [mbind option_bind]. destruct Hwf as [Hlen Hlc].
      set (s1 := take (Z.to_nat (cursor_col e)) s ++ [" "%char]
                 ++ drop (Z.to_nat (cursor_col e)) s).
      assert (Hs1 : strlen s1 = strlen s + 1).
      { unfold s1, strlen in *. rewrite !length_app, length_take, length_drop.
        cbn [length]. lia. }
      rewrite (IH _ _ s1).
      * replace (S n `min` Z.to_nat (LINE_LEN - 1 - strlen s))%nat
          with (S (n `min` Z.to_nat (LINE_LEN - 1 - strlen s1)))%nat by lia.
        cbn [replicate]. unfold s1. rewrite typed_typed by exact Hcol.
        proj. rewrite drop_drop. reflexivity.
      * split; unfold typed; proj; [rewrite length_insert; exact Hlen | exact Hlc].
      * unfold typed; proj. exact Hrow.
      * unfold typed at 2. proj. apply typed_line. lia.
      * unfold typed. proj. change (strlen [" "%char]) with 1. lia.
      * lia.
      * proj. destruct (malloc_drop n (mem w) Hmem) as [_ H]. exact H.
    + rewrite (insert_char_full e w s " " Hrow Hline Hcol) by lia.
      cbn [mbind option_bind].
      rewrite (IH e w s Hwf Hrow Hline Hcol Hfit)
        by (apply (allocs_succeed_le n (S n)); [lia | exact Hmem]).
      replace (S n `min` Z.to_nat (LINE_LEN - 1 - strlen s))%nat with 0%nat by lia.
      replace (n `min` Z.to_nat (LINE_LEN - 1 - strlen s))%nat with 0%nat by lia.
      reflexivity.
Qed.

(** X20. The Tab key inserts spaces at the cursor and moves the cursor
    behind them: eight when the line has room for eight, else as many as
    bring the line to [LINE_LEN - 1] characters, none on a full line. *)
Theorem tab_inserts_spaces (e : editor) (w : world) (s : cstr) :
  store_wf e -> 0 <= cursor_row e < line_count e ->
  line_at e (cursor_row e) = Some s -> 0 <= cursor_col e <= strlen s ->
  strlen s <= LINE_LEN - 1 -> allocs_succeed 8 (mem w) ->
  let k := (8 `min` Z.to_nat (LINE_LEN - 1 - strlen s))%nat in
  key_step e w 9
  = Some (true, typed e s (replicate k " "%char), with_mem (drop k (mem w)) w).
Proof.
  intros Hwf Hrow Hline Hcol Hfit Hmem. cbv zeta. unfold key_step.
  change ((9 =? 0) || (9 =? 224)) with false. change (9 =? 13) with false.
  change (9 =? 9) with true. cbv iota.
  rewrite (insert_spaces_typed 8 e w s Hwf Hrow Hline Hcol Hfit Hmem). reflexivity.
Qed.

Lemma tab_inserts_spaces_witness :
  let s := replicate 250 "x"%char in
  let e := with_cursor 0 1 (editor_of [s]) in
  let w := typing [] in
  store_wf e /\ 0 <= cursor_row e < line_count e /\
  line_at e (cursor_row e) = Some s /\ 0 <= cursor_col e <= strlen s /\
  strlen s <= LINE_LEN - 1 /\ allocs_succeed 8 (mem w) /\
  key_step e w 9
  = Some (true, with_cursor 0 6 (editor_of ["x"%char :: lit "     " ++ replicate 249 "x"%char]), w).
Proof.
  cbv zeta.
  assert (Hwf : store_wf (with_cursor 0 1 (editor_of [replicate 250 "x"%char])))
    by (split; vm_compute; [reflexivity | split; discriminate]).
  assert (Hrow : 0 <= cursor_row (with_cursor 0 1 (editor_of [replicate 250 "x"%char]))
                 < line_count (with_cursor 0 1 (editor_of [replicate 250 "x"%char])))
    by (vm_compute; split; [discriminate | reflexivity]).
  assert (Hcol : 0 <= cursor_col (with_cursor 0 1 (editor_of [replicate 250 "x"%char]))
                 <= strlen (replicate 250 "x"%char)) by (vm_compute; split; discriminate).
  assert (Hfit : strlen (replicate 250 "x"%char) <= LINE_LEN - 1)
    by (vm_compute; discriminate).
  assert (Hmem : allocs_succeed 8 (mem (typing []))) by constructor.
  split; [exact Hwf|]. split; [exact Hrow|]. split; [reflexivity|]. split; [exact Hcol|].
  split; [exact Hfit|]. split; [exact Hmem|].
  exact (tab_inserts_spaces _ (typing []) (replicate 250 "x"%char)
           Hwf Hrow eq_refl Hcol Hfit Hmem).
Defined.

(** The Backspace key inside a line: the character left of the cursor
    goes. *)
Lemma backspace_in_line (e : editor) (w : world) (s : cstr) :
  store_wf e -> 0 <= cursor_row e < line_count e ->
  line_at e (cursor_row e) = Some s -> 0 < cursor_col e <= strlen s ->
  backspace_char e w
  = Some (with_lines (<[Z.to_nat (cursor_row e) :=
                         Some (take (Z.to_nat (cursor_col e - 1)) s
                               ++ drop (S (Z.to_nat (cursor_col e - 1))) s)]> (lines e))
                     (with_cursor (cursor_row e) (cursor_col e - 1) e), w).
Proof.
  intros [Hlen Hlc] Hrow Hline Hcol. unfold backspace_char.
  replace (cursor_col e >? 0) with true by (zcases; reflexivity).
  unfold delete_char. cbv zeta. proj.
  replace (cursor_row e >=? line_count e) with false by (zcases; reflexivity).
  change (line_at (with_cursor (cursor_row e) (cursor_col e - 1) e) (cursor_row e))
    with (line_at e (cursor_row e)).
  rewrite Hline. cbn [mbind option_bind].
  replace (cursor_col e - 1 >=? strlen s) with false by (zcases; reflexivity).
  replace (cursor_col e - 1 <? 0) with false by (zcases; reflexivity).
  rewrite aset_in_range by lia. reflexivity.
Qed.

(** X21. A printable character typed on a line that has room for it, then
    the Backspace key, leave the editor exactly as it was: the document,
    the cursor and the window.  (On a full line the character is not
    inserted, and Backspace then removes the character before the
    cursor.) *)
Theorem type_then_backspace (e : editor) (w : world) (s : cstr) (c : ascii) :
  store_wf e -> 0 <= cursor_row e < line_count e ->
  line_at e (cursor_row e) = Some s -> 0 <= cursor_col e <= strlen s ->
  strlen s < LINE_LEN - 1 -> top_line e <= cursor_row e ->
  printable c -> allocs_succeed 1 (mem w) ->
  exists e1 w1,
    key_step e w (code c) = Some (true, e1, w1) /\
    line_at e1 (cursor_row e)
    = Some (take (Z.to_nat (cursor_col e)) s ++ [c] ++ drop (Z.to_nat (cursor_col e)) s) /\
    cursor_col e1 = cursor_col e + 1 /\
    key_step e1 w1 8 = Some (true, e, w1).
Proof.
  intros Hwf Hrow Hline Hcol Hroom Htop Hc Hmem. pose proof Hwf as [Hlen Hlc].
  exists (typed e s [c]), (with_mem (drop 1 (mem w)) w).
  split; [rewrite key_step_printable by exact Hc;
          rewrite (insert_char_typed e w s c Hwf Hrow Hline Hcol Hroom Hmem); reflexivity|].
  split; [apply typed_line; lia|]. split; [reflexivity|].
  unfold key_step. change ((8 =? 0) || (8 =? 224)) with false.
  change (8 =? 13) with false. change (8 =? 9) with false. change (8 =? 8) with true.
  cbv iota.
  rewrite (backspace_in_line _ _
             (take (Z.to_nat (cursor_col e)) s ++ [c] ++ drop (Z.to_nat (cursor_col e)) s)).
  - cbn [mbind option_bind]. f_equal. f_equal. f_equal.
    unfold typed. cbv zeta. proj. change (strlen [c]) with 1.
    replace (cursor_col e + 1 - 1) with (cursor_col e) by lia.
    rewrite take_app_length' by (rewrite length_take; unfold strlen in *; lia).
    rewrite (app_assoc (take _ s) [c]).
    replace (S (Z.to_nat (cursor_col e)))
      with (length (take (Z.to_nat (cursor_col e)) s ++ [c]))
      by (rewrite length_app, length_take; cbn [length]; unfold strlen in *; lia).
    rewrite drop_app_length, take_drop, list_insert_insert_eq.
    apply line_at_aget in Hline. rewrite aget_lookup in Hline by lia.
    rewrite list_insert_id by exact Hline.
    unfold scroll_up. proj.
    replace (cursor_row e <? top_line e) with false by (zcases; reflexivity).
    destruct e. reflexivity.
  - split; unfold typed; proj; [rewrite length_insert; exact Hlen | exact Hlc].
  - unfold typed; proj. exact Hrow.
  - unfold typed at 2. proj. apply typed_line. lia.
  - unfold typed. proj. change (strlen [c]) with 1. unfold strlen in *.
    rewrite !length_app, length_take, length_drop. cbn [length]. lia.
Qed.

Lemma type_then_backspace_witness :
  let e := with_cursor 0 2 (editor_of [lit "abcd"]) in
  let w := typing [] in
  store_wf e /\ 0 <= cursor_row e < line_count e /\
  line_at e (cursor_row e) = Some (lit "abcd") /\
  0 <= cursor_col e <= strlen (lit "abcd") /\
  strlen (lit "abcd") < LINE_LEN - 1 /\ top_line e <= cursor_row e /\
  printable "x" /\ allocs_succeed 1 (mem w) /\
  exists e1 w1,
    key_step e w (code "x") = Some (true, e1, w1) /\
    line_at e1 (cursor_row e) = Some (lit "abxcd") /\
    cursor_col e1 = cursor_col e + 1 /\
    key_step e1 w1 8 = Some (true, e, w1).
Proof.
  cbv zeta.
  assert (Hwf : store_wf (with_cursor 0 2 (editor_of [lit "abcd"])))
    by (split; vm_compute; [reflexivity | split; discriminate]).
  assert (Hrow : 0 <= cursor_row (with_cursor 0 2 (editor_of [lit "abcd"]))
                 < line_count (with_cursor 0 2 (editor_of [lit "abcd"])))
    by (vm_compute; split; [discriminate | reflexivity]).
  assert (Hcol : 0 <= cursor_col (with_cursor 0 2 (editor_of [lit "abcd"]))
                 <= strlen (lit "abcd")) by (vm_compute; split; discriminate).
  assert (Hroom : strlen (lit "abcd") < LINE_LEN - 1) by (vm_compute; reflexivity).
  assert (Htop : top_line (with_cursor 0 2 (editor_of [lit "abcd"]))
                 <= cursor_row (with_cursor 0 2 (editor_of [lit "abcd"])))
    by (vm_compute; discriminate).
  assert (Hc : printable "x") by (vm_compute; split; [discriminate | reflexivity]).
  assert (Hmem : allocs_succeed 1 (mem (typing []))) by constructor.
  split; [exact Hwf|]. split; [exact Hrow|]. split; [reflexivity|]. split; [exact Hcol|].
  split; [exact Hroom|]. split; [exact Htop|]. split; [exact Hc|]. split; [exact Hmem|].
  exact (type_then_backspace _ (typing []) (lit "abcd") "x"
           Hwf Hrow eq_refl Hcol Hroom Htop Hc Hmem).
Defined.

(** ** What [cmd_replace] does to a range *)

(** As long as allocation succeeds, the heap has no part in what
    [replace_in_line] returns. *)
Lemma replace_loop_heap (oldp newp : cstr) (global : bool) (limit : nat) :
  forall (h : heap) (s : cstr) (made : Z),
    never_fails h ->
    exists h',
      replace_loop limit h s oldp newp global made
      = ((replace_loop limit [] s oldp newp global made).1, h') /\ never_fails h'.
Proof.
  induction limit as [|limit IH]; intros h s made Hh; cbn [replace_loop].
  - exists h. split; [reflexivity | exact Hh].
  - destruct (strstr s oldp) as [found|]; [|exists h; split; [reflexivity | exact Hh]].
    cbv zeta. destruct (_ >=? LINE_LEN); [exists h; split; [reflexivity | exact Hh]|].
    destruct (never_fails_malloc h Hh) as (h1 & -> & Hh1). cbn [malloc negb].
    destruct global; cbn [negb].
    + apply IH, Hh1.
    + exists h1. split; [reflexivity | exact Hh1].
Qed.

Lemma replace_in_line_heap (oldp newp : cstr) (global : bool) (h : heap) (s : cstr) :
  never_fails h ->
  exists h',
    replace_in_line h s oldp newp global
    = ((rewritten oldp newp global s).1, (rewritten oldp newp global s).2, h') /\
    never_fails h'.
Proof.
  intros Hh. unfold rewritten, replace_in_line.
  destruct (strlen oldp =? 0); [exists h; split; [reflexivity | exact Hh]|].
  destruct (replace_loop_heap oldp newp global 1024 h s 0 Hh) as (h' & -> & Hh').
  exists h'. split; [|exact Hh'].
  destruct (replace_loop 1024 [] s oldp newp global 0) as [[made s'] h0]. reflexivity.
Qed.

Lemma take_insert_last {A : Type} (l : list A) (k : nat) (x : A) :
  (k < length l)%nat -> take (S k) (<[k := x]> l) = take k l ++ [x].
Proof.
  intros Hk. rewrite (insert_take_drop l k x Hk).
  change (take k l ++ x :: drop (S k) l) with (take k l ++ [x] ++ drop (S k) l).
  rewrite app_assoc. apply take_app_length'.
  rewrite length_app, length_take. cbn [length]. lia.
Qed.

Lemma take_middle {A : Type} (l mid : list A) (k n m : nat) :
  (k + n <= m)%nat -> (m <= length l)%nat -> length mid = n ->
  take m (take k l ++ mid ++ drop (k + n) l)
  = take k (take m l) ++ mid ++ drop (k + n) (take m l).
Proof.
  intros Hk Hm Hmid.
  rewrite take_app_ge by (rewrite length_take; lia). rewrite length_take.
  rewrite take_app_ge by lia. rewrite Hmid.
  rewrite take_take. replace (k `min` m)%nat with k by lia.
  f_equal. f_equal. rewrite take_drop_commute. f_equal. f_equal. lia.
Qed.

(** The loop of [cmd_replace] over [n] lines from line [i] on. *)
Lemma replace_range_loop (e : editor) (oldp newp : cstr) (global : bool)
      (body : Z -> list (option cstr) * Z * heap -> option (list (option cstr) * Z * heap)) :
  (forall i l total h,
      body i (l, total, h)
      = if (1 <=? i) && (i <=? line_count e)
        then v ← aget l (i - 1);
             match v with
             | Some s =>
                 let '(made, s', h') := replace_in_line h s oldp newp global in
                 l' ← aset l (i - 1) (Some s');
                 Some (l', total + made, h')
             | None => Some (l, total, h)
             end
        else Some (l, total, h)) ->
  forall (n : nat) (i : Z) (l : list (option cstr)) (total : Z) (h : heap),
    1 <= i -> i + Z.of_nat n - 1 <= line_count e ->
    line_count e <= Z.of_nat (length l) -> never_fails h ->
    let k := Z.to_nat (i - 1) in
    let slice := take n (drop k l) in
    exists h',
      for_range n i body (l, total, h)
      = Some (take k l ++ ((fun v => (rewritten_slot oldp newp global v).2) <$> slice)
                ++ drop (k + n) l,
              total + sum_list ((fun v => (rewritten_slot oldp newp global v).1) <$> slice),
              h') /\
      never_fails h'.
Proof.
  intros Hbody. induction n as [|n IH]; intros i l total h Hi Hn Hlen Hh; cbv zeta.
  - cbn [for_range]. rewrite take_0, fmap_nil. unfold sum_list. cbn [app foldr].
    rewrite Nat.add_0_r, take_drop, Z.add_0_r. exists h. split; [reflexivity | exact Hh].
  - cbn [for_range]. rewrite Hbody.
    replace ((1 <=? i) && (i <=? line_count e)) with true by (zcases; reflexivity).
    destruct (aget_in_range l (i - 1)) as [v Hv]; [lia|].
    rewrite Hv. cbn [mbind option_bind]. rewrite aget_lookup in Hv by lia.
    rewrite (drop_S l v _ Hv), firstn_cons, fmap_cons.
    unfold sum_list. rewrite fmap_cons. cbn [foldr]. fold sum_list.
    destruct v as [s|].
    + destruct (replace_in_line_heap oldp newp global h s Hh) as (h1 & -> & Hh1).
      rewrite aset_in_range by lia. cbn [mbind option_bind].
      destruct (IH (i + 1) (<[Z.to_nat (i - 1) := Some (rewritten oldp newp global s).2]> l)
                   (total + (rewritten oldp newp global s).1) h1)
        as (h' & Hrun & Hh'); [lia | lia | rewrite length_insert; lia | exact Hh1|].
      cbv zeta in Hrun. exists h'. split; [|exact Hh']. rewrite Hrun.
      replace (Z.to_nat (i + 1 - 1)) with (S (Z.to_nat (i - 1))) by lia.
      rewrite take_insert_last by lia. rewrite !drop_insert_lt by lia.
      rewrite <- app_assoc. cbn [app rewritten_slot fst snd].
      replace (S (Z.to_nat (i - 1)) + n)%nat with (Z.to_nat (i - 1) + S n)%nat by lia.
      unfold sum_list. rewrite Z.add_assoc. reflexivity.
    + destruct (IH (i + 1) l total h) as (h' & Hrun & Hh'); [lia | lia | lia | exact Hh|].
      cbv zeta in Hrun. exists h'. split; [|exact Hh']. cbn [mbind option_bind].
      rewrite Hrun.
      replace (Z.to_nat (i + 1 - 1)) with (S (Z.to_nat (i - 1))) by lia.
      erewrite take_S_r by exact Hv. rewrite <- app_assoc. cbn [app rewritten_slot fst snd].
      replace (S (Z.to_nat (i - 1)) + n)%nat with (Z.to_nat (i - 1) + S n)%nat by lia.
      unfold sum_list. rewrite Z.add_0_l. reflexivity.
Qed.

(** X22. The replace command in the form it accepts, [/old//new/] with
    an optional [g]: on a range of the document every line is replaced by
    what [replace_in_line] makes of it, the lines outside the range stay,
    and the number printed is the sum of the counts [replace_in_line]
    returned. *)
Theorem cmd_replace_rewrites_range (e : editor) (w : world) (a b : Z)
        (oldp newp : cstr) (global : bool) :
  store_wf e -> 1 <= a <= b -> b <= line_count e ->
  Forall (fun c => c <> "/"%char) oldp -> Forall (fun c => c <> "/"%char) newp ->
  strlen oldp < LINE_LEN -> strlen newp < LINE_LEN ->
  never_fails (mem w) ->
  let spec := "/"%char :: oldp ++ "/"%char :: "/"%char :: newp ++ "/"%char
                :: (if global then lit "g" else []) in
  let slice := take (Z.to_nat (b - a + 1)) (drop (Z.to_nat (a - 1)) (document e)) in
  let total := sum_list ((fun v => (rewritten_slot oldp newp global v).1) <$> slice) in
  exists e' h',
    cmd_replace e w a b spec
    = Some (e', print (lit "Replaced " ++ fmt_d total ++ lit " occurrence(s)." ++ [LF])
                      (with_mem h' w)) /\
    document e'
    = take (Z.to_nat (a - 1)) (document e)
      ++ ((fun v => (rewritten_slot oldp newp global v).2) <$> slice)
      ++ drop (Z.to_nat b) (document e) /\
    line_count e' = line_count e.
Proof.
  intros [Hlen Hlc] Hab Hb Hold Hnew Holen Hnlen Hw. cbv zeta. unfold cmd_replace.
  cbn [skip_space isspace]. change (isspace "/") with false. cbv iota.
  unfold parse_between. rewrite Ascii.eqb_refl.
  rewrite (scan_between_spec "/" oldp _ LINE_LEN Hold []) by (vm_compute; discriminate).
  cbn [app]. rewrite take_ge by (unfold strlen, LINE_LEN in *; lia).
  cbn [skip_space]. change (isspace "/") with false. cbv iota.
  rewrite Ascii.eqb_refl.
  rewrite (scan_between_spec "/" newp _ LINE_LEN Hnew []) by (vm_compute; discriminate).
  cbn [app]. rewrite take_ge by (unfold strlen, LINE_LEN in *; lia).
  replace (to_range_defaults e a b) with (a, b)
    by (unfold to_range_defaults; zcases; reflexivity).
  rewrite for_upto_int_small by (unfold INT_MAX, MAX_LINES in *; lia).
  unfold for_upto.
  assert (Hg : match skip_space (if global then lit "g" else []) with
               | [] => false
               | c :: _ => Ascii.eqb c "g" || Ascii.eqb c "G"
               end = global) by (destruct global; reflexivity).
  rewrite Hg.
  match goal with
  | |- context [for_range _ _ ?body _] =>
      destruct (replace_range_loop e oldp newp global body (fun i l total h => eq_refl)
                  (Z.to_nat (b - a + 1)) a (lines e) 0 (mem w))
        as (h' & Hrun & Hh'); [lia | lia | lia | exact Hw|]
  end.
  cbv zeta in Hrun. rewrite Hrun. cbn [mbind option_bind].
  assert (Hslice : take (Z.to_nat (b - a + 1)) (drop (Z.to_nat (a - 1)) (document e))
                   = take (Z.to_nat (b - a + 1)) (drop (Z.to_nat (a - 1)) (lines e))).
  { unfold document. rewrite !take_drop_commute, take_take. f_equal. f_equal. lia. }
  rewrite Hslice, Z.add_0_l. eexists _, h'. split; [reflexivity|]. split; [|reflexivity].
  unfold document. proj.
  rewrite take_middle
    by (rewrite ?length_fmap, ?length_take, ?length_drop; lia).
  f_equal. f_equal. f_equal. lia.
Qed.

Lemma cmd_replace_rewrites_range_witness :
  let e := editor_of [lit "hello world"; lit "low"; lit "lo"] in
  let w := typing [] in
  store_wf e /\ 1 <= 1 <= 2 /\ 2 <= line_count e /\
  Forall (fun c => c <> "/"%char) (lit "lo") /\ Forall (fun c => c <> "/"%char) (lit "LO") /\
  strlen (lit "lo") < LINE_LEN /\ strlen (lit "LO") < LINE_LEN /\
  never_fails (mem w) /\
  exists e' h',
    cmd_replace e w 1 2 (lit "/lo//LO/g")
    = Some (e', print (lit "Replaced 2 occurrence(s)." ++ [LF]) (with_mem h' w)) /\
    document e' = [Some (lit "helLO world"); Some (lit "LOw"); Some (lit "lo")] /\
    line_count e' = line_count e.
Proof.
  cbv zeta.
  assert (Hwf : store_wf (editor_of [lit "hello world"; lit "low"; lit "lo"]))
    by (split; vm_compute; [reflexivity | split; discriminate]).
  assert (Hb : 2 <= line_count (editor_of [lit "hello world"; lit "low"; lit "lo"]))
    by (vm_compute; discriminate).
  assert (Hold : Forall (fun c => c <> "/"%char) (lit "lo"))
    by (repeat constructor; discriminate).
  assert (Hnew : Forall (fun c => c <> "/"%char) (lit "LO"))
    by (repeat constructor; discriminate).
  assert (Holen : strlen (lit "lo") < LINE_LEN) by (vm_compute; reflexivity).
  assert (Hnlen : strlen (lit "LO") < LINE_LEN) by (vm_compute; reflexivity).
  assert (Hw : never_fails (mem (typing []))) by constructor.
  split; [exact Hwf|]. split; [lia|]. split; [exact Hb|]. split; [exact Hold|].
  split; [exact Hnew|]. split; [exact Holen|]. split; [exact Hnlen|]. split; [exact Hw|].
  exact (cmd_replace_rewrites_range _ (typing []) 1 2 (lit "lo") (lit "LO") true
           Hwf ltac:(lia) Hb Hold Hnew Holen Hnlen Hw).
Defined.

(** ** Edge cases of the command line *)

(** X23. The delete command without a range, or with a number that reads
    as 0, is not refused: it deletes the whole document. *)
Theorem delete_without_range_clears_document (e : editor) (w : world) (p : cstr) :
  store_wf e ->
  p = [] \/ (p <> [] /\ Forall (fun c => isdigit c = true) p /\ digits_value 0 p = 0) ->
  exists e',
    dispatch e w "D" p = Some (true, e', w) /\ document e' = [] /\ line_count e' = 0.
Proof.
  intros Hwf Hp. pose proof Hwf as [Hlen Hlc].
  assert (Hrange : parse_range e p = Some (Some (1, line_count e))).
  { destruct Hp as [->|(Hne & Hds & Hzero)]; [reflexivity|].
    rewrite (parse_range_single e p Hds Hne) by (rewrite Hzero; discriminate).
    rewrite Hzero. reflexivity. }
  unfold dispatch. change (Ascii.eqb "D" "L") with false. change (Ascii.eqb "D" "I") with false.
  change (Ascii.eqb "D" "D") with true. cbv iota. rewrite Hrange. cbn [mbind option_bind].
  destruct (Z.eq_dec (line_count e) 0) as [Hempty|Hsome].
  - exists e. split; [|split; [|exact Hempty]].
    + unfold cmd_delete, delete_range, to_range_defaults. rewrite Hempty. reflexivity.
    + unfold document. rewrite Hempty. reflexivity.
  - assert (R : delete_range e 1 (line_count e) = Some (1, line_count e)).
    { unfold delete_range, to_range_defaults. zcases; reflexivity. }
    destruct (cmd_delete_document e 1 (line_count e) 1 (line_count e) Hwf R)
      as (e' & -> & Hdoc & Hcount & _).
    cbn [mbind option_bind]. exists e'. split; [reflexivity|]. split; [|lia].
    rewrite Hdoc. change (Z.to_nat (1 - 1)) with 0%nat. rewrite take_0.
    rewrite drop_ge by (unfold document; rewrite length_take; lia). reflexivity.
Qed.

Lemma delete_without_range_clears_document_witness :
  let e := editor_of [lit "one"; lit "two"; lit "three"] in
  store_wf e /\
  (lit "00" = [] \/
   (lit "00" <> [] /\ Forall (fun c => isdigit c = true) (lit "00") /\
    digits_value 0 (lit "00") = 0)) /\
  exists e',
    dispatch e (typing []) "D" (lit "00") = Some (true, e', typing []) /\
    document e' = [] /\ line_count e' = 0.
Proof.
  cbv zeta.
  assert (Hwf : store_wf (editor_of [lit "one"; lit "two"; lit "three"]))
    by (split; vm_compute; [reflexivity | split; discriminate]).
  assert (Hp : lit "00" = [] \/
               (lit "00" <> [] /\ Forall (fun c => isdigit c = true) (lit "00") /\
                digits_value 0 (lit "00") = 0)).
  { right. split; [discriminate|]. split; [repeat constructor | reflexivity]. }
  split; [exact Hwf|]. split; [exact Hp|].
  exact (delete_without_range_clears_document _ (typing []) (lit "00") Hwf Hp).
Defined.

(** ** Cursor keys *)

(** X24. Where the cursor is not at the end of the last line, the Right
    arrow followed by the Left arrow brings the cursor back to where it
    was, also across the end of a line; the document is untouched and
    only the window may have moved, to where the Right arrow scrolled it.
    At the end of the last line the Right arrow does nothing, so that the
    Left arrow after it moves the cursor, one column to the left when
    the line is not empty. *)
Theorem right_then_left (e : editor) (w : world) (s : cstr) :
  0 <= cursor_row e < line_count e ->
  line_at e (cursor_row e) = Some s -> 0 <= cursor_col e <= strlen s ->
  top_line e <= cursor_row e ->
  exists e1,
    extended_key e w 77 = Some (true, e1, w) /\
    if (cursor_col e <? strlen s) || (cursor_row e <? line_count e - 1)
    then
      (cursor_row e1, cursor_col e1)
      = (if cursor_col e <? strlen s then (cursor_row e, cursor_col e + 1)
         else (cursor_row e + 1, 0)) /\
      extended_key e1 w 75 = Some (true, with_top_line (top_line e1) e, w)
    else
      e1 = e /\
      (0 < cursor_col e ->
       extended_key e1 w 75
       = Some (true, with_cursor (cursor_row e) (cursor_col e - 1) e, w)).
Proof.
  intros Hrow Hline Hcol Htop. unfold extended_key at 1.
  change (77 =? 72) with false. change (77 =? 80) with false.
  change (77 =? 75) with false. change (77 =? 77) with true. cbv iota.
  replace (cursor_row e <? line_count e) with true by (zcases; reflexivity).
  rewrite Hline. cbn [mbind option_bind].
  destruct (cursor_col e <? strlen s) eqn:Hin; cbn [orb].
  - eexists. split; [reflexivity|]. split; [reflexivity|].
    unfold extended_key. change (75 =? 72) with false. change (75 =? 80) with false.
    change (75 =? 75) with true. cbv iota. proj.
    replace (cursor_col e + 1 >? 0) with true by (zcases; reflexivity).
    replace (cursor_col e + 1 - 1) with (cursor_col e) by lia.
    destruct e. reflexivity.
  - destruct (cursor_row e <? line_count e - 1) eqn:Hlast.
    + eexists. split; [reflexivity|].
      split; [unfold scroll_down; destruct (_ >=? _); reflexivity|].
      unfold extended_key. change (75 =? 72) with false. change (75 =? 80) with false.
      change (75 =? 75) with true. cbv iota.
      assert (Hc : cursor_col (scroll_down (with_cursor (cursor_row e + 1) 0 e)) = 0)
        by (unfold scroll_down; destruct (_ >=? _); reflexivity).
      assert (Hr : cursor_row (scroll_down (with_cursor (cursor_row e + 1) 0 e))
                   = cursor_row e + 1)
        by (unfold scroll_down; destruct (_ >=? _); reflexivity).
      assert (Hl : line_at (scroll_down (with_cursor (cursor_row e + 1) 0 e)) (cursor_row e)
                   = Some s)
        by (unfold scroll_down; destruct (_ >=? _); exact Hline).
      rewrite Hc, Hr. change (0 >? 0) with false. cbv iota.
      replace (cursor_row e + 1 >? 0) with true by (zcases; reflexivity).
      replace (cursor_row e + 1 - 1) with (cursor_row e) by lia.
      rewrite Hl. cbn [mbind option_bind].
      assert (Hs : strlen s = cursor_col e) by (revert Hin; zcases; intros; lia).
      rewrite Hs. f_equal. f_equal. f_equal.
      unfold scroll_up, scroll_down. proj. unfold SCREEN_ROWS.
      destruct e as [l lc f la lb row col top]. proj.
      zcases; proj; try reflexivity; try lia.
    + exists e. split; [reflexivity|]. split; [reflexivity|].
      intros Hpos. unfold extended_key.
      change (75 =? 72) with false. change (75 =? 80) with false.
      change (75 =? 75) with true. cbv iota.
      replace (cursor_col e >? 0) with true by (zcases; reflexivity).
      reflexivity.
Qed.

Lemma right_then_left_witness :
  let e := with_cursor 0 2 (editor_of [lit "ab"; lit "cd"]) in
  let w := typing [] in
  0 <= cursor_row e < line_count e /\
  line_at e (cursor_row e) = Some (lit "ab") /\
  0 <= cursor_col e <= strlen (lit "ab") /\
  top_line e <= cursor_row e /\
  exists e1,
    extended_key e w 77 = Some (true, e1, w) /\
    if (cursor_col e <? strlen (lit "ab")) || (cursor_row e <? line_count e - 1)
    then
      (cursor_row e1, cursor_col e1)
      = (if cursor_col e <? strlen (lit "ab") then (cursor_row e, cursor_col e + 1)
         else (cursor_row e + 1, 0)) /\
      extended_key e1 w 75 = Some (true, with_top_line (top_line e1) e, w)
    else
      e1 = e /\
      (0 < cursor_col e ->
       extended_key e1 w 75
       = Some (true, with_cursor (cursor_row e) (cursor_col e - 1) e, w)).
Proof.
  cbv zeta.
  assert (Hrow : 0 <= cursor_row (with_cursor 0 2 (editor_of [lit "ab"; lit "cd"]))
                 < line_count (with_cursor 0 2 (editor_of [lit "ab"; lit "cd"])))
    by (vm_compute; split; [discriminate | reflexivity]).
  assert (Hcol : 0 <= cursor_col (with_cursor 0 2 (editor_of [lit "ab"; lit "cd"]))
                 <= strlen (lit "ab")) by (vm_compute; split; discriminate).
  assert (Htop : top_line (with_cursor 0 2 (editor_of [lit "ab"; lit "cd"]))
                 <= cursor_row (with_cursor 0 2 (editor_of [lit "ab"; lit "cd"])))
    by (vm_compute; discriminate).
  split; [exact Hrow|]. split; [reflexivity|]. split; [exact Hcol|].
  split; [exact Htop|].
  exact (right_then_left _ (typing []) (lit "ab") Hrow eq_refl Hcol Htop).
Defined.

(** The end of the last line: on the document "ab" with the cursor
    behind the "b", the Right arrow leaves the cursor at (0, 2) and the
    Left arrow after it takes it to (0, 1). *)
Lemma right_at_the_end_then_left :
  let e := with_cursor 0 2 (editor_of [lit "ab"]) in
  let w := typing [] in
  extended_key e w 77 = Some (true, e, w) /\
  extended_key e w 75 = Some (true, with_cursor 0 1 e, w).
Proof. split; reflexivity. Qed.

(** ** Lines too long to be joined *)

(** X27. Two neighbouring lines that do not fit one buffer together are
    never joined: the Del key at the end of the upper one changes
    nothing, and the Backspace key at the start of the lower one only
    moves the cursor to the end of the upper one. *)
Theorem long_lines_are_not_joined (e : editor) (w : world) (a b : cstr) :
  0 <= cursor_row e -> cursor_row e + 1 < line_count e ->
  line_at e (cursor_row e) = Some a -> line_at e (cursor_row e + 1) = Some b ->
  LINE_LEN <= strlen a + strlen b ->
  (cursor_col e = strlen a -> delete_char e w = Some (e, w)) /\
  backspace_char (with_cursor (cursor_row e + 1) 0 e) w
  = Some (with_cursor (cursor_row e) (strlen a) e, w).
Proof.
  intros Hrow Hnext Ha Hb Hlong.
  assert (Hdel : forall e0 : editor,
             lines e0 = lines e -> line_count e0 = line_count e ->
             cursor_row e0 = cursor_row e -> cursor_col e0 = strlen a ->
             delete_char e0 w = Some (e0, w)).
  { intros e0 Hl Hc Hr Hcol. unfold delete_char. cbv zeta. unfold line_at in *.
    rewrite Hl, Hc, Hr, Hcol.
    replace (cursor_row e >=? line_count e) with false by (zcases; reflexivity).
    destruct (aget (lines e) (cursor_row e)) as [[a0|]|]; try discriminate.
    cbn [mbind option_bind] in *. injection Ha as ->.
    replace (strlen a >=? strlen a) with true by (zcases; reflexivity).
    replace (cursor_row e + 1 <? line_count e) with true by (zcases; reflexivity).
    destruct (aget (lines e) (cursor_row e + 1)) as [[b0|]|]; try discriminate.
    cbn [mbind option_bind] in *. injection Hb as ->.
    replace (strlen a + strlen b <? LINE_LEN) with false by (zcases; reflexivity).
    reflexivity. }
  split.
  - intros Hcol. apply Hdel; reflexivity || exact Hcol.
  - unfold backspace_char. proj. change (0 >? 0) with false. cbv iota.
    replace (cursor_row e + 1 >? 0) with true by (zcases; reflexivity).
    replace (cursor_row e + 1 - 1) with (cursor_row e) by lia.
    change (line_at (with_cursor (cursor_row e + 1) 0 e) (cursor_row e))
      with (line_at e (cursor_row e)).
    rewrite Ha. cbn [mbind option_bind].
    rewrite (Hdel (with_cursor (cursor_row e) (strlen a)
                     (with_cursor (cursor_row e + 1) 0 e))) by reflexivity.
    destruct e. reflexivity.
Qed.

Lemma long_lines_are_not_joined_witness :
  let a := replicate 200 "a"%char in
  let b := replicate 56 "b"%char in
  let e := with_cursor 0 200 (editor_of [a; b]) in
  let w := typing [] in
  0 <= cursor_row e /\ cursor_row e + 1 < line_count e /\
  line_at e (cursor_row e) = Some a /\ line_at e (cursor_row e + 1) = Some b /\
  LINE_LEN <= strlen a + strlen b /\
  (cursor_col e = strlen a -> delete_char e w = Some (e, w)) /\
  backspace_char (with_cursor 1 0 e) w = Some (with_cursor 0 200 e, w).
Proof.
  cbv zeta.
  split; [vm_compute; discriminate|]. split; [vm_compute; reflexivity|].
  split; [reflexivity|]. split; [reflexivity|]. split; [vm_compute; discriminate|].
  exact (long_lines_are_not_joined
           (with_cursor 0 200 (editor_of [replicate 200 "a"%char; replicate 56 "b"%char]))
           (typing []) (replicate 200 "a"%char) (replicate 56 "b"%char)
           ltac:(vm_compute; discriminate) ltac:(vm_compute; reflexivity)
           eq_refl eq_refl ltac:(vm_compute; discriminate)).
Defined.

(** ** The command letter *)

Lemma ends_in_cons (cs : list ascii) (c x : ascii) (s : cstr) :
  ends_in cs (c :: x :: s) = ends_in cs (x :: s).
Proof.
  unfold ends_in. cbn [length]. rewrite !Nat.sub_succ, !Nat.sub_0_r. reflexivity.
Qed.

Lemma take_last_cons (c x : ascii) (s : cstr) :
  take (length (c :: x :: s) - 1) (c :: x :: s)
  = c :: take (length (x :: s) - 1) (x :: s).
Proof. cbn [length]. rewrite !Nat.sub_succ, !Nat.sub_0_r. reflexivity. Qed.

(** [chomp] leaves the first character of a line alone when it is no
    line end. *)
Lemma chomp_cons (c : ascii) (s : cstr) :
  c <> LF -> c <> CR -> chomp (c :: s) = c :: chomp s.
Proof.
  intros Hlf Hcr.
  assert (Hone : forall cs, Forall (fun x => c <> x) cs -> ends_in cs [c] = false).
  { intros cs Hcs. unfold ends_in. cbn [length Nat.sub lookup list_lookup].
    induction Hcs as [|x cs Hx _ IH]; cbn [existsb]; [reflexivity|].
    destruct (Ascii.eqb_spec c x) as [->|_]; [contradiction | exact IH]. }
  assert (H1 : ends_in [LF; CR] [c] = false) by (apply Hone; repeat constructor; assumption).
  assert (H2 : ends_in [CR] [c] = false) by (apply Hone; repeat constructor; assumption).
  unfold chomp. cbv zeta. destruct s as [|x s].
  - rewrite H1, H2. reflexivity.
  - rewrite ends_in_cons, take_last_cons.
    destruct (ends_in [LF; CR] (x :: s)).
    + set (t := take (length (x :: s) - 1) (x :: s)).
      destruct t as [|y t].
      * rewrite H2. reflexivity.
      * rewrite ends_in_cons, take_last_cons. destruct (ends_in [CR] (y :: t)); reflexivity.
    + rewrite ends_in_cons, take_last_cons. destruct (ends_in [CR] (x :: s)); reflexivity.
Qed.

(** X25. The command letter is read without regard to case: a command
    line does the same whether its first letter is typed in upper or in
    lower case. *)
Theorem command_letter_ignores_case (e : editor) (w : world) (c : ascii) (rest : cstr) :
  65 <= code c <= 90 \/ 97 <= code c <= 122 ->
  repl_command e w (toupper c :: rest) = repl_command e w (c :: rest) /\
  repl_command e w (tolower c :: rest) = repl_command e w (c :: rest).
Proof.
  intros Hc.
  assert (Hcase : forall x, 65 <= code x <= 90 \/ 97 <= code x <= 122 ->
                            x <> LF /\ x <> CR /\ isspace x = false).
  { intros x Hx. split; [|split].
    - intros ->. vm_compute in Hx. destruct Hx as [[H _]|[H _]]; apply H; reflexivity.
    - intros ->. vm_compute in Hx. destruct Hx as [[H _]|[H _]]; apply H; reflexivity.
    - unfold isspace. zcases; reflexivity || lia. }
  assert (Hrun : forall x, 65 <= code x <= 90 \/ 97 <= code x <= 122 ->
                           repl_command e w (x :: rest)
                           = '(running, e, w) ← dispatch e w (toupper x)
                                                  (skip_space (chomp rest));
                             if running : bool then Some (true, e, status_line e w)
                             else Some (false, e, w)).
  { intros x Hx. destruct (Hcase x Hx) as (Hlf & Hcr & Hsp).
    unfold repl_command. rewrite chomp_cons by assumption.
    cbn [skip_space]. rewrite Hsp. reflexivity. }
  assert (Hup : 65 <= code (toupper c) <= 90 \/ 97 <= code (toupper c) <= 122).
  { unfold toupper. revert Hc. zcases; intros; try lia.
    left. unfold code in *. rewrite N_ascii_embedding by lia. lia. }
  assert (Hlow : 65 <= code (tolower c) <= 90 \/ 97 <= code (tolower c) <= 122).
  { unfold tolower. revert Hc. zcases; intros; try lia.
    right. unfold code in *. rewrite N_ascii_embedding by lia. lia. }
  rewrite !Hrun by assumption.
  rewrite toupper_toupper.
  replace (toupper (tolower c)) with (toupper c)
    by (destruct c as [[] [] [] [] [] [] [] []]; reflexivity).
  split; reflexivity.
Qed.

Lemma command_letter_ignores_case_witness :
  (65 <= code "q" <= 90 \/ 97 <= code "q" <= 122) /\
  repl_command initial (typing []) (lit "Q" ++ [LF])
  = repl_command initial (typing []) (lit "q" ++ [LF]) /\
  repl_command initial (typing []) (lit "q" ++ [LF])
  = repl_command initial (typing []) (lit "q" ++ [LF]).
Proof.
  assert (Hc : 65 <= code "q" <= 90 \/ 97 <= code "q" <= 122)
    by (right; vm_compute; split; discriminate).
  split; [exact Hc|].
  exact (command_letter_ignores_case initial (typing []) "q" [LF] Hc).
Defined.

(** ** The time in the banner *)

Lemma fmt_02d_two_digits (z : Z) :
  0 <= z < 100 -> fmt_02d z = [digit_char (z / 10); digit_char (z mod 10)].
Proof.
  intros Hz.
  assert (H : forall n : nat, (n < 100)%nat ->
                fmt_02d (Z.of_nat n)
                = [digit_char (Z.of_nat n / 10); digit_char (Z.of_nat n mod 10)]).
  { intros n Hn. do 100 (destruct n as [|n]; [reflexivity|]). lia. }
  rewrite <- (Z2Nat.id z) by lia. apply H. lia.
Qed.

(** X26. For every time of day the time shown in the banner has the form
    HH:MM:SS, each field written with two digits, so that it takes eight
    characters of the buffer. *)
Theorem get_time_string_format (hour minute second : Z) :
  0 <= hour < 24 -> 0 <= minute < 60 -> 0 <= second <= 60 ->
  get_time_string (hour, minute, second)
  = [digit_char (hour / 10); digit_char (hour mod 10); ":"%char;
     digit_char (minute / 10); digit_char (minute mod 10); ":"%char;
     digit_char (second / 10); digit_char (second mod 10)] /\
  strlen (get_time_string (hour, minute, second)) = 8.
Proof.
  intros Hh Hm Hs. unfold get_time_string. cbn [fst snd].
  rewrite !fmt_02d_two_digits by lia. split; reflexivity.
Qed.

Lemma get_time_string_format_witness :
  0 <= 9 < 24 /\ 0 <= 5 < 60 /\ 0 <= 60 <= 60 /\
  get_time_string (9, 5, 60) = lit "09:05:60" /\
  strlen (get_time_string (9, 5, 60)) = 8.
Proof.
  split; [lia|]. split; [lia|]. split; [lia|].
  exact (get_time_string_format 9 5 60 ltac:(lia) ltac:(lia) ltac:(lia)).
Defined.
